(** * Bare-metal peripheral drivers: GIC coordinator, I2C master engine, BLE link engine

    A shallow embedding of [hal_gic.c], [i2c_driver.c] and [ble_driver.c].

    The drivers are C functions over static handles and memory-mapped
    registers.  They are embedded as computations in a small monad [M]:

    - the state is a [world]: the static handles [g_i2c_handles] and
      [g_ble_handle], the byte memory that caller-owned buffers point into,
      and the log of everything the driver did to the outside (register
      accesses, barriers, callback invocations), newest entry first;
    - volatile register reads are answered by an [oracle], a function of the
      access history so far, so a statement quantified over the oracle holds
      for every behaviour of the hardware;
    - an access outside a fixed-size C array is [Undefined];
    - the one loop whose bound is not a counter ([ble_process]) takes fuel and
      reports [OutOfFuel]. *)

From Stdlib Require Import ZArith List Bool Lia.
Import ListNotations.
Local Open Scope Z_scope.

(** ** types.h *)

Inductive status_t :=
| STATUS_OK
| STATUS_ERROR
| STATUS_BUSY
| STATUS_TIMEOUT
| STATUS_INVALID_PARAM
| STATUS_NOT_READY.

Definition status_eqb (a b : status_t) : bool :=
  match a, b with
  | STATUS_OK, STATUS_OK | STATUS_ERROR, STATUS_ERROR
  | STATUS_BUSY, STATUS_BUSY | STATUS_TIMEOUT, STATUS_TIMEOUT
  | STATUS_INVALID_PARAM, STATUS_INVALID_PARAM
  | STATUS_NOT_READY, STATUS_NOT_READY => true
  | _, _ => false
  end.

(** Unsigned wrap-around of the fixed-width types. *)
Definition u32 (z : Z) : Z := z mod 2 ^ 32.
Definition u16 (z : Z) : Z := z mod 2 ^ 16.
Definition u8 (z : Z) : Z := z mod 2 ^ 8.

(** [IS_NULL_PTR] / [IS_VALID_PTR]: a pointer is an address, NULL is 0. *)
Definition IS_NULL_PTR (p : Z) : bool := p =? 0.
Definition IS_VALID_PTR (p : Z) : bool := negb (p =? 0).

(** [BIT_CHECK(reg, bit)] is [((reg) & (1U << (bit))) != 0U]. *)
Definition BIT_CHECK (reg bit : Z) : bool :=
  negb (Z.land reg (Z.shiftl 1 bit) =? 0).

(** ** arm_a7_regs.h *)

Definition I2C_CR1_PE := 0.
Definition I2C_CR1_START := 8.
Definition I2C_CR1_STOP := 9.
Definition I2C_CR1_ACK := 10.
Definition I2C_CR1_SWRST := 15.

Definition I2C_SR1_SB := 0.
Definition I2C_SR1_ADDR := 1.
Definition I2C_SR1_BTF := 2.
Definition I2C_SR1_RXNE := 6.
Definition I2C_SR1_TXE := 7.
Definition I2C_SR1_AF := 10.

Definition I2C_SR2_BUSY := 1.

Definition IRQ_I2C0 := 23.
Definition IRQ_I2C1 := 24.
Definition IRQ_BLE := 48.

(** The registers the drivers touch.  The I2C registers carry the instance
    whose [regs] pointer (I2C0 or I2C1) they are reached through. *)
Inductive reg :=
| GICD_ISENABLER (n : Z)
| GICD_ICENABLER (n : Z)
| GICD_IPRIORITYR (n : Z)
| I2C_CR1 (i : Z)
| I2C_CR2 (i : Z)
| I2C_OAR1 (i : Z)
| I2C_DR (i : Z)
| I2C_SR1 (i : Z)
| I2C_SR2 (i : Z)
| I2C_CCR (i : Z)
| I2C_TRISE (i : Z)
| BLE_INT_FLAG
| BLE_RX_DATA
| BLE_RX_LEN.

Definition reg_eqb (a b : reg) : bool :=
  match a, b with
  | GICD_ISENABLER n, GICD_ISENABLER m
  | GICD_ICENABLER n, GICD_ICENABLER m
  | GICD_IPRIORITYR n, GICD_IPRIORITYR m
  | I2C_CR1 n, I2C_CR1 m
  | I2C_CR2 n, I2C_CR2 m
  | I2C_OAR1 n, I2C_OAR1 m
  | I2C_DR n, I2C_DR m
  | I2C_SR1 n, I2C_SR1 m
  | I2C_SR2 n, I2C_SR2 m
  | I2C_CCR n, I2C_CCR m
  | I2C_TRISE n, I2C_TRISE m => n =? m
  | BLE_INT_FLAG, BLE_INT_FLAG
  | BLE_RX_DATA, BLE_RX_DATA
  | BLE_RX_LEN, BLE_RX_LEN => true
  | _, _ => false
  end.

(** ** i2c_driver.h and the handle of i2c_driver.c *)

Definition I2C_INSTANCE_0 := 0.
Definition I2C_INSTANCE_1 := 1.
Definition I2C_INSTANCE_MAX := 2.

Inductive i2c_direction_t := I2C_DIR_WRITE | I2C_DIR_READ.

Definition dir_bit (d : i2c_direction_t) : Z :=
  match d with I2C_DIR_WRITE => 0 | I2C_DIR_READ => 1 end.

Inductive i2c_state_t :=
| I2C_STATE_IDLE
| I2C_STATE_BUSY_TX
| I2C_STATE_BUSY_RX
| I2C_STATE_ERROR.

Definition i2c_state_eqb (a b : i2c_state_t) : bool :=
  match a, b with
  | I2C_STATE_IDLE, I2C_STATE_IDLE
  | I2C_STATE_BUSY_TX, I2C_STATE_BUSY_TX
  | I2C_STATE_BUSY_RX, I2C_STATE_BUSY_RX
  | I2C_STATE_ERROR, I2C_STATE_ERROR => true
  | _, _ => false
  end.

Record i2c_config_t := {
  clock_speed : Z;
  own_address : Z;
  i2c_use_interrupts : bool
}.

Module I2cData.
(** [i2c_handle_t].  The [regs] pointer never changes; it is the
    instance index carried by the [reg] constructors.  Buffers and the
    callback are addresses. *)
Record i2c_handle_t := {
  state : i2c_state_t;
  rx_buffer : Z;
  tx_buffer : Z;
  buffer_len : Z;
  buffer_idx : Z;
  dev_address : Z;
  callback : Z;
  initialized : bool
}.

Definition set_state (s : i2c_state_t) (h : i2c_handle_t) :=
  {| state := s; rx_buffer := rx_buffer h; tx_buffer := tx_buffer h;
     buffer_len := buffer_len h; buffer_idx := buffer_idx h;
     dev_address := dev_address h; callback := callback h;
     initialized := initialized h |}.

Definition set_initialized (b : bool) (h : i2c_handle_t) :=
  {| state := state h; rx_buffer := rx_buffer h; tx_buffer := tx_buffer h;
     buffer_len := buffer_len h; buffer_idx := buffer_idx h;
     dev_address := dev_address h; callback := callback h;
     initialized := b |}.

Definition set_buffer_idx (i : Z) (h : i2c_handle_t) :=
  {| state := state h; rx_buffer := rx_buffer h; tx_buffer := tx_buffer h;
     buffer_len := buffer_len h; buffer_idx := i;
     dev_address := dev_address h; callback := callback h;
     initialized := initialized h |}.

(** The static initialiser of one entry of [g_i2c_handles]. *)
Definition handle_init : i2c_handle_t :=
  {| state := I2C_STATE_IDLE; rx_buffer := 0; tx_buffer := 0;
     buffer_len := 0; buffer_idx := 0; dev_address := 0; callback := 0;
     initialized := false |}.
End I2cData.

(** ** ble_driver.h and the handle of ble_driver.c *)

Definition BLE_MAX_PAYLOAD_SIZE := 244.
Definition BLE_MAC_ADDR_LEN := 6.
Definition BLE_EVENT_QUEUE_SIZE := 8.

Definition BLE_INT_CONNECTED := 0.
Definition BLE_INT_DISCONNECTED := 1.
Definition BLE_INT_RX_DONE := 2.
Definition BLE_INT_TX_DONE := 3.
Definition BLE_INT_ERROR := 7.

Inductive ble_state_t :=
| BLE_STATE_OFF
| BLE_STATE_IDLE
| BLE_STATE_ADVERTISING
| BLE_STATE_SCANNING
| BLE_STATE_CONNECTING
| BLE_STATE_CONNECTED
| BLE_STATE_DISCONNECTING
| BLE_STATE_ERROR.

Inductive ble_event_type_t :=
| BLE_EVT_NONE
| BLE_EVT_CONNECTED
| BLE_EVT_DISCONNECTED
| BLE_EVT_DATA_RECEIVED
| BLE_EVT_DATA_SENT
| BLE_EVT_ADV_STARTED
| BLE_EVT_ADV_STOPPED
| BLE_EVT_SCAN_RESULT
| BLE_EVT_ERROR.

(** [ble_mac_addr_t]: the six bytes of [addr]. *)
Definition ble_mac_addr_t := list Z.

Module BleEvent.
Record ble_event_t := {
  type : ble_event_type_t;
  peer_addr : ble_mac_addr_t;
  data : list Z;
  data_len : Z;
  rssi : Z
}.
End BleEvent.
Import BleEvent.

Module BleData.
(** [ble_handle_t], without the stored [config], which only [ble_init]
    reads. *)
Record ble_handle_t := {
  state : ble_state_t;
  callback : Z;
  local_addr : ble_mac_addr_t;
  peer_addr : ble_mac_addr_t;
  event_queue : list ble_event_t;
  evt_queue_head : Z;
  evt_queue_tail : Z;
  initialized : bool;
  rx_buffer : list Z;
  rx_len : Z;
  rx_pending : bool;
  tx_complete : bool
}.
End BleData.

(** ** The outside world *)

(** What a driver does to the outside.  [BIT_SET(reg, bit)] and
    [BIT_CLEAR(reg, bit)] are read-modify-write statements on one register;
    each is recorded as one entry naming the bit. *)
Inductive event :=
| EvRead (r : reg) (v : Z)
| EvWrite (r : reg) (v : Z)
| EvBitSet (r : reg) (bit : Z)
| EvBitClear (r : reg) (bit : Z)
| EvDSB
| EvI2cCallback (cb : Z) (instance : Z) (result : status_t)
| EvBleCallback (cb : Z) (evt : ble_event_t).

(** The hardware: the value a volatile read returns, given the accesses so
    far (newest first). *)
Definition oracle := list event -> reg -> Z.

Record world := {
  trace : list event;
  mem : Z -> Z;
  g_i2c_handles : list I2cData.i2c_handle_t;
  g_ble_handle : BleData.ble_handle_t
}.

Definition log (e : event) (w : world) : world :=
  {| trace := e :: trace w; mem := mem w;
     g_i2c_handles := g_i2c_handles w; g_ble_handle := g_ble_handle w |}.

Definition with_mem (m : Z -> Z) (w : world) : world :=
  {| trace := trace w; mem := m;
     g_i2c_handles := g_i2c_handles w; g_ble_handle := g_ble_handle w |}.

Definition with_i2c (hs : list I2cData.i2c_handle_t) (w : world) : world :=
  {| trace := trace w; mem := mem w;
     g_i2c_handles := hs; g_ble_handle := g_ble_handle w |}.

Definition with_ble (b : BleData.ble_handle_t) (w : world) : world :=
  {| trace := trace w; mem := mem w;
     g_i2c_handles := g_i2c_handles w; g_ble_handle := b |}.

(** ** The monad *)

Inductive outcome (A : Type) :=
| Done (a : A) (w : world)
| Undefined
| OutOfFuel.
Arguments Done {A} a w.
Arguments Undefined {A}.
Arguments OutOfFuel {A}.

Definition M (A : Type) : Type := oracle -> world -> outcome A.

Definition ret {A} (a : A) : M A := fun _ w => Done a w.

Definition bind {A B} (m : M A) (k : A -> M B) : M B :=
  fun hw w =>
    match m hw w with
    | Done a w' => k a hw w'
    | Undefined => Undefined
    | OutOfFuel => OutOfFuel
    end.

Notation "x <- m ;; k" := (bind m (fun x => k))
  (at level 61, m at next level, right associativity).
Notation "m ;;; k" := (bind m (fun _ => k))
  (at level 61, right associativity).

Definition undefined {A} : M A := fun _ _ => Undefined.
Definition out_of_fuel {A} : M A := fun _ _ => OutOfFuel.

Definition emit (e : event) : M unit := fun _ w => Done tt (log e w).

(** A volatile read of a 32-bit register. *)
Definition read_reg (r : reg) : M Z :=
  fun hw w => let v := u32 (hw (trace w) r) in Done v (log (EvRead r v) w).

Definition write_reg (r : reg) (v : Z) : M unit := emit (EvWrite r v).
Definition BIT_SET (r : reg) (bit : Z) : M unit := emit (EvBitSet r bit).
Definition BIT_CLEAR (r : reg) (bit : Z) : M unit := emit (EvBitClear r bit).
Definition DSB : M unit := emit EvDSB.

(** Caller-owned memory, one byte per address. *)
Definition load_byte (a : Z) : M Z := fun _ w => Done (mem w a) w.
Definition store_byte (a v : Z) : M unit :=
  fun _ w => Done tt (with_mem (fun x => if x =? a then v else mem w x) w).

(** Indexing a fixed-size array. *)
Fixpoint list_set {A} (l : list A) (n : nat) (x : A) : list A :=
  match l, n with
  | [], _ => []
  | _ :: t, O => x :: t
  | y :: t, S k => y :: list_set t k x
  end.

Definition array_get {A} (l : list A) (i : Z) : M A :=
  fun _ w =>
    if i <? 0 then Undefined
    else match nth_error l (Z.to_nat i) with
         | Some x => Done x w
         | None => Undefined
         end.

Definition array_set {A} (l : list A) (i : Z) (x : A) : M (list A) :=
  fun _ w =>
    if (0 <=? i) && (i <? Z.of_nat (length l))
    then Done (list_set l (Z.to_nat i) x) w
    else Undefined.

Definition get_i2c (instance : Z) : M I2cData.i2c_handle_t :=
  fun hw w => array_get (g_i2c_handles w) instance hw w.

Definition put_i2c (instance : Z) (h : I2cData.i2c_handle_t) : M unit :=
  fun hw w =>
    match array_set (g_i2c_handles w) instance h hw w with
    | Done hs w' => Done tt (with_i2c hs w')
    | Undefined => Undefined
    | OutOfFuel => OutOfFuel
    end.

Definition get_ble : M BleData.ble_handle_t :=
  fun _ w => Done (g_ble_handle w) w.

Definition put_ble (b : BleData.ble_handle_t) : M unit :=
  fun _ w => Done tt (with_ble b w).

(** ** hal_gic.c *)

Module Gic.

Definition MAX_IRQ_NUM := 256.
Definition IRQS_PER_REGISTER := 32.

Definition gic_enable_irq (irq_num : Z) : M status_t :=
  if irq_num >=? MAX_IRQ_NUM then ret STATUS_INVALID_PARAM
  else
    let reg_idx := irq_num / IRQS_PER_REGISTER in
    let bit_pos := irq_num mod IRQS_PER_REGISTER in
    write_reg (GICD_ISENABLER reg_idx) (u32 (Z.shiftl 1 bit_pos)) ;;;
    DSB ;;;
    ret STATUS_OK.

Definition gic_disable_irq (irq_num : Z) : M status_t :=
  if irq_num >=? MAX_IRQ_NUM then ret STATUS_INVALID_PARAM
  else
    let reg_idx := irq_num / IRQS_PER_REGISTER in
    let bit_pos := irq_num mod IRQS_PER_REGISTER in
    write_reg (GICD_ICENABLER reg_idx) (u32 (Z.shiftl 1 bit_pos)) ;;;
    DSB ;;;
    ret STATUS_OK.

Definition gic_set_priority (irq_num priority : Z) : M status_t :=
  if irq_num >=? MAX_IRQ_NUM then ret STATUS_INVALID_PARAM
  else
    let reg_idx := irq_num / 4 in
    let byte_offset := (irq_num mod 4) * 8 in
    reg_val <- read_reg (GICD_IPRIORITYR reg_idx) ;;
    let reg_val := Z.land reg_val (u32 (Z.lnot (Z.shiftl 255 byte_offset))) in
    let reg_val := Z.lor reg_val (u32 (Z.shiftl priority byte_offset)) in
    write_reg (GICD_IPRIORITYR reg_idx) reg_val ;;;
    ret STATUS_OK.

(** The distributor's side of the enable registers, as the GIC
    architecture defines them (this is hardware, not driver code): writing
    a word to ISENABLER<n> enables the lines 32n+b whose bit b is 1,
    writing it to ICENABLER<n> disables them, and zero bits have no
    effect.  [line_enabled tr l] replays the accesses of [tr] (newest
    first) from the state [init]. *)
Fixpoint line_enabled (init : Z -> bool) (tr : list event) (line : Z) : bool :=
  match tr with
  | [] => init line
  | EvWrite (GICD_ISENABLER n) v :: tr' =>
      if (line / 32 =? n) && Z.testbit v (line mod 32) then true
      else line_enabled init tr' line
  | EvWrite (GICD_ICENABLER n) v :: tr' =>
      if (line / 32 =? n) && Z.testbit v (line mod 32) then false
      else line_enabled init tr' line
  | _ :: tr' => line_enabled init tr' line
  end.

End Gic.

(** ** i2c_driver.c *)

Module I2c.
Import I2cData.

Definition SYSTEM_CLOCK_HZ := 100000000.
Definition TIMEOUT_LOOP_COUNT := 10000.

(** [handle->field = ...] on [g_i2c_handles[instance]]. *)
Definition modify_i2c (instance : Z) (f : i2c_handle_t -> i2c_handle_t)
  : M unit :=
  h <- get_i2c instance ;;
  put_i2c instance (f h).

(** The handler call [handle->callback(instance, result)], guarded by
    [IS_VALID_PTR].  The callee is application code; the call is
    recorded. *)
Definition invoke_callback (cb instance : Z) (result : status_t) : M unit :=
  if IS_VALID_PTR cb then emit (EvI2cCallback cb instance result)
  else ret tt.

(** Unsigned division; dividing by zero is undefined in C. *)
Definition udiv (a b : Z) : M Z :=
  if b =? 0 then undefined else ret (a / b).

Definition i2c_init (instance : Z) (config : option i2c_config_t)
  : M status_t :=
  match config with
  | None => ret STATUS_INVALID_PARAM
  | Some config =>
    if instance >=? I2C_INSTANCE_MAX then ret STATUS_INVALID_PARAM
    else
      BIT_SET (I2C_CR1 instance) I2C_CR1_SWRST ;;;
      BIT_CLEAR (I2C_CR1 instance) I2C_CR1_SWRST ;;;
      let pclk_mhz := SYSTEM_CLOCK_HZ / 1000000 in
      write_reg (I2C_CR2 instance) (Z.land pclk_mhz 63) ;;;
      ccr_val <-
        (if clock_speed config <=? 100000
         then udiv SYSTEM_CLOCK_HZ (u32 (clock_speed config * 2))
         else
           v <- udiv SYSTEM_CLOCK_HZ (u32 (clock_speed config * 3)) ;;
           ret (Z.lor v 32768)) ;;
      write_reg (I2C_CCR instance) ccr_val ;;;
      (if clock_speed config <=? 100000
       then write_reg (I2C_TRISE instance) (pclk_mhz + 1)
       else write_reg (I2C_TRISE instance) ((pclk_mhz * 300) / 1000 + 1)) ;;;
      (if negb (own_address config =? 0)
       then write_reg (I2C_OAR1 instance)
              (Z.lor (Z.shiftl (own_address config) 1) 16384)
       else ret tt) ;;;
      BIT_SET (I2C_CR1 instance) I2C_CR1_PE ;;;
      BIT_SET (I2C_CR1 instance) I2C_CR1_ACK ;;;
      (if i2c_use_interrupts config
       then
         let irq_num :=
           if instance =? I2C_INSTANCE_0 then IRQ_I2C0 else IRQ_I2C1 in
         Gic.gic_set_priority irq_num 128 ;;;
         Gic.gic_enable_irq irq_num ;;;
         cr2 <- read_reg (I2C_CR2 instance) ;;
         write_reg (I2C_CR2 instance)
           (Z.lor cr2 (Z.lor (Z.shiftl 1 9) (Z.shiftl 1 10)))
       else ret tt) ;;;
      modify_i2c instance
        (fun h => set_state I2C_STATE_IDLE (set_initialized true h)) ;;;
      ret STATUS_OK
  end.

Definition i2c_deinit (instance : Z) : M status_t :=
  if instance >=? I2C_INSTANCE_MAX then ret STATUS_INVALID_PARAM
  else
    BIT_CLEAR (I2C_CR1 instance) I2C_CR1_PE ;;;
    let irq_num :=
      if instance =? I2C_INSTANCE_0 then IRQ_I2C0 else IRQ_I2C1 in
    Gic.gic_disable_irq irq_num ;;;
    modify_i2c instance
      (fun h => set_state I2C_STATE_IDLE (set_initialized false h)) ;;;
    ret STATUS_OK.

(** The loop of [i2c_wait_flag]; [n] is [counter]. *)
Fixpoint wait_flag_loop (instance flag : Z) (expected : bool) (n : nat)
  : M status_t :=
  match n with
  | O => ret STATUS_TIMEOUT
  | S k =>
      sr1 <- read_reg (I2C_SR1 instance) ;;
      if eqb (BIT_CHECK sr1 flag) expected then ret STATUS_OK
      else wait_flag_loop instance flag expected k
  end.

Definition i2c_wait_flag (instance flag : Z) (expected : bool) (timeout : Z)
  : M status_t :=
  wait_flag_loop instance flag expected
    (Z.to_nat (u32 (timeout * TIMEOUT_LOOP_COUNT))).

Definition i2c_generate_start (instance : Z) : M unit :=
  BIT_SET (I2C_CR1 instance) I2C_CR1_START.

Definition i2c_generate_stop (instance : Z) : M unit :=
  BIT_SET (I2C_CR1 instance) I2C_CR1_STOP.

Definition i2c_send_address (instance addr : Z) (dir : i2c_direction_t)
    (timeout : Z) : M status_t :=
  result <- i2c_wait_flag instance I2C_SR1_SB true timeout ;;
  if status_eqb result STATUS_OK then
    let addr_byte := u8 (Z.lor (Z.shiftl addr 1) (dir_bit dir)) in
    write_reg (I2C_DR instance) addr_byte ;;;
    result <- i2c_wait_flag instance I2C_SR1_ADDR true timeout ;;
    if status_eqb result STATUS_OK then
      read_reg (I2C_SR1 instance) ;;;
      read_reg (I2C_SR2 instance) ;;;
      ret result
    else ret result
  else ret result.

(** [while (BIT_CHECK(regs->SR2, I2C_SR2_BUSY) && (wait_count > 0U))
    wait_count--;] started with [wait_count = n]; returns the final
    [wait_count]. *)
Fixpoint bus_free_loop (instance : Z) (n : nat) : M nat :=
  sr2 <- read_reg (I2C_SR2 instance) ;;
  if BIT_CHECK sr2 I2C_SR2_BUSY then
    match n with
    | O => ret O
    | S k => bus_free_loop instance k
    end
  else ret n.

(** The transmit loop of [i2c_write_blocking], entered with
    [result == STATUS_OK]; [n] iterations remain and [i] is the index. *)
Fixpoint transmit_loop (instance data timeout_ms : Z) (n : nat) (i : Z)
  : M status_t :=
  match n with
  | O => ret STATUS_OK
  | S k =>
      result <- i2c_wait_flag instance I2C_SR1_TXE true timeout_ms ;;
      if status_eqb result STATUS_OK then
        b <- load_byte (data + i) ;;
        write_reg (I2C_DR instance) b ;;;
        transmit_loop instance data timeout_ms k (i + 1)
      else ret result
  end.

Definition i2c_write_blocking (instance dev_addr data len timeout_ms : Z)
  : M status_t :=
  if IS_NULL_PTR data then ret STATUS_INVALID_PARAM
  else if instance >=? I2C_INSTANCE_MAX then ret STATUS_INVALID_PARAM
  else
    h <- get_i2c instance ;;
    if negb (initialized h) then ret STATUS_NOT_READY
    else if len =? 0 then ret STATUS_INVALID_PARAM
    else
      modify_i2c instance (set_state I2C_STATE_BUSY_TX) ;;;
      wait_count <-
        bus_free_loop instance
          (Z.to_nat (u32 (timeout_ms * TIMEOUT_LOOP_COUNT))) ;;
      result <-
        match wait_count with
        | O => ret STATUS_BUSY
        | S _ =>
            i2c_generate_start instance ;;;
            result <-
              i2c_send_address instance dev_addr I2C_DIR_WRITE timeout_ms ;;
            result <-
              (if status_eqb result STATUS_OK then
                 result <-
                   transmit_loop instance data timeout_ms (Z.to_nat len) 0 ;;
                 if status_eqb result STATUS_OK
                 then i2c_wait_flag instance I2C_SR1_BTF true timeout_ms
                 else ret result
               else ret result) ;;
            i2c_generate_stop instance ;;;
            ret result
        end ;;
      modify_i2c instance
        (set_state (if status_eqb result STATUS_OK
                    then I2C_STATE_IDLE else I2C_STATE_ERROR)) ;;;
      ret result.

(** The receive loop of [i2c_read_blocking], entered with
    [result == STATUS_OK]. *)
Fixpoint receive_loop (instance data len timeout_ms : Z) (n : nat) (i : Z)
  : M status_t :=
  match n with
  | O => ret STATUS_OK
  | S k =>
      (if i =? u32 (len - 1) then
         BIT_CLEAR (I2C_CR1 instance) I2C_CR1_ACK ;;;
         i2c_generate_stop instance
       else ret tt) ;;;
      result <- i2c_wait_flag instance I2C_SR1_RXNE true timeout_ms ;;
      if status_eqb result STATUS_OK then
        dr <- read_reg (I2C_DR instance) ;;
        store_byte (data + i) (u8 dr) ;;;
        receive_loop instance data len timeout_ms k (i + 1)
      else ret result
  end.

Definition i2c_read_blocking (instance dev_addr data len timeout_ms : Z)
  : M status_t :=
  if IS_NULL_PTR data then ret STATUS_INVALID_PARAM
  else if instance >=? I2C_INSTANCE_MAX then ret STATUS_INVALID_PARAM
  else
    h <- get_i2c instance ;;
    if negb (initialized h) then ret STATUS_NOT_READY
    else if len =? 0 then ret STATUS_INVALID_PARAM
    else
      modify_i2c instance (set_state I2C_STATE_BUSY_RX) ;;;
      BIT_SET (I2C_CR1 instance) I2C_CR1_ACK ;;;
      i2c_generate_start instance ;;;
      result <- i2c_send_address instance dev_addr I2C_DIR_READ timeout_ms ;;
      result <-
        (if status_eqb result STATUS_OK
         then receive_loop instance data len timeout_ms (Z.to_nat len) 0
         else i2c_generate_stop instance ;;; ret result) ;;
      modify_i2c instance
        (set_state (if status_eqb result STATUS_OK
                    then I2C_STATE_IDLE else I2C_STATE_ERROR)) ;;;
      ret result.

Definition i2c_write_async (instance dev_addr data len callback : Z)
  : M status_t :=
  if IS_NULL_PTR data || IS_NULL_PTR callback then ret STATUS_INVALID_PARAM
  else if instance >=? I2C_INSTANCE_MAX then ret STATUS_INVALID_PARAM
  else
    h <- get_i2c instance ;;
    if negb (initialized h) then ret STATUS_NOT_READY
    else if negb (i2c_state_eqb (state h) I2C_STATE_IDLE) then ret STATUS_BUSY
    else
      put_i2c instance
        {| state := I2C_STATE_BUSY_TX; rx_buffer := rx_buffer h;
           tx_buffer := data; buffer_len := len; buffer_idx := 0;
           dev_address := dev_addr; callback := callback;
           initialized := initialized h |} ;;;
      i2c_generate_start instance ;;;
      ret STATUS_OK.

Definition i2c_read_async (instance dev_addr data len callback : Z)
  : M status_t :=
  if IS_NULL_PTR data || IS_NULL_PTR callback then ret STATUS_INVALID_PARAM
  else if instance >=? I2C_INSTANCE_MAX then ret STATUS_INVALID_PARAM
  else
    h <- get_i2c instance ;;
    if negb (initialized h) then ret STATUS_NOT_READY
    else if negb (i2c_state_eqb (state h) I2C_STATE_IDLE) then ret STATUS_BUSY
    else
      put_i2c instance
        {| state := I2C_STATE_BUSY_RX; rx_buffer := data;
           tx_buffer := tx_buffer h; buffer_len := len; buffer_idx := 0;
           dev_address := dev_addr; callback := callback;
           initialized := initialized h |} ;;;
      BIT_SET (I2C_CR1 instance) I2C_CR1_ACK ;;;
      i2c_generate_start instance ;;;
      ret STATUS_OK.

Definition i2c_get_state (instance : Z) : M i2c_state_t :=
  if instance <? I2C_INSTANCE_MAX then
    h <- get_i2c instance ;;
    ret (state h)
  else ret I2C_STATE_ERROR.

Definition i2c_irq_handler (instance : Z) : M unit :=
  if instance <? I2C_INSTANCE_MAX then
    handle <- get_i2c instance ;;
    sr1 <- read_reg (I2C_SR1 instance) ;;
    if BIT_CHECK sr1 I2C_SR1_SB then
      let dir :=
        if i2c_state_eqb (state handle) I2C_STATE_BUSY_TX then 0 else 1 in
      write_reg (I2C_DR instance)
        (u8 (Z.lor (Z.shiftl (dev_address handle) 1) dir))
    else if BIT_CHECK sr1 I2C_SR1_ADDR then
      read_reg (I2C_SR2 instance) ;;;
      if i2c_state_eqb (state handle) I2C_STATE_BUSY_RX
         && (buffer_len handle =? 1)
      then BIT_CLEAR (I2C_CR1 instance) I2C_CR1_ACK
      else ret tt
    else if BIT_CHECK sr1 I2C_SR1_TXE
            && i2c_state_eqb (state handle) I2C_STATE_BUSY_TX then
      if buffer_idx handle <? buffer_len handle then
        b <- load_byte (tx_buffer handle + buffer_idx handle) ;;
        write_reg (I2C_DR instance) b ;;;
        modify_i2c instance (set_buffer_idx (u32 (buffer_idx handle + 1)))
      else if BIT_CHECK sr1 I2C_SR1_BTF then
        i2c_generate_stop instance ;;;
        modify_i2c instance (set_state I2C_STATE_IDLE) ;;;
        invoke_callback (callback handle) instance STATUS_OK
      else ret tt
    else if BIT_CHECK sr1 I2C_SR1_RXNE
            && i2c_state_eqb (state handle) I2C_STATE_BUSY_RX then
      dr <- read_reg (I2C_DR instance) ;;
      store_byte (rx_buffer handle + buffer_idx handle) (u8 dr) ;;;
      let idx := u32 (buffer_idx handle + 1) in
      modify_i2c instance (set_buffer_idx idx) ;;;
      (if idx =? u32 (buffer_len handle - 1) then
         BIT_CLEAR (I2C_CR1 instance) I2C_CR1_ACK ;;;
         i2c_generate_stop instance
       else ret tt) ;;;
      if idx >=? buffer_len handle then
        modify_i2c instance (set_state I2C_STATE_IDLE) ;;;
        invoke_callback (callback handle) instance STATUS_OK
      else ret tt
    else if BIT_CHECK sr1 I2C_SR1_AF then
      write_reg (I2C_SR1 instance) (u32 (Z.lnot (Z.shiftl 1 I2C_SR1_AF))) ;;;
      i2c_generate_stop instance ;;;
      modify_i2c instance (set_state I2C_STATE_ERROR) ;;;
      invoke_callback (callback handle) instance STATUS_ERROR
    else ret tt
  else ret tt.

(** Counting what a trace did to one instance's CR1. *)
Definition is_stop (instance : Z) (e : event) : bool :=
  match e with
  | EvBitSet r b => reg_eqb r (I2C_CR1 instance) && (b =? I2C_CR1_STOP)
  | _ => false
  end.

Definition is_ack_clear (instance : Z) (e : event) : bool :=
  match e with
  | EvBitClear r b => reg_eqb r (I2C_CR1 instance) && (b =? I2C_CR1_ACK)
  | _ => false
  end.

Definition is_start (instance : Z) (e : event) : bool :=
  match e with
  | EvBitSet r b => reg_eqb r (I2C_CR1 instance) && (b =? I2C_CR1_START)
  | _ => false
  end.

Definition count_events (p : event -> bool) (tr : list event) : nat :=
  length (filter p tr).

Definition stops (instance : Z) (w : world) : nat :=
  count_events (is_stop instance) (trace w).

Definition ack_clears (instance : Z) (w : world) : nat :=
  count_events (is_ack_clear instance) (trace w).

Definition starts (instance : Z) (w : world) : nat :=
  count_events (is_start instance) (trace w).

(** [g_i2c_handles[instance]], for statements. *)
Definition handle_of (instance : Z) (w : world) : i2c_handle_t :=
  nth (Z.to_nat instance) (g_i2c_handles w) handle_init.

End I2c.

(** ** ble_driver.c *)

Module Ble.
Import BleData.

Definition set_state (s : ble_state_t) (h : ble_handle_t) :=
  {| state := s; callback := callback h; local_addr := local_addr h;
     peer_addr := peer_addr h; event_queue := event_queue h;
     evt_queue_head := evt_queue_head h;
     evt_queue_tail := evt_queue_tail h; initialized := initialized h;
     rx_buffer := rx_buffer h; rx_len := rx_len h;
     rx_pending := rx_pending h; tx_complete := tx_complete h |}.

Definition set_queue (q : list ble_event_t) (head tail : Z)
    (h : ble_handle_t) :=
  {| state := state h; callback := callback h; local_addr := local_addr h;
     peer_addr := peer_addr h; event_queue := q;
     evt_queue_head := head; evt_queue_tail := tail;
     initialized := initialized h;
     rx_buffer := rx_buffer h; rx_len := rx_len h;
     rx_pending := rx_pending h; tx_complete := tx_complete h |}.

Definition set_rx_buffer (b : list Z) (h : ble_handle_t) :=
  {| state := state h; callback := callback h; local_addr := local_addr h;
     peer_addr := peer_addr h; event_queue := event_queue h;
     evt_queue_head := evt_queue_head h;
     evt_queue_tail := evt_queue_tail h; initialized := initialized h;
     rx_buffer := b; rx_len := rx_len h;
     rx_pending := rx_pending h; tx_complete := tx_complete h |}.

Definition set_rx_len (n : Z) (h : ble_handle_t) :=
  {| state := state h; callback := callback h; local_addr := local_addr h;
     peer_addr := peer_addr h; event_queue := event_queue h;
     evt_queue_head := evt_queue_head h;
     evt_queue_tail := evt_queue_tail h; initialized := initialized h;
     rx_buffer := rx_buffer h; rx_len := n;
     rx_pending := rx_pending h; tx_complete := tx_complete h |}.

Definition set_rx_pending (b : bool) (h : ble_handle_t) :=
  {| state := state h; callback := callback h; local_addr := local_addr h;
     peer_addr := peer_addr h; event_queue := event_queue h;
     evt_queue_head := evt_queue_head h;
     evt_queue_tail := evt_queue_tail h; initialized := initialized h;
     rx_buffer := rx_buffer h; rx_len := rx_len h;
     rx_pending := b; tx_complete := tx_complete h |}.

Definition set_tx_complete (b : bool) (h : ble_handle_t) :=
  {| state := state h; callback := callback h; local_addr := local_addr h;
     peer_addr := peer_addr h; event_queue := event_queue h;
     evt_queue_head := evt_queue_head h;
     evt_queue_tail := evt_queue_tail h; initialized := initialized h;
     rx_buffer := rx_buffer h; rx_len := rx_len h;
     rx_pending := rx_pending h; tx_complete := b |}.

Definition modify_ble (f : ble_handle_t -> ble_handle_t) : M unit :=
  h <- get_ble ;;
  put_ble (f h).

Definition set_type (t : ble_event_type_t) (e : ble_event_t) :=
  {| type := t; BleEvent.peer_addr := BleEvent.peer_addr e;
     data := data e; data_len := data_len e; rssi := rssi e |}.

Definition set_peer_addr (a : ble_mac_addr_t) (e : ble_event_t) :=
  {| type := type e; BleEvent.peer_addr := a;
     data := data e; data_len := data_len e; rssi := rssi e |}.

(** An all-zero [ble_event_t]. *)
Definition zero_event : ble_event_t :=
  {| type := BLE_EVT_NONE;
     BleEvent.peer_addr := repeat 0 (Z.to_nat BLE_MAC_ADDR_LEN);
     data := repeat 0 (Z.to_nat BLE_MAX_PAYLOAD_SIZE);
     data_len := 0; rssi := 0 |}.

(** The static initialiser of [g_ble_handle]; members it does not name
    are zero. *)
Definition g_ble_handle_init : ble_handle_t :=
  {| state := BLE_STATE_OFF; callback := 0;
     local_addr := repeat 0 (Z.to_nat BLE_MAC_ADDR_LEN);
     peer_addr := repeat 0 (Z.to_nat BLE_MAC_ADDR_LEN);
     event_queue := repeat zero_event (Z.to_nat BLE_EVENT_QUEUE_SIZE);
     evt_queue_head := 0; evt_queue_tail := 0; initialized := false;
     rx_buffer := repeat 0 (Z.to_nat BLE_MAX_PAYLOAD_SIZE);
     rx_len := 0; rx_pending := false; tx_complete := false |}.

(** [memcpy(dst, src, n)] between two byte arrays. *)
Definition memcpy (dst src : list Z) (n : Z) : M (list Z) :=
  if (0 <=? n) && (n <=? Z.of_nat (length src))
     && (n <=? Z.of_nat (length dst))
  then ret (firstn (Z.to_nat n) src ++ skipn (Z.to_nat n) dst)
  else undefined.

(** [g_ble_handle.callback(&evt)] guarded by [IS_VALID_PTR]; the callee is
    application code, the call is recorded. *)
Definition invoke_callback (evt : ble_event_t) : M unit :=
  h <- get_ble ;;
  if IS_VALID_PTR (callback h) then emit (EvBleCallback (callback h) evt)
  else ret tt.

Definition ble_enqueue_event (event : ble_event_t) : M status_t :=
  h <- get_ble ;;
  let next_head := u8 ((evt_queue_head h + 1) mod BLE_EVENT_QUEUE_SIZE) in
  if next_head =? evt_queue_tail h then ret STATUS_ERROR
  else
    q <- array_set (event_queue h) (evt_queue_head h) event ;;
    put_ble (set_queue q next_head (evt_queue_tail h) h) ;;;
    ret STATUS_OK.

(** [ble_dequeue_event(&evt)]: the flag returned and the contents of
    [evt] afterwards. *)
Definition ble_dequeue_event (event : ble_event_t)
  : M (bool * ble_event_t) :=
  h <- get_ble ;;
  if negb (evt_queue_tail h =? evt_queue_head h) then
    e <- array_get (event_queue h) (evt_queue_tail h) ;;
    put_ble
      (set_queue (event_queue h) (evt_queue_head h)
         (u8 ((evt_queue_tail h + 1) mod BLE_EVENT_QUEUE_SIZE)) h) ;;;
    ret (true, e)
  else ret (false, event).

(** The copy loop of [ble_read_rx_data]: [n] iterations remain, [i] is
    the index. *)
Fixpoint rx_copy_loop (n : nat) (i : Z) : M unit :=
  match n with
  | O => ret tt
  | S k =>
      v <- read_reg BLE_RX_DATA ;;
      h <- get_ble ;;
      b <- array_set (rx_buffer h) i (u8 (Z.land v 255)) ;;
      put_ble (set_rx_buffer b h) ;;;
      rx_copy_loop k (u16 (i + 1))
  end.

Definition ble_read_rx_data : M unit :=
  rx_len0 <- read_reg BLE_RX_LEN ;;
  let rx_len1 :=
    if rx_len0 >? BLE_MAX_PAYLOAD_SIZE then BLE_MAX_PAYLOAD_SIZE
    else rx_len0 in
  modify_ble (set_rx_len (u16 rx_len1)) ;;;
  rx_copy_loop (Z.to_nat (u16 rx_len1)) 0 ;;;
  modify_ble (set_rx_pending true).

(** [while (ble_dequeue_event(&evt)) { callback(&evt); }] *)
Fixpoint process_loop (fuel : nat) (evt : ble_event_t) : M unit :=
  match fuel with
  | O => out_of_fuel
  | S k =>
      r <- ble_dequeue_event evt ;;
      if fst r then
        invoke_callback (snd r) ;;;
        process_loop k (snd r)
      else ret tt
  end.

(** [ble_process].  [evt0] is what the uninitialised local [evt] holds on
    entry. *)
Definition ble_process (fuel : nat) (evt0 : ble_event_t) : M unit :=
  h <- get_ble ;;
  evt <-
    (if rx_pending h then
       put_ble (set_rx_pending false h) ;;;
       d <- memcpy (data evt0) (rx_buffer h) (rx_len h) ;;
       let evt :=
         {| type := BLE_EVT_DATA_RECEIVED;
            BleEvent.peer_addr := peer_addr h;
            data := d; data_len := rx_len h; rssi := rssi evt0 |} in
       invoke_callback evt ;;;
       ret evt
     else ret evt0) ;;
  process_loop fuel evt.

Definition ble_irq_handler : M unit :=
  int_flags <- read_reg BLE_INT_FLAG ;;
  let evt := zero_event in
  evt <-
    (if BIT_CHECK int_flags BLE_INT_CONNECTED then
       write_reg BLE_INT_FLAG (Z.shiftl 1 BLE_INT_CONNECTED) ;;;
       modify_ble (set_state BLE_STATE_CONNECTED) ;;;
       h <- get_ble ;;
       let evt := set_peer_addr (peer_addr h) (set_type BLE_EVT_CONNECTED evt) in
       ble_enqueue_event evt ;;;
       ret evt
     else ret evt) ;;
  evt <-
    (if BIT_CHECK int_flags BLE_INT_DISCONNECTED then
       write_reg BLE_INT_FLAG (Z.shiftl 1 BLE_INT_DISCONNECTED) ;;;
       modify_ble (set_state BLE_STATE_IDLE) ;;;
       let evt := set_type BLE_EVT_DISCONNECTED evt in
       ble_enqueue_event evt ;;;
       ret evt
     else ret evt) ;;
  (if BIT_CHECK int_flags BLE_INT_RX_DONE then
     write_reg BLE_INT_FLAG (Z.shiftl 1 BLE_INT_RX_DONE) ;;;
     ble_read_rx_data
   else ret tt) ;;;
  evt <-
    (if BIT_CHECK int_flags BLE_INT_TX_DONE then
       write_reg BLE_INT_FLAG (Z.shiftl 1 BLE_INT_TX_DONE) ;;;
       modify_ble (set_tx_complete true) ;;;
       let evt := set_type BLE_EVT_DATA_SENT evt in
       ble_enqueue_event evt ;;;
       ret evt
     else ret evt) ;;
  (if BIT_CHECK int_flags BLE_INT_ERROR then
     write_reg BLE_INT_FLAG (Z.shiftl 1 BLE_INT_ERROR) ;;;
     modify_ble (set_state BLE_STATE_ERROR) ;;;
     let evt := set_type BLE_EVT_ERROR evt in
     ble_enqueue_event evt ;;;
     ret tt
   else ret tt).

(** The events the callback has been handed, oldest first. *)
Fixpoint delivered (tr : list event) : list ble_event_t :=
  match tr with
  | [] => []
  | EvBleCallback _ e :: tr' => delivered tr' ++ [e]
  | _ :: tr' => delivered tr'
  end.

(** The events waiting in the ring, oldest first: [n] slots starting at
    index [tail]. *)
Fixpoint queue_slots (q : list ble_event_t) (tail : Z) (n : nat)
  : list ble_event_t :=
  match n with
  | O => []
  | S k =>
      nth (Z.to_nat tail) q zero_event
      :: queue_slots q ((tail + 1) mod BLE_EVENT_QUEUE_SIZE) k
  end.

Definition queue_count (h : ble_handle_t) : Z :=
  (evt_queue_head h - evt_queue_tail h) mod BLE_EVENT_QUEUE_SIZE.

Definition queue_contents (h : ble_handle_t) : list ble_event_t :=
  queue_slots (event_queue h) (evt_queue_tail h) (Z.to_nat (queue_count h)).

(** What the C types guarantee of the handle: array sizes and the ranges
    the ring indices stay in. *)
Definition wf_ble (h : ble_handle_t) : Prop :=
  length (event_queue h) = Z.to_nat BLE_EVENT_QUEUE_SIZE /\
  length (rx_buffer h) = Z.to_nat BLE_MAX_PAYLOAD_SIZE /\
  0 <= evt_queue_head h < BLE_EVENT_QUEUE_SIZE /\
  0 <= evt_queue_tail h < BLE_EVENT_QUEUE_SIZE.

End Ble.

(** The state before any driver call. *)
Definition world_init : world :=
  {| trace := [];
     mem := fun _ => 0;
     g_i2c_handles := [I2cData.handle_init; I2cData.handle_init];
     g_ble_handle := Ble.g_ble_handle_init |}.

Definition run {A} (m : M A) (hw : oracle) (w : world) : outcome A := m hw w.

(** [g_i2c_handles] has [I2C_INSTANCE_MAX] entries. *)
Definition wf_i2c (w : world) : Prop :=
  length (g_i2c_handles w) = Z.to_nat I2C_INSTANCE_MAX.

(** The world in which [i2c_write_blocking] starts its bus-free wait, and
    the one in which [i2c_read_blocking] starts its address phase. *)
Definition write_armed (instance : Z) (w : world) : world :=
  with_i2c
    (list_set (g_i2c_handles w) (Z.to_nat instance)
       (I2cData.set_state I2C_STATE_BUSY_TX (I2c.handle_of instance w))) w.

Definition read_armed (instance : Z) (w : world) : world :=
  log (EvBitSet (I2C_CR1 instance) I2C_CR1_START)
    (log (EvBitSet (I2C_CR1 instance) I2C_CR1_ACK)
       (with_i2c
          (list_set (g_i2c_handles w) (Z.to_nat instance)
             (I2cData.set_state I2C_STATE_BUSY_RX (I2c.handle_of instance w)))
          w)).

(** [quiet instance w w']: between [w] and [w'] no handle changed, no STOP
    was issued on [instance] and its ACK was not cleared. *)
Definition quiet (instance : Z) (w w' : world) : Prop :=
  g_i2c_handles w' = g_i2c_handles w /\
  I2c.stops instance w' = I2c.stops instance w /\
  I2c.ack_clears instance w' = I2c.ack_clears instance w.

(** ** Simulated hardware for the concrete runs *)

Module Sim.

Definition is_read_of (r : reg) (e : event) : bool :=
  match e with
  | EvRead r' _ => reg_eqb r r'
  | _ => false
  end.

(** A bus on which every status flag a transfer waits for is already set
    (SB, ADDR, BTF, RXNE, TXE) and BUSY is clear; the data register reads
    0xAB. *)
Definition hw_ready : oracle :=
  fun _ r =>
    match r with
    | I2C_SR1 _ => 199
    | I2C_DR _ => 171
    | _ => 0
    end.

(** A bus that another master holds for ever: SR2.BUSY always reads 1. *)
Definition hw_bus_busy : oracle :=
  fun _ r =>
    match r with
    | I2C_SR2 _ => 2
    | _ => 0
    end.

(** A device that acknowledges its address and then never delivers a
    byte: SB and ADDR always read 1, RXNE never does. *)
Definition hw_no_data : oracle :=
  fun _ r =>
    match r with
    | I2C_SR1 _ => 3
    | _ => 0
    end.

(** A controller whose successive SR1 reads return the values of
    [script], one per read, then 0; the data register reads 0xAB. *)
Definition hw_script (script : list Z) : oracle :=
  fun tr r =>
    match r with
    | I2C_SR1 _ => nth (length (filter (is_read_of r) tr)) script 0
    | I2C_DR _ => 171
    | _ => 0
    end.

(** The interrupt sequence of an asynchronous read: start sent, address
    acknowledged, then [n] times receiver-not-empty. *)
Definition rx_script (n : nat) : list Z :=
  Z.shiftl 1 I2C_SR1_SB :: Z.shiftl 1 I2C_SR1_ADDR
  :: repeat (Z.shiftl 1 I2C_SR1_RXNE) n.

Fixpoint irqs (instance : Z) (n : nat) : M unit :=
  match n with
  | O => ret tt
  | S k => I2c.i2c_irq_handler instance ;;; irqs instance k
  end.

Definition cfg : i2c_config_t :=
  {| clock_speed := 100000; own_address := 0; i2c_use_interrupts := true |}.

(** Addresses of the application's buffer and completion handler. *)
Definition buf := 4096.
Definition buf2 := 8192.
Definition handler := 256.

Definition world_of {A} (o : outcome A) : world :=
  match o with
  | Done _ w => w
  | _ => world_init
  end.

Definition result_of {A} (o : outcome A) : option A :=
  match o with
  | Done a _ => Some a
  | _ => None
  end.

(** Instance 0 after [i2c_init]: initialised and Idle. *)
Definition w_initialised (hw : oracle) : world :=
  world_of (run (I2c.i2c_init I2C_INSTANCE_0 (Some cfg)) hw world_init).

(** Instance 0 with an asynchronous two-byte read, respectively write,
    in flight. *)
Definition w_reading (hw : oracle) : world :=
  world_of
    (run (I2c.i2c_read_async I2C_INSTANCE_0 72 buf 2 handler) hw
       (w_initialised hw)).

Definition w_writing (hw : oracle) : world :=
  world_of
    (run (I2c.i2c_write_async I2C_INSTANCE_0 72 buf 2 handler) hw
       (w_initialised hw)).

(** An asynchronous read of [len] bytes on instance 0 followed by
    [n_irqs] interrupts. *)
Definition async_read (len : Z) (n_irqs : nat) : M status_t :=
  r <- I2c.i2c_read_async I2C_INSTANCE_0 72 buf len handler ;;
  irqs I2C_INSTANCE_0 n_irqs ;;;
  ret r.

End Sim.

(** ** Statements about the BLE engine *)

Module BleSpec.
Import BleData Ble.

(** The event [ble_process] builds from the staging buffer. *)
Definition staged_event (h : ble_handle_t) (evt0 : ble_event_t)
  : ble_event_t :=
  {| type := BLE_EVT_DATA_RECEIVED;
     BleEvent.peer_addr := peer_addr h;
     data := firstn (Z.to_nat (rx_len h)) (rx_buffer h)
             ++ skipn (Z.to_nat (rx_len h)) (data evt0);
     data_len := rx_len h;
     rssi := rssi evt0 |}.

Definition staged (h : ble_handle_t) (evt0 : ble_event_t)
  : list ble_event_t :=
  if rx_pending h then [staged_event h evt0] else [].

(** The link state [ble_irq_handler] leaves, from the flags it read. *)
Definition state_after_irq (int_flags : Z) (s : ble_state_t) : ble_state_t :=
  if BIT_CHECK int_flags BLE_INT_ERROR then BLE_STATE_ERROR
  else if BIT_CHECK int_flags BLE_INT_DISCONNECTED then BLE_STATE_IDLE
  else if BIT_CHECK int_flags BLE_INT_CONNECTED then BLE_STATE_CONNECTED
  else s.

(** An event of a given type, and [n] enqueues in a row. *)
Definition event_of (t : ble_event_type_t) : ble_event_t :=
  set_type t zero_event.

Fixpoint enqueue_all (es : list ble_event_t) : M (list status_t) :=
  match es with
  | [] => ret []
  | e :: es' =>
      r <- ble_enqueue_event e ;;
      rs <- enqueue_all es' ;;
      ret (r :: rs)
  end.

(** The local [evt] of [ble_irq_handler] after each of its branches, and
    the events the handler passes to [ble_enqueue_event], in order.  [peer]
    is the peer address of the handle on entry. *)
Definition irq_evt1 (int_flags : Z) (peer : ble_mac_addr_t) : ble_event_t :=
  if BIT_CHECK int_flags BLE_INT_CONNECTED
  then set_peer_addr peer (set_type BLE_EVT_CONNECTED zero_event)
  else zero_event.

Definition irq_evt2 (int_flags : Z) (peer : ble_mac_addr_t) : ble_event_t :=
  if BIT_CHECK int_flags BLE_INT_DISCONNECTED
  then set_type BLE_EVT_DISCONNECTED (irq_evt1 int_flags peer)
  else irq_evt1 int_flags peer.

Definition irq_evt3 (int_flags : Z) (peer : ble_mac_addr_t) : ble_event_t :=
  if BIT_CHECK int_flags BLE_INT_TX_DONE
  then set_type BLE_EVT_DATA_SENT (irq_evt2 int_flags peer)
  else irq_evt2 int_flags peer.

Definition irq_events (int_flags : Z) (peer : ble_mac_addr_t)
  : list ble_event_t :=
  (if BIT_CHECK int_flags BLE_INT_CONNECTED
   then [irq_evt1 int_flags peer] else [])
  ++ (if BIT_CHECK int_flags BLE_INT_DISCONNECTED
      then [irq_evt2 int_flags peer] else [])
  ++ (if BIT_CHECK int_flags BLE_INT_TX_DONE
      then [irq_evt3 int_flags peer] else [])
  ++ (if BIT_CHECK int_flags BLE_INT_ERROR
      then [set_type BLE_EVT_ERROR (irq_evt3 int_flags peer)] else []).

(** What the interrupt path never changes. *)
Definition ble_kept (w w' : world) : Prop :=
  g_i2c_handles w' = g_i2c_handles w /\ mem w' = mem w /\
  initialized (g_ble_handle w') = initialized (g_ble_handle w) /\
  callback (g_ble_handle w') = callback (g_ble_handle w).

(** The values read from a register, oldest first. *)
Fixpoint reads_of (r : reg) (tr : list event) : list Z :=
  match tr with
  | [] => []
  | EvRead r' v :: tr' =>
      if reg_eqb r r' then reads_of r tr' ++ [v] else reads_of r tr'
  | _ :: tr' => reads_of r tr'
  end.

(** The address of the application's event handler, and a world in which
    the engine is initialised and Idle with that handler registered and
    nothing queued or staged. *)
Definition app_handler := 512.

Definition w_ble_ready : world :=
  with_ble
    {| state := BLE_STATE_IDLE; callback := app_handler;
       local_addr := local_addr g_ble_handle_init;
       peer_addr := peer_addr g_ble_handle_init;
       event_queue := event_queue g_ble_handle_init;
       evt_queue_head := 0; evt_queue_tail := 0; initialized := true;
       rx_buffer := rx_buffer g_ble_handle_init;
       rx_len := 0; rx_pending := false; tx_complete := false |}
    world_init.

(** A controller reporting a received frame of [n] bytes of 0x5A, with
    the interrupt flags [flags]. *)
Definition hw_rx (flags n : Z) : oracle :=
  fun _ r =>
    match r with
    | BLE_INT_FLAG => flags
    | BLE_RX_LEN => n
    | BLE_RX_DATA => 90
    | _ => 0
    end.

End BleSpec.

(** ** Statements about the I2C engine *)

Module I2cSpec.
Import I2cData I2c.

(** The bytes written to, and read from, the data register of an instance,
    oldest first. *)
Fixpoint dr_writes (instance : Z) (tr : list event) : list Z :=
  match tr with
  | [] => []
  | EvWrite (I2C_DR i) v :: tr' =>
      if i =? instance then dr_writes instance tr' ++ [v]
      else dr_writes instance tr'
  | _ :: tr' => dr_writes instance tr'
  end.

Fixpoint dr_reads (instance : Z) (tr : list event) : list Z :=
  match tr with
  | [] => []
  | EvRead (I2C_DR i) v :: tr' =>
      if i =? instance then dr_reads instance tr' ++ [v]
      else dr_reads instance tr'
  | _ :: tr' => dr_reads instance tr'
  end.

(** The completion callbacks invoked for an instance, oldest first. *)
Fixpoint completions (instance : Z) (tr : list event)
  : list (Z * status_t) :=
  match tr with
  | [] => []
  | EvI2cCallback cb i r :: tr' =>
      if i =? instance then completions instance tr' ++ [(cb, r)]
      else completions instance tr'
  | _ :: tr' => completions instance tr'
  end.

(** The [n] bytes of memory starting at address [a]. *)
Definition bytes_at (m : Z -> Z) (a : Z) (n : nat) : list Z :=
  map (fun i => m (a + Z.of_nat i)) (seq 0 n).

(** The address byte of a transfer. *)
Definition addr_byte (dev_addr : Z) (dir : i2c_direction_t) : Z :=
  u8 (Z.lor (Z.shiftl dev_addr 1) (dir_bit dir)).

(** [silent instance w w']: between [w] and [w'] no handle and no memory
    changed and the data register of [instance] was neither written nor
    read. *)
Definition silent (instance : Z) (w w' : world) : Prop :=
  g_i2c_handles w' = g_i2c_handles w /\
  mem w' = mem w /\
  dr_writes instance (trace w') = dr_writes instance (trace w) /\
  dr_reads instance (trace w') = dr_reads instance (trace w).

(** What the asynchronous engine keeps true of a handle: the index never
    passes the length, and while a read is in flight it is below it. *)
Definition async_inv (h : i2c_handle_t) : Prop :=
  0 <= buffer_idx h <= buffer_len h /\
  buffer_len h < 2 ^ 32 /\
  (state h = I2C_STATE_BUSY_RX -> buffer_idx h < buffer_len h).

(** What one or more interrupt entries leave of a transfer: the handle
    array and the invariant stand, the buffers and the length are as they
    were, the index has not gone back, memory outside the receive buffer is
    as it was, and outside a read no memory changed at all. *)
Definition kept (instance : Z) (w w' : world) : Prop :=
  let h := handle_of instance w in
  let h' := handle_of instance w' in
  wf_i2c w' /\ async_inv h' /\
  rx_buffer h' = rx_buffer h /\ tx_buffer h' = tx_buffer h /\
  buffer_len h' = buffer_len h /\
  buffer_idx h <= buffer_idx h' /\
  (forall a, ~ (rx_buffer h <= a < rx_buffer h + buffer_len h) ->
             mem w' a = mem w a) /\
  (state h <> I2C_STATE_BUSY_RX ->
   mem w' = mem w /\ state h' <> I2C_STATE_BUSY_RX).

(** Hardware on which a status flag of SR1 always reads [b]. *)
Definition sr1_flag_always (hw : oracle) (instance flag : Z) (b : bool)
  : Prop :=
  forall tr, BIT_CHECK (u32 (hw tr (I2C_SR1 instance))) flag = b.

Definition bus_never_busy (hw : oracle) (instance : Z) : Prop :=
  forall tr, BIT_CHECK (u32 (hw tr (I2C_SR2 instance))) I2C_SR2_BUSY = false.

(** The number of times SR1 of an instance has been read. *)
Fixpoint sr1_reads (instance : Z) (tr : list event) : nat :=
  match tr with
  | [] => O
  | EvRead (I2C_SR1 i) _ :: tr' =>
      if i =? instance then S (sr1_reads instance tr')
      else sr1_reads instance tr'
  | _ :: tr' => sr1_reads instance tr'
  end.

(** Hardware whose [k]-th read of SR1 (counting from 0) returns a value
    satisfying [P]. *)
Definition sr1_at (hw : oracle) (instance : Z) (k : nat) (P : Z -> Prop)
  : Prop :=
  forall tr, sr1_reads instance tr = k -> P (u32 (hw tr (I2C_SR1 instance))).

(** The status values that select the branches of the interrupt handler. *)
Definition start_sent (v : Z) : Prop := BIT_CHECK v I2C_SR1_SB = true.

Definition address_acked (v : Z) : Prop :=
  BIT_CHECK v I2C_SR1_SB = false /\ BIT_CHECK v I2C_SR1_ADDR = true.

Definition tx_empty (v : Z) : Prop :=
  BIT_CHECK v I2C_SR1_SB = false /\ BIT_CHECK v I2C_SR1_ADDR = false /\
  BIT_CHECK v I2C_SR1_TXE = true.

Definition tx_finished (v : Z) : Prop :=
  tx_empty v /\ BIT_CHECK v I2C_SR1_BTF = true.

Definition rx_not_empty (v : Z) : Prop :=
  BIT_CHECK v I2C_SR1_SB = false /\ BIT_CHECK v I2C_SR1_ADDR = false /\
  BIT_CHECK v I2C_SR1_RXNE = true.

(** The interrupt sequence of an asynchronous write: start sent, address
    acknowledged, [n] times transmitter-empty, then transmitter-empty with
    byte-transfer-finished. *)
Definition tx_script (n : nat) : list Z :=
  Z.shiftl 1 I2C_SR1_SB :: Z.shiftl 1 I2C_SR1_ADDR
  :: repeat (Z.shiftl 1 I2C_SR1_TXE) n
  ++ [Z.lor (Z.shiftl 1 I2C_SR1_TXE) (Z.shiftl 1 I2C_SR1_BTF)].

(** What is observed of one instance: its handle, and what its engine has
    done so far. *)
Record obs := {
  o_handle : i2c_handle_t;
  o_writes : list Z;
  o_reads : list Z;
  o_stops : nat;
  o_acks : nat;
  o_done : list (Z * status_t);
  o_sr1 : nat
}.

Definition observe (instance : Z) (w : world) : obs :=
  {| o_handle := handle_of instance w;
     o_writes := dr_writes instance (trace w);
     o_reads := dr_reads instance (trace w);
     o_stops := stops instance w;
     o_acks := ack_clears instance w;
     o_done := completions instance (trace w);
     o_sr1 := sr1_reads instance (trace w) |}.

(** A bus on which a blocking write, respectively read, never has to
    wait. *)
Definition ready_for_write (hw : oracle) (instance : Z) : Prop :=
  bus_never_busy hw instance /\
  sr1_flag_always hw instance I2C_SR1_SB true /\
  sr1_flag_always hw instance I2C_SR1_ADDR true /\
  sr1_flag_always hw instance I2C_SR1_TXE true /\
  sr1_flag_always hw instance I2C_SR1_BTF true.

Definition ready_for_read (hw : oracle) (instance : Z) : Prop :=
  sr1_flag_always hw instance I2C_SR1_SB true /\
  sr1_flag_always hw instance I2C_SR1_ADDR true /\
  sr1_flag_always hw instance I2C_SR1_RXNE true.

(** The iteration budget of one wait. *)
Definition wait_budget (timeout_ms : Z) : nat :=
  Z.to_nat (u32 (timeout_ms * TIMEOUT_LOOP_COUNT)).

(** The world after [k] more reads of SR1 of [instance]. *)
Fixpoint polled_sr1 (hw : oracle) (instance : Z) (k : nat) (w : world)
  : world :=
  match k with
  | O => w
  | S j =>
      polled_sr1 hw instance j
        (log (EvRead (I2C_SR1 instance) (u32 (hw (trace w) (I2C_SR1 instance))))
           w)
  end.

(** A wait for a status flag that starts in [w] uses up a counter of [n]:
    the flag is clear in each of the [n] reads of SR1 that follow. *)
Definition wait_exhausts (hw : oracle) (instance flag : Z) (n : nat)
    (w : world) : Prop :=
  forall k,
    (k < n)%nat ->
    BIT_CHECK
      (u32 (hw (trace (polled_sr1 hw instance k w)) (I2C_SR1 instance))) flag
    = false.

(** The world in which a blocking read waits for the byte of index [i]:
    before the last byte ACK is cleared and STOP is issued. *)
Definition before_byte (instance len i : Z) (w : world) : world :=
  if i =? len - 1 then
    log (EvBitSet (I2C_CR1 instance) I2C_CR1_STOP)
      (log (EvBitClear (I2C_CR1 instance) I2C_CR1_ACK) w)
  else w.

(** The value [i2c_init] programs into CCR. *)
Definition ccr_value (speed : Z) : Z :=
  if speed <=? 100000 then SYSTEM_CLOCK_HZ / u32 (speed * 2)
  else Z.lor (SYSTEM_CLOCK_HZ / u32 (speed * 3)) 32768.

(** The value most recently written to a register, if any. *)
Fixpoint last_write (r : reg) (tr : list event) : option Z :=
  match tr with
  | [] => None
  | EvWrite r' v :: tr' => if reg_eqb r r' then Some v else last_write r tr'
  | _ :: tr' => last_write r tr'
  end.

(** The handle [i2c_init] leaves, and the handle an accepted
    [i2c_read_async] leaves. *)
Definition initialised (h : i2c_handle_t) : i2c_handle_t :=
  set_state I2C_STATE_IDLE (set_initialized true h).

Definition reading (dev_addr data len cb : Z) (h : i2c_handle_t)
  : i2c_handle_t :=
  {| state := I2C_STATE_BUSY_RX; rx_buffer := data;
     tx_buffer := tx_buffer h; buffer_len := len; buffer_idx := 0;
     dev_address := dev_addr; callback := cb;
     initialized := initialized h |}.

End I2cSpec.

(** * The command side

    The functions above use the registers of [reg] only.  The rest of
    ble_driver.c and of hal_gic.c, and the interrupt dispatcher of main.c,
    also use the registers below.  They are computations over a [system]:
    the driver state of [world], the [config] member of [g_ble_handle], and
    one history of everything done to the outside, in which what the
    functions above do appears as [XCore] entries. *)

Inductive xreg :=
| BLE_CTRL
| BLE_STATUS
| BLE_INT_EN
| BLE_TX_DATA
| BLE_TX_LEN
| BLE_ADV_CTRL
| BLE_TX_POWER
| BLE_MAC_L
| BLE_MAC_H
| GICD_CTLR
| GICD_ITARGETSR (n : Z)
| GICD_ICFGR (n : Z)
| GICC_CTLR
| GICC_PMR
| GICC_IAR
| GICC_EOIR.

Definition xreg_eqb (a b : xreg) : bool :=
  match a, b with
  | BLE_CTRL, BLE_CTRL
  | BLE_STATUS, BLE_STATUS
  | BLE_INT_EN, BLE_INT_EN
  | BLE_TX_DATA, BLE_TX_DATA
  | BLE_TX_LEN, BLE_TX_LEN
  | BLE_ADV_CTRL, BLE_ADV_CTRL
  | BLE_TX_POWER, BLE_TX_POWER
  | BLE_MAC_L, BLE_MAC_L
  | BLE_MAC_H, BLE_MAC_H
  | GICD_CTLR, GICD_CTLR
  | GICC_CTLR, GICC_CTLR
  | GICC_PMR, GICC_PMR
  | GICC_IAR, GICC_IAR
  | GICC_EOIR, GICC_EOIR => true
  | GICD_ITARGETSR n, GICD_ITARGETSR m
  | GICD_ICFGR n, GICD_ICFGR m => n =? m
  | _, _ => false
  end.

(** Bits of the BLE control and status registers. *)
Definition BLE_CTRL_ENABLE := 0.
Definition BLE_CTRL_RESET := 1.
Definition BLE_CTRL_ADV_START := 4.
Definition BLE_CTRL_SCAN_START := 5.
Definition BLE_CTRL_CONN_INIT := 6.
Definition BLE_CTRL_TX_START := 8.

Definition BLE_STATUS_READY := 0.
Definition BLE_STATUS_TX_BUSY := 4.

Definition ble_state_eqb (a b : ble_state_t) : bool :=
  match a, b with
  | BLE_STATE_OFF, BLE_STATE_OFF
  | BLE_STATE_IDLE, BLE_STATE_IDLE
  | BLE_STATE_ADVERTISING, BLE_STATE_ADVERTISING
  | BLE_STATE_SCANNING, BLE_STATE_SCANNING
  | BLE_STATE_CONNECTING, BLE_STATE_CONNECTING
  | BLE_STATE_CONNECTED, BLE_STATE_CONNECTED
  | BLE_STATE_DISCONNECTING, BLE_STATE_DISCONNECTING
  | BLE_STATE_ERROR, BLE_STATE_ERROR => true
  | _, _ => false
  end.

(** [ble_config_t]; [tx_power_dbm] is signed. *)
Record ble_config_t := {
  device_name : list Z;
  adv_interval_ms : Z;
  conn_interval_min_ms : Z;
  conn_interval_max_ms : Z;
  tx_power_dbm : Z;
  use_interrupts : bool
}.

(** What is done to the outside: an entry of the functions above, an
    access to one of the registers of [xreg], or a barrier or a change of
    the CPSR interrupt mask. *)
Inductive xevent :=
| XCore (e : event)
| XRead (r : xreg) (v : Z)
| XWrite (r : xreg) (v : Z)
| XBitSet (r : xreg) (bit : Z)
| XBitClear (r : xreg) (bit : Z)
| XISB
| XCpsie
| XCpsid.

(** The hardware, for all registers: the value a volatile read returns,
    given everything done so far (newest first). *)
Definition xoracle := list xevent -> reg + xreg -> Z.

Record system := {
  core : world;
  g_ble_config : ble_config_t;
  history : list xevent
}.

Module Sys.
Import BleData Ble.

Inductive result (A : Type) :=
| Ok (a : A) (s : system)
| Undef
| Fuel.
Arguments Ok {A} a s.
Arguments Undef {A}.
Arguments Fuel {A}.

Definition XM (A : Type) : Type := xoracle -> system -> result A.

Definition xret {A} (a : A) : XM A := fun _ s => Ok a s.

Definition xbind {A B} (m : XM A) (k : A -> XM B) : XM B :=
  fun hw s =>
    match m hw s with
    | Ok a s' => k a hw s'
    | Undef => Undef
    | Fuel => Fuel
    end.

Notation "x <~ m ;; k" := (xbind m (fun x => k))
  (at level 61, m at next level, right associativity).
Notation "m ;;~ k" := (xbind m (fun _ => k))
  (at level 61, right associativity).

Definition xout_of_fuel {A} : XM A := fun _ _ => Fuel.

Definition record (e : xevent) (s : system) : system :=
  {| core := core s; g_ble_config := g_ble_config s;
     history := e :: history s |}.

Definition xemit (e : xevent) : XM unit := fun _ s => Ok tt (record e s).

Definition xread_reg (r : xreg) : XM Z :=
  fun hw s =>
    let v := u32 (hw (history s) (inr r)) in Ok v (record (XRead r v) s).

Definition xwrite_reg (r : xreg) (v : Z) : XM unit := xemit (XWrite r v).
Definition XBIT_SET (r : xreg) (bit : Z) : XM unit := xemit (XBitSet r bit).
Definition XBIT_CLEAR (r : xreg) (bit : Z) : XM unit :=
  xemit (XBitClear r bit).
Definition ISB : XM unit := xemit XISB.

Definition put_config (c : ble_config_t) : XM unit :=
  fun _ s =>
    Ok tt {| core := core s; g_ble_config := c; history := history s |}.

(** Running one of the functions above inside a system.  It starts from
    the driver state with an empty trace and sees the hardware through the
    history; what it did is appended to the history. *)
Definition quiesce (w : world) : world :=
  {| trace := []; mem := mem w; g_i2c_handles := g_i2c_handles w;
     g_ble_handle := g_ble_handle w |}.

Definition core_oracle (hw : xoracle) (past : list xevent) : oracle :=
  fun tr r => hw (map XCore tr ++ past) (inl r).

Definition absorb (w' : world) (s : system) : system :=
  {| core := quiesce w'; g_ble_config := g_ble_config s;
     history := map XCore (trace w') ++ history s |}.

Definition lift {A} (m : M A) : XM A :=
  fun hw s =>
    match m (core_oracle hw (history s)) (quiesce (core s)) with
    | Done a w' => Ok a (absorb w' s)
    | Undefined => Undef
    | OutOfFuel => Fuel
    end.

(** [for (u32_t i = first; i < first + n; i++) body(i)]. *)
Fixpoint for_range (n : nat) (i : Z) (body : Z -> XM unit) : XM unit :=
  match n with
  | O => xret tt
  | S k => body i ;;~ for_range k (u32 (i + 1)) body
  end.

(** ** hal_gic.c, continued *)

Definition gic_init : XM status_t :=
  xwrite_reg GICD_CTLR 0 ;;~
  for_range (Z.to_nat (Gic.MAX_IRQ_NUM / 4)) 0
    (fun i => lift (write_reg (GICD_IPRIORITYR i) 4294967295)) ;;~
  for_range (Z.to_nat (Gic.MAX_IRQ_NUM / 4 - 8)) 8
    (fun i => xwrite_reg (GICD_ITARGETSR i) 16843009) ;;~
  for_range (Z.to_nat (Gic.MAX_IRQ_NUM / 16 - 2)) 2
    (fun i => xwrite_reg (GICD_ICFGR i) 0) ;;~
  xwrite_reg GICD_CTLR 1 ;;~
  xwrite_reg GICC_PMR 255 ;;~
  xwrite_reg GICC_CTLR 1 ;;~
  lift DSB ;;~
  ISB ;;~
  xret STATUS_OK.

Definition gic_acknowledge_irq : XM Z :=
  iar <~ xread_reg GICC_IAR ;;
  xret (Z.land iar 1023).

Definition gic_end_of_irq (irq_num : Z) : XM unit :=
  xwrite_reg GICC_EOIR irq_num ;;~
  lift DSB.

Definition cpu_disable_irq : XM unit := xemit XCpsid.

(** ** ble_driver.c, continued *)

Definition set_callback (cb : Z) (h : ble_handle_t) :=
  {| state := state h; callback := cb; local_addr := local_addr h;
     peer_addr := peer_addr h; event_queue := event_queue h;
     evt_queue_head := evt_queue_head h;
     evt_queue_tail := evt_queue_tail h; initialized := initialized h;
     rx_buffer := rx_buffer h; rx_len := rx_len h;
     rx_pending := rx_pending h; tx_complete := tx_complete h |}.

Definition set_local_addr (a : ble_mac_addr_t) (h : ble_handle_t) :=
  {| state := state h; callback := callback h; local_addr := a;
     peer_addr := peer_addr h; event_queue := event_queue h;
     evt_queue_head := evt_queue_head h;
     evt_queue_tail := evt_queue_tail h; initialized := initialized h;
     rx_buffer := rx_buffer h; rx_len := rx_len h;
     rx_pending := rx_pending h; tx_complete := tx_complete h |}.

Definition set_peer (a : ble_mac_addr_t) (h : ble_handle_t) :=
  {| state := state h; callback := callback h; local_addr := local_addr h;
     peer_addr := a; event_queue := event_queue h;
     evt_queue_head := evt_queue_head h;
     evt_queue_tail := evt_queue_tail h; initialized := initialized h;
     rx_buffer := rx_buffer h; rx_len := rx_len h;
     rx_pending := rx_pending h; tx_complete := tx_complete h |}.

Definition set_initialized (b : bool) (h : ble_handle_t) :=
  {| state := state h; callback := callback h; local_addr := local_addr h;
     peer_addr := peer_addr h; event_queue := event_queue h;
     evt_queue_head := evt_queue_head h;
     evt_queue_tail := evt_queue_tail h; initialized := b;
     rx_buffer := rx_buffer h; rx_len := rx_len h;
     rx_pending := rx_pending h; tx_complete := tx_complete h |}.

(** [while (!BIT_CHECK(regs->STATUS, BLE_STATUS_READY) && (timeout > 0U))
    timeout--;] returning [timeout].  STATUS is read before the budget is
    looked at. *)
Fixpoint wait_ready (fuel : nat) (timeout : Z) : XM Z :=
  match fuel with
  | O => xout_of_fuel
  | S k =>
      st <~ xread_reg BLE_STATUS ;;
      if negb (BIT_CHECK st BLE_STATUS_READY) && (timeout >? 0)
      then wait_ready k (u32 (timeout - 1))
      else xret timeout
  end.

(** [while (BIT_CHECK(regs->STATUS, BLE_STATUS_TX_BUSY) && (timeout > 0U))
    timeout--;] *)
Fixpoint wait_tx_ready (fuel : nat) (timeout : Z) : XM Z :=
  match fuel with
  | O => xout_of_fuel
  | S k =>
      st <~ xread_reg BLE_STATUS ;;
      if BIT_CHECK st BLE_STATUS_TX_BUSY && (timeout >? 0)
      then wait_tx_ready k (u32 (timeout - 1))
      else xret timeout
  end.

Definition BLE_POLL_BUDGET := 100000.

(** The bytes of the MAC address, from the two MAC registers. *)
Definition mac_bytes (mac_low mac_high : Z) : ble_mac_addr_t :=
  [u8 (Z.land mac_low 255);
   u8 (Z.land (Z.shiftr mac_low 8) 255);
   u8 (Z.land (Z.shiftr mac_low 16) 255);
   u8 (Z.land (Z.shiftr mac_low 24) 255);
   u8 (Z.land mac_high 255);
   u8 (Z.land (Z.shiftr mac_high 8) 255)].

Definition BLE_INT_EN_MASK : Z :=
  Z.lor (Z.shiftl 1 BLE_INT_CONNECTED)
    (Z.lor (Z.shiftl 1 BLE_INT_DISCONNECTED)
       (Z.lor (Z.shiftl 1 BLE_INT_RX_DONE)
          (Z.lor (Z.shiftl 1 BLE_INT_TX_DONE) (Z.shiftl 1 BLE_INT_ERROR)))).

(** [ble_init].  The delay loop between setting and clearing the reset bit
    counts a local down and touches nothing else. *)
Definition ble_init (config : option ble_config_t) (cb : Z)
  : XM status_t :=
  match config with
  | None => xret STATUS_INVALID_PARAM
  | Some cfg =>
      if IS_NULL_PTR cb then xret STATUS_INVALID_PARAM
      else
        XBIT_SET BLE_CTRL BLE_CTRL_RESET ;;~
        XBIT_CLEAR BLE_CTRL BLE_CTRL_RESET ;;~
        timeout <~ wait_ready (Z.to_nat (BLE_POLL_BUDGET + 1))
                     BLE_POLL_BUDGET ;;
        if timeout =? 0 then xret STATUS_TIMEOUT
        else
          put_config cfg ;;~
          lift (modify_ble (set_callback cb)) ;;~
          xwrite_reg BLE_TX_POWER (u32 (tx_power_dbm cfg + 20)) ;;~
          xwrite_reg BLE_ADV_CTRL
            (u32 (Z.land (adv_interval_ms cfg) 65535)) ;;~
          mac_low <~ xread_reg BLE_MAC_L ;;
          mac_high <~ xread_reg BLE_MAC_H ;;
          lift (modify_ble (set_local_addr (mac_bytes mac_low mac_high))) ;;~
          (if use_interrupts cfg then
             xwrite_reg BLE_INT_EN BLE_INT_EN_MASK ;;~
             lift (Gic.gic_set_priority IRQ_BLE 128) ;;~
             lift (Gic.gic_enable_irq IRQ_BLE) ;;~
             xret tt
           else xret tt) ;;~
          XBIT_SET BLE_CTRL BLE_CTRL_ENABLE ;;~
          lift (modify_ble (set_state BLE_STATE_IDLE)) ;;~
          lift (modify_ble (set_initialized true)) ;;~
          lift (modify_ble
                  (fun h => set_queue (event_queue h) 0 0 h)) ;;~
          xret STATUS_OK
  end.

Definition ble_deinit : XM status_t :=
  h <~ lift get_ble ;;
  if negb (initialized h) then xret STATUS_NOT_READY
  else
    xwrite_reg BLE_INT_EN 0 ;;~
    lift (Gic.gic_disable_irq IRQ_BLE) ;;~
    XBIT_CLEAR BLE_CTRL BLE_CTRL_ENABLE ;;~
    lift (modify_ble (set_state BLE_STATE_OFF)) ;;~
    lift (modify_ble (set_initialized false)) ;;~
    xret STATUS_OK.

Definition ble_start_advertising : XM status_t :=
  h <~ lift get_ble ;;
  if negb (initialized h) then xret STATUS_NOT_READY
  else if negb (ble_state_eqb (state h) BLE_STATE_IDLE)
          && negb (ble_state_eqb (state h) BLE_STATE_CONNECTED)
  then xret STATUS_BUSY
  else
    XBIT_SET BLE_CTRL BLE_CTRL_ADV_START ;;~
    lift (modify_ble (set_state BLE_STATE_ADVERTISING)) ;;~
    lift (ble_enqueue_event (set_type BLE_EVT_ADV_STARTED zero_event)) ;;~
    xret STATUS_OK.

Definition ble_stop_advertising : XM status_t :=
  h <~ lift get_ble ;;
  if negb (initialized h) then xret STATUS_NOT_READY
  else if negb (ble_state_eqb (state h) BLE_STATE_ADVERTISING)
  then xret STATUS_INVALID_PARAM
  else
    XBIT_CLEAR BLE_CTRL BLE_CTRL_ADV_START ;;~
    lift (modify_ble (set_state BLE_STATE_IDLE)) ;;~
    lift (ble_enqueue_event (set_type BLE_EVT_ADV_STOPPED zero_event)) ;;~
    xret STATUS_OK.

(** [duration_ms] is ignored. *)
Definition ble_start_scan (duration_ms : Z) : XM status_t :=
  h <~ lift get_ble ;;
  if negb (initialized h) then xret STATUS_NOT_READY
  else if negb (ble_state_eqb (state h) BLE_STATE_IDLE)
  then xret STATUS_BUSY
  else
    XBIT_SET BLE_CTRL BLE_CTRL_SCAN_START ;;~
    lift (modify_ble (set_state BLE_STATE_SCANNING)) ;;~
    xret STATUS_OK.

Definition ble_stop_scan : XM status_t :=
  h <~ lift get_ble ;;
  if negb (initialized h) then xret STATUS_NOT_READY
  else if negb (ble_state_eqb (state h) BLE_STATE_SCANNING)
  then xret STATUS_INVALID_PARAM
  else
    XBIT_CLEAR BLE_CTRL BLE_CTRL_SCAN_START ;;~
    lift (modify_ble (set_state BLE_STATE_IDLE)) ;;~
    xret STATUS_OK.

(** [ble_connect].  The word [addr_low] it builds is not used. *)
Definition ble_connect (addr : option ble_mac_addr_t) : XM status_t :=
  match addr with
  | None => xret STATUS_INVALID_PARAM
  | Some a =>
      h <~ lift get_ble ;;
      if negb (initialized h) then xret STATUS_NOT_READY
      else if negb (ble_state_eqb (state h) BLE_STATE_IDLE)
              && negb (ble_state_eqb (state h) BLE_STATE_SCANNING)
      then xret STATUS_BUSY
      else
        lift (modify_ble (set_peer a)) ;;~
        XBIT_SET BLE_CTRL BLE_CTRL_CONN_INIT ;;~
        lift (modify_ble (set_state BLE_STATE_CONNECTING)) ;;~
        xret STATUS_OK
  end.

Definition ble_disconnect : XM status_t :=
  h <~ lift get_ble ;;
  if negb (initialized h) then xret STATUS_NOT_READY
  else if negb (ble_state_eqb (state h) BLE_STATE_CONNECTED)
  then xret STATUS_INVALID_PARAM
  else
    XBIT_CLEAR BLE_CTRL BLE_CTRL_CONN_INIT ;;~
    lift (modify_ble (set_state BLE_STATE_DISCONNECTING)) ;;~
    xret STATUS_OK.

(** [for (u16_t i = 0U; i < len; i++) regs->TX_DATA = (u32_t)data[i];] *)
Fixpoint tx_fifo_loop (n : nat) (data i : Z) : XM unit :=
  match n with
  | O => xret tt
  | S k =>
      b <~ lift (load_byte (data + i)) ;;
      xwrite_reg BLE_TX_DATA b ;;~
      tx_fifo_loop k data (u16 (i + 1))
  end.

Definition ble_send_data (data len : Z) : XM status_t :=
  if IS_NULL_PTR data then xret STATUS_INVALID_PARAM
  else if len >? BLE_MAX_PAYLOAD_SIZE then xret STATUS_INVALID_PARAM
  else
    h <~ lift get_ble ;;
    if negb (initialized h) then xret STATUS_NOT_READY
    else if negb (ble_state_eqb (state h) BLE_STATE_CONNECTED)
    then xret STATUS_NOT_READY
    else
      timeout <~ wait_tx_ready (Z.to_nat (BLE_POLL_BUDGET + 1))
                   BLE_POLL_BUDGET ;;
      if timeout =? 0 then xret STATUS_TIMEOUT
      else
        xwrite_reg BLE_TX_LEN (u32 len) ;;~
        tx_fifo_loop (Z.to_nat len) data 0 ;;~
        lift (modify_ble (set_tx_complete false)) ;;~
        XBIT_SET BLE_CTRL BLE_CTRL_TX_START ;;~
        xret STATUS_OK.

Definition ble_get_state : XM ble_state_t :=
  h <~ lift get_ble ;;
  xret (state h).

(** [memcpy(addr, &g_ble_handle.local_addr, sizeof(ble_mac_addr_t))] into
    the caller's memory. *)
Fixpoint copy_out (n : nat) (src : list Z) (dst i : Z) : M unit :=
  match n with
  | O => ret tt
  | S k =>
      b <- array_get src i ;;
      store_byte (dst + i) b ;;;
      copy_out k src dst (i + 1)
  end.

Definition ble_get_mac_address (addr : Z) : XM status_t :=
  if IS_NULL_PTR addr then xret STATUS_INVALID_PARAM
  else
    h <~ lift get_ble ;;
    if negb (initialized h) then xret STATUS_NOT_READY
    else
      lift (copy_out (Z.to_nat BLE_MAC_ADDR_LEN) (local_addr h) addr 0) ;;~
      xret STATUS_OK.

(** ** main.c: the interrupt entry point.  The handlers it calls are the
    ones above; their callbacks are recorded. *)
Definition irq_handler : XM unit :=
  irq_num <~ gic_acknowledge_irq ;;
  (if irq_num =? IRQ_I2C0 then lift (I2c.i2c_irq_handler I2C_INSTANCE_0)
   else if irq_num =? IRQ_I2C1 then lift (I2c.i2c_irq_handler I2C_INSTANCE_1)
   else if irq_num =? IRQ_BLE then lift ble_irq_handler
   else xret tt) ;;~
  gic_end_of_irq irq_num.

Definition xrun {A} (m : XM A) (hw : xoracle) (s : system) : result A :=
  m hw s.

(** The power-on system. *)
Definition config_zero : ble_config_t :=
  {| device_name := repeat 0 32; adv_interval_ms := 0;
     conn_interval_min_ms := 0; conn_interval_max_ms := 0;
     tx_power_dbm := 0; use_interrupts := false |}.

Definition system_init : system :=
  {| core := world_init; g_ble_config := config_zero; history := [] |}.

End Sys.

(** ** main.c: what does not depend on a callback being run

    [g_app_ctx] is passed and returned; its [sensor_data] array is the
    memory at [sensor_data].  The two handlers are known to the drivers by
    their addresses. *)

Module App.
Import Sys.

Inductive app_state_t :=
| APP_STATE_INIT
| APP_STATE_IDLE
| APP_STATE_PROCESSING
| APP_STATE_ERROR.

Definition SENSOR_ADDR_TEMP := 72.

Record app_context_t := {
  state : app_state_t;
  ble_connected : bool;
  i2c_transfer_pending : bool;
  sensor_data_len : Z
}.

Definition sensor_data : Z := 536870912.
Definition i2c_complete_handler_ptr : Z := 134217984.

Definition g_app_ctx_init : app_context_t :=
  {| state := APP_STATE_INIT; ble_connected := false;
     i2c_transfer_pending := false; sensor_data_len := 0 |}.

Definition set_app_state (st : app_state_t) (c : app_context_t) :=
  {| state := st; ble_connected := ble_connected c;
     i2c_transfer_pending := i2c_transfer_pending c;
     sensor_data_len := sensor_data_len c |}.

Definition set_pending (b : bool) (c : app_context_t) :=
  {| state := state c; ble_connected := ble_connected c;
     i2c_transfer_pending := b; sensor_data_len := sensor_data_len c |}.

Definition set_len (n : Z) (c : app_context_t) :=
  {| state := state c; ble_connected := ble_connected c;
     i2c_transfer_pending := i2c_transfer_pending c;
     sensor_data_len := n |}.

Definition i2c_complete_handler (instance : Z) (result : status_t)
    (c : app_context_t) : app_context_t :=
  let c := set_pending false c in
  if negb (status_eqb result STATUS_OK) then set_app_state APP_STATE_ERROR c
  else c.

Definition read_sensor_data (c : app_context_t)
  : XM (status_t * app_context_t) :=
  if i2c_transfer_pending c then xret (STATUS_BUSY, c)
  else
    let c := set_pending true c in
    result <~ lift (I2c.i2c_read_async I2C_INSTANCE_0 SENSOR_ADDR_TEMP
                      sensor_data 2 i2c_complete_handler_ptr) ;;
    if status_eqb result STATUS_OK then xret (result, set_len 2 c)
    else xret (result, set_pending false c).


(** The device name is "ARM-A7-BLE". *)
Definition ble_cfg : ble_config_t :=
  {| device_name := [65; 82; 77; 45; 65; 55; 45; 66; 76; 69]
                    ++ repeat 0 22;
     adv_interval_ms := 100; conn_interval_min_ms := 20;
     conn_interval_max_ms := 40; tx_power_dbm := 0;
     use_interrupts := true |}.


End App.

(** ** Statements about systems *)

Module SysSpec.
Import BleData Ble Sys.

(** [xreturns m hw s Q]: on hardware [hw], from [s], the computation [m]
    terminates with a defined result satisfying [Q]. *)
Definition xreturns {A} (m : XM A) (hw : xoracle) (s : system)
    (Q : A -> system -> Prop) : Prop :=
  exists a s', m hw s = Ok a s' /\ Q a s'.

Definition handle (s : system) : ble_handle_t := g_ble_handle (core s).

(** The values written to, and read from, a register, oldest first. *)
Fixpoint xwrites (r : xreg) (h : list xevent) : list Z :=
  match h with
  | [] => []
  | XWrite r' v :: h' =>
      if xreg_eqb r r' then xwrites r h' ++ [v] else xwrites r h'
  | _ :: h' => xwrites r h'
  end.

Fixpoint xreads (r : xreg) (h : list xevent) : list Z :=
  match h with
  | [] => []
  | XRead r' v :: h' =>
      if xreg_eqb r r' then xreads r h' ++ [v] else xreads r h'
  | _ :: h' => xreads r h'
  end.

(** The bits of the BLE control register that were set ([true]) and
    cleared ([false]), oldest first. *)
Fixpoint ctrl_ops (h : list xevent) : list (bool * Z) :=
  match h with
  | [] => []
  | XBitSet BLE_CTRL b :: h' => ctrl_ops h' ++ [(true, b)]
  | XBitClear BLE_CTRL b :: h' => ctrl_ops h' ++ [(false, b)]
  | _ :: h' => ctrl_ops h'
  end.

(** The entries of the functions of the first part, newest first. *)
Fixpoint core_trace (h : list xevent) : list event :=
  match h with
  | [] => []
  | XCore e :: h' => e :: core_trace h'
  | _ :: h' => core_trace h'
  end.

(** [n] polls of the BLE status register, newest first, on top of a
    history. *)
Definition polled (polls : list Z) (past : list xevent) : list xevent :=
  map (XRead BLE_STATUS) polls ++ past.

(** The same system with the trace of its driver state emptied, as every
    call of a function of the first part leaves it. *)
Definition settle (s : system) : system :=
  {| core := quiesce (core s); g_ble_config := g_ble_config s;
     history := history s |}.

(** A system with its BLE handle replaced. *)
Definition with_handle (b : ble_handle_t) (s : system) : system :=
  {| core := with_ble b (core s); g_ble_config := g_ble_config s;
     history := history s |}.

(** Nothing was done to the outside and no state changed. *)
Definition unchanged (s s' : system) : Prop :=
  history s' = history s /\
  g_ble_config s' = g_ble_config s /\
  mem (core s') = mem (core s) /\
  g_i2c_handles (core s') = g_i2c_handles (core s) /\
  g_ble_handle (core s') = g_ble_handle (core s).

(** The system around a driver state, with nothing done yet. *)
Definition system_of (w : world) : system :=
  {| core := w; g_ble_config := config_zero; history := [] |}.

(** An initialised engine in a given link state, nothing queued. *)
Definition s_ble (st : ble_state_t) : system :=
  system_of
    (with_ble (set_state st (g_ble_handle BleSpec.w_ble_ready))
       BleSpec.w_ble_ready).

(** A controller that is ready and idle at every poll, with the MAC
    address 11:22:33:44:55:66; and one that reports ready only once
    [n] entries have been made. *)
Definition hw_ble_ready : xoracle :=
  fun _ r =>
    match r with
    | inr BLE_STATUS => 1
    | inr BLE_MAC_L => 1144201745
    | inr BLE_MAC_H => 26197
    | _ => 0
    end.


(** A GIC that answers [iar] to an acknowledge, and a BLE controller with
    the interrupt flags [flags]. *)
Definition hw_irq (iar flags : Z) : xoracle :=
  fun _ r =>
    match r with
    | inr GICC_IAR => iar
    | inl BLE_INT_FLAG => flags
    | _ => 0
    end.

(** Entries that read a register, and entries that write an enable-set or
    enable-clear word of the distributor. *)
Definition is_register_read (e : xevent) : bool :=
  match e with
  | XRead _ _ | XCore (EvRead _ _) => true
  | _ => false
  end.

Definition is_enable_write (e : xevent) : bool :=
  match e with
  | XCore (EvWrite (GICD_ISENABLER _) _)
  | XCore (EvWrite (GICD_ICENABLER _) _) => true
  | _ => false
  end.

(** Everything [gic_init] does, oldest first. *)
Definition gic_init_script : list xevent :=
  [XWrite GICD_CTLR 0]
  ++ map (fun i => XCore (EvWrite (GICD_IPRIORITYR (Z.of_nat i)) 4294967295))
       (seq 0 64)
  ++ map (fun i => XWrite (GICD_ITARGETSR (Z.of_nat i)) 16843009) (seq 8 56)
  ++ map (fun i => XWrite (GICD_ICFGR (Z.of_nat i)) 0) (seq 2 14)
  ++ [XWrite GICD_CTLR 1; XWrite GICC_PMR 255; XWrite GICC_CTLR 1;
      XCore EvDSB; XISB].

(** A controller that raises CONNECTED after the connection bit is set
    and DISCONNECTED after it is cleared. *)
Definition hw_link : xoracle :=
  fun h r =>
    match r, h with
    | inl BLE_INT_FLAG, XBitSet BLE_CTRL b :: _ =>
        if b =? BLE_CTRL_CONN_INIT then Z.shiftl 1 BLE_INT_CONNECTED else 0
    | inl BLE_INT_FLAG, XBitClear BLE_CTRL b :: _ =>
        if b =? BLE_CTRL_CONN_INIT then Z.shiftl 1 BLE_INT_DISCONNECTED
        else 0
    | _, _ => 0
    end.

(** The configuration main.c passes to [ble_init], and the address of its
    event handler. *)
Definition app_config : ble_config_t := App.ble_cfg.

(** A call that is refused: it returns [r] and changes nothing. *)
Definition refuses {A} (m : XM A) (hw : xoracle) (s : system) (r : A)
  : Prop :=
  xreturns m hw s (fun a s' => a = r /\ unchanged s s').

(** No state changed; the history may have grown. *)
Definition same_state (s s' : system) : Prop :=
  g_ble_config s' = g_ble_config s /\
  mem (core s') = mem (core s) /\
  g_i2c_handles (core s') = g_i2c_handles (core s) /\
  g_ble_handle (core s') = g_ble_handle (core s).

(** Only the BLE handle and the history may differ. *)
Definition only_ble (s s' : system) : Prop :=
  g_ble_config s' = g_ble_config s /\
  mem (core s') = mem (core s) /\
  g_i2c_handles (core s') = g_i2c_handles (core s).



(** A controller that never reports ready. *)
Definition hw_ble_dead : xoracle := fun _ _ => 0.

End SysSpec.

(** * Reasoning about computations *)

(** [returns m hw w Q]: on hardware [hw], from [w], the computation [m]
    terminates with a defined result satisfying [Q]. *)
Definition returns {A} (m : M A) (hw : oracle) (w : world)
    (Q : A -> world -> Prop) : Prop :=
  exists a w', m hw w = Done a w' /\ Q a w'.

Lemma returns_ret {A} (a : A) hw w (Q : A -> world -> Prop) :
  Q a w -> returns (ret a) hw w Q.
Proof. intros HQ. exists a, w. split; [reflexivity | exact HQ]. Qed.

Lemma returns_bind {A B} (m : M A) (k : A -> M B) hw w
    (Q : B -> world -> Prop) :
  returns m hw w (fun a w1 => returns (k a) hw w1 Q) ->
  returns (bind m k) hw w Q.
Proof.
  intros (a & w1 & Hm & b & w2 & Hk & HQ).
  exists b, w2. split; [| exact HQ].
  unfold bind. rewrite Hm. exact Hk.
Qed.

Lemma returns_weaken {A} (m : M A) hw w (P Q : A -> world -> Prop) :
  returns m hw w P -> (forall a w', P a w' -> Q a w') -> returns m hw w Q.
Proof.
  intros (a & w' & Hm & HP) HPQ. exists a, w'. split; auto.
Qed.

Lemma returns_emit e hw w (Q : unit -> world -> Prop) :
  Q tt (log e w) -> returns (emit e) hw w Q.
Proof. intros HQ. exists tt, (log e w). split; [reflexivity | exact HQ]. Qed.

Lemma returns_read_reg r hw w (Q : Z -> world -> Prop) :
  (forall v, 0 <= v < 2 ^ 32 -> Q v (log (EvRead r v) w)) ->
  returns (read_reg r) hw w Q.
Proof.
  intros HQ. unfold read_reg. eexists _, _. split; [reflexivity |].
  apply HQ. unfold u32. apply Z.mod_pos_bound. reflexivity.
Qed.

Lemma u32_small z : 0 <= z < 2 ^ 32 -> u32 z = z.
Proof. intros H. unfold u32. apply Z.mod_small. exact H. Qed.

Lemma list_set_length {A} (l : list A) n x :
  length (list_set l n x) = length l.
Proof.
  revert n. induction l as [| y t IH]; intros [| k]; simpl; auto.
Qed.

Lemma nth_list_set_same {A} (l : list A) n x d :
  (n < length l)%nat -> nth n (list_set l n x) d = x.
Proof.
  revert n. induction l as [| y t IH]; intros [| k] Hn; simpl in *;
    try lia; auto. apply IH. lia.
Qed.

Lemma nth_list_set_other {A} (l : list A) n m x d :
  n <> m -> nth m (list_set l n x) d = nth m l d.
Proof.
  revert n m. induction l as [| y t IH]; intros [| k] [| j] Hne; simpl;
    try congruence; auto.
Qed.

Lemma nth_error_list_set_same {A} (l : list A) n x :
  (n < length l)%nat -> nth_error (list_set l n x) n = Some x.
Proof.
  revert n. induction l as [| y t IH]; intros [| k] Hn; simpl in *;
    try lia; auto. apply IH. lia.
Qed.

Lemma nth_error_list_set_other {A} (l : list A) n m x :
  n <> m -> nth_error (list_set l n x) m = nth_error l m.
Proof.
  revert n m. induction l as [| y t IH]; intros [| k] [| j] Hne; simpl;
    try congruence; auto.
Qed.

(** * hal_gic.c: enabling and disabling a line *)

Section GicFacts.
Import Gic.

Lemma line_split (l irq : Z) :
  (l / 32 =? irq / 32) && (l mod 32 =? irq mod 32) = (l =? irq).
Proof.
  destruct (Z.eqb_spec l irq) as [-> | Hne].
  - rewrite !Z.eqb_refl. reflexivity.
  - apply andb_false_iff.
    destruct (Z.eqb_spec (l / 32) (irq / 32)) as [Hd |]; [| now left].
    right. apply Z.eqb_neq. intros Hm. apply Hne.
    rewrite (Z.div_mod l 32), (Z.div_mod irq 32) by lia. congruence.
Qed.

Lemma one_hot_bit (p b : Z) :
  0 <= p < 32 -> 0 <= b ->
  Z.testbit (u32 (Z.shiftl 1 p)) b = (b =? p).
Proof.
  intros Hp Hb. rewrite Z.shiftl_1_l.
  rewrite u32_small.
  - destruct (Z.eqb_spec b p) as [-> | Hne].
    + apply Z.pow2_bits_true. lia.
    + apply Z.pow2_bits_false. congruence.
  - split; [apply Z.pow_nonneg; lia |].
    apply Z.pow_lt_mono_r; lia.
Qed.

Lemma enabled_after_write_set init tr irq l :
  0 <= irq ->
  line_enabled init
    (EvDSB :: EvWrite (GICD_ISENABLER (irq / 32))
                (u32 (Z.shiftl 1 (irq mod 32))) :: tr) l
  = if l =? irq then true else line_enabled init tr l.
Proof.
  intros Hirq. simpl.
  pose proof (Z.mod_pos_bound irq 32 eq_refl).
  pose proof (Z.mod_pos_bound l 32 eq_refl).
  rewrite one_hot_bit by lia.
  rewrite line_split. reflexivity.
Qed.

Lemma enabled_after_write_clear init tr irq l :
  0 <= irq ->
  line_enabled init
    (EvDSB :: EvWrite (GICD_ICENABLER (irq / 32))
                (u32 (Z.shiftl 1 (irq mod 32))) :: tr) l
  = if l =? irq then false else line_enabled init tr l.
Proof.
  intros Hirq. simpl.
  pose proof (Z.mod_pos_bound irq 32 eq_refl).
  pose proof (Z.mod_pos_bound l 32 eq_refl).
  rewrite one_hot_bit by lia.
  rewrite line_split. reflexivity.
Qed.

End GicFacts.

(** C7.  [gic_enable_irq] and [gic_disable_irq] return
    [STATUS_INVALID_PARAM] for a line number of 256 or more and touch no
    register.  For a line below 256 they return [STATUS_OK] after exactly
    two actions: one write, to word [irq_num / 32] of the set-enable
    (respectively clear-enable) registers, of the word whose only 1 bit is
    bit [irq_num mod 32], and then a DSB barrier.  In the distributor this
    enables (respectively disables) line [irq_num] and no other line. *)
Theorem C7_gic_enable_disable_irq (hw : oracle) (w : world) (irq_num : Z) :
  0 <= irq_num < 2 ^ 32 ->
  (256 <= irq_num ->
     run (Gic.gic_enable_irq irq_num) hw w = Done STATUS_INVALID_PARAM w /\
     run (Gic.gic_disable_irq irq_num) hw w = Done STATUS_INVALID_PARAM w) /\
  (irq_num < 256 ->
     let word := 2 ^ (irq_num mod 32) in
     let w_en :=
       log EvDSB (log (EvWrite (GICD_ISENABLER (irq_num / 32)) word) w) in
     let w_dis :=
       log EvDSB (log (EvWrite (GICD_ICENABLER (irq_num / 32)) word) w) in
     (forall b, 0 <= b -> Z.testbit word b = (b =? irq_num mod 32)) /\
     run (Gic.gic_enable_irq irq_num) hw w = Done STATUS_OK w_en /\
     run (Gic.gic_disable_irq irq_num) hw w = Done STATUS_OK w_dis /\
     (forall init l,
        Gic.line_enabled init (trace w_en) l
        = (if l =? irq_num then true else Gic.line_enabled init (trace w) l)) /\
     (forall init l,
        Gic.line_enabled init (trace w_dis) l
        = (if l =? irq_num then false else Gic.line_enabled init (trace w) l))).
Proof.
  intros Hrange. split.
  - intros Hbig. unfold run, Gic.gic_enable_irq, Gic.gic_disable_irq.
    replace (irq_num >=? Gic.MAX_IRQ_NUM) with true
      by (symmetry; apply Z.geb_le; unfold Gic.MAX_IRQ_NUM; lia).
    split; reflexivity.
  - intros Hsmall.
    pose proof (Z.mod_pos_bound irq_num 32 eq_refl) as Hm.
    assert (Hword : u32 (Z.shiftl 1 (irq_num mod 32)) = 2 ^ (irq_num mod 32)).
    { rewrite Z.shiftl_1_l. apply u32_small. split.
      - apply Z.pow_nonneg. lia.
      - apply Z.pow_lt_mono_r; lia. }
    assert (Hlt : (irq_num >=? Gic.MAX_IRQ_NUM) = false).
    { unfold Gic.MAX_IRQ_NUM. destruct (Z.geb_spec irq_num 256); [lia | reflexivity]. }
    cbv zeta. repeat split.
    + intros b Hb. rewrite <- Hword. apply one_hot_bit; lia.
    + unfold run, Gic.gic_enable_irq. rewrite Hlt. cbv zeta.
      unfold Gic.IRQS_PER_REGISTER. rewrite Hword. reflexivity.
    + unfold run, Gic.gic_disable_irq. rewrite Hlt. cbv zeta.
      unfold Gic.IRQS_PER_REGISTER. rewrite Hword. reflexivity.
    + intros init l. rewrite <- Hword. cbn [trace log].
      apply enabled_after_write_set. lia.
    + intros init l. rewrite <- Hword. cbn [trace log].
      apply enabled_after_write_clear. lia.
Qed.

Lemma C7_gic_enable_disable_irq_witness :
  0 <= IRQ_BLE < 2 ^ 32 /\
  run (Gic.gic_enable_irq IRQ_BLE) (fun _ _ => 0) world_init
  = Done STATUS_OK
      (log EvDSB (log (EvWrite (GICD_ISENABLER 1) 65536) world_init)).
Proof.
  assert (H : 0 <= IRQ_BLE < 2 ^ 32) by (unfold IRQ_BLE; lia).
  split; [exact H |].
  exact (proj1 (proj2 (proj2 (C7_gic_enable_disable_irq
                                (fun _ _ => 0) world_init IRQ_BLE H)
                               ltac:(unfold IRQ_BLE; lia)))).
Defined.

(** * i2c_driver.c *)

Section I2cFacts.
Import I2cData I2c.

Lemma returns_get_i2c instance hw w (Q : i2c_handle_t -> world -> Prop) :
  wf_i2c w -> 0 <= instance < I2C_INSTANCE_MAX ->
  Q (handle_of instance w) w ->
  returns (get_i2c instance) hw w Q.
Proof.
  unfold wf_i2c, I2C_INSTANCE_MAX. intros Hwf Hi HQ.
  unfold returns, get_i2c, array_get, handle_of in *.
  destruct (Z.ltb_spec instance 0); [lia |].
  destruct (nth_error (g_i2c_handles w) (Z.to_nat instance)) eqn:E.
  - exists i, w. split; [reflexivity |].
    erewrite nth_error_nth in HQ; eauto.
  - apply nth_error_None in E. lia.
Qed.

Lemma returns_put_i2c instance h hw w (Q : unit -> world -> Prop) :
  wf_i2c w -> 0 <= instance < I2C_INSTANCE_MAX ->
  Q tt (with_i2c (list_set (g_i2c_handles w) (Z.to_nat instance) h) w) ->
  returns (put_i2c instance h) hw w Q.
Proof.
  unfold wf_i2c, I2C_INSTANCE_MAX. intros Hwf Hi HQ.
  unfold returns, put_i2c, array_set.
  destruct (Z.leb_spec 0 instance); [| lia].
  destruct (Z.ltb_spec instance (Z.of_nat (length (g_i2c_handles w))));
    [| lia].
  cbn [andb]. eexists _, _. split; [reflexivity | exact HQ].
Qed.

Lemma returns_modify_i2c instance f hw w (Q : unit -> world -> Prop) :
  wf_i2c w -> 0 <= instance < I2C_INSTANCE_MAX ->
  Q tt (with_i2c (list_set (g_i2c_handles w) (Z.to_nat instance)
                    (f (handle_of instance w))) w) ->
  returns (modify_i2c instance f) hw w Q.
Proof.
  intros Hwf Hi HQ. unfold modify_i2c. apply returns_bind.
  apply returns_get_i2c; auto. apply returns_put_i2c; auto.
Qed.

Lemma handle_of_with_i2c instance h w :
  wf_i2c w -> 0 <= instance < I2C_INSTANCE_MAX ->
  handle_of instance
    (with_i2c (list_set (g_i2c_handles w) (Z.to_nat instance) h) w) = h.
Proof.
  unfold wf_i2c, I2C_INSTANCE_MAX, handle_of. intros Hwf Hi. cbn.
  apply nth_list_set_same. lia.
Qed.

Lemma wf_i2c_with_i2c n h w :
  wf_i2c w -> wf_i2c (with_i2c (list_set (g_i2c_handles w) n h) w).
Proof. unfold wf_i2c. cbn. rewrite list_set_length. auto. Qed.

Lemma wf_i2c_log e w : wf_i2c w -> wf_i2c (log e w).
Proof. auto. Qed.

End I2cFacts.

(** C10.  For instance 0 or 1, [i2c_deinit] returns [STATUS_OK] and leaves
    the instance uninitialised in state Idle, whatever its state and
    [initialized] flag were before; in particular it never returns
    [STATUS_NOT_READY] or [STATUS_BUSY].  The reset is a store into the
    handle table: the table keeps its two entries, the entry of the
    instance is the old one with [initialized] cleared and the state set to
    Idle (buffers, length, index, address and callback are kept), the entry
    of the other instance, the memory and the BLE handle are unchanged, and
    what is done to the hardware is exactly: clear PE, write the one-hot bit
    of the instance's interrupt to the clear-enable register, barrier. *)
Theorem C10_i2c_deinit_unconditional (hw : oracle) (w : world) (instance : Z) :
  wf_i2c w ->
  instance = I2C_INSTANCE_0 \/ instance = I2C_INSTANCE_1 ->
  exists w',
    run (I2c.i2c_deinit instance) hw w = Done STATUS_OK w' /\
    I2cData.state (I2c.handle_of instance w') = I2C_STATE_IDLE /\
    I2cData.initialized (I2c.handle_of instance w') = false /\
    wf_i2c w' /\
    nth_error (g_i2c_handles w') (Z.to_nat instance)
    = Some (I2cData.set_state I2C_STATE_IDLE
              (I2cData.set_initialized false (I2c.handle_of instance w))) /\
    (forall other, other <> Z.to_nat instance ->
       nth_error (g_i2c_handles w') other
       = nth_error (g_i2c_handles w) other) /\
    mem w' = mem w /\
    g_ble_handle w' = g_ble_handle w /\
    trace w'
    = EvDSB
      :: EvWrite (GICD_ICENABLER 0)
           (Z.shiftl 1 (if instance =? I2C_INSTANCE_0 then IRQ_I2C0
                        else IRQ_I2C1))
      :: EvBitClear (I2C_CR1 instance) I2C_CR1_PE :: trace w.
Proof.
  intros Hwf Hinst.
  assert (Hi : 0 <= instance < I2C_INSTANCE_MAX)
    by (unfold I2C_INSTANCE_0, I2C_INSTANCE_1, I2C_INSTANCE_MAX in *; lia).
  assert (Hn : (Z.to_nat instance < length (g_i2c_handles w))%nat)
    by (unfold wf_i2c, I2C_INSTANCE_MAX in *; lia).
  set (irq := if instance =? I2C_INSTANCE_0 then IRQ_I2C0 else IRQ_I2C1).
  assert (Hirq : irq = IRQ_I2C0 \/ irq = IRQ_I2C1)
    by (unfold irq; destruct (instance =? I2C_INSTANCE_0); auto).
  assert (R : returns (I2c.i2c_deinit instance) hw w
                (fun r w' =>
                   r = STATUS_OK /\
                   w' = with_i2c
                          (list_set (g_i2c_handles w) (Z.to_nat instance)
                             (I2cData.set_state I2C_STATE_IDLE
                                (I2cData.set_initialized false
                                   (I2c.handle_of instance w))))
                          (log EvDSB
                             (log (EvWrite (GICD_ICENABLER 0)
                                     (Z.shiftl 1 irq))
                                (log (EvBitClear (I2C_CR1 instance)
                                        I2C_CR1_PE) w))))).
  { unfold I2c.i2c_deinit.
    replace (instance >=? I2C_INSTANCE_MAX) with false
      by (symmetry; destruct (Z.geb_spec instance I2C_INSTANCE_MAX);
          [lia | reflexivity]).
    apply returns_bind. apply returns_emit.
    apply returns_bind. fold irq. unfold Gic.gic_disable_irq.
    replace (irq >=? Gic.MAX_IRQ_NUM) with false
      by (destruct Hirq as [-> | ->]; reflexivity).
    cbv zeta.
    replace (GICD_ICENABLER (irq / Gic.IRQS_PER_REGISTER))
      with (GICD_ICENABLER 0) by (destruct Hirq as [-> | ->]; reflexivity).
    replace (u32 (Z.shiftl 1 (irq mod Gic.IRQS_PER_REGISTER)))
      with (Z.shiftl 1 irq) by (destruct Hirq as [-> | ->]; reflexivity).
    apply returns_bind. apply returns_emit.
    apply returns_bind. apply returns_emit.
    apply returns_ret.
    apply returns_bind. apply returns_modify_i2c; [exact Hwf | exact Hi |].
    apply returns_ret. split; reflexivity. }
  destruct R as (r & w' & Hrun & -> & ->).
  eexists. split; [exact Hrun |].
  match goal with
  | |- context [I2c.handle_of instance (with_i2c ?l ?v)] =>
      assert (Hh : I2c.handle_of instance (with_i2c l v)
                   = I2cData.set_state I2C_STATE_IDLE
                       (I2cData.set_initialized false
                          (I2c.handle_of instance w)))
        by (unfold I2c.handle_of at 1; cbn [g_i2c_handles with_i2c];
            apply nth_list_set_same; exact Hn);
      rewrite !Hh
  end.
  cbn [g_i2c_handles mem g_ble_handle trace with_i2c log].
  split; [reflexivity |]. split; [reflexivity |].
  split; [unfold wf_i2c; cbn; rewrite list_set_length; exact Hwf |].
  split; [apply nth_error_list_set_same; exact Hn |].
  split; [| repeat split].
  intros other Hother. apply nth_error_list_set_other. congruence.
Qed.

Lemma C10_i2c_deinit_unconditional_witness :
  let w := Sim.w_reading Sim.hw_ready in
  I2cData.state (I2c.handle_of I2C_INSTANCE_0 w) = I2C_STATE_BUSY_RX /\
  I2cData.initialized (I2c.handle_of I2C_INSTANCE_0 w) = true /\
  exists w',
    run (I2c.i2c_deinit I2C_INSTANCE_0) Sim.hw_ready w = Done STATUS_OK w' /\
    I2cData.state (I2c.handle_of I2C_INSTANCE_0 w') = I2C_STATE_IDLE /\
    I2cData.initialized (I2c.handle_of I2C_INSTANCE_0 w') = false /\
    length (g_i2c_handles w') = 2%nat /\
    I2cData.buffer_len (I2c.handle_of I2C_INSTANCE_0 w') = 2.
Proof.
  intros w. split; [reflexivity |]. split; [reflexivity |].
  destruct (C10_i2c_deinit_unconditional Sim.hw_ready w I2C_INSTANCE_0)
    as (w' & E & Hs & Hi & Hwf & Hnth & _).
  - reflexivity.
  - left. reflexivity.
  - exists w'. split; [exact E |]. split; [exact Hs |]. split; [exact Hi |].
    split; [exact Hwf |].
    unfold I2c.handle_of. erewrite nth_error_nth by exact Hnth. reflexivity.
Defined.


(** ** Requests while a transfer is in flight *)

Section I2cBusy.
Import I2cData I2c.

(** The asynchronous calls do check the state: on an initialised instance
    that is not Idle they return [STATUS_BUSY] and change nothing. *)
Lemma async_rejected_when_not_idle hw w instance dev_addr data len cb :
  wf_i2c w -> 0 <= instance < I2C_INSTANCE_MAX ->
  data <> 0 -> cb <> 0 ->
  initialized (handle_of instance w) = true ->
  state (handle_of instance w) <> I2C_STATE_IDLE ->
  run (i2c_write_async instance dev_addr data len cb) hw w
  = Done STATUS_BUSY w /\
  run (i2c_read_async instance dev_addr data len cb) hw w
  = Done STATUS_BUSY w.
Proof.
  intros Hwf Hi Hd Hcb Hinit Hst.
  unfold run, i2c_write_async, i2c_read_async, IS_NULL_PTR.
  apply Z.eqb_neq in Hd, Hcb. rewrite Hd, Hcb. cbn [orb].
  replace (instance >=? I2C_INSTANCE_MAX) with false
    by (symmetry; destruct (Z.geb_spec instance I2C_INSTANCE_MAX);
        [lia | reflexivity]).
  assert (G : get_i2c instance hw w = Done (handle_of instance w) w).
  { destruct (returns_get_i2c instance hw w
                (fun h w' => h = handle_of instance w /\ w' = w) Hwf Hi)
      as (h & w' & E & -> & ->); auto. }
  unfold bind. rewrite G, Hinit. cbn [negb].
  destruct (state (handle_of instance w)); try congruence; split; reflexivity.
Qed.

(** The three tests the asynchronous calls share with the blocking ones:
    a null buffer (or, for the asynchronous calls, a null callback) and an
    out-of-range instance give [STATUS_INVALID_PARAM], an uninitialised
    instance gives [STATUS_NOT_READY], and nothing is changed. *)
Lemma async_validation_rejects hw w instance dev_addr data len cb :
  let wr := run (i2c_write_async instance dev_addr data len cb) hw w in
  let rd := run (i2c_read_async instance dev_addr data len cb) hw w in
  (data = 0 \/ cb = 0 ->
   wr = Done STATUS_INVALID_PARAM w /\ rd = Done STATUS_INVALID_PARAM w) /\
  (I2C_INSTANCE_MAX <= instance ->
   wr = Done STATUS_INVALID_PARAM w /\ rd = Done STATUS_INVALID_PARAM w) /\
  (data <> 0 -> cb <> 0 ->
   wf_i2c w -> 0 <= instance < I2C_INSTANCE_MAX ->
   initialized (handle_of instance w) = false ->
   wr = Done STATUS_NOT_READY w /\ rd = Done STATUS_NOT_READY w).
Proof.
  cbv zeta. unfold run, i2c_write_async, i2c_read_async, IS_NULL_PTR.
  split; [| split].
  - intros [-> | ->]; cbn [Z.eqb orb]; [| rewrite orb_true_r]; auto.
  - intros Hi.
    replace (instance >=? I2C_INSTANCE_MAX) with true
      by (symmetry; apply Z.geb_le; lia).
    destruct ((data =? 0) || (cb =? 0)); auto.
  - intros Hd Hcb Hwf Hi Hinit.
    apply Z.eqb_neq in Hd, Hcb. rewrite Hd, Hcb. cbn [orb].
    replace (instance >=? I2C_INSTANCE_MAX) with false
      by (symmetry; destruct (Z.geb_spec instance I2C_INSTANCE_MAX);
          [lia | reflexivity]).
    assert (G : get_i2c instance hw w = Done (handle_of instance w) w).
    { destruct (returns_get_i2c instance hw w
                  (fun h w' => h = handle_of instance w /\ w' = w) Hwf Hi)
        as (h & w' & E & -> & ->); auto. }
    unfold bind. rewrite G, Hinit. auto.
Qed.

Lemma blocking_validation_rejects hw w instance dev_addr data len timeout_ms :
  let wr := run (i2c_write_blocking instance dev_addr data len timeout_ms) hw w in
  let rd := run (i2c_read_blocking instance dev_addr data len timeout_ms) hw w in
  (data = 0 ->
   wr = Done STATUS_INVALID_PARAM w /\ rd = Done STATUS_INVALID_PARAM w) /\
  (I2C_INSTANCE_MAX <= instance ->
   wr = Done STATUS_INVALID_PARAM w /\ rd = Done STATUS_INVALID_PARAM w) /\
  (data <> 0 -> wf_i2c w -> 0 <= instance < I2C_INSTANCE_MAX ->
   initialized (handle_of instance w) = false ->
   wr = Done STATUS_NOT_READY w /\ rd = Done STATUS_NOT_READY w) /\
  (data <> 0 -> wf_i2c w -> 0 <= instance < I2C_INSTANCE_MAX ->
   initialized (handle_of instance w) = true -> len = 0 ->
   wr = Done STATUS_INVALID_PARAM w /\ rd = Done STATUS_INVALID_PARAM w).
Proof.
  cbv zeta. unfold run, i2c_write_blocking, i2c_read_blocking, IS_NULL_PTR.
  assert (G : wf_i2c w -> 0 <= instance < I2C_INSTANCE_MAX ->
              get_i2c instance hw w = Done (handle_of instance w) w).
  { intros Hwf Hi.
    destruct (returns_get_i2c instance hw w
                (fun h w' => h = handle_of instance w /\ w' = w) Hwf Hi)
      as (h & w' & E & -> & ->); auto. }
  assert (R : 0 <= instance < I2C_INSTANCE_MAX ->
              (instance >=? I2C_INSTANCE_MAX) = false).
  { intros Hi. destruct (Z.geb_spec instance I2C_INSTANCE_MAX);
      [lia | reflexivity]. }
  split; [| split; [| split]].
  - intros ->. cbn [Z.eqb]. auto.
  - intros Hi.
    replace (instance >=? I2C_INSTANCE_MAX) with true
      by (symmetry; apply Z.geb_le; lia).
    destruct (data =? 0); auto.
  - intros Hd Hwf Hi Hinit. apply Z.eqb_neq in Hd. rewrite Hd, R by auto.
    unfold bind. rewrite G, Hinit by auto. auto.
  - intros Hd Hwf Hi Hinit ->. apply Z.eqb_neq in Hd. rewrite Hd, R by auto.
    unfold bind. rewrite G, Hinit by auto. auto.
Qed.

End I2cBusy.

(** C1.  The blocking calls have no state check.  With an asynchronous
    two-byte read in flight on instance 0 (state BusyRx),
    [i2c_write_blocking] on a ready bus does not return [STATUS_BUSY]: it
    runs the whole transfer, returns [STATUS_OK] and leaves the instance
    Idle.  [i2c_read_blocking] does the same to an asynchronous write in
    flight (state BusyTx). *)
Theorem C1_blocking_calls_ignore_busy_state :
  let w_rx := Sim.w_reading Sim.hw_ready in
  let w_tx := Sim.w_writing Sim.hw_ready in
  let o_wr :=
    run (I2c.i2c_write_blocking I2C_INSTANCE_0 80 Sim.buf2 1 1)
      Sim.hw_ready w_rx in
  let o_rd :=
    run (I2c.i2c_read_blocking I2C_INSTANCE_0 80 Sim.buf2 1 1)
      Sim.hw_ready w_tx in
  I2cData.initialized (I2c.handle_of 0 w_rx) = true /\
  I2cData.state (I2c.handle_of 0 w_rx) = I2C_STATE_BUSY_RX /\
  Sim.result_of o_wr = Some STATUS_OK /\
  I2cData.state (I2c.handle_of 0 (Sim.world_of o_wr)) = I2C_STATE_IDLE /\
  I2cData.initialized (I2c.handle_of 0 w_tx) = true /\
  I2cData.state (I2c.handle_of 0 w_tx) = I2C_STATE_BUSY_TX /\
  Sim.result_of o_rd = Some STATUS_OK /\
  I2cData.state (I2c.handle_of 0 (Sim.world_of o_rd)) = I2C_STATE_IDLE.
Proof. vm_compute. repeat split. Qed.

(** C2.  An asynchronous read of one byte never issues STOP.  After the
    three interrupts of the transfer (start sent, address acknowledged,
    receiver not empty) the byte is stored, the instance is Idle and the
    callback has been called with [STATUS_OK]; ACK was cleared once (in the
    address branch) and STOP was issued zero times.  The same read of two
    bytes, and the blocking read of one byte, issue one ACK-clear and one
    STOP. *)
Theorem C2_async_read_of_one_byte_issues_no_stop :
  let w0 := Sim.w_initialised Sim.hw_ready in
  let o1 :=
    run (Sim.async_read 1 3) (Sim.hw_script (Sim.rx_script 1)) w0 in
  let o2 :=
    run (Sim.async_read 2 4) (Sim.hw_script (Sim.rx_script 2)) w0 in
  let ob :=
    run (I2c.i2c_read_blocking I2C_INSTANCE_0 72 Sim.buf 1 1) Sim.hw_ready w0 in
  (Sim.result_of o1 = Some STATUS_OK /\
   I2cData.state (I2c.handle_of 0 (Sim.world_of o1)) = I2C_STATE_IDLE /\
   I2cData.buffer_idx (I2c.handle_of 0 (Sim.world_of o1)) = 1 /\
   mem (Sim.world_of o1) Sim.buf = 171 /\
   hd EvDSB (trace (Sim.world_of o1)) = EvI2cCallback Sim.handler 0 STATUS_OK /\
   I2c.ack_clears 0 (Sim.world_of o1) = 1%nat /\
   I2c.stops 0 (Sim.world_of o1) = 0%nat) /\
  (Sim.result_of o2 = Some STATUS_OK /\
   I2cData.state (I2c.handle_of 0 (Sim.world_of o2)) = I2C_STATE_IDLE /\
   I2c.ack_clears 0 (Sim.world_of o2) = 1%nat /\
   I2c.stops 0 (Sim.world_of o2) = 1%nat) /\
  (Sim.result_of ob = Some STATUS_OK /\
   I2c.ack_clears 0 (Sim.world_of ob) = 1%nat /\
   I2c.stops 0 (Sim.world_of ob) = 1%nat).
Proof. vm_compute. repeat split. Qed.

(** C5.  The asynchronous calls do not check the length.  On an
    initialised, Idle instance, with a valid buffer and callback and
    [len = 0], [i2c_write_async] and [i2c_read_async] return [STATUS_OK],
    put the instance in BusyTx / BusyRx and issue START, where the blocking
    calls return [STATUS_INVALID_PARAM] and change nothing.  The zero-length
    read then stores the first received byte at [data[0]]. *)
Theorem C5_async_calls_accept_zero_length :
  let w0 := Sim.w_initialised Sim.hw_ready in
  let o_wa :=
    run (I2c.i2c_write_async I2C_INSTANCE_0 72 Sim.buf 0 Sim.handler)
      Sim.hw_ready w0 in
  let o_ra :=
    run (I2c.i2c_read_async I2C_INSTANCE_0 72 Sim.buf 0 Sim.handler)
      Sim.hw_ready w0 in
  let o_irq :=
    run (Sim.async_read 0 3) (Sim.hw_script (Sim.rx_script 1)) w0 in
  (run (I2c.i2c_write_blocking I2C_INSTANCE_0 72 Sim.buf 0 1) Sim.hw_ready w0
   = Done STATUS_INVALID_PARAM w0 /\
   run (I2c.i2c_read_blocking I2C_INSTANCE_0 72 Sim.buf 0 1) Sim.hw_ready w0
   = Done STATUS_INVALID_PARAM w0) /\
  (Sim.result_of o_wa = Some STATUS_OK /\
   I2cData.state (I2c.handle_of 0 (Sim.world_of o_wa)) = I2C_STATE_BUSY_TX /\
   I2c.starts 0 (Sim.world_of o_wa) = S (I2c.starts 0 w0)) /\
  (Sim.result_of o_ra = Some STATUS_OK /\
   I2cData.state (I2c.handle_of 0 (Sim.world_of o_ra)) = I2C_STATE_BUSY_RX /\
   I2c.starts 0 (Sim.world_of o_ra) = S (I2c.starts 0 w0)) /\
  (mem w0 Sim.buf = 0 /\ mem (Sim.world_of o_irq) Sim.buf = 171).
Proof. vm_compute. repeat split. Qed.

(** ** Blocking transfers: result, STOP and final state *)

Section I2cBlocking.
Import I2cData I2c.

Variable hw : oracle.
Variable instance : Z.

Lemma stops_log e w :
  stops instance (log e w)
  = ((if is_stop instance e then 1 else 0) + stops instance w)%nat.
Proof.
  unfold stops, count_events. cbn [trace log filter].
  destruct (is_stop instance e); reflexivity.
Qed.

Lemma ack_clears_log e w :
  ack_clears instance (log e w)
  = ((if is_ack_clear instance e then 1 else 0) + ack_clears instance w)%nat.
Proof.
  unfold ack_clears, count_events. cbn [trace log filter].
  destruct (is_ack_clear instance e); reflexivity.
Qed.

Lemma quiet_refl w : quiet instance w w.
Proof. repeat split. Qed.

Lemma quiet_trans w1 w2 w3 :
  quiet instance w1 w2 -> quiet instance w2 w3 -> quiet instance w1 w3.
Proof. intros (A & B & C) (D & E & F). repeat split; congruence. Qed.

Lemma quiet_log e w w' :
  is_stop instance e || is_ack_clear instance e = false ->
  quiet instance w w' ->
  quiet instance w (log e w').
Proof.
  intros He (A & B & C). apply orb_false_iff in He. destruct He as [Hs Ha].
  split; [exact A |]. split.
  - rewrite stops_log, Hs. exact B.
  - rewrite ack_clears_log, Ha. exact C.
Qed.

Lemma quiet_wf w w' : quiet instance w w' -> wf_i2c w -> wf_i2c w'.
Proof. intros (A & _). unfold wf_i2c. rewrite A. auto. Qed.

Lemma quiet_handle w w' :
  quiet instance w w' -> handle_of instance w' = handle_of instance w.
Proof. intros (A & _). unfold handle_of. rewrite A. reflexivity. Qed.

Lemma stop_is_stop :
  is_stop instance (EvBitSet (I2C_CR1 instance) I2C_CR1_STOP) = true.
Proof. cbn. rewrite Z.eqb_refl. reflexivity. Qed.

Lemma ack_clear_is_ack_clear :
  is_ack_clear instance (EvBitClear (I2C_CR1 instance) I2C_CR1_ACK) = true.
Proof. cbn. rewrite Z.eqb_refl. reflexivity. Qed.

Lemma other_bit_not_stop bit :
  bit <> I2C_CR1_STOP ->
  is_stop instance (EvBitSet (I2C_CR1 instance) bit) = false.
Proof.
  intros Hb. cbn. apply andb_false_iff. right. apply Z.eqb_neq. exact Hb.
Qed.

Lemma other_bit_quiet bit :
  bit <> I2C_CR1_STOP ->
  is_stop instance (EvBitSet (I2C_CR1 instance) bit)
  || is_ack_clear instance (EvBitSet (I2C_CR1 instance) bit) = false.
Proof.
  intros Hb. rewrite other_bit_not_stop by exact Hb. reflexivity.
Qed.

Lemma wait_flag_loop_quiet flag expected n w :
  returns (wait_flag_loop instance flag expected n) hw w
    (fun r w' =>
       quiet instance w w' /\ (r = STATUS_OK \/ r = STATUS_TIMEOUT)).
Proof.
  revert w. induction n as [| k IH]; intros w; cbn [wait_flag_loop].
  - apply returns_ret. split; [apply quiet_refl | now right].
  - apply returns_bind. apply returns_read_reg. intros v _.
    destruct (eqb (BIT_CHECK v flag) expected).
    + apply returns_ret. split; [| now left].
      apply quiet_log; [reflexivity | apply quiet_refl].
    + eapply returns_weaken; [apply IH |].
      intros r w' [Hq Hr]. split; [| exact Hr].
      eapply quiet_trans; [| exact Hq].
      apply quiet_log; [reflexivity | apply quiet_refl].
Qed.

Lemma i2c_wait_flag_quiet flag expected timeout w :
  returns (i2c_wait_flag instance flag expected timeout) hw w
    (fun r w' =>
       quiet instance w w' /\ (r = STATUS_OK \/ r = STATUS_TIMEOUT)).
Proof. apply wait_flag_loop_quiet. Qed.

(** A wait returns [STATUS_TIMEOUT] exactly when it has used up its
    counter: [counter] reads of SR1 were made. *)
Lemma wait_flag_loop_timeout flag expected n w r w' :
  wait_flag_loop instance flag expected n hw w = Done r w' ->
  r = STATUS_TIMEOUT ->
  length (trace w') = (n + length (trace w))%nat.
Proof.
  revert w. induction n as [| k IH]; intros w; cbn [wait_flag_loop].
  - intros E _. inversion E. reflexivity.
  - unfold bind at 1. cbn [read_reg].
    destruct (eqb (BIT_CHECK _ flag) expected).
    + intros E ->. inversion E.
    + intros E Hr. rewrite (IH _ E Hr). cbn [trace log length]. lia.
Qed.

Lemma i2c_send_address_quiet addr dir timeout w :
  returns (i2c_send_address instance addr dir timeout) hw w
    (fun r w' =>
       quiet instance w w' /\ (r = STATUS_OK \/ r = STATUS_TIMEOUT)).
Proof.
  unfold i2c_send_address. apply returns_bind.
  eapply returns_weaken; [apply i2c_wait_flag_quiet |].
  intros r w1 [Hq1 [-> | ->]]; cbn [status_eqb].
  - apply returns_bind. apply returns_emit.
    apply returns_bind.
    eapply returns_weaken; [apply i2c_wait_flag_quiet |].
    intros r w2 [Hq2 [-> | ->]]; cbn [status_eqb].
    + apply returns_bind. apply returns_read_reg. intros v1 _.
      apply returns_bind. apply returns_read_reg. intros v2 _.
      apply returns_ret. split; [| now left].
      do 2 (apply quiet_log; [reflexivity |]).
      eapply quiet_trans; [| exact Hq2].
      apply quiet_log; [reflexivity | exact Hq1].
    + apply returns_ret. split; [| now right].
      eapply quiet_trans; [| exact Hq2].
      apply quiet_log; [reflexivity | exact Hq1].
  - apply returns_ret. split; [exact Hq1 | now right].
Qed.

Lemma bus_free_loop_quiet n w :
  returns (bus_free_loop instance n) hw w
    (fun _ w' => quiet instance w w').
Proof.
  revert w. induction n as [| k IH]; intros w; cbn [bus_free_loop];
    apply returns_bind; apply returns_read_reg; intros v _;
    destruct (BIT_CHECK v I2C_SR2_BUSY);
    try (apply returns_ret; apply quiet_log;
         [reflexivity | apply quiet_refl]).
  eapply returns_weaken; [apply IH |].
  intros wc w' Hq. eapply quiet_trans; [| exact Hq].
  apply quiet_log; [reflexivity | apply quiet_refl].
Qed.

Lemma quiet_with_mem m w w' :
  quiet instance w w' -> quiet instance w (with_mem m w').
Proof. intros (A & B & C). repeat split; assumption. Qed.

Lemma transmit_loop_quiet data timeout n i w :
  returns (transmit_loop instance data timeout n i) hw w
    (fun r w' =>
       quiet instance w w' /\ (r = STATUS_OK \/ r = STATUS_TIMEOUT)).
Proof.
  revert i w. induction n as [| k IH]; intros i w; cbn [transmit_loop].
  - apply returns_ret. split; [apply quiet_refl | now left].
  - apply returns_bind.
    eapply returns_weaken; [apply i2c_wait_flag_quiet |].
    intros r w1 [Hq1 [-> | ->]]; cbn [status_eqb].
    + apply returns_bind. unfold load_byte.
      eexists _, _. split; [reflexivity |].
      apply returns_bind. apply returns_emit.
      eapply returns_weaken; [apply IH |].
      intros r w2 [Hq2 Hr]. split; [| exact Hr].
      eapply quiet_trans; [| exact Hq2].
      apply quiet_log; [reflexivity | exact Hq1].
    + apply returns_ret. split; [exact Hq1 | now right].
Qed.

(** The receive loop clears ACK and issues STOP only in the iteration for
    the last index, which a successful run reaches. *)
Lemma receive_loop_stops data len timeout n i w :
  i + Z.of_nat n = len -> 0 <= i -> len < 2 ^ 32 ->
  returns (receive_loop instance data len timeout n i) hw w
    (fun r w' =>
       g_i2c_handles w' = g_i2c_handles w /\
       (r = STATUS_OK \/ r = STATUS_TIMEOUT) /\
       (stops instance w'
        <= stops instance w + match n with O => 0 | S _ => 1 end)%nat /\
       (r = STATUS_OK ->
        stops instance w'
        = (stops instance w + match n with O => 0 | S _ => 1 end)%nat /\
        ack_clears instance w'
        = (ack_clears instance w + match n with O => 0 | S _ => 1 end)%nat)).
Proof.
  revert i w. induction n as [| k IH]; intros i w Hlen Hi Hmax;
    cbn [receive_loop].
  - apply returns_ret. repeat split; auto; lia.
  - assert (Hlast : (i =? u32 (len - 1))
                    = match k with O => true | S _ => false end).
    { rewrite u32_small by lia.
      destruct k; [apply Z.eqb_eq | apply Z.eqb_neq]; lia. }
    rewrite Hlast.
    assert (Step : forall w0 d,
               g_i2c_handles w0 = g_i2c_handles w ->
               stops instance w0 = (stops instance w + d)%nat ->
               ack_clears instance w0 = (ack_clears instance w + d)%nat ->
               (match k with O => d = 1%nat | S _ => d = 0%nat end) ->
               returns
                 (result <- i2c_wait_flag instance I2C_SR1_RXNE true timeout ;;
                  if status_eqb result STATUS_OK then
                    dr <- read_reg (I2C_DR instance) ;;
                    store_byte (data + i) (u8 dr) ;;;
                    receive_loop instance data len timeout k (i + 1)
                  else ret result) hw w0
                 (fun r w' =>
                    g_i2c_handles w' = g_i2c_handles w /\
                    (r = STATUS_OK \/ r = STATUS_TIMEOUT) /\
                    (stops instance w' <= stops instance w + 1)%nat /\
                    (r = STATUS_OK ->
                     stops instance w' = (stops instance w + 1)%nat /\
                     ack_clears instance w'
                     = (ack_clears instance w + 1)%nat))).
    { intros w0 d Hh Hs Ha Hd. apply returns_bind.
      eapply returns_weaken; [apply i2c_wait_flag_quiet |].
      intros r w1 [(Hh1 & Hs1 & Ha1) [-> | ->]]; cbn [status_eqb].
      - apply returns_bind. apply returns_read_reg. intros v _.
        apply returns_bind. eexists tt, _. split; [reflexivity |].
        eapply returns_weaken; [apply (IH (i + 1)); lia |].
        cbv beta. intros r w2 (Hh2 & Hr & Hle & Hok).
        match type of Hle with
        | (_ <= stops instance ?wm + _)%nat =>
            assert (Hs0 : stops instance wm = (stops instance w + d)%nat)
              by (rewrite <- Hs, <- Hs1; reflexivity);
            assert (Ha0 : ack_clears instance wm
                          = (ack_clears instance w + d)%nat)
              by (rewrite <- Ha, <- Ha1; reflexivity)
        end.
        rewrite Hs0 in Hle. rewrite Hs0, Ha0 in Hok.
        split; [| split; [exact Hr | split]].
        + rewrite Hh2. cbn [g_i2c_handles with_mem log]. congruence.
        + destruct k; subst d; lia.
        + intros ->. destruct (Hok eq_refl) as [-> ->].
          destruct k; subst d; lia.
      - apply returns_ret. split; [congruence |].
        split; [now right |]. split; [| discriminate].
        rewrite Hs1, Hs. destruct k; subst d; lia. }
    destruct k.
    + apply returns_bind. apply returns_bind. apply returns_emit.
      apply returns_emit.
      apply (Step _ 1%nat); auto.
      * rewrite !stops_log, stop_is_stop. cbn. lia.
      * rewrite !ack_clears_log, ack_clear_is_ack_clear. cbn. lia.
    + apply returns_bind. apply returns_ret.
      apply (Step _ 0%nat); auto.
Qed.

End I2cBlocking.

Section I2cBlockingCalls.
Import I2cData I2c.

Variable hw : oracle.
Variables instance dev_addr data len timeout_ms : Z.
Variable w : world.
Hypothesis Hwf : wf_i2c w.
Hypothesis Hinst : 0 <= instance < I2C_INSTANCE_MAX.
Hypothesis Hdata : data <> 0.
Hypothesis Hinit : initialized (handle_of instance w) = true.
Hypothesis Hlen : 0 < len < 2 ^ 32.

Lemma bind_eq {A B} (m : M A) (k : A -> M B) o w0 a w1 :
  m o w0 = Done a w1 -> bind m k o w0 = k a o w1.
Proof. intros E. unfold bind. rewrite E. reflexivity. Qed.

Lemma emit_eq e o w0 : emit e o w0 = Done tt (log e w0).
Proof. reflexivity. Qed.

Lemma get_i2c_eq o w0 :
  wf_i2c w0 -> get_i2c instance o w0 = Done (handle_of instance w0) w0.
Proof.
  intros Hwf0.
  destruct (returns_get_i2c instance o w0
              (fun h w' => h = handle_of instance w0 /\ w' = w0) Hwf0 Hinst)
    as (h & w' & E & -> & ->); auto.
Qed.

Lemma modify_i2c_eq f o w0 :
  wf_i2c w0 ->
  modify_i2c instance f o w0
  = Done tt (with_i2c (list_set (g_i2c_handles w0) (Z.to_nat instance)
                         (f (handle_of instance w0))) w0).
Proof.
  intros Hwf0.
  destruct (returns_modify_i2c instance f o w0
              (fun _ w' =>
                 w' = with_i2c (list_set (g_i2c_handles w0)
                                  (Z.to_nat instance)
                                  (f (handle_of instance w0))) w0)
              Hwf0 Hinst eq_refl)
    as ([] & w' & E & ->). exact E.
Qed.

(** Entering the transfer proper: the four validation tests pass. *)
Lemma validation_passes :
  IS_NULL_PTR data = false /\
  (instance >=? I2C_INSTANCE_MAX) = false /\
  (len =? 0) = false.
Proof.
  repeat split.
  - apply Z.eqb_neq. exact Hdata.
  - destruct (Z.geb_spec instance I2C_INSTANCE_MAX); [lia | reflexivity].
  - apply Z.eqb_neq. lia.
Qed.

(** The end of both blocking calls: the state is set from the result. *)
Lemma finish_returns result w0 (Q : status_t -> world -> Prop) :
  wf_i2c w0 ->
  (forall w', stops instance w' = stops instance w0 ->
              ack_clears instance w' = ack_clears instance w0 ->
              state (handle_of instance w')
              = (if status_eqb result STATUS_OK
                 then I2C_STATE_IDLE else I2C_STATE_ERROR) ->
              Q result w') ->
  returns
    (modify_i2c instance
       (set_state (if status_eqb result STATUS_OK
                   then I2C_STATE_IDLE else I2C_STATE_ERROR)) ;;;
     ret result) hw w0 Q.
Proof.
  intros Hwf0 HQ. apply returns_bind. apply returns_modify_i2c; auto.
  apply returns_ret. apply HQ; [reflexivity | reflexivity |].
  rewrite handle_of_with_i2c by auto. reflexivity.
Qed.

Lemma write_blocking_outcome :
  exists r w',
    run (i2c_write_blocking instance dev_addr data len timeout_ms) hw w
    = Done r w' /\
    (r = STATUS_OK \/ r = STATUS_TIMEOUT \/ r = STATUS_BUSY) /\
    (r = STATUS_BUSY <->
     exists w2,
       run (bus_free_loop instance
              (Z.to_nat (u32 (timeout_ms * TIMEOUT_LOOP_COUNT))))
         hw (write_armed instance w) = Done O w2) /\
    stops instance w'
    = (stops instance w + if status_eqb r STATUS_BUSY then 0 else 1)%nat /\
    state (handle_of instance w')
    = (if status_eqb r STATUS_OK then I2C_STATE_IDLE else I2C_STATE_ERROR).
Proof.
  destruct validation_passes as (Hnull & Hrange & Hlen0).
  unfold run, i2c_write_blocking. rewrite Hnull, Hrange.
  rewrite (bind_eq _ _ _ _ _ _ (get_i2c_eq hw w Hwf)).
  rewrite Hinit. cbn [negb]. rewrite Hlen0.
  rewrite (bind_eq _ _ _ _ _ _ (modify_i2c_eq _ hw w Hwf)).
  fold (write_armed instance w).
  set (n := Z.to_nat (u32 (timeout_ms * TIMEOUT_LOOP_COUNT))).
  destruct (bus_free_loop_quiet hw instance n (write_armed instance w))
    as (wc & w2 & Ebus & Hq2).
  rewrite (bind_eq _ _ _ _ _ _ Ebus).
  unfold run. rewrite Ebus.
  assert (Hwf2 : wf_i2c w2).
  { eapply quiet_wf; [exact Hq2 |]. apply wf_i2c_with_i2c. exact Hwf. }
  assert (Hs2 : stops instance w2 = stops instance w) by (apply Hq2).
  match goal with
  | |- exists r w', ?m hw w2 = _ /\ _ =>
      enough (R : returns m hw w2
                    (fun r w' =>
                       (r = STATUS_OK \/ r = STATUS_TIMEOUT \/ r = STATUS_BUSY) /\
                       (r = STATUS_BUSY <-> wc = O) /\
                       stops instance w'
                       = (stops instance w
                          + if status_eqb r STATUS_BUSY then 0 else 1)%nat /\
                       state (handle_of instance w')
                       = (if status_eqb r STATUS_OK
                          then I2C_STATE_IDLE else I2C_STATE_ERROR)))
  end.
  { destruct R as (r & w' & E & Hr & Hb & Hs & Hst).
    exists r, w'. repeat split; auto.
    - intros Hr'. exists w2. f_equal. apply Hb. exact Hr'.
    - intros (w3 & E3). apply Hb. congruence. }
  apply returns_bind. destruct wc as [| wc'].
  - apply returns_ret. apply finish_returns; [exact Hwf2 |].
    intros w' Hs _ Hst. repeat split; auto.
    rewrite Hs, Hs2. cbn. lia.
  - apply returns_bind. apply returns_emit.
    apply returns_bind.
    eapply returns_weaken; [apply i2c_send_address_quiet |].
    intros ra w3 [Hq3 Hra].
    assert (Body :
      returns
        (if status_eqb ra STATUS_OK then
           result <- transmit_loop instance data timeout_ms (Z.to_nat len) 0 ;;
           if status_eqb result STATUS_OK
           then i2c_wait_flag instance I2C_SR1_BTF true timeout_ms
           else ret result
         else ret ra) hw w3
        (fun r w4 =>
           quiet instance w3 w4 /\ (r = STATUS_OK \/ r = STATUS_TIMEOUT))).
    { destruct Hra as [-> | ->]; cbn [status_eqb].
      - apply returns_bind.
        eapply returns_weaken; [apply transmit_loop_quiet |].
        intros rt w4 [Hq4 [-> | ->]]; cbn [status_eqb].
        + eapply returns_weaken; [apply i2c_wait_flag_quiet |].
          intros rb w5 [Hq5 Hrb]. split; [| exact Hrb].
          eapply quiet_trans; eauto.
        + apply returns_ret. split; [exact Hq4 | now right].
      - apply returns_ret. split; [apply quiet_refl | now right]. }
    apply returns_bind.
    eapply returns_weaken; [exact Body |].
    intros r w4 [Hq4 Hr].
    apply returns_bind. apply returns_emit. apply returns_ret.
    assert (Hq : quiet instance w2 w4).
    { eapply quiet_trans; [| exact Hq4].
      eapply quiet_trans; [| exact Hq3].
      apply quiet_log; [| apply quiet_refl].
      apply other_bit_quiet. discriminate. }
    apply finish_returns.
    { apply wf_i2c_log. eapply quiet_wf; eauto. }
    intros w' Hs _ Hst. split; [tauto |]. split.
    { split; [| discriminate]. destruct Hr as [-> | ->]; discriminate. }
    split; [| exact Hst].
    rewrite Hs, stops_log, stop_is_stop.
    destruct Hq as (_ & Hs4 & _). rewrite Hs4, Hs2.
    destruct Hr as [-> | ->]; cbn; lia.
Qed.

Lemma read_blocking_outcome :
  exists r w',
    run (i2c_read_blocking instance dev_addr data len timeout_ms) hw w
    = Done r w' /\
    (r = STATUS_OK \/ r = STATUS_TIMEOUT) /\
    (r = STATUS_OK ->
     stops instance w' = (stops instance w + 1)%nat /\
     ack_clears instance w' = (ack_clears instance w + 1)%nat) /\
    (forall ra wa,
       run (i2c_send_address instance dev_addr I2C_DIR_READ timeout_ms)
         hw (read_armed instance w) = Done ra wa ->
       ra <> STATUS_OK ->
       r = STATUS_TIMEOUT /\
       stops instance w' = (stops instance w + 1)%nat) /\
    state (handle_of instance w')
    = (if status_eqb r STATUS_OK then I2C_STATE_IDLE else I2C_STATE_ERROR).
Proof.
  destruct validation_passes as (Hnull & Hrange & Hlen0).
  unfold run, i2c_read_blocking. rewrite Hnull, Hrange.
  rewrite (bind_eq _ _ _ _ _ _ (get_i2c_eq hw w Hwf)).
  rewrite Hinit. cbn [negb]. rewrite Hlen0.
  rewrite (bind_eq _ _ _ _ _ _ (modify_i2c_eq _ hw w Hwf)).
  unfold i2c_generate_start at 1. unfold BIT_SET at 1 2.
  rewrite (bind_eq _ _ _ _ _ _ (emit_eq _ _ _)).
  rewrite (bind_eq _ _ _ _ _ _ (emit_eq _ _ _)).
  change (log _ (log _ (with_i2c _ w))) with (read_armed instance w).
  destruct (i2c_send_address_quiet hw instance dev_addr I2C_DIR_READ
              timeout_ms (read_armed instance w))
    as (ra & w3 & Eaddr & Hq3 & Hra).
  rewrite (bind_eq _ _ _ _ _ _ Eaddr).
  unfold run. rewrite Eaddr.
  assert (Hs0 : stops instance (read_armed instance w) = stops instance w).
  { unfold read_armed. rewrite !stops_log.
    rewrite !other_bit_not_stop by discriminate. reflexivity. }
  assert (Ha0 : ack_clears instance (read_armed instance w)
                = ack_clears instance w) by reflexivity.
  assert (Hwf3 : wf_i2c w3).
  { eapply quiet_wf; [exact Hq3 |]. unfold read_armed.
    do 2 apply wf_i2c_log. apply wf_i2c_with_i2c. exact Hwf. }
  assert (Hs3 : stops instance w3 = stops instance w).
  { destruct Hq3 as (_ & Hs3 & _). congruence. }
  assert (Ha3 : ack_clears instance w3 = ack_clears instance w).
  { destruct Hq3 as (_ & _ & Ha3). congruence. }
  match goal with
  | |- exists r w', ?m hw w3 = _ /\ _ =>
      enough (R : returns m hw w3
                    (fun r w' =>
                       (r = STATUS_OK \/ r = STATUS_TIMEOUT) /\
                       (r = STATUS_OK ->
                        stops instance w' = (stops instance w + 1)%nat /\
                        ack_clears instance w'
                        = (ack_clears instance w + 1)%nat) /\
                       (ra <> STATUS_OK ->
                        r = STATUS_TIMEOUT /\
                        stops instance w' = (stops instance w + 1)%nat) /\
                       state (handle_of instance w')
                       = (if status_eqb r STATUS_OK
                          then I2C_STATE_IDLE else I2C_STATE_ERROR)))
  end.
  { destruct R as (r & w' & E & Hr & Hok & Haddr & Hst).
    exists r, w'. split; [exact E |]. split; [exact Hr |].
    split; [exact Hok |]. split; [| exact Hst].
    intros ra0 wa Erun Hne. apply Haddr. congruence. }
  apply returns_bind. destruct Hra as [-> | ->]; cbn [status_eqb].
  - eapply returns_weaken.
    { apply (receive_loop_stops hw instance data len timeout_ms
               (Z.to_nat len) 0 w3); lia. }
    cbv beta. intros r w4 (Hh4 & Hr & _ & Hok).
    apply finish_returns.
    { unfold wf_i2c in *. congruence. }
    intros w' Hs Ha Hst.
    split; [exact Hr |]. split; [| split; [congruence | exact Hst]].
    intros ->. destruct (Hok eq_refl) as [Hs4 Ha4].
    rewrite Hs, Ha, Hs4, Ha4, Hs3, Ha3.
    destruct (Z.to_nat len) eqn:E; [lia | split; reflexivity].
  - apply returns_bind. apply returns_emit. apply returns_ret.
    apply finish_returns.
    { apply wf_i2c_log. exact Hwf3. }
    intros w' Hs _ Hst.
    split; [now right |]. split; [discriminate |]. split; [| exact Hst].
    intros _. split; [reflexivity |].
    rewrite Hs, stops_log, stop_is_stop, Hs3. cbn. lia.
Qed.

(** *** Waits that use up their counter *)

Lemma wait_exhausted flag n : forall w0,
  I2cSpec.wait_exhausts hw instance flag n w0 ->
  wait_flag_loop instance flag true n hw w0
  = Done STATUS_TIMEOUT (I2cSpec.polled_sr1 hw instance n w0).
Proof.
  induction n as [| k IH]; intros w0 H;
    cbn [wait_flag_loop I2cSpec.polled_sr1]; [reflexivity |].
  unfold bind at 1, read_reg at 1. cbv zeta.
  pose proof (H O ltac:(lia)) as H0. cbn [I2cSpec.polled_sr1] in H0.
  rewrite H0. cbn [eqb]. apply IH.
  intros j Hj. apply (H (S j)). lia.
Qed.

Lemma send_address_sb_exhausted addr dir w0 :
  I2cSpec.wait_exhausts hw instance I2C_SR1_SB
    (I2cSpec.wait_budget timeout_ms) w0 ->
  exists w1,
    i2c_send_address instance addr dir timeout_ms hw w0
    = Done STATUS_TIMEOUT w1.
Proof.
  intros H. eexists. unfold i2c_send_address, i2c_wait_flag.
  rewrite (bind_eq _ _ _ _ _ _ (wait_exhausted _ _ _ H)). reflexivity.
Qed.

Lemma send_address_addr_exhausted addr dir w0 ws :
  i2c_wait_flag instance I2C_SR1_SB true timeout_ms hw w0
  = Done STATUS_OK ws ->
  I2cSpec.wait_exhausts hw instance I2C_SR1_ADDR
    (I2cSpec.wait_budget timeout_ms)
    (log (EvWrite (I2C_DR instance) (I2cSpec.addr_byte addr dir)) ws) ->
  exists w1,
    i2c_send_address instance addr dir timeout_ms hw w0
    = Done STATUS_TIMEOUT w1.
Proof.
  intros Esb H. eexists. unfold i2c_send_address.
  rewrite (bind_eq _ _ _ _ _ _ Esb). cbn [status_eqb]. cbv zeta.
  unfold write_reg.
  rewrite (bind_eq _ _ _ _ _ _ (emit_eq _ _ _)).
  unfold i2c_wait_flag.
  rewrite (bind_eq _ _ _ _ _ _ (wait_exhausted _ _ _ H)). reflexivity.
Qed.

(** The first [j] iterations of the transmit and receive loops. *)
Lemma transmit_loop_split j : forall m i w0 wj,
  transmit_loop instance data timeout_ms j i hw w0 = Done STATUS_OK wj ->
  transmit_loop instance data timeout_ms (j + m) i hw w0
  = transmit_loop instance data timeout_ms m (i + Z.of_nat j) hw wj.
Proof.
  induction j as [| k IH]; intros m i w0 wj E.
  - cbn in E. inversion E. subst wj. cbn [Nat.add Z.of_nat].
    rewrite Z.add_0_r. reflexivity.
  - cbn [Nat.add transmit_loop] in *. unfold bind at 1. unfold bind at 1 in E.
    destruct (i2c_wait_flag instance I2C_SR1_TXE true timeout_ms hw w0)
      as [r1 w1 | |]; try discriminate E.
    destruct r1; cbn [status_eqb] in *; try (inversion E; fail).
    unfold bind at 1, load_byte at 1. unfold bind at 1, load_byte at 1 in E.
    unfold write_reg in *.
    rewrite (bind_eq _ _ _ _ _ _ (emit_eq _ _ _)).
    rewrite (bind_eq _ _ _ _ _ _ (emit_eq _ _ _)) in E.
    rewrite (IH m (i + 1) _ wj E). f_equal. lia.
Qed.

Lemma transmit_loop_exhausted j n' wa wj :
  (j < n')%nat ->
  transmit_loop instance data timeout_ms j 0 hw wa = Done STATUS_OK wj ->
  I2cSpec.wait_exhausts hw instance I2C_SR1_TXE
    (I2cSpec.wait_budget timeout_ms) wj ->
  exists w1,
    transmit_loop instance data timeout_ms n' 0 hw wa
    = Done STATUS_TIMEOUT w1.
Proof.
  intros Hj E H. eexists.
  replace n' with (j + S (n' - j - 1))%nat by lia.
  rewrite (transmit_loop_split j _ 0 wa wj E).
  cbn [transmit_loop]. unfold i2c_wait_flag.
  rewrite (bind_eq _ _ _ _ _ _ (wait_exhausted _ _ _ H)). reflexivity.
Qed.

Lemma receive_loop_split j : forall m i w0 wj,
  receive_loop instance data len timeout_ms j i hw w0 = Done STATUS_OK wj ->
  receive_loop instance data len timeout_ms (j + m) i hw w0
  = receive_loop instance data len timeout_ms m (i + Z.of_nat j) hw wj.
Proof.
  induction j as [| k IH]; intros m i w0 wj E.
  - cbn in E. inversion E. subst wj. cbn [Nat.add Z.of_nat].
    rewrite Z.add_0_r. reflexivity.
  - cbn [Nat.add receive_loop] in *. unfold bind at 1. unfold bind at 1 in E.
    destruct ((if i =? u32 (len - 1)
               then BIT_CLEAR (I2C_CR1 instance) I2C_CR1_ACK ;;;
                    i2c_generate_stop instance
               else ret tt) hw w0) as [[] w1 | |]; try discriminate E.
    unfold bind at 1. unfold bind at 1 in E.
    destruct (i2c_wait_flag instance I2C_SR1_RXNE true timeout_ms hw w1)
      as [r2 w2 | |]; try discriminate E.
    destruct r2; cbn [status_eqb] in *; try (inversion E; fail).
    unfold bind at 1, read_reg at 1. unfold bind at 1, read_reg at 1 in E.
    cbv zeta in *.
    unfold bind at 1, store_byte at 1. unfold bind at 1, store_byte at 1 in E.
    rewrite (IH m (i + 1) _ wj E). f_equal. lia.
Qed.

Lemma receive_loop_exhausted j n' wa wj :
  (j < n')%nat ->
  receive_loop instance data len timeout_ms j 0 hw wa = Done STATUS_OK wj ->
  I2cSpec.wait_exhausts hw instance I2C_SR1_RXNE
    (I2cSpec.wait_budget timeout_ms)
    (I2cSpec.before_byte instance len (Z.of_nat j) wj) ->
  exists w1,
    receive_loop instance data len timeout_ms n' 0 hw wa
    = Done STATUS_TIMEOUT w1.
Proof.
  intros Hj E H.
  replace n' with (j + S (n' - j - 1))%nat by lia.
  rewrite (receive_loop_split j _ 0 wa wj E).
  cbn [receive_loop]. rewrite Z.add_0_l.
  rewrite u32_small by lia.
  unfold I2cSpec.before_byte in H.
  destruct (Z.of_nat j =? len - 1); eexists.
  - unfold BIT_CLEAR, i2c_generate_stop, BIT_SET.
    rewrite (bind_eq _ _ _ _ _ _
               (bind_eq _ _ _ _ _ _ (emit_eq _ _ _))).
    unfold i2c_wait_flag.
    rewrite (bind_eq _ _ _ _ _ _ (wait_exhausted _ _ _ H)). reflexivity.
  - rewrite (bind_eq _ _ _ _ tt wj eq_refl). unfold i2c_wait_flag.
    rewrite (bind_eq _ _ _ _ _ _ (wait_exhausted _ _ _ H)). reflexivity.
Qed.

(** The result of a write that got the bus is the result of its address
    and data phases; the result of a read likewise. *)
Lemma write_blocking_result c w2 ra wa rr wr r w' :
  run (bus_free_loop instance (I2cSpec.wait_budget timeout_ms))
    hw (write_armed instance w) = Done (S c) w2 ->
  i2c_send_address instance dev_addr I2C_DIR_WRITE timeout_ms hw
    (log (EvBitSet (I2C_CR1 instance) I2C_CR1_START) w2) = Done ra wa ->
  (if status_eqb ra STATUS_OK then
     result <- transmit_loop instance data timeout_ms (Z.to_nat len) 0 ;;
     if status_eqb result STATUS_OK
     then i2c_wait_flag instance I2C_SR1_BTF true timeout_ms
     else ret result
   else ret ra) hw wa = Done rr wr ->
  run (i2c_write_blocking instance dev_addr data len timeout_ms) hw w
  = Done r w' ->
  r = rr.
Proof.
  intros Ebus Ea Ebody Erun.
  destruct validation_passes as (Hnull & Hrange & Hlen0).
  unfold run, i2c_write_blocking in Erun. rewrite Hnull, Hrange in Erun.
  rewrite (bind_eq _ _ _ _ _ _ (get_i2c_eq hw w Hwf)) in Erun.
  rewrite Hinit in Erun. cbn [negb] in Erun. rewrite Hlen0 in Erun.
  rewrite (bind_eq _ _ _ _ _ _ (modify_i2c_eq _ hw w Hwf)) in Erun.
  fold (write_armed instance w) in Erun.
  rewrite (bind_eq _ _ _ _ _ _ Ebus) in Erun.
  unfold i2c_generate_start, i2c_generate_stop, BIT_SET in Erun.
  match type of Erun with
  | bind ?m _ _ _ = _ =>
      assert (Einner : m hw w2
                       = Done rr (log (EvBitSet (I2C_CR1 instance)
                                         I2C_CR1_STOP) wr))
  end.
  { rewrite (bind_eq _ _ _ _ _ _ (emit_eq _ _ _)).
    rewrite (bind_eq _ _ _ _ _ _ Ea).
    rewrite (bind_eq _ _ _ _ _ _ Ebody).
    rewrite (bind_eq _ _ _ _ _ _ (emit_eq _ _ _)). reflexivity. }
  rewrite (bind_eq _ _ _ _ _ _ Einner) in Erun.
  unfold bind in Erun.
  destruct (modify_i2c _ _ hw _) as [[] wm | |]; try discriminate Erun.
  inversion Erun. reflexivity.
Qed.

Lemma read_blocking_result ra wa rr wr r w' :
  i2c_send_address instance dev_addr I2C_DIR_READ timeout_ms hw
    (read_armed instance w) = Done ra wa ->
  (if status_eqb ra STATUS_OK
   then receive_loop instance data len timeout_ms (Z.to_nat len) 0
   else i2c_generate_stop instance ;;; ret ra) hw wa = Done rr wr ->
  run (i2c_read_blocking instance dev_addr data len timeout_ms) hw w
  = Done r w' ->
  r = rr.
Proof.
  intros Ea Ebody Erun.
  destruct validation_passes as (Hnull & Hrange & Hlen0).
  unfold run, i2c_read_blocking in Erun. rewrite Hnull, Hrange in Erun.
  rewrite (bind_eq _ _ _ _ _ _ (get_i2c_eq hw w Hwf)) in Erun.
  rewrite Hinit in Erun. cbn [negb] in Erun. rewrite Hlen0 in Erun.
  rewrite (bind_eq _ _ _ _ _ _ (modify_i2c_eq _ hw w Hwf)) in Erun.
  unfold i2c_generate_start at 1 in Erun. unfold BIT_SET at 1 2 in Erun.
  rewrite (bind_eq _ _ _ _ _ _ (emit_eq _ _ _)) in Erun.
  rewrite (bind_eq _ _ _ _ _ _ (emit_eq _ _ _)) in Erun.
  change (log _ (log _ (with_i2c _ w))) with (read_armed instance w) in Erun.
  rewrite (bind_eq _ _ _ _ _ _ Ea) in Erun.
  rewrite (bind_eq _ _ _ _ _ _ Ebody) in Erun.
  unfold bind in Erun.
  destruct (modify_i2c _ _ hw _) as [[] wm | |]; try discriminate Erun.
  inversion Erun. reflexivity.
Qed.

End I2cBlockingCalls.

(** The blocking read does what the asynchronous one-byte read misses: a
    blocking read of any length that succeeds clears ACK exactly once and
    issues STOP exactly once. *)
Corollary blocking_read_success_counts (hw : oracle) (w w' : world)
    (instance dev_addr data len timeout_ms : Z) :
  wf_i2c w ->
  0 <= instance < I2C_INSTANCE_MAX ->
  data <> 0 ->
  I2cData.initialized (I2c.handle_of instance w) = true ->
  0 < len < 2 ^ 32 ->
  run (I2c.i2c_read_blocking instance dev_addr data len timeout_ms) hw w
  = Done STATUS_OK w' ->
  I2c.stops instance w' = S (I2c.stops instance w) /\
  I2c.ack_clears instance w' = S (I2c.ack_clears instance w).
Proof.
  intros Hwf Hinst Hdata Hinit Hlen Erun.
  destruct (read_blocking_outcome hw instance dev_addr data len timeout_ms
              w Hwf Hinst Hdata Hinit Hlen)
    as (r & w1 & E & _ & Hok & _).
  rewrite Erun in E. inversion E; subst r w1.
  destruct (Hok eq_refl) as [Hs Ha]. rewrite Hs, Ha. split; lia.
Qed.

(** C3 (as the code has it).  For every blocking transfer that passes
    validation, on any hardware:
    - [i2c_write_blocking] returns OK, Timeout or Busy.  It returns Busy
      exactly when the initial bus-free wait ends with its counter at 0, and
      then no STOP is issued; otherwise STOP is issued exactly once.
    - [i2c_read_blocking], which has no bus-free wait, returns OK or
      Timeout.  On success STOP is issued exactly once; when the address
      phase fails the result is Timeout and STOP is issued exactly once.
    - In both, the instance ends Idle when the result is OK and in Error
      otherwise.
    - Every wait for a status flag that uses up its counter, that is, every
      wait in which the flag is clear in each of its reads of SR1, makes the
      call return Timeout: in a write that got the bus the waits for SB,
      for ADDR, for TXE before each byte and for BTF after the last one; in
      a read the waits for SB, for ADDR (both with STOP issued exactly
      once) and for RXNE before each byte. *)
Theorem C3_blocking_transfer_outcomes (hw : oracle) (w : world)
    (instance dev_addr data len timeout_ms : Z) :
  wf_i2c w ->
  0 <= instance < I2C_INSTANCE_MAX ->
  data <> 0 ->
  I2cData.initialized (I2c.handle_of instance w) = true ->
  0 < len < 2 ^ 32 ->
  (exists r w',
     run (I2c.i2c_write_blocking instance dev_addr data len timeout_ms) hw w
     = Done r w' /\
     (r = STATUS_OK \/ r = STATUS_TIMEOUT \/ r = STATUS_BUSY) /\
     (r = STATUS_BUSY <->
      exists w2,
        run (I2c.bus_free_loop instance
               (Z.to_nat (u32 (timeout_ms * I2c.TIMEOUT_LOOP_COUNT))))
          hw (write_armed instance w) = Done O w2) /\
     I2c.stops instance w'
     = (I2c.stops instance w + if status_eqb r STATUS_BUSY then 0 else 1)%nat /\
     I2cData.state (I2c.handle_of instance w')
     = (if status_eqb r STATUS_OK then I2C_STATE_IDLE else I2C_STATE_ERROR) /\
     (forall c w2,
        run (I2c.bus_free_loop instance (I2cSpec.wait_budget timeout_ms))
          hw (write_armed instance w) = Done (S c) w2 ->
        let n := I2cSpec.wait_budget timeout_ms in
        let w3 := log (EvBitSet (I2C_CR1 instance) I2C_CR1_START) w2 in
        (I2cSpec.wait_exhausts hw instance I2C_SR1_SB n w3 ->
         r = STATUS_TIMEOUT) /\
        (forall ws,
           run (I2c.i2c_wait_flag instance I2C_SR1_SB true timeout_ms) hw w3
           = Done STATUS_OK ws ->
           I2cSpec.wait_exhausts hw instance I2C_SR1_ADDR n
             (log (EvWrite (I2C_DR instance)
                     (I2cSpec.addr_byte dev_addr I2C_DIR_WRITE)) ws) ->
           r = STATUS_TIMEOUT) /\
        (forall wa,
           run (I2c.i2c_send_address instance dev_addr I2C_DIR_WRITE
                  timeout_ms) hw w3 = Done STATUS_OK wa ->
           (forall j wj,
              (j < Z.to_nat len)%nat ->
              run (I2c.transmit_loop instance data timeout_ms j 0) hw wa
              = Done STATUS_OK wj ->
              I2cSpec.wait_exhausts hw instance I2C_SR1_TXE n wj ->
              r = STATUS_TIMEOUT) /\
           (forall wt,
              run (I2c.transmit_loop instance data timeout_ms
                     (Z.to_nat len) 0) hw wa = Done STATUS_OK wt ->
              I2cSpec.wait_exhausts hw instance I2C_SR1_BTF n wt ->
              r = STATUS_TIMEOUT)))) /\
  (exists r w',
     run (I2c.i2c_read_blocking instance dev_addr data len timeout_ms) hw w
     = Done r w' /\
     (r = STATUS_OK \/ r = STATUS_TIMEOUT) /\
     (r = STATUS_OK -> I2c.stops instance w' = (I2c.stops instance w + 1)%nat) /\
     (forall ra wa,
        run (I2c.i2c_send_address instance dev_addr I2C_DIR_READ timeout_ms)
          hw (read_armed instance w) = Done ra wa ->
        ra <> STATUS_OK ->
        r = STATUS_TIMEOUT /\
        I2c.stops instance w' = (I2c.stops instance w + 1)%nat) /\
     I2cData.state (I2c.handle_of instance w')
     = (if status_eqb r STATUS_OK then I2C_STATE_IDLE else I2C_STATE_ERROR) /\
     (let n := I2cSpec.wait_budget timeout_ms in
      let w3 := read_armed instance w in
      (I2cSpec.wait_exhausts hw instance I2C_SR1_SB n w3 ->
       r = STATUS_TIMEOUT /\
       I2c.stops instance w' = (I2c.stops instance w + 1)%nat) /\
      (forall ws,
         run (I2c.i2c_wait_flag instance I2C_SR1_SB true timeout_ms) hw w3
         = Done STATUS_OK ws ->
         I2cSpec.wait_exhausts hw instance I2C_SR1_ADDR n
           (log (EvWrite (I2C_DR instance)
                   (I2cSpec.addr_byte dev_addr I2C_DIR_READ)) ws) ->
         r = STATUS_TIMEOUT /\
         I2c.stops instance w' = (I2c.stops instance w + 1)%nat) /\
      (forall wa,
         run (I2c.i2c_send_address instance dev_addr I2C_DIR_READ timeout_ms)
           hw w3 = Done STATUS_OK wa ->
         forall j wj,
           (j < Z.to_nat len)%nat ->
           run (I2c.receive_loop instance data len timeout_ms j 0) hw wa
           = Done STATUS_OK wj ->
           I2cSpec.wait_exhausts hw instance I2C_SR1_RXNE n
             (I2cSpec.before_byte instance len (Z.of_nat j) wj) ->
           r = STATUS_TIMEOUT))).
Proof.
  intros Hwf Hinst Hdata Hinit Hlen. split.
  - destruct (write_blocking_outcome hw instance dev_addr data len timeout_ms
                w Hwf Hinst Hdata Hinit Hlen)
      as (r & w' & E & Hr & Hb & Hs & Hst).
    exists r, w'. split; [exact E |]. split; [exact Hr |].
    split; [exact Hb |]. split; [exact Hs |]. split; [exact Hst |].
    intros c w2 Ebus n w3.
    pose proof (write_blocking_result hw instance dev_addr data len
                  timeout_ms w Hwf Hinst Hdata Hinit Hlen c w2) as Res.
    split; [| split].
    + intros Hx.
      destruct (send_address_sb_exhausted hw instance timeout_ms dev_addr
                  I2C_DIR_WRITE w3 Hx) as (w1 & Ea).
      exact (Res _ _ _ _ _ _ Ebus Ea eq_refl E).
    + intros ws Esb Hx.
      destruct (send_address_addr_exhausted hw instance timeout_ms dev_addr
                  I2C_DIR_WRITE w3 ws Esb Hx) as (w1 & Ea).
      exact (Res _ _ _ _ _ _ Ebus Ea eq_refl E).
    + intros wa Ea. split.
      * intros j wj Hj Ej Hx.
        destruct (transmit_loop_exhausted hw instance data timeout_ms j
                    (Z.to_nat len) wa wj Hj Ej Hx) as (w1 & Et).
        refine (Res _ _ STATUS_TIMEOUT w1 _ _ Ebus Ea _ E).
        cbn [status_eqb]. rewrite (bind_eq _ _ _ _ _ _ Et). reflexivity.
      * intros wt Et Hx.
        refine (Res _ _ STATUS_TIMEOUT _ _ _ Ebus Ea _ E).
        cbn [status_eqb]. rewrite (bind_eq _ _ _ _ _ _ Et).
        cbn [status_eqb]. unfold I2c.i2c_wait_flag.
        exact (wait_exhausted hw instance _ _ _ Hx).
  - destruct (read_blocking_outcome hw instance dev_addr data len timeout_ms
                w Hwf Hinst Hdata Hinit Hlen)
      as (r & w' & E & Hr & Hok & Haddr & Hst).
    exists r, w'. split; [exact E |]. split; [exact Hr |].
    split; [intros Hr'; apply Hok; exact Hr' |].
    split; [exact Haddr |]. split; [exact Hst |].
    intros n w3. split; [| split].
    + intros Hx.
      destruct (send_address_sb_exhausted hw instance timeout_ms dev_addr
                  I2C_DIR_READ w3 Hx) as (w1 & Ea).
      apply (Haddr _ _ Ea). discriminate.
    + intros ws Esb Hx.
      destruct (send_address_addr_exhausted hw instance timeout_ms dev_addr
                  I2C_DIR_READ w3 ws Esb Hx) as (w1 & Ea).
      apply (Haddr _ _ Ea). discriminate.
    + intros wa Ea j wj Hj Ej Hx.
      destruct (receive_loop_exhausted hw instance data len timeout_ms Hlen
                  j (Z.to_nat len) wa wj Hj Ej Hx) as (w1 & Et).
      exact (read_blocking_result hw instance dev_addr data len timeout_ms
               w Hwf Hinst Hdata Hinit Hlen _ _ _ _ _ _ Ea Et E).
Qed.

Lemma C3_blocking_transfer_outcomes_witness :
  (exists r w',
     run (I2c.i2c_write_blocking I2C_INSTANCE_0 72 Sim.buf 1 10) Sim.hw_ready
       (Sim.w_initialised Sim.hw_ready)
     = Done r w' /\
     (r = STATUS_OK \/ r = STATUS_TIMEOUT \/ r = STATUS_BUSY) /\
     I2cData.state (I2c.handle_of I2C_INSTANCE_0 w')
     = (if status_eqb r STATUS_OK then I2C_STATE_IDLE else I2C_STATE_ERROR)) /\
  (exists w',
     run (I2c.i2c_write_blocking I2C_INSTANCE_0 72 Sim.buf 1 1)
       (fun _ _ => 0) (Sim.w_initialised Sim.hw_ready)
     = Done STATUS_TIMEOUT w' /\
     I2c.stops I2C_INSTANCE_0 w'
     = S (I2c.stops I2C_INSTANCE_0 (Sim.w_initialised Sim.hw_ready)) /\
     I2cData.state (I2c.handle_of I2C_INSTANCE_0 w') = I2C_STATE_ERROR).
Proof.
  split.
  - destruct (C3_blocking_transfer_outcomes Sim.hw_ready
                (Sim.w_initialised Sim.hw_ready) I2C_INSTANCE_0 72 Sim.buf
                1 10)
      as [(r & w' & E & Hr & _ & _ & Hst & _) _].
    + reflexivity.
    + unfold I2C_INSTANCE_0, I2C_INSTANCE_MAX. lia.
    + unfold Sim.buf. lia.
    + reflexivity.
    + lia.
    + exists r, w'. auto.
  - destruct (C3_blocking_transfer_outcomes (fun _ _ => 0)
                (Sim.w_initialised Sim.hw_ready) I2C_INSTANCE_0 72 Sim.buf
                1 1)
      as [(r & w' & E & _ & _ & Hs & Hst & Hx) _].
    + reflexivity.
    + unfold I2C_INSTANCE_0, I2C_INSTANCE_MAX. lia.
    + unfold Sim.buf. lia.
    + reflexivity.
    + lia.
    + assert (Ebus :
        run (I2c.bus_free_loop I2C_INSTANCE_0 (I2cSpec.wait_budget 1))
          (fun _ _ => 0)
          (write_armed I2C_INSTANCE_0 (Sim.w_initialised Sim.hw_ready))
        = Done (S (Z.to_nat 9999))
            (log (EvRead (I2C_SR2 I2C_INSTANCE_0) 0)
               (write_armed I2C_INSTANCE_0
                  (Sim.w_initialised Sim.hw_ready)))).
      { vm_compute. reflexivity. }
      destruct (Hx _ _ Ebus) as (Hsb & _).
      assert (Hr : r = STATUS_TIMEOUT).
      { apply Hsb. intros k _. reflexivity. }
      subst r. exists w'. split; [exact E |].
      split; [rewrite Hs; cbn [status_eqb]; lia | exact Hst].
Defined.

(** C3, the claim as written, fails at the initial bus-free wait.  On a bus
    that stays busy, [i2c_write_blocking] with [timeout_ms = 1] uses up its
    10000 iterations and returns [STATUS_BUSY], not [STATUS_TIMEOUT], and
    issues no STOP. *)
Lemma C3_bus_free_wait_counterexample :
  let w0 := Sim.w_initialised Sim.hw_bus_busy in
  let o :=
    run (I2c.i2c_write_blocking I2C_INSTANCE_0 72 Sim.buf 1 1)
      Sim.hw_bus_busy w0 in
  Sim.result_of
    (run (I2c.bus_free_loop I2C_INSTANCE_0 (Z.to_nat 10000)) Sim.hw_bus_busy
       (write_armed I2C_INSTANCE_0 w0)) = Some O /\
  Sim.result_of o = Some STATUS_BUSY /\
  I2c.stops 0 (Sim.world_of o) = I2c.stops 0 w0 /\
  I2cData.state (I2c.handle_of 0 (Sim.world_of o)) = I2C_STATE_ERROR /\
  ~ (Sim.result_of o = Some STATUS_TIMEOUT /\
     I2c.stops 0 (Sim.world_of o) = S (I2c.stops 0 w0)).
Proof.
  vm_compute. repeat split. intros [H _]. discriminate H.
Qed.

(** The data phase of [i2c_read_blocking] is the one place where a failed
    blocking transfer leaves the bus without a STOP: a two-byte read from a
    device that never delivers a byte times out in the first RXNE wait with
    no STOP issued. *)
Example read_data_timeout_issues_no_stop :
  let w0 := Sim.w_initialised Sim.hw_no_data in
  let o :=
    run (I2c.i2c_read_blocking I2C_INSTANCE_0 72 Sim.buf 2 1)
      Sim.hw_no_data w0 in
  Sim.result_of o = Some STATUS_TIMEOUT /\
  I2c.stops 0 (Sim.world_of o) = I2c.stops 0 w0 /\
  I2cData.state (I2c.handle_of 0 (Sim.world_of o)) = I2C_STATE_ERROR.
Proof. vm_compute. repeat split. Qed.

(** * ble_driver.c *)

Section BleFacts.
Import BleData Ble BleSpec.

Variable hw : oracle.

Lemma wf_ble_init : wf_ble g_ble_handle_init.
Proof. repeat split; cbn; lia. Qed.

Lemma u8_slot z : u8 (z mod BLE_EVENT_QUEUE_SIZE) = z mod BLE_EVENT_QUEUE_SIZE.
Proof.
  unfold u8, BLE_EVENT_QUEUE_SIZE.
  pose proof (Z.mod_pos_bound z 8 eq_refl).
  apply Z.mod_small. lia.
Qed.

Lemma queue_count_range h : 0 <= queue_count h <= 7.
Proof.
  unfold queue_count, BLE_EVENT_QUEUE_SIZE.
  pose proof (Z.mod_pos_bound (evt_queue_head h - evt_queue_tail h) 8 eq_refl).
  lia.
Qed.

(** The ring is full when the slot after [head] is [tail]: seven events
    queued. *)
Lemma full_iff_seven h :
  wf_ble h ->
  ((evt_queue_head h + 1) mod BLE_EVENT_QUEUE_SIZE = evt_queue_tail h
   <-> queue_count h = 7).
Proof.
  unfold wf_ble, queue_count, BLE_EVENT_QUEUE_SIZE.
  intros (_ & _ & Hh & Ht).
  split; intros H; Z.to_euclidean_division_equations; lia.
Qed.

Lemma empty_iff_zero h :
  wf_ble h ->
  (evt_queue_tail h = evt_queue_head h <-> queue_count h = 0).
Proof.
  unfold wf_ble, queue_count, BLE_EVENT_QUEUE_SIZE.
  intros (_ & _ & Hh & Ht).
  split; intros H; Z.to_euclidean_division_equations; lia.
Qed.

(** Writing slot [head] and advancing [head] appends to the queued
    events. *)
Lemma queue_slots_snoc q head e n tail :
  length q = Z.to_nat BLE_EVENT_QUEUE_SIZE ->
  0 <= head < BLE_EVENT_QUEUE_SIZE ->
  0 <= tail < BLE_EVENT_QUEUE_SIZE ->
  (n < 8)%nat ->
  (tail + Z.of_nat n) mod BLE_EVENT_QUEUE_SIZE = head ->
  queue_slots (list_set q (Z.to_nat head) e) tail (S n)
  = queue_slots q tail n ++ [e].
Proof.
  unfold BLE_EVENT_QUEUE_SIZE. intros Hq Hh.
  revert tail. induction n as [| k IH]; intros tail Ht Hn Hmod.
  - cbn [queue_slots app].
    assert (tail = head)
      by (Z.to_euclidean_division_equations; lia).
    subst tail. rewrite nth_list_set_same by lia. reflexivity.
  - cbn [queue_slots app]. cbn [queue_slots] in IH.
    rewrite nth_list_set_other
      by (Z.to_euclidean_division_equations; lia).
    f_equal. unfold BLE_EVENT_QUEUE_SIZE. apply IH.
    + apply Z.mod_pos_bound. lia.
    + lia.
    + Z.to_euclidean_division_equations; lia.
Qed.

Lemma enqueue_ok e w :
  wf_ble (g_ble_handle w) ->
  queue_count (g_ble_handle w) < 7 ->
  let h := g_ble_handle w in
  let h' :=
    set_queue (list_set (event_queue h) (Z.to_nat (evt_queue_head h)) e)
      ((evt_queue_head h + 1) mod BLE_EVENT_QUEUE_SIZE)
      (evt_queue_tail h) h in
  ble_enqueue_event e hw w = Done STATUS_OK (with_ble h' w) /\
  wf_ble h' /\
  queue_count h' = queue_count h + 1 /\
  queue_contents h' = queue_contents h ++ [e].
Proof.
  intros Hwf Hc h h'.
  pose proof (full_iff_seven _ Hwf) as Hfull.
  pose proof (queue_count_range h) as Hr.
  destruct Hwf as (Hq & Hb & Hh & Ht). fold h in Hq, Hb, Hh, Ht, Hfull, Hc.
  assert (Hc' : queue_count h' = queue_count h + 1).
  { unfold queue_count, h'. cbn [evt_queue_head evt_queue_tail set_queue].
    unfold queue_count in Hc, Hr. unfold BLE_EVENT_QUEUE_SIZE in *.
    Z.to_euclidean_division_equations; lia. }
  repeat split.
  - unfold ble_enqueue_event, bind, get_ble. fold h. rewrite u8_slot.
    destruct (Z.eqb_spec ((evt_queue_head h + 1) mod BLE_EVENT_QUEUE_SIZE)
                (evt_queue_tail h)) as [E | _].
    { apply Hfull in E. lia. }
    unfold array_set. rewrite Hq.
    unfold BLE_EVENT_QUEUE_SIZE in *.
    destruct (Z.leb_spec 0 (evt_queue_head h)); [| lia].
    destruct (Z.ltb_spec (evt_queue_head h) (Z.of_nat (Z.to_nat 8))); [| lia].
    reflexivity.
  - cbn. rewrite list_set_length. exact Hq.
  - exact Hb.
  - cbn. apply Z.mod_pos_bound. reflexivity.
  - cbn. apply Z.mod_pos_bound. reflexivity.
  - exact (proj1 Ht).
  - exact (proj2 Ht).
  - exact Hc'.
  - unfold queue_contents. rewrite Hc'.
    replace (Z.to_nat (queue_count h + 1)) with (S (Z.to_nat (queue_count h)))
      by lia.
    unfold h' at 1 2. cbn [event_queue evt_queue_tail set_queue].
    apply queue_slots_snoc; auto; try lia.
    unfold queue_count, BLE_EVENT_QUEUE_SIZE in *.
    Z.to_euclidean_division_equations; lia.
Qed.

Lemma enqueue_full e w :
  wf_ble (g_ble_handle w) ->
  queue_count (g_ble_handle w) = 7 ->
  ble_enqueue_event e hw w = Done STATUS_ERROR w.
Proof.
  intros Hwf Hc. apply (full_iff_seven _ Hwf) in Hc.
  unfold ble_enqueue_event, bind, get_ble. rewrite u8_slot, Hc, Z.eqb_refl.
  reflexivity.
Qed.

Lemma dequeue_empty evt w :
  evt_queue_tail (g_ble_handle w) = evt_queue_head (g_ble_handle w) ->
  ble_dequeue_event evt hw w = Done (false, evt) w.
Proof.
  intros E. unfold ble_dequeue_event, bind, get_ble.
  rewrite E, Z.eqb_refl. reflexivity.
Qed.

Lemma dequeue_some evt w :
  wf_ble (g_ble_handle w) ->
  evt_queue_tail (g_ble_handle w) <> evt_queue_head (g_ble_handle w) ->
  let h := g_ble_handle w in
  let e := nth (Z.to_nat (evt_queue_tail h)) (event_queue h) zero_event in
  let h' :=
    set_queue (event_queue h) (evt_queue_head h)
      ((evt_queue_tail h + 1) mod BLE_EVENT_QUEUE_SIZE) h in
  ble_dequeue_event evt hw w = Done (true, e) (with_ble h' w) /\
  wf_ble h' /\
  queue_count h' = queue_count h - 1 /\
  queue_contents h = e :: queue_contents h'.
Proof.
  intros Hwf Hne h e h'.
  pose proof (queue_count_range h) as Hr.
  destruct Hwf as (Hq & Hb & Hh & Ht). fold h in Hq, Hb, Hh, Ht, Hne.
  assert (Hc' : queue_count h' = queue_count h - 1).
  { unfold queue_count, h'. cbn [evt_queue_head evt_queue_tail set_queue].
    unfold queue_count in Hr. unfold BLE_EVENT_QUEUE_SIZE in *.
    Z.to_euclidean_division_equations; lia. }
  pose proof (queue_count_range h') as Hr'.
  repeat split.
  - unfold ble_dequeue_event, bind, get_ble. fold h. rewrite u8_slot.
    destruct (Z.eqb_spec (evt_queue_tail h) (evt_queue_head h)) as [E | _];
      [contradiction |].
    cbn [negb]. unfold array_get.
    destruct (Z.ltb_spec (evt_queue_tail h) 0); [lia |].
    destruct (nth_error (event_queue h) (Z.to_nat (evt_queue_tail h))) eqn:E.
    + unfold e. erewrite nth_error_nth by eauto. reflexivity.
    + apply nth_error_None in E. unfold BLE_EVENT_QUEUE_SIZE in *. lia.
  - exact Hq.
  - exact Hb.
  - exact (proj1 Hh).
  - exact (proj2 Hh).
  - cbn. apply Z.mod_pos_bound. reflexivity.
  - cbn. apply Z.mod_pos_bound. reflexivity.
  - exact Hc'.
  - unfold queue_contents at 1.
    replace (Z.to_nat (queue_count h)) with (S (Z.to_nat (queue_count h')))
      by lia.
    reflexivity.
Qed.

End BleFacts.

Lemma queue_slots_length q tail n : length (Ble.queue_slots q tail n) = n.
Proof.
  revert tail. induction n as [| k IH]; intros tail; cbn; [| rewrite IH];
    reflexivity.
Qed.

(** C4 (as the code has it).  The ring keeps one of its 8 slots free: it
    holds between 0 and 7 events.  With 7 events queued
    ([(head + 1) mod 8 = tail]) [ble_enqueue_event] returns [STATUS_ERROR]
    and changes nothing -- queue contents, [head] and [tail] included, so
    no older event is evicted; with fewer it returns [STATUS_OK] and the
    event becomes the newest queued one.  [ble_dequeue_event] on an empty
    queue ([head = tail]) returns false and changes nothing. *)
Theorem C4_event_queue_full_and_empty (hw : oracle) (w : world)
    (event evt : BleEvent.ble_event_t) :
  Ble.wf_ble (g_ble_handle w) ->
  let h := g_ble_handle w in
  length (Ble.queue_contents h) = Z.to_nat (Ble.queue_count h) /\
  0 <= Ble.queue_count h <= 7 /\
  (Ble.queue_count h = 7 ->
   run (Ble.ble_enqueue_event event) hw w = Done STATUS_ERROR w) /\
  (Ble.queue_count h < 7 ->
   exists w',
     run (Ble.ble_enqueue_event event) hw w = Done STATUS_OK w' /\
     Ble.queue_contents (g_ble_handle w') = Ble.queue_contents h ++ [event]) /\
  (BleData.evt_queue_head h = BleData.evt_queue_tail h ->
   run (Ble.ble_dequeue_event evt) hw w = Done (false, evt) w).
Proof.
  intros Hwf h. split; [apply queue_slots_length |].
  split; [apply queue_count_range |]. split; [| split].
  - intros Hc. apply enqueue_full; assumption.
  - intros Hc. destruct (enqueue_ok hw event w Hwf Hc) as (E & _ & _ & Hcont).
    eexists. split; [exact E | exact Hcont].
  - intros E. apply dequeue_empty. symmetry. exact E.
Qed.

Lemma C4_event_queue_full_and_empty_witness :
  run (Ble.ble_dequeue_event Ble.zero_event) (fun _ _ => 0) BleSpec.w_ble_ready
  = Done (false, Ble.zero_event) BleSpec.w_ble_ready.
Proof.
  refine (proj2 (proj2 (proj2 (proj2
            (C4_event_queue_full_and_empty (fun _ _ => 0) BleSpec.w_ble_ready
               Ble.zero_event Ble.zero_event _)))) eq_refl).
  repeat split; cbn; lia.
Defined.

(** C4, the claim as written, puts the full queue at 8 queued events.
    Eight enqueues in a row into the empty queue: the first seven succeed,
    the eighth already fails, and the queue holds the first seven events. *)
Lemma C4_queue_is_full_at_seven_counterexample :
  let es :=
    map BleSpec.event_of
      [BLE_EVT_CONNECTED; BLE_EVT_DATA_SENT; BLE_EVT_DISCONNECTED;
       BLE_EVT_ADV_STARTED; BLE_EVT_ADV_STOPPED; BLE_EVT_CONNECTED;
       BLE_EVT_DATA_SENT; BLE_EVT_ERROR] in
  let o := run (BleSpec.enqueue_all es) (fun _ _ => 0) world_init in
  Sim.result_of o
  = Some [STATUS_OK; STATUS_OK; STATUS_OK; STATUS_OK; STATUS_OK; STATUS_OK;
          STATUS_OK; STATUS_ERROR] /\
  Ble.queue_contents (g_ble_handle (Sim.world_of o)) = firstn 7 es /\
  Ble.queue_count (g_ble_handle (Sim.world_of o)) = 7 /\
  length (Ble.queue_contents (g_ble_handle (Sim.world_of o))) <> 8%nat.
Proof. vm_compute. repeat split. discriminate. Qed.

(** ** Receive staging *)

Section BleRx.
Import BleData Ble BleSpec.

Variable hw : oracle.

Lemma rx_copy_loop_in_bounds n i w :
  length (rx_buffer (g_ble_handle w)) = Z.to_nat BLE_MAX_PAYLOAD_SIZE ->
  0 <= i -> i + Z.of_nat n <= BLE_MAX_PAYLOAD_SIZE ->
  returns (rx_copy_loop n i) hw w
    (fun _ w' =>
       exists b,
         length b = Z.to_nat BLE_MAX_PAYLOAD_SIZE /\
         g_ble_handle w' = set_rx_buffer b (g_ble_handle w) /\
         g_i2c_handles w' = g_i2c_handles w).
Proof.
  unfold BLE_MAX_PAYLOAD_SIZE.
  revert i w. induction n as [| k IH]; intros i w Hlen Hi Hn;
    cbn [rx_copy_loop].
  - apply returns_ret. exists (rx_buffer (g_ble_handle w)).
    split; [exact Hlen |]. split; [| reflexivity].
    destruct (g_ble_handle w); reflexivity.
  - apply returns_bind. apply returns_read_reg. intros v _.
    apply returns_bind. eexists _, _. split; [reflexivity |].
    apply returns_bind. unfold returns at 1, array_set.
    cbn [g_ble_handle log]. rewrite Hlen.
    destruct (Z.leb_spec 0 i); [| lia].
    destruct (Z.ltb_spec i (Z.of_nat (Z.to_nat 244))); [| lia].
    cbn [andb]. eexists _, _. split; [reflexivity |].
    apply returns_bind. eexists tt, _. split; [reflexivity |].
    eapply returns_weaken.
    { apply (IH (u16 (i + 1))).
      - cbn. rewrite list_set_length. exact Hlen.
      - unfold u16. apply Z.mod_pos_bound. reflexivity.
      - unfold u16. rewrite Z.mod_small by lia. lia. }
    cbv beta. intros _ w' (b & Hb & Hh & Hi2c).
    exists b. split; [exact Hb |]. split; [| exact Hi2c].
    rewrite Hh. reflexivity.
Qed.

Lemma read_rx_data_clamps w :
  wf_ble (g_ble_handle w) ->
  returns ble_read_rx_data hw w
    (fun _ w' =>
       let h := g_ble_handle w in
       let h' := g_ble_handle w' in
       rx_len h' = Z.min (u32 (hw (trace w) BLE_RX_LEN)) BLE_MAX_PAYLOAD_SIZE /\
       rx_pending h' = true /\
       wf_ble h' /\
       state h' = state h /\ callback h' = callback h /\
       event_queue h' = event_queue h /\
       evt_queue_head h' = evt_queue_head h /\
       evt_queue_tail h' = evt_queue_tail h /\
       tx_complete h' = tx_complete h).
Proof.
  intros (Hq & Hb & Hh & Ht). unfold ble_read_rx_data.
  apply returns_bind. unfold returns at 1, read_reg.
  eexists _, _. split; [reflexivity |].
  set (v := u32 (hw (trace w) BLE_RX_LEN)).
  assert (Hv : 0 <= v < 2 ^ 32) by (apply Z.mod_pos_bound; reflexivity).
  set (n := if v >? BLE_MAX_PAYLOAD_SIZE then BLE_MAX_PAYLOAD_SIZE else v).
  assert (Hn : n = Z.min v BLE_MAX_PAYLOAD_SIZE /\ 0 <= n <= 244).
  { unfold n, BLE_MAX_PAYLOAD_SIZE.
    destruct (Z.gtb_spec v 244); lia. }
  destruct Hn as [Hmin Hn].
  assert (Hu : u16 n = n) by (unfold u16; apply Z.mod_small; lia).
  rewrite Hu.
  apply returns_bind. eexists tt, _. split; [reflexivity |].
  apply returns_bind.
  eapply returns_weaken.
  { apply (rx_copy_loop_in_bounds (Z.to_nat n) 0).
    - exact Hb.
    - lia.
    - unfold BLE_MAX_PAYLOAD_SIZE. lia. }
  cbv beta. intros _ w1 (b & Hlen & Hh1 & _).
  eexists tt, _. split; [reflexivity |].
  cbn [g_ble_handle with_ble]. rewrite Hh1.
  repeat split; cbn; auto; lia.
Qed.

End BleRx.

(** C8.  Whatever value the RX_LEN register reports, [ble_read_rx_data]
    terminates with every write to [rx_buffer] inside the array, stores
    [rx_len = min(RX_LEN, 244)], so [rx_len <= 244], leaves the staging
    buffer 244 bytes long and sets the pending flag. *)
Theorem C8_rx_length_clamped (hw : oracle) (w : world) :
  Ble.wf_ble (g_ble_handle w) ->
  exists w',
    run Ble.ble_read_rx_data hw w = Done tt w' /\
    BleData.rx_len (g_ble_handle w')
    = Z.min (u32 (hw (trace w) BLE_RX_LEN)) BLE_MAX_PAYLOAD_SIZE /\
    0 <= BleData.rx_len (g_ble_handle w') <= BLE_MAX_PAYLOAD_SIZE /\
    length (BleData.rx_buffer (g_ble_handle w')) = Z.to_nat BLE_MAX_PAYLOAD_SIZE /\
    BleData.rx_pending (g_ble_handle w') = true.
Proof.
  intros Hwf.
  destruct (read_rx_data_clamps hw w Hwf)
    as ([] & w' & E & Hlen & Hp & (_ & Hb & _) & _).
  exists w'. repeat split; auto.
  - rewrite Hlen.
    assert (0 <= u32 (hw (trace w) BLE_RX_LEN))
      by (apply Z.mod_pos_bound; reflexivity).
    unfold BLE_MAX_PAYLOAD_SIZE. lia.
  - rewrite Hlen. unfold BLE_MAX_PAYLOAD_SIZE. lia.
Qed.

Lemma C8_rx_length_clamped_witness :
  exists w',
    run Ble.ble_read_rx_data (BleSpec.hw_rx 4 4000000000) BleSpec.w_ble_ready
    = Done tt w' /\
    BleData.rx_len (g_ble_handle w') = 244.
Proof.
  destruct (C8_rx_length_clamped (BleSpec.hw_rx 4 4000000000)
              BleSpec.w_ble_ready)
    as (w' & E & Hlen & _).
  - repeat split; cbn; lia.
  - exists w'. split; [exact E | exact Hlen].
Defined.

(** ** The interrupt entry point *)

Section BleIrq.
Import BleData Ble BleSpec.

Variable hw : oracle.

Lemma enqueue_keeps_state e w (Q : status_t -> world -> Prop) :
  wf_ble (g_ble_handle w) ->
  (forall r w',
     wf_ble (g_ble_handle w') ->
     state (g_ble_handle w') = state (g_ble_handle w) ->
     Q r w') ->
  returns (ble_enqueue_event e) hw w Q.
Proof.
  intros Hwf HQ.
  pose proof (queue_count_range (g_ble_handle w)) as Hr.
  destruct (Z.eq_dec (queue_count (g_ble_handle w)) 7) as [Hc | Hc].
  - eexists _, _. split; [apply enqueue_full; assumption |].
    apply HQ; auto.
  - destruct (enqueue_ok hw e w Hwf) as (E & Hwf' & _); [lia |].
    eexists _, _. split; [exact E |]. apply HQ; auto.
Qed.

Lemma set_state_wf s h : wf_ble h -> wf_ble (set_state s h).
Proof. auto. Qed.

Lemma set_tx_complete_wf b h : wf_ble h -> wf_ble (set_tx_complete b h).
Proof. auto. Qed.

Lemma irq_handler_state w :
  wf_ble (g_ble_handle w) ->
  returns ble_irq_handler hw w
    (fun _ w' =>
       wf_ble (g_ble_handle w') /\
       state (g_ble_handle w')
       = state_after_irq (u32 (hw (trace w) BLE_INT_FLAG))
           (state (g_ble_handle w))).
Proof.
  intros Hwf. unfold ble_irq_handler.
  apply returns_bind. unfold returns at 1, read_reg.
  eexists _, _. split; [reflexivity |].
  set (f := u32 (hw (trace w) BLE_INT_FLAG)).
  set (s0 := state (g_ble_handle w)).
  unfold state_after_irq.
  (* connected *)
  apply returns_bind.
  apply (returns_weaken _ _ _
           (fun _ w1 =>
              wf_ble (g_ble_handle w1) /\
              state (g_ble_handle w1)
              = if BIT_CHECK f BLE_INT_CONNECTED
                then BLE_STATE_CONNECTED else s0)).
  { destruct (BIT_CHECK f BLE_INT_CONNECTED).
    - apply returns_bind. apply returns_emit.
      apply returns_bind. eexists tt, _. split; [reflexivity |].
      apply returns_bind. eexists _, _. split; [reflexivity |].
      apply returns_bind. apply enqueue_keeps_state.
      { apply set_state_wf. exact Hwf. }
      intros r w' Hwf' Hst. apply returns_ret. split; [exact Hwf' |].
      rewrite Hst. reflexivity.
    - apply returns_ret. split; [exact Hwf | reflexivity]. }
  intros evt1 w1 [Hwf1 Hs1].
  (* disconnected *)
  apply returns_bind.
  apply (returns_weaken _ _ _
           (fun _ w2 =>
              wf_ble (g_ble_handle w2) /\
              state (g_ble_handle w2)
              = if BIT_CHECK f BLE_INT_DISCONNECTED then BLE_STATE_IDLE
                else if BIT_CHECK f BLE_INT_CONNECTED
                     then BLE_STATE_CONNECTED else s0)).
  { destruct (BIT_CHECK f BLE_INT_DISCONNECTED).
    - apply returns_bind. apply returns_emit.
      apply returns_bind. eexists tt, _. split; [reflexivity |].
      apply returns_bind. apply enqueue_keeps_state.
      { apply set_state_wf. exact Hwf1. }
      intros r w' Hwf' Hst. apply returns_ret. split; [exact Hwf' |].
      rewrite Hst. reflexivity.
    - apply returns_ret. split; [exact Hwf1 | exact Hs1]. }
  intros evt2 w2 [Hwf2 Hs2].
  (* rx done *)
  apply returns_bind.
  apply (returns_weaken _ _ _
           (fun _ w3 =>
              wf_ble (g_ble_handle w3) /\
              state (g_ble_handle w3) = state (g_ble_handle w2))).
  { destruct (BIT_CHECK f BLE_INT_RX_DONE).
    - apply returns_bind. apply returns_emit.
      eapply returns_weaken.
      { apply read_rx_data_clamps. exact Hwf2. }
      cbv beta zeta. intros _ w3 (_ & _ & Hwf3 & Hst & _).
      split; [exact Hwf3 | exact Hst].
    - apply returns_ret. split; [exact Hwf2 | reflexivity]. }
  intros [] w3 [Hwf3 Hs3].
  (* tx done *)
  apply returns_bind.
  apply (returns_weaken _ _ _
           (fun _ w4 =>
              wf_ble (g_ble_handle w4) /\
              state (g_ble_handle w4) = state (g_ble_handle w2))).
  { destruct (BIT_CHECK f BLE_INT_TX_DONE).
    - apply returns_bind. apply returns_emit.
      apply returns_bind. eexists tt, _. split; [reflexivity |].
      apply returns_bind. apply enqueue_keeps_state.
      { apply set_tx_complete_wf. exact Hwf3. }
      intros r w' Hwf' Hst. apply returns_ret. split; [exact Hwf' |].
      rewrite Hst. exact Hs3.
    - apply returns_ret. split; [exact Hwf3 | exact Hs3]. }
  intros evt4 w4 [Hwf4 Hs4].
  (* error *)
  destruct (BIT_CHECK f BLE_INT_ERROR).
  - apply returns_bind. apply returns_emit.
    apply returns_bind. eexists tt, _. split; [reflexivity |].
    apply returns_bind. apply enqueue_keeps_state.
    { apply set_state_wf. exact Hwf4. }
    intros r w' Hwf' Hst. apply returns_ret. split; [exact Hwf' |].
    rewrite Hst. reflexivity.
  - apply returns_ret. split; [exact Hwf4 |]. congruence.
Qed.

End BleIrq.

(** C9.  [ble_irq_handler] sets the link state from the interrupt flags
    alone.  From any prior state -- Off, Advertising, Scanning, Error or any
    other, initialised or not -- the state it leaves is Error when the error
    flag is set, else Idle when the disconnected flag is set, else Connected
    when the connected flag is set, and the prior state only when none of
    the three is set. *)
Theorem C9_irq_transitions_are_unconditional (hw : oracle) (w : world) :
  Ble.wf_ble (g_ble_handle w) ->
  let int_flags := u32 (hw (trace w) BLE_INT_FLAG) in
  exists w',
    run Ble.ble_irq_handler hw w = Done tt w' /\
    BleData.state (g_ble_handle w')
    = BleSpec.state_after_irq int_flags (BleData.state (g_ble_handle w)) /\
    (BIT_CHECK int_flags BLE_INT_CONNECTED = true ->
     BIT_CHECK int_flags BLE_INT_DISCONNECTED = false ->
     BIT_CHECK int_flags BLE_INT_ERROR = false ->
     BleData.state (g_ble_handle w') = BLE_STATE_CONNECTED) /\
    (BIT_CHECK int_flags BLE_INT_DISCONNECTED = true ->
     BIT_CHECK int_flags BLE_INT_ERROR = false ->
     BleData.state (g_ble_handle w') = BLE_STATE_IDLE).
Proof.
  intros Hwf int_flags.
  destruct (irq_handler_state hw w Hwf) as ([] & w' & E & _ & Hst).
  fold int_flags in Hst.
  exists w'. split; [exact E |]. split; [exact Hst |].
  unfold BleSpec.state_after_irq in Hst. split.
  - intros Hc Hd He. rewrite Hst, He, Hd, Hc. reflexivity.
  - intros Hd He. rewrite Hst, He, Hd. reflexivity.
Qed.

Lemma C9_irq_transitions_are_unconditional_witness :
  BleData.state (g_ble_handle world_init) = BLE_STATE_OFF /\
  exists w',
    run Ble.ble_irq_handler (BleSpec.hw_rx 1 0) world_init = Done tt w' /\
    BleData.state (g_ble_handle w') = BLE_STATE_CONNECTED.
Proof.
  split; [reflexivity |].
  destruct (C9_irq_transitions_are_unconditional (BleSpec.hw_rx 1 0) world_init)
    as (w' & E & _ & Hc & _).
  - repeat split; cbn; lia.
  - exists w'. split; [exact E |]. apply Hc; reflexivity.
Defined.

(** ** Foreground delivery *)

Section BleProcess.
Import BleData Ble BleSpec.

Variable hw : oracle.

Lemma delivered_log_callback cb e w :
  delivered (trace (log (EvBleCallback cb e) w)) = delivered (trace w) ++ [e].
Proof. reflexivity. Qed.

Lemma invoke_callback_delivers e w (Q : unit -> world -> Prop) :
  callback (g_ble_handle w) <> 0 ->
  Q tt (log (EvBleCallback (callback (g_ble_handle w)) e) w) ->
  returns (invoke_callback e) hw w Q.
Proof.
  intros Hcb HQ. unfold returns, invoke_callback, bind, get_ble, IS_VALID_PTR.
  apply Z.eqb_neq in Hcb. rewrite Hcb. cbn [negb].
  eexists _, _. split; [reflexivity | exact HQ].
Qed.

(** The drain loop hands over the queued events oldest first and leaves
    the queue empty; it needs one iteration per event and one more. *)
Lemma process_loop_drains fuel :
  forall evt w,
    wf_ble (g_ble_handle w) ->
    callback (g_ble_handle w) <> 0 ->
    (Z.to_nat (queue_count (g_ble_handle w)) < fuel)%nat ->
    returns (process_loop fuel evt) hw w
      (fun _ w' =>
         delivered (trace w')
         = delivered (trace w) ++ queue_contents (g_ble_handle w) /\
         queue_contents (g_ble_handle w') = [] /\
         rx_pending (g_ble_handle w') = rx_pending (g_ble_handle w)).
Proof.
  induction fuel as [| k IH]; intros evt w Hwf Hcb Hfuel; [lia |].
  cbn [process_loop]. apply returns_bind.
  destruct (Z.eq_dec (evt_queue_tail (g_ble_handle w))
              (evt_queue_head (g_ble_handle w))) as [E | Hne].
  - eexists _, _. split; [apply dequeue_empty; exact E |].
    cbn [fst]. apply returns_ret.
    assert (Hc : queue_count (g_ble_handle w) = 0)
      by (apply empty_iff_zero; assumption).
    unfold queue_contents. rewrite Hc. cbn [Z.to_nat queue_slots].
    rewrite app_nil_r. auto.
  - destruct (dequeue_some hw evt w Hwf Hne) as (E & Hwf' & Hc' & Hcont).
    eexists _, _. split; [exact E |].
    cbn [fst snd]. apply returns_bind.
    apply invoke_callback_delivers; [exact Hcb |].
    eapply returns_weaken.
    { apply IH.
      - exact Hwf'.
      - exact Hcb.
      - cbn [g_ble_handle log with_ble]. rewrite Hc'.
        pose proof (queue_count_range (g_ble_handle w)).
        assert (queue_count (g_ble_handle w) <> 0)
          by (intros Hz; apply Hne; apply empty_iff_zero; assumption).
        lia. }
    cbv beta. intros _ w' (Hd & He & Hp).
    split; [| split; [exact He | exact Hp]].
    rewrite Hd, delivered_log_callback. cbn [trace with_ble g_ble_handle log].
    rewrite Hcont, <- app_assoc. reflexivity.
Qed.

Lemma process_delivers fuel evt0 w :
  wf_ble (g_ble_handle w) ->
  callback (g_ble_handle w) <> 0 ->
  0 <= rx_len (g_ble_handle w) <= BLE_MAX_PAYLOAD_SIZE ->
  length (data evt0) = Z.to_nat BLE_MAX_PAYLOAD_SIZE ->
  (8 <= fuel)%nat ->
  returns (ble_process fuel evt0) hw w
    (fun _ w' =>
       delivered (trace w')
       = delivered (trace w) ++ staged (g_ble_handle w) evt0
         ++ queue_contents (g_ble_handle w) /\
       queue_contents (g_ble_handle w') = [] /\
       rx_pending (g_ble_handle w') = false).
Proof.
  intros Hwf Hcb Hrx Hevt Hfuel.
  pose proof (queue_count_range (g_ble_handle w)) as Hr.
  unfold ble_process. apply returns_bind.
  eexists _, _. split; [reflexivity |].
  unfold staged. destruct (rx_pending (g_ble_handle w)) eqn:Hp.
  - apply returns_bind. apply returns_bind.
    eexists tt, _. split; [reflexivity |].
    apply returns_bind. unfold returns at 1, memcpy.
    destruct Hwf as (Hq & Hb & Hh & Ht).
    rewrite Hb, Hevt. unfold BLE_MAX_PAYLOAD_SIZE in *.
    destruct (Z.leb_spec 0 (rx_len (g_ble_handle w))); [| lia].
    destruct (Z.leb_spec (rx_len (g_ble_handle w)) (Z.of_nat (Z.to_nat 244)));
      [| lia].
    cbn [andb]. eexists _, _. split; [reflexivity |].
    apply returns_bind. apply invoke_callback_delivers; [exact Hcb |].
    apply returns_ret.
    eapply returns_weaken.
    { apply process_loop_drains.
      - repeat split; cbn; auto; lia.
      - exact Hcb.
      - cbn [g_ble_handle log with_ble].
        change (queue_count (set_rx_pending false (g_ble_handle w)))
          with (queue_count (g_ble_handle w)).
        lia. }
    cbv beta. intros _ w' (Hd & He & Hp').
    split; [| split; [exact He | exact Hp']].
    rewrite Hd. cbn [trace log with_ble g_ble_handle delivered].
    rewrite <- app_assoc. reflexivity.
  - apply returns_bind. apply returns_ret.
    eapply returns_weaken.
    { apply process_loop_drains; auto. lia. }
    cbv beta. intros _ w' (Hd & He & Hp').
    split; [exact Hd |]. split; [exact He | congruence].
Qed.

(** Without a callback nothing is handed over, but the flag is cleared
    and the queue is emptied all the same. *)
Lemma invoke_callback_skips e w (Q : unit -> world -> Prop) :
  callback (g_ble_handle w) = 0 ->
  Q tt w ->
  returns (invoke_callback e) hw w Q.
Proof.
  intros Hcb HQ. unfold returns, invoke_callback, bind, get_ble, IS_VALID_PTR.
  rewrite Hcb. cbn [Z.eqb negb].
  eexists _, _. split; [reflexivity | exact HQ].
Qed.

Lemma process_loop_discards fuel :
  forall evt w,
    wf_ble (g_ble_handle w) ->
    callback (g_ble_handle w) = 0 ->
    (Z.to_nat (queue_count (g_ble_handle w)) < fuel)%nat ->
    returns (process_loop fuel evt) hw w
      (fun _ w' =>
         trace w' = trace w /\
         queue_contents (g_ble_handle w') = [] /\
         rx_pending (g_ble_handle w') = rx_pending (g_ble_handle w)).
Proof.
  induction fuel as [| k IH]; intros evt w Hwf Hcb Hfuel; [lia |].
  cbn [process_loop]. apply returns_bind.
  destruct (Z.eq_dec (evt_queue_tail (g_ble_handle w))
              (evt_queue_head (g_ble_handle w))) as [E | Hne].
  - eexists _, _. split; [apply dequeue_empty; exact E |].
    cbn [fst]. apply returns_ret.
    assert (Hc : queue_count (g_ble_handle w) = 0)
      by (apply empty_iff_zero; assumption).
    unfold queue_contents. rewrite Hc. cbn [Z.to_nat queue_slots]. auto.
  - destruct (dequeue_some hw evt w Hwf Hne) as (E & Hwf' & Hc' & Hcont).
    eexists _, _. split; [exact E |].
    cbn [fst snd]. apply returns_bind.
    apply invoke_callback_skips; [exact Hcb |].
    eapply returns_weaken.
    { apply IH.
      - exact Hwf'.
      - exact Hcb.
      - cbn [g_ble_handle log with_ble]. rewrite Hc'.
        pose proof (queue_count_range (g_ble_handle w)).
        assert (queue_count (g_ble_handle w) <> 0)
          by (intros Hz; apply Hne; apply empty_iff_zero; assumption).
        lia. }
    cbv beta. intros _ w' (Hd & He & Hp).
    split; [exact Hd |]. split; [exact He | exact Hp].
Qed.

Lemma process_discards fuel evt0 w :
  wf_ble (g_ble_handle w) ->
  callback (g_ble_handle w) = 0 ->
  0 <= rx_len (g_ble_handle w) <= BLE_MAX_PAYLOAD_SIZE ->
  length (data evt0) = Z.to_nat BLE_MAX_PAYLOAD_SIZE ->
  (8 <= fuel)%nat ->
  returns (ble_process fuel evt0) hw w
    (fun _ w' =>
       trace w' = trace w /\
       queue_contents (g_ble_handle w') = [] /\
       rx_pending (g_ble_handle w') = false).
Proof.
  intros Hwf Hcb Hrx Hevt Hfuel.
  pose proof (queue_count_range (g_ble_handle w)) as Hr.
  unfold ble_process. apply returns_bind.
  eexists _, _. split; [reflexivity |].
  destruct (rx_pending (g_ble_handle w)) eqn:Hp.
  - apply returns_bind. apply returns_bind.
    eexists tt, _. split; [reflexivity |].
    apply returns_bind. unfold returns at 1, memcpy.
    destruct Hwf as (Hq & Hb & Hh & Ht).
    rewrite Hb, Hevt. unfold BLE_MAX_PAYLOAD_SIZE in *.
    destruct (Z.leb_spec 0 (rx_len (g_ble_handle w))); [| lia].
    destruct (Z.leb_spec (rx_len (g_ble_handle w)) (Z.of_nat (Z.to_nat 244)));
      [| lia].
    cbn [andb]. eexists _, _. split; [reflexivity |].
    apply returns_bind. apply invoke_callback_skips; [exact Hcb |].
    apply returns_ret.
    eapply returns_weaken.
    { apply process_loop_discards.
      - repeat split; cbn; auto; lia.
      - exact Hcb.
      - cbn [g_ble_handle log with_ble].
        change (queue_count (set_rx_pending false (g_ble_handle w)))
          with (queue_count (g_ble_handle w)).
        lia. }
    cbv beta. intros _ w' (Hd & He & Hp').
    split; [exact Hd |]. split; [exact He | exact Hp'].
  - apply returns_bind. apply returns_ret.
    eapply returns_weaken.
    { apply process_loop_discards; auto. lia. }
    cbv beta. intros _ w' (Hd & He & Hp').
    split; [exact Hd |]. split; [exact He | congruence].
Qed.

Lemma enqueue_appends e w :
  wf_ble (g_ble_handle w) ->
  queue_count (g_ble_handle w) < 7 ->
  exists w',
    ble_enqueue_event e hw w = Done STATUS_OK w' /\
    trace w' = trace w /\
    wf_ble (g_ble_handle w') /\
    queue_count (g_ble_handle w') = queue_count (g_ble_handle w) + 1 /\
    callback (g_ble_handle w') = callback (g_ble_handle w) /\
    rx_len (g_ble_handle w') = rx_len (g_ble_handle w) /\
    staged (g_ble_handle w') = staged (g_ble_handle w) /\
    queue_contents (g_ble_handle w')
    = queue_contents (g_ble_handle w) ++ [e].
Proof.
  intros Hwf Hc.
  destruct (enqueue_ok hw e w Hwf Hc) as (E & Hwf' & Hc' & Hq').
  eexists. split; [exact E |].
  split; [reflexivity |]. split; [exact Hwf' |]. split; [exact Hc' |].
  split; [reflexivity |]. split; [reflexivity |]. split; [reflexivity |].
  exact Hq'.
Qed.

Lemma enqueue_three A B C w :
  wf_ble (g_ble_handle w) ->
  queue_count (g_ble_handle w) <= 4 ->
  exists w3,
    enqueue_all [A; B; C] hw w = Done [STATUS_OK; STATUS_OK; STATUS_OK] w3 /\
    trace w3 = trace w /\
    wf_ble (g_ble_handle w3) /\
    callback (g_ble_handle w3) = callback (g_ble_handle w) /\
    rx_len (g_ble_handle w3) = rx_len (g_ble_handle w) /\
    staged (g_ble_handle w3) = staged (g_ble_handle w) /\
    queue_contents (g_ble_handle w3)
    = queue_contents (g_ble_handle w) ++ [A; B; C].
Proof.
  intros Hwf Hc.
  destruct (enqueue_appends A w Hwf)
    as (w1 & E1 & Ht1 & Hwf1 & Hc1 & Hcb1 & Hrx1 & Hst1 & Hq1); [lia |].
  destruct (enqueue_appends B w1 Hwf1)
    as (w2 & E2 & Ht2 & Hwf2 & Hc2 & Hcb2 & Hrx2 & Hst2 & Hq2); [lia |].
  destruct (enqueue_appends C w2 Hwf2)
    as (w3 & E3 & Ht3 & Hwf3 & Hc3 & Hcb3 & Hrx3 & Hst3 & Hq3); [lia |].
  exists w3. split.
  { cbn [enqueue_all]. unfold bind. rewrite E1, E2, E3. reflexivity. }
  repeat split; try congruence; try apply Hwf3.
  rewrite Hq3, Hq2, Hq1, <- !app_assoc. reflexivity.
Qed.

End BleProcess.

(** C6.  With a callback registered, one call of [ble_process] hands the
    callback first the event built from the staging buffer, if the pending
    flag is set, and then every queued event, oldest first; afterwards the
    queue is empty and the flag is clear.  Events A, B, C enqueued in that
    order are delivered after whatever was queued before them, as A, B,
    C.  With no callback registered the call clears the flag and empties
    the queue just the same, and hands over nothing. *)
Theorem C6_process_delivers_staged_then_fifo (hw : oracle) (w : world)
    (fuel : nat) (evt0 A B C : BleEvent.ble_event_t) :
  Ble.wf_ble (g_ble_handle w) ->
  0 <= BleData.rx_len (g_ble_handle w) <= BLE_MAX_PAYLOAD_SIZE ->
  length (BleEvent.data evt0) = Z.to_nat BLE_MAX_PAYLOAD_SIZE ->
  (8 <= fuel)%nat ->
  let h := g_ble_handle w in
  (BleData.callback h <> 0 ->
   (exists w',
      run (Ble.ble_process fuel evt0) hw w = Done tt w' /\
      Ble.delivered (trace w')
      = Ble.delivered (trace w) ++ BleSpec.staged h evt0
        ++ Ble.queue_contents h /\
      Ble.queue_contents (g_ble_handle w') = [] /\
      BleData.rx_pending (g_ble_handle w') = false) /\
   (Ble.queue_count h <= 4 ->
    exists w',
      run (BleSpec.enqueue_all [A; B; C] ;;; Ble.ble_process fuel evt0) hw w
      = Done tt w' /\
      Ble.delivered (trace w')
      = Ble.delivered (trace w) ++ BleSpec.staged h evt0
        ++ Ble.queue_contents h ++ [A; B; C])) /\
  (BleData.callback h = 0 ->
   exists w',
     run (Ble.ble_process fuel evt0) hw w = Done tt w' /\
     trace w' = trace w /\
     Ble.queue_contents (g_ble_handle w') = [] /\
     BleData.rx_pending (g_ble_handle w') = false).
Proof.
  intros Hwf Hrx Hevt Hfuel h. subst h.
  split; [intros Hcb; split | intros Hcb].
  - destruct (process_delivers hw fuel evt0 w Hwf Hcb Hrx Hevt Hfuel)
      as ([] & w' & E & Hd & He & Hp).
    exists w'. auto.
  - intros Hc.
    destruct (enqueue_three hw A B C w Hwf Hc)
      as (w3 & E3 & Htr & Hwf3 & Hcb3 & Hrx3 & Hst3 & Hq3).
    destruct (process_delivers hw fuel evt0 w3 Hwf3)
      as ([] & w' & E & Hd & _); auto; try congruence.
    exists w'. split.
    + unfold run, bind. rewrite E3. exact E.
    + rewrite Hd, Htr, Hst3, Hq3. reflexivity.
  - destruct (process_discards hw fuel evt0 w Hwf Hcb Hrx Hevt Hfuel)
      as ([] & w' & E & Hd & He & Hp).
    exists w'. auto.
Qed.

Lemma C6_process_delivers_staged_then_fifo_witness :
  let A := BleSpec.event_of BLE_EVT_CONNECTED in
  let B := BleSpec.event_of BLE_EVT_DATA_SENT in
  let C := BleSpec.event_of BLE_EVT_DISCONNECTED in
  exists w',
    run (BleSpec.enqueue_all [A; B; C] ;;; Ble.ble_process 8 Ble.zero_event)
      (fun _ _ => 0) BleSpec.w_ble_ready
    = Done tt w' /\
    Ble.delivered (trace w') = [A; B; C].
Proof.
  intros A B C.
  destruct (C6_process_delivers_staged_then_fifo (fun _ _ => 0)
              BleSpec.w_ble_ready 8 Ble.zero_event A B C)
    as (H & _).
  - repeat split; cbn; lia.
  - cbn. unfold BLE_MAX_PAYLOAD_SIZE. lia.
  - reflexivity.
  - lia.
  - assert (Hcb : BleData.callback (g_ble_handle BleSpec.w_ble_ready) <> 0)
      by (cbn; unfold BleSpec.app_handler; lia).
    assert (Hc : Ble.queue_count (g_ble_handle BleSpec.w_ble_ready) <= 4)
      by (cbn; lia).
    destruct (H Hcb) as (_ & H2).
    destruct (H2 Hc) as (w' & E & Hd).
    exists w'. split; [exact E | exact Hd].
Defined.

(** C6, the claim as written, speaks of every call.  On the power-on
    handle, which has no callback, with a frame staged and A, B, C queued,
    [ble_process] returns with the flag cleared and the queue empty, and
    the callback has received nothing. *)
Lemma C6_no_callback_counterexample :
  let A := BleSpec.event_of BLE_EVT_CONNECTED in
  let B := BleSpec.event_of BLE_EVT_DATA_SENT in
  let C := BleSpec.event_of BLE_EVT_DISCONNECTED in
  let w0 :=
    with_ble (Ble.set_rx_pending true (g_ble_handle world_init)) world_init in
  let w :=
    Sim.world_of (run (BleSpec.enqueue_all [A; B; C]) (fun _ _ => 0) w0) in
  let o := run (Ble.ble_process 8 Ble.zero_event) (fun _ _ => 0) w in
  BleData.callback (g_ble_handle w) = 0 /\
  BleData.rx_pending (g_ble_handle w) = true /\
  Ble.queue_contents (g_ble_handle w) = [A; B; C] /\
  Sim.result_of o = Some tt /\
  Ble.delivered (trace (Sim.world_of o)) = [] /\
  Ble.queue_contents (g_ble_handle (Sim.world_of o)) = [] /\
  BleData.rx_pending (g_ble_handle (Sim.world_of o)) = false.
Proof. vm_compute. repeat split. Qed.


(** * Further properties of hal_gic.c *)

Section GicPriority.
Import Gic.

Lemma u32_testbit z i : 0 <= i < 32 -> Z.testbit (u32 z) i = Z.testbit z i.
Proof. intros Hi. unfold u32. apply Z.mod_pow2_bits_low. lia. Qed.

Lemma byte_lane (i lane : Z) :
  0 <= i -> 0 <= lane ->
  (i / 8 =? lane) = (lane * 8 <=? i) && (i <? lane * 8 + 8).
Proof.
  intros Hi Hl.
  destruct (Z.eqb_spec (i / 8) lane) as [E | E];
    destruct (Z.leb_spec (lane * 8) i); destruct (Z.ltb_spec i (lane * 8 + 8));
    cbn; try reflexivity; exfalso;
    Z.to_euclidean_division_equations; lia.
Qed.

Lemma small_testbit_high p i : 0 <= p < 256 -> 8 <= i -> Z.testbit p i = false.
Proof.
  intros Hp Hi. destruct (Z.eq_dec p 0) as [-> | Hne].
  - apply Z.bits_0.
  - apply Z.bits_above_log2; [lia |].
    assert (Z.log2 p < 8); [| lia].
    apply Z.log2_lt_pow2; lia.
Qed.

End GicPriority.

(** X1.  [gic_set_priority] returns [STATUS_INVALID_PARAM] for a line number
    of 256 or more and touches no register.  Otherwise it reads priority
    word [irq_num / 4] once and writes it back once, with the byte lane
    [irq_num mod 4] replaced by [priority] and every other bit as read, and
    returns [STATUS_OK]. *)
Theorem X1_gic_set_priority_byte_lane (hw : oracle) (w : world)
    (irq_num priority : Z) :
  0 <= irq_num ->
  0 <= priority < 256 ->
  (256 <= irq_num ->
   run (Gic.gic_set_priority irq_num priority) hw w
   = Done STATUS_INVALID_PARAM w) /\
  (irq_num < 256 ->
   let r := GICD_IPRIORITYR (irq_num / 4) in
   let old := u32 (hw (trace w) r) in
   exists v,
     run (Gic.gic_set_priority irq_num priority) hw w
     = Done STATUS_OK (log (EvWrite r v) (log (EvRead r old) w)) /\
     forall i, 0 <= i < 32 ->
       Z.testbit v i
       = if i / 8 =? irq_num mod 4 then Z.testbit priority (i mod 8)
         else Z.testbit old i).
Proof.
  intros Hirq Hp. split.
  - intros Hbig. unfold run, Gic.gic_set_priority.
    replace (irq_num >=? Gic.MAX_IRQ_NUM) with true
      by (symmetry; apply Z.geb_le; unfold Gic.MAX_IRQ_NUM; lia).
    reflexivity.
  - intros Hsmall r old. unfold run, Gic.gic_set_priority.
    replace (irq_num >=? Gic.MAX_IRQ_NUM) with false
      by (symmetry; unfold Gic.MAX_IRQ_NUM;
          destruct (Z.geb_spec irq_num 256); [lia | reflexivity]).
    cbv zeta. eexists. split; [reflexivity |].
    fold r. fold old. intros i Hi.
    pose proof (Z.mod_pos_bound irq_num 4 eq_refl) as Hm.
    set (lane := irq_num mod 4) in *.
    rewrite Z.lor_spec, Z.land_spec, !u32_testbit by lia.
    rewrite Z.lnot_spec, !Z.shiftl_spec by lia.
    rewrite byte_lane by lia.
    destruct (Z.leb_spec (lane * 8) i) as [Hlo | Hlo].
    + destruct (Z.ltb_spec i (lane * 8 + 8)) as [Hhi | Hhi]; cbn [andb].
      * replace (i mod 8) with (i - lane * 8)
          by (Z.to_euclidean_division_equations; lia).
        assert (Hbit : Z.testbit 255 (i - lane * 8) = true).
        { assert (Hc : i - lane * 8 = 0 \/ i - lane * 8 = 1 \/
                       i - lane * 8 = 2 \/ i - lane * 8 = 3 \/
                       i - lane * 8 = 4 \/ i - lane * 8 = 5 \/
                       i - lane * 8 = 6 \/ i - lane * 8 = 7) by lia.
          repeat destruct Hc as [Hc | Hc]; rewrite Hc; reflexivity. }
        rewrite Hbit. cbn [negb]. rewrite andb_false_r. reflexivity.
      * rewrite (small_testbit_high priority) by lia.
        rewrite (small_testbit_high 255) by lia.
        cbn [negb]. rewrite andb_true_r, orb_false_r. reflexivity.
    + cbn [andb]. rewrite !(Z.testbit_neg_r _ (i - lane * 8)) by lia.
      cbn [negb]. rewrite andb_true_r, orb_false_r. reflexivity.
Qed.

Lemma X1_gic_set_priority_byte_lane_witness :
  exists v,
    run (Gic.gic_set_priority IRQ_I2C0 128) (fun _ _ => 4294967295) world_init
    = Done STATUS_OK
        (log (EvWrite (GICD_IPRIORITYR 5) v)
           (log (EvRead (GICD_IPRIORITYR 5) 4294967295) world_init)) /\
    Z.testbit v 31 = true /\ Z.testbit v 30 = false /\ Z.testbit v 0 = true.
Proof.
  destruct (X1_gic_set_priority_byte_lane (fun _ _ => 4294967295) world_init
              IRQ_I2C0 128) as [_ H].
  - unfold IRQ_I2C0. lia.
  - lia.
  - destruct H as (v & E & Hbits); [unfold IRQ_I2C0; lia |].
    exists v. split; [exact E |].
    split; [| split].
    + rewrite (Hbits 31) by lia. reflexivity.
    + rewrite (Hbits 30) by lia. reflexivity.
    + rewrite (Hbits 0) by lia. reflexivity.
Defined.

(** * Further properties of i2c_driver.c *)

Section I2cInit.
Import I2cData I2c I2cSpec.

Variable hw : oracle.
Variable instance : Z.
Hypothesis Hinst : 0 <= instance < I2C_INSTANCE_MAX.

Lemma in_range_geb : (instance >=? I2C_INSTANCE_MAX) = false.
Proof.
  destruct (Z.geb_spec instance I2C_INSTANCE_MAX); [lia | reflexivity].
Qed.

Lemma list_set_twice {A} (l : list A) n a b :
  list_set (list_set l n a) n b = list_set l n b.
Proof.
  revert n. induction l as [| y t IH]; intros [| k]; cbn; auto.
  rewrite IH. reflexivity.
Qed.

Lemma irq_of_instance_small :
  0 <= (if instance =? I2C_INSTANCE_0 then IRQ_I2C0 else IRQ_I2C1) < 256.
Proof.
  destruct (instance =? I2C_INSTANCE_0); unfold IRQ_I2C0, IRQ_I2C1; lia.
Qed.

Lemma gic_small_geb irq : 0 <= irq < 256 -> (irq >=? Gic.MAX_IRQ_NUM) = false.
Proof.
  intros H. unfold Gic.MAX_IRQ_NUM.
  destruct (Z.geb_spec irq 256); [lia | reflexivity].
Qed.

Lemma clock_divisor_nonzero speed :
  0 < speed < 2 ^ 32 ->
  (if speed <=? 100000 then u32 (speed * 2) else u32 (speed * 3)) <> 0.
Proof.
  intros Hs. unfold u32.
  destruct (Z.leb_spec speed 100000).
  - rewrite Z.mod_small by lia. lia.
  - intros E. Z.to_euclidean_division_equations. lia.
Qed.

(** What [i2c_init] does on a valid instance with a usable clock speed. *)
Lemma i2c_init_ok cfg w :
  wf_i2c w ->
  0 < clock_speed cfg < 2 ^ 32 ->
  exists w',
    i2c_init instance (Some cfg) hw w = Done STATUS_OK w' /\
    g_i2c_handles w'
    = list_set (g_i2c_handles w) (Z.to_nat instance)
        (initialised (handle_of instance w)) /\
    mem w' = mem w /\
    g_ble_handle w' = g_ble_handle w /\
    last_write (I2C_CCR instance) (trace w')
    = Some (ccr_value (clock_speed cfg)) /\
    last_write (I2C_TRISE instance) (trace w')
    = Some (if clock_speed cfg <=? 100000 then 101 else 31).
Proof.
  intros Hwf Hs.
  pose proof (clock_divisor_nonzero _ Hs) as Hdiv.
  assert (R : returns (i2c_init instance (Some cfg)) hw w
                (fun r w' =>
                   r = STATUS_OK /\
                   g_i2c_handles w'
                   = list_set (g_i2c_handles w) (Z.to_nat instance)
                       (initialised (handle_of instance w)) /\
                   mem w' = mem w /\
                   g_ble_handle w' = g_ble_handle w /\
                   last_write (I2C_CCR instance) (trace w')
                   = Some (ccr_value (clock_speed cfg)) /\
                   last_write (I2C_TRISE instance) (trace w')
                   = Some (if clock_speed cfg <=? 100000 then 101 else 31))).
  { unfold i2c_init. rewrite in_range_geb. cbv zeta.
    apply returns_bind. apply returns_emit.
    apply returns_bind. apply returns_emit.
    apply returns_bind. apply returns_emit.
    apply returns_bind.
    apply (returns_weaken _ _ _
             (fun v w1 =>
                v = ccr_value (clock_speed cfg) /\
                w1 = log (EvWrite (I2C_CR2 instance)
                            (Z.land (SYSTEM_CLOCK_HZ / 1000000) 63))
                       (log (EvBitClear (I2C_CR1 instance) I2C_CR1_SWRST)
                          (log (EvBitSet (I2C_CR1 instance) I2C_CR1_SWRST) w)))).
    { unfold ccr_value, udiv.
      destruct (clock_speed cfg <=? 100000).
      - apply Z.eqb_neq in Hdiv. rewrite Hdiv. apply returns_ret. auto.
      - apply returns_bind. apply Z.eqb_neq in Hdiv. rewrite Hdiv.
        apply returns_ret. apply returns_ret. auto. }
    intros v w1 [-> ->].
    apply returns_bind. apply returns_emit.
    apply returns_bind.
    apply (returns_weaken _ _ _
             (fun _ w2 =>
                w2 = log (EvWrite (I2C_TRISE instance)
                            (if clock_speed cfg <=? 100000 then 101 else 31))
                       (log (EvWrite (I2C_CCR instance)
                               (ccr_value (clock_speed cfg)))
                          (log (EvWrite (I2C_CR2 instance)
                                  (Z.land (SYSTEM_CLOCK_HZ / 1000000) 63))
                             (log (EvBitClear (I2C_CR1 instance) I2C_CR1_SWRST)
                                (log (EvBitSet (I2C_CR1 instance) I2C_CR1_SWRST)
                                   w)))))).
    { destruct (clock_speed cfg <=? 100000); apply returns_emit; reflexivity. }
    intros [] w2 ->.
    set (w2 := log (EvWrite (I2C_TRISE instance) _) _).
    assert (F2 : wf_i2c w2 /\ g_i2c_handles w2 = g_i2c_handles w /\
                 mem w2 = mem w /\ g_ble_handle w2 = g_ble_handle w /\
                 last_write (I2C_CCR instance) (trace w2)
                 = Some (ccr_value (clock_speed cfg)) /\
                 last_write (I2C_TRISE instance) (trace w2)
                 = Some (if clock_speed cfg <=? 100000 then 101 else 31)).
    { repeat split; auto; cbn; rewrite Z.eqb_refl; reflexivity. }
    clearbody w2. destruct F2 as (Hwf2 & Hh2 & Hm2 & Hb2 & Hc2 & Ht2).
    apply returns_bind.
    apply (returns_weaken _ _ _
             (fun _ w3 =>
                wf_i2c w3 /\ g_i2c_handles w3 = g_i2c_handles w /\
                mem w3 = mem w /\ g_ble_handle w3 = g_ble_handle w /\
                last_write (I2C_CCR instance) (trace w3)
                = Some (ccr_value (clock_speed cfg)) /\
                last_write (I2C_TRISE instance) (trace w3)
                = Some (if clock_speed cfg <=? 100000 then 101 else 31))).
    { destruct (negb (own_address cfg =? 0)).
      - apply returns_emit. repeat split; auto.
      - apply returns_ret. repeat split; auto. }
    intros [] w3 (Hwf3 & Hh3 & Hm3 & Hb3 & Hc3 & Ht3).
    apply returns_bind. apply returns_emit.
    apply returns_bind. apply returns_emit.
    apply returns_bind.
    apply (returns_weaken _ _ _
             (fun _ w4 =>
                wf_i2c w4 /\ g_i2c_handles w4 = g_i2c_handles w /\
                mem w4 = mem w /\ g_ble_handle w4 = g_ble_handle w /\
                last_write (I2C_CCR instance) (trace w4)
                = Some (ccr_value (clock_speed cfg)) /\
                last_write (I2C_TRISE instance) (trace w4)
                = Some (if clock_speed cfg <=? 100000 then 101 else 31))).
    { destruct (i2c_use_interrupts cfg).
      - cbv zeta. pose proof irq_of_instance_small as Hirq.
        apply returns_bind. unfold Gic.gic_set_priority.
        rewrite gic_small_geb by exact Hirq. cbv zeta.
        apply returns_bind. apply returns_read_reg. intros v1 _.
        apply returns_bind. apply returns_emit. apply returns_ret.
        apply returns_bind. unfold Gic.gic_enable_irq.
        rewrite gic_small_geb by exact Hirq. cbv zeta.
        apply returns_bind. apply returns_emit.
        apply returns_bind. apply returns_emit. apply returns_ret.
        apply returns_bind. apply returns_read_reg. intros v2 _.
        apply returns_emit. repeat split; auto.
      - apply returns_ret. repeat split; auto. }
    intros [] w4 (Hwf4 & Hh4 & Hm4 & Hb4 & Hc4 & Ht4).
    apply returns_bind. apply returns_modify_i2c; auto.
    apply returns_ret. split; [reflexivity |].
    unfold handle_of. cbn [g_i2c_handles with_i2c mem trace g_ble_handle].
    rewrite Hh4. repeat split; auto. }
  destruct R as (r & w' & E & -> & H). exists w'. split; [exact E | exact H].
Qed.

Lemma i2c_deinit_ok w :
  wf_i2c w ->
  exists w',
    i2c_deinit instance hw w = Done STATUS_OK w' /\
    g_i2c_handles w'
    = list_set (g_i2c_handles w) (Z.to_nat instance)
        (set_state I2C_STATE_IDLE
           (set_initialized false (handle_of instance w))) /\
    mem w' = mem w /\ g_ble_handle w' = g_ble_handle w.
Proof.
  intros Hwf.
  assert (R : returns (i2c_deinit instance) hw w
                (fun r w' =>
                   r = STATUS_OK /\
                   g_i2c_handles w'
                   = list_set (g_i2c_handles w) (Z.to_nat instance)
                       (set_state I2C_STATE_IDLE
                          (set_initialized false (handle_of instance w))) /\
                   mem w' = mem w /\ g_ble_handle w' = g_ble_handle w)).
  { unfold i2c_deinit. rewrite in_range_geb.
    apply returns_bind. apply returns_emit. cbv zeta.
    apply returns_bind. unfold Gic.gic_disable_irq.
    rewrite gic_small_geb by exact irq_of_instance_small. cbv zeta.
    apply returns_bind. apply returns_emit.
    apply returns_bind. apply returns_emit. apply returns_ret.
    apply returns_bind. apply returns_modify_i2c; auto.
    apply returns_ret. repeat split. }
  destruct R as (r & w' & E & -> & H). exists w'. split; [exact E | exact H].
Qed.

(** An asynchronous read on an initialised, Idle instance is accepted: the
    transfer is recorded, ACK is enabled and START is issued. *)
Lemma read_async_accepted dev_addr data len cb w :
  wf_i2c w -> data <> 0 -> cb <> 0 ->
  initialized (handle_of instance w) = true ->
  state (handle_of instance w) = I2C_STATE_IDLE ->
  i2c_read_async instance dev_addr data len cb hw w
  = Done STATUS_OK
      (log (EvBitSet (I2C_CR1 instance) I2C_CR1_START)
         (log (EvBitSet (I2C_CR1 instance) I2C_CR1_ACK)
            (with_i2c
               (list_set (g_i2c_handles w) (Z.to_nat instance)
                  (reading dev_addr data len cb (handle_of instance w)))
               w))).
Proof.
  intros Hwf Hd Hcb Hinit Hst.
  unfold i2c_read_async, IS_NULL_PTR.
  apply Z.eqb_neq in Hd, Hcb. rewrite Hd, Hcb. cbn [orb].
  rewrite in_range_geb.
  destruct (returns_get_i2c instance hw w
              (fun h w' => h = handle_of instance w /\ w' = w) Hwf Hinst)
    as (h & w' & E & -> & ->); auto.
  unfold bind at 1. rewrite E, Hinit, Hst. cbn [negb i2c_state_eqb].
  destruct (returns_put_i2c instance
              (reading dev_addr data len cb (handle_of instance w)) hw w
              (fun _ w' =>
                 w' = with_i2c
                        (list_set (g_i2c_handles w) (Z.to_nat instance)
                           (reading dev_addr data len cb
                              (handle_of instance w))) w)
              Hwf Hinst eq_refl)
    as ([] & w' & E' & ->).
  unfold reading in *. rewrite Hinit in *.
  unfold bind. rewrite E'. reflexivity.
Qed.

End I2cInit.

(** X2.  [i2c_init] rejects a null configuration or an out-of-range
    instance with [STATUS_INVALID_PARAM] and touches nothing.  It does not
    check the clock speed: a speed of 0 makes it divide by zero, and every
    other speed makes it return [STATUS_OK] with the instance initialised
    and Idle whatever its state was, the other instance, memory and the BLE
    handle untouched, CCR holding clock/(2*speed) in standard mode and
    clock/(3*speed) with the fast-mode bit above 100 kHz, and TRISE holding
    101 respectively 31. *)
Theorem X2_i2c_init_outcomes (hw : oracle) (w : world) (instance : Z)
    (cfg : i2c_config_t) :
  0 <= clock_speed cfg < 2 ^ 32 ->
  run (I2c.i2c_init instance None) hw w = Done STATUS_INVALID_PARAM w /\
  (I2C_INSTANCE_MAX <= instance ->
   run (I2c.i2c_init instance (Some cfg)) hw w = Done STATUS_INVALID_PARAM w) /\
  (0 <= instance < I2C_INSTANCE_MAX -> clock_speed cfg = 0 ->
   run (I2c.i2c_init instance (Some cfg)) hw w = Undefined) /\
  (wf_i2c w -> 0 <= instance < I2C_INSTANCE_MAX -> clock_speed cfg <> 0 ->
   exists w',
     run (I2c.i2c_init instance (Some cfg)) hw w = Done STATUS_OK w' /\
     g_i2c_handles w'
     = list_set (g_i2c_handles w) (Z.to_nat instance)
         (I2cData.set_state I2C_STATE_IDLE
            (I2cData.set_initialized true (I2c.handle_of instance w))) /\
     mem w' = mem w /\
     g_ble_handle w' = g_ble_handle w /\
     I2cSpec.last_write (I2C_CCR instance) (trace w')
     = Some (I2cSpec.ccr_value (clock_speed cfg)) /\
     I2cSpec.last_write (I2C_TRISE instance) (trace w')
     = Some (if clock_speed cfg <=? 100000 then 101 else 31)).
Proof.
  intros Hs. split; [reflexivity |]. split; [| split].
  - intros Hi. unfold run, I2c.i2c_init.
    replace (instance >=? I2C_INSTANCE_MAX) with true
      by (symmetry; apply Z.geb_le; lia).
    reflexivity.
  - intros Hi H0. unfold run, I2c.i2c_init.
    rewrite (in_range_geb instance Hi), H0. reflexivity.
  - intros Hwf Hi Hne.
    apply (i2c_init_ok hw instance Hi cfg w Hwf). lia.
Qed.

Lemma X2_i2c_init_outcomes_witness :
  exists w',
    run (I2c.i2c_init I2C_INSTANCE_0
           (Some {| clock_speed := 400000; own_address := 0;
                    i2c_use_interrupts := true |}))
      (fun _ _ => 0) world_init = Done STATUS_OK w' /\
    I2cSpec.last_write (I2C_CCR 0) (trace w') = Some 32851.
Proof.
  destruct (X2_i2c_init_outcomes (fun _ _ => 0) world_init I2C_INSTANCE_0
              {| clock_speed := 400000; own_address := 0;
                 i2c_use_interrupts := true |})
    as (_ & _ & _ & H).
  - cbn. lia.
  - destruct H as (w' & E & _ & _ & _ & Hc & _).
    + reflexivity.
    + unfold I2C_INSTANCE_0, I2C_INSTANCE_MAX. lia.
    + cbn. lia.
    + exists w'. split; [exact E | exact Hc].
Defined.

(** X3.  Initialise, deinitialise, initialise again: the second
    initialisation leaves the handles exactly as the first did
    (initialised, Idle), and an asynchronous read is then accepted with the
    same result and the same recorded transfer as after the first.  After
    the deinitialisation alone the same read is refused with
    [STATUS_NOT_READY] and changes nothing. *)
Theorem X3_i2c_init_deinit_init_round_trip (hw : oracle) (w : world)
    (instance : Z) (cfg : i2c_config_t) (dev_addr data len cb : Z) :
  wf_i2c w ->
  0 <= instance < I2C_INSTANCE_MAX ->
  0 < clock_speed cfg < 2 ^ 32 ->
  data <> 0 -> cb <> 0 ->
  exists w1 w3 wa wb,
    run (I2c.i2c_init instance (Some cfg)) hw w = Done STATUS_OK w1 /\
    run (I2c.i2c_deinit instance ;;; I2c.i2c_init instance (Some cfg)) hw w1
    = Done STATUS_OK w3 /\
    g_i2c_handles w3 = g_i2c_handles w1 /\
    I2cData.initialized (I2c.handle_of instance w3) = true /\
    I2cData.state (I2c.handle_of instance w3) = I2C_STATE_IDLE /\
    run (I2c.i2c_read_async instance dev_addr data len cb) hw w1
    = Done STATUS_OK wa /\
    run (I2c.i2c_read_async instance dev_addr data len cb) hw w3
    = Done STATUS_OK wb /\
    g_i2c_handles wb = g_i2c_handles wa /\
    I2cData.state (I2c.handle_of instance wb) = I2C_STATE_BUSY_RX /\
    exists w2,
      run (I2c.i2c_deinit instance) hw w1 = Done STATUS_OK w2 /\
      run (I2c.i2c_read_async instance dev_addr data len cb) hw w2
      = Done STATUS_NOT_READY w2.
Proof.
  intros Hwf Hi Hs Hd Hcb.
  assert (Hn : (Z.to_nat instance < length (g_i2c_handles w))%nat).
  { unfold wf_i2c, I2C_INSTANCE_MAX in *. lia. }
  destruct (i2c_init_ok hw instance Hi cfg w Hwf Hs)
    as (w1 & E1 & Hh1 & _).
  assert (Hwf1 : wf_i2c w1).
  { unfold wf_i2c in *. rewrite Hh1, list_set_length. exact Hwf. }
  destruct (i2c_deinit_ok hw instance Hi w1 Hwf1) as (w2 & E2 & Hh2 & _).
  assert (Hwf2 : wf_i2c w2).
  { unfold wf_i2c in *. rewrite Hh2, list_set_length. exact Hwf1. }
  destruct (i2c_init_ok hw instance Hi cfg w2 Hwf2 Hs)
    as (w3 & E3 & Hh3 & _).
  assert (Hwf3 : wf_i2c w3).
  { unfold wf_i2c in *. rewrite Hh3, list_set_length. exact Hwf2. }
  assert (H31 : g_i2c_handles w3 = g_i2c_handles w1).
  { assert (H1 : I2c.handle_of instance w1
                 = I2cSpec.initialised (I2c.handle_of instance w)).
    { unfold I2c.handle_of at 1. rewrite Hh1.
      apply nth_list_set_same. exact Hn. }
    assert (H2 : I2c.handle_of instance w2
                 = I2cData.set_state I2C_STATE_IDLE
                     (I2cData.set_initialized false
                        (I2c.handle_of instance w1))).
    { unfold I2c.handle_of at 1. rewrite Hh2.
      apply nth_list_set_same. unfold wf_i2c, I2C_INSTANCE_MAX in *. lia. }
    rewrite Hh3, H2, H1, Hh2, Hh1, !list_set_twice. reflexivity. }
  assert (Hst1 : I2cData.initialized (I2c.handle_of instance w1) = true /\
                 I2cData.state (I2c.handle_of instance w1) = I2C_STATE_IDLE).
  { unfold I2c.handle_of. rewrite Hh1, nth_list_set_same by exact Hn.
    split; reflexivity. }
  assert (Hst3 : I2cData.initialized (I2c.handle_of instance w3) = true /\
                 I2cData.state (I2c.handle_of instance w3) = I2C_STATE_IDLE).
  { unfold I2c.handle_of in *. rewrite H31. exact Hst1. }
  eexists w1, w3, _, _.
  split; [exact E1 |]. split.
  { unfold run, bind. rewrite E2. exact E3. }
  split; [exact H31 |]. split; [apply Hst3 |]. split; [apply Hst3 |].
  split.
  { apply read_async_accepted; auto; apply Hst1. }
  split.
  { apply read_async_accepted; auto; apply Hst3. }
  split; [| split].
  - cbn [g_i2c_handles log with_i2c]. unfold I2c.handle_of.
    rewrite H31. reflexivity.
  - unfold I2c.handle_of. cbn [g_i2c_handles log with_i2c].
    rewrite nth_list_set_same; [reflexivity |].
    unfold wf_i2c, I2C_INSTANCE_MAX in *. lia.
  - exists w2. split; [exact E2 |].
    assert (H2 : I2cData.initialized (I2c.handle_of instance w2) = false).
    { unfold I2c.handle_of. rewrite Hh2, nth_list_set_same; [reflexivity |].
      unfold wf_i2c, I2C_INSTANCE_MAX in *. lia. }
    destruct (returns_get_i2c instance hw w2
                (fun h w' => h = I2c.handle_of instance w2 /\ w' = w2)
                Hwf2 Hi (conj eq_refl eq_refl))
      as (h & w' & Eg & -> & ->).
    unfold run, I2c.i2c_read_async, IS_NULL_PTR.
    apply Z.eqb_neq in Hd. apply Z.eqb_neq in Hcb. rewrite Hd, Hcb.
    cbn [orb].
    replace (instance >=? I2C_INSTANCE_MAX) with false
      by (symmetry; destruct (Z.geb_spec instance I2C_INSTANCE_MAX);
          [lia | reflexivity]).
    unfold bind. rewrite Eg, H2. reflexivity.
Qed.

Lemma X3_i2c_init_deinit_init_round_trip_witness :
  exists w1 w3,
    run (I2c.i2c_init I2C_INSTANCE_1 (Some Sim.cfg)) Sim.hw_ready world_init
    = Done STATUS_OK w1 /\
    run (I2c.i2c_deinit I2C_INSTANCE_1 ;;;
         I2c.i2c_init I2C_INSTANCE_1 (Some Sim.cfg)) Sim.hw_ready w1
    = Done STATUS_OK w3 /\
    g_i2c_handles w3 = g_i2c_handles w1.
Proof.
  destruct (X3_i2c_init_deinit_init_round_trip Sim.hw_ready world_init
              I2C_INSTANCE_1 Sim.cfg 72 Sim.buf 2 Sim.handler)
    as (w1 & w3 & _ & _ & E1 & E3 & H & _).
  - reflexivity.
  - unfold I2C_INSTANCE_1, I2C_INSTANCE_MAX. lia.
  - cbn. lia.
  - unfold Sim.buf. lia.
  - unfold Sim.handler. lia.
  - exists w1, w3. auto.
Defined.

(** ** The interrupt entry point keeps the index and the stores in bounds *)

Section I2cIrqInvariant.
Import I2cData I2c I2cSpec.

Variable hw : oracle.
Variable instance : Z.
Hypothesis Hinst : 0 <= instance < I2C_INSTANCE_MAX.

Local Abbreviation kept := (I2cSpec.kept instance).

Lemma invoke_callback_returns cb r w (Q : unit -> world -> Prop) :
  (forall w', g_i2c_handles w' = g_i2c_handles w -> mem w' = mem w -> Q tt w') ->
  returns (I2c.invoke_callback cb instance r) hw w Q.
Proof.
  intros HQ. unfold I2c.invoke_callback.
  destruct (IS_VALID_PTR cb); [apply returns_emit | apply returns_ret];
    apply HQ; reflexivity.
Qed.

Ltac close_irq Hwf Hlen :=
  unfold I2cSpec.kept, async_inv, handle_of, wf_i2c in *;
  cbn [g_i2c_handles mem trace log with_i2c with_mem] in *;
  rewrite ?list_set_twice;
  rewrite ?list_set_length;
  rewrite ?nth_list_set_same by (rewrite ?list_set_length; exact Hlen);
  cbn [state rx_buffer tx_buffer buffer_len buffer_idx set_state
         set_buffer_idx] in *;
  repeat split; auto; try lia; try congruence; try discriminate.

Lemma irq_handler_step w :
  wf_i2c w ->
  async_inv (handle_of instance w) ->
  returns (i2c_irq_handler instance) hw w
    (fun _ w' =>
       kept w w' /\
       buffer_idx (handle_of instance w')
       <= buffer_idx (handle_of instance w) + 1).
Proof.
  intros Hwf Hinv.
  assert (Hlen : (Z.to_nat instance < length (g_i2c_handles w))%nat).
  { unfold wf_i2c, I2C_INSTANCE_MAX in *. lia. }
  unfold i2c_irq_handler.
  replace (instance <? I2C_INSTANCE_MAX) with true
    by (symmetry; apply Z.ltb_lt; lia).
  apply returns_bind. apply returns_get_i2c; auto.
  apply returns_bind. apply returns_read_reg. intros sr1 _.
  assert (Same : kept w w /\
                 buffer_idx (handle_of instance w)
                 <= buffer_idx (handle_of instance w) + 1).
  { unfold I2cSpec.kept. repeat split; auto; try lia; apply Hinv. }
  destruct Hinv as (Hidx & Hmax & Hrx).
  destruct (BIT_CHECK sr1 I2C_SR1_SB).
  { apply returns_emit. exact Same. }
  destruct (BIT_CHECK sr1 I2C_SR1_ADDR).
  { apply returns_bind. apply returns_read_reg. intros sr2 _.
    destruct (i2c_state_eqb (state (handle_of instance w)) I2C_STATE_BUSY_RX
              && (buffer_len (handle_of instance w) =? 1));
      [apply returns_emit | apply returns_ret]; exact Same. }
  destruct (BIT_CHECK sr1 I2C_SR1_TXE
            && i2c_state_eqb (state (handle_of instance w)) I2C_STATE_BUSY_TX)
    eqn:Etx.
  { apply andb_true_iff in Etx. destruct Etx as [_ Etx].
    assert (Hst : state (handle_of instance w) = I2C_STATE_BUSY_TX)
      by (destruct (state (handle_of instance w)); try discriminate;
          reflexivity).
    clear Same.
    destruct (Z.ltb_spec (buffer_idx (handle_of instance w))
                (buffer_len (handle_of instance w))) as [Hlt | Hge].
    - apply returns_bind. eexists _, _. split; [reflexivity |].
      apply returns_bind. apply returns_emit.
      apply returns_modify_i2c; auto.
      rewrite u32_small by lia.
      close_irq Hwf Hlen.
    - destruct (BIT_CHECK sr1 I2C_SR1_BTF).
      + apply returns_bind. apply returns_emit.
        apply returns_bind. apply returns_modify_i2c; auto.
        apply invoke_callback_returns. intros w' Hh' Hm'.
        unfold I2cSpec.kept, handle_of, wf_i2c. rewrite Hh', Hm'.
        close_irq Hwf Hlen.
      + apply returns_ret. close_irq Hwf Hlen. }
  destruct (BIT_CHECK sr1 I2C_SR1_RXNE
            && i2c_state_eqb (state (handle_of instance w)) I2C_STATE_BUSY_RX)
    eqn:Erx.
  { apply andb_true_iff in Erx. destruct Erx as [_ Erx].
    assert (Hst : state (handle_of instance w) = I2C_STATE_BUSY_RX)
      by (destruct (state (handle_of instance w)); try discriminate;
          reflexivity).
    specialize (Hrx Hst). clear Same.
    apply returns_bind. apply returns_read_reg. intros dr _.
    apply returns_bind. eexists tt, _. split; [reflexivity |].
    cbv zeta. rewrite (u32_small (buffer_idx (handle_of instance w) + 1)) by lia.
    apply returns_bind. apply returns_modify_i2c; auto.
    apply returns_bind.
    apply (returns_weaken _ _ _
             (fun _ w2 =>
                g_i2c_handles w2
                = list_set (g_i2c_handles w) (Z.to_nat instance)
                    (set_buffer_idx (buffer_idx (handle_of instance w) + 1)
                       (handle_of instance w)) /\
                mem w2 = (fun x => if x =? rx_buffer (handle_of instance w)
                                          + buffer_idx (handle_of instance w)
                                   then u8 dr else mem w x))).
    { destruct (buffer_idx (handle_of instance w) + 1
                =? u32 (buffer_len (handle_of instance w) - 1)).
      - apply returns_bind. apply returns_emit. apply returns_emit.
        split; reflexivity.
      - apply returns_ret. split; reflexivity. }
    intros [] w2 [Hh2 Hm2].
    assert (Hwf2 : wf_i2c w2).
    { unfold wf_i2c in *. rewrite Hh2, list_set_length. exact Hwf. }
    assert (Hframe : forall a,
               ~ (rx_buffer (handle_of instance w) <= a
                  < rx_buffer (handle_of instance w)
                    + buffer_len (handle_of instance w)) ->
               (if a =? rx_buffer (handle_of instance w)
                        + buffer_idx (handle_of instance w)
                then u8 dr else mem w a)
               = mem w a).
    { intros a Ha.
      destruct (Z.eqb_spec a (rx_buffer (handle_of instance w)
                              + buffer_idx (handle_of instance w)));
        [lia | reflexivity]. }
    destruct (Z.geb_spec (buffer_idx (handle_of instance w) + 1)
                (buffer_len (handle_of instance w))) as [Hdone | Hmore].
    - apply returns_bind. apply returns_modify_i2c; auto.
      apply invoke_callback_returns. intros w' Hh' Hm'.
      unfold I2cSpec.kept, handle_of, wf_i2c. rewrite Hh', Hm'.
      cbn [g_i2c_handles mem trace log with_i2c with_mem].
      unfold handle_of. rewrite Hh2, Hm2.
      close_irq Hwf Hlen.
    - apply returns_ret.
      unfold I2cSpec.kept, handle_of, wf_i2c. rewrite Hh2, Hm2.
      close_irq Hwf Hlen. }
  destruct (BIT_CHECK sr1 I2C_SR1_AF).
  { apply returns_bind. apply returns_emit.
    apply returns_bind. apply returns_emit.
    apply returns_bind. apply returns_modify_i2c; auto.
    apply invoke_callback_returns. intros w' Hh' Hm'.
    unfold I2cSpec.kept, handle_of, wf_i2c. rewrite Hh', Hm'.
    clear Same. close_irq Hwf Hlen. }
  apply returns_ret. exact Same.
Qed.

Lemma kept_trans w1 w2 w3 : kept w1 w2 -> kept w2 w3 -> kept w1 w3.
Proof.
  unfold I2cSpec.kept.
  intros (_ & _ & Hr1 & Ht1 & Hl1 & Hi1 & Hf1 & Hs1)
         (Hwf & Hinv & Hr2 & Ht2 & Hl2 & Hi2 & Hf2 & Hs2).
  split; [exact Hwf |]. split; [exact Hinv |].
  split; [congruence |]. split; [congruence |]. split; [congruence |].
  split; [lia |]. split.
  - intros a Ha. rewrite Hf2, Hf1; auto. rewrite Hr1, Hl1. exact Ha.
  - intros Hst. destruct (Hs1 Hst) as [Hm1 Hst2].
    destruct (Hs2 Hst2) as [Hm2 Hst3]. split; [congruence | exact Hst3].
Qed.

Lemma irqs_keep n :
  forall w,
    wf_i2c w -> async_inv (handle_of instance w) ->
    returns (Sim.irqs instance n) hw w
      (fun _ w' =>
         kept w w' /\
         buffer_idx (handle_of instance w')
         <= buffer_idx (handle_of instance w) + Z.of_nat n).
Proof.
  induction n as [| k IH]; intros w Hwf Hinv; cbn [Sim.irqs].
  - apply returns_ret. unfold I2cSpec.kept.
    repeat split; auto; try lia; try apply Hinv.
  - apply returns_bind.
    eapply returns_weaken; [apply irq_handler_step; assumption |].
    cbv beta. intros [] w1 [Hk1 Hi1].
    eapply returns_weaken.
    { apply IH; apply Hk1. }
    cbv beta. intros [] w2 [Hk2 Hi2].
    split; [eapply kept_trans; eassumption | lia].
Qed.

Lemma write_async_accepted dev_addr data len cb w :
  wf_i2c w -> data <> 0 -> cb <> 0 ->
  initialized (handle_of instance w) = true ->
  state (handle_of instance w) = I2C_STATE_IDLE ->
  i2c_write_async instance dev_addr data len cb hw w
  = Done STATUS_OK
      (log (EvBitSet (I2C_CR1 instance) I2C_CR1_START)
         (with_i2c
            (list_set (g_i2c_handles w) (Z.to_nat instance)
               {| state := I2C_STATE_BUSY_TX;
                  rx_buffer := rx_buffer (handle_of instance w);
                  tx_buffer := data; buffer_len := len; buffer_idx := 0;
                  dev_address := dev_addr; callback := cb;
                  initialized := true |})
            w)).
Proof.
  intros Hwf Hd Hcb Hinit Hst.
  unfold i2c_write_async, IS_NULL_PTR.
  apply Z.eqb_neq in Hd, Hcb. rewrite Hd, Hcb. cbn [orb].
  rewrite (in_range_geb instance Hinst).
  destruct (returns_get_i2c instance hw w
              (fun h w' => h = handle_of instance w /\ w' = w) Hwf Hinst)
    as (h & w' & E & -> & ->); auto.
  unfold bind at 1. rewrite E, Hinit, Hst. cbn [negb i2c_state_eqb].
  match goal with
  | |- bind (put_i2c _ ?hh) _ _ _ = _ =>
      destruct (returns_put_i2c instance hh hw w
                  (fun _ w' =>
                     w' = with_i2c
                            (list_set (g_i2c_handles w)
                               (Z.to_nat instance) hh) w)
                  Hwf Hinst eq_refl)
        as ([] & w' & E' & ->)
  end.
  unfold bind. rewrite E'. reflexivity.
Qed.

End I2cIrqInvariant.

(** X4.  After an accepted asynchronous transfer request, any number [n]
    of interrupt entries, on any hardware, keeps the buffer index between 0
    and the requested length and at most [n], and leaves the recorded
    buffer pointer and length as the request set them, so that the index
    never passes [buffer_len].  During a read of at least one byte the
    entries store only inside the caller's buffer
    [data .. data + len - 1]; during a write they store nothing. *)
Theorem X4_async_index_and_stores_in_bounds (hw : oracle) (w : world)
    (instance dev_addr data len cb : Z) (n : nat) :
  wf_i2c w ->
  0 <= instance < I2C_INSTANCE_MAX ->
  data <> 0 -> cb <> 0 ->
  I2cData.initialized (I2c.handle_of instance w) = true ->
  I2cData.state (I2c.handle_of instance w) = I2C_STATE_IDLE ->
  0 <= len < 2 ^ 32 ->
  (0 < len ->
   exists w',
     run (I2c.i2c_read_async instance dev_addr data len cb ;;;
          Sim.irqs instance n) hw w = Done tt w' /\
     0 <= I2cData.buffer_idx (I2c.handle_of instance w') <= len /\
     I2cData.buffer_idx (I2c.handle_of instance w') <= Z.of_nat n /\
     (forall a, ~ (data <= a < data + len) -> mem w' a = mem w a) /\
     I2cData.rx_buffer (I2c.handle_of instance w') = data /\
     I2cData.tx_buffer (I2c.handle_of instance w')
     = I2cData.tx_buffer (I2c.handle_of instance w) /\
     I2cData.buffer_len (I2c.handle_of instance w') = len /\
     I2cData.buffer_idx (I2c.handle_of instance w')
     <= I2cData.buffer_len (I2c.handle_of instance w') /\
     wf_i2c w') /\
  (exists w',
     run (I2c.i2c_write_async instance dev_addr data len cb ;;;
          Sim.irqs instance n) hw w = Done tt w' /\
     0 <= I2cData.buffer_idx (I2c.handle_of instance w') <= len /\
     I2cData.buffer_idx (I2c.handle_of instance w') <= Z.of_nat n /\
     mem w' = mem w /\
     I2cData.tx_buffer (I2c.handle_of instance w') = data /\
     I2cData.rx_buffer (I2c.handle_of instance w')
     = I2cData.rx_buffer (I2c.handle_of instance w) /\
     I2cData.buffer_len (I2c.handle_of instance w') = len /\
     I2cData.buffer_idx (I2c.handle_of instance w')
     <= I2cData.buffer_len (I2c.handle_of instance w') /\
     wf_i2c w').
Proof.
  intros Hwf Hi Hd Hcb Hinit Hst Hlen.
  assert (Hn : (Z.to_nat instance < length (g_i2c_handles w))%nat).
  { unfold wf_i2c, I2C_INSTANCE_MAX in *. lia. }
  split.
  - intros Hpos.
    pose proof (read_async_accepted hw instance Hi dev_addr data len cb w
                  Hwf Hd Hcb Hinit Hst) as E.
    set (w1 := log _ _) in E.
    assert (Hh1 : I2c.handle_of instance w1
                  = I2cSpec.reading dev_addr data len cb
                      (I2c.handle_of instance w)).
    { unfold I2c.handle_of at 1. cbn [w1 g_i2c_handles log with_i2c].
      apply nth_list_set_same. exact Hn. }
    destruct (irqs_keep hw instance Hi n w1) as ([] & w' & E' & Hk & Hidx).
    { unfold wf_i2c in *. cbn. rewrite list_set_length. exact Hwf. }
    { rewrite Hh1. unfold I2cSpec.async_inv. cbn. repeat split; lia. }
    exists w'. split.
    { unfold run, bind. rewrite E. exact E'. }
    unfold I2cSpec.kept in Hk. rewrite Hh1 in Hk, Hidx. cbn in Hk, Hidx.
    destruct Hk as (Hwf' & (Hr & _) & Hrx & Htx & Hl & _ & Hf & _).
    split; [rewrite Hl in Hr; lia |]. split; [lia |].
    split; [intros a Ha; rewrite Hf by exact Ha; reflexivity |].
    split; [exact Hrx |]. split; [exact Htx |]. split; [exact Hl |].
    split; [lia | exact Hwf'].
  - pose proof (write_async_accepted hw instance Hi dev_addr data len cb w
                  Hwf Hd Hcb Hinit Hst) as E.
    set (w1 := log _ _) in E.
    assert (Hh1 : I2c.handle_of instance w1
                  = {| I2cData.state := I2C_STATE_BUSY_TX;
                       I2cData.rx_buffer :=
                         I2cData.rx_buffer (I2c.handle_of instance w);
                       I2cData.tx_buffer := data;
                       I2cData.buffer_len := len; I2cData.buffer_idx := 0;
                       I2cData.dev_address := dev_addr;
                       I2cData.callback := cb;
                       I2cData.initialized := true |}).
    { unfold I2c.handle_of at 1. cbn [w1 g_i2c_handles log with_i2c].
      apply nth_list_set_same. exact Hn. }
    destruct (irqs_keep hw instance Hi n w1) as ([] & w' & E' & Hk & Hidx).
    { unfold wf_i2c in *. cbn. rewrite list_set_length. exact Hwf. }
    { rewrite Hh1. unfold I2cSpec.async_inv. cbn. repeat split; try lia.
      discriminate. }
    exists w'. split.
    { unfold run, bind. rewrite E. exact E'. }
    unfold I2cSpec.kept in Hk. rewrite Hh1 in Hk, Hidx. cbn in Hk, Hidx.
    destruct Hk as (Hwf' & (Hr & _) & Hrx & Htx & Hl & _ & _ & Hm).
    split; [rewrite Hl in Hr; lia |]. split; [lia |].
    split; [apply Hm; discriminate |].
    split; [exact Htx |]. split; [exact Hrx |]. split; [exact Hl |].
    split; [lia | exact Hwf'].
Qed.

Lemma X4_async_index_and_stores_in_bounds_witness :
  exists w',
    run (I2c.i2c_read_async I2C_INSTANCE_0 72 Sim.buf 2 Sim.handler ;;;
         Sim.irqs I2C_INSTANCE_0 9) (Sim.hw_script (Sim.rx_script 2))
      (Sim.w_initialised Sim.hw_ready) = Done tt w' /\
    0 <= I2cData.buffer_idx (I2c.handle_of I2C_INSTANCE_0 w') <= 2.
Proof.
  destruct (X4_async_index_and_stores_in_bounds
              (Sim.hw_script (Sim.rx_script 2))
              (Sim.w_initialised Sim.hw_ready)
              I2C_INSTANCE_0 72 Sim.buf 2 Sim.handler 9) as [H _].
  - reflexivity.
  - unfold I2C_INSTANCE_0, I2C_INSTANCE_MAX. lia.
  - unfold Sim.buf. lia.
  - unfold Sim.handler. lia.
  - reflexivity.
  - reflexivity.
  - lia.
  - destruct H as (w' & E & Hb & _); [lia |].
    exists w'. split; [exact E | exact Hb].
Defined.

(** ** Acknowledge failure *)

Section I2cAckFailure.
Import I2cData I2c I2cSpec.

Variable hw : oracle.
Variable instance : Z.
Hypothesis Hinst : 0 <= instance < I2C_INSTANCE_MAX.

Lemma in_range_ltb : (instance <? I2C_INSTANCE_MAX) = true.
Proof. apply Z.ltb_lt. lia. Qed.

Lemma completions_log_callback cb r w :
  completions instance (trace (log (EvI2cCallback cb instance r) w))
  = completions instance (trace w) ++ [(cb, r)].
Proof. cbn. rewrite Z.eqb_refl. reflexivity. Qed.

Lemma ack_failure_branch w :
  wf_i2c w ->
  let sr1 := u32 (hw (trace w) (I2C_SR1 instance)) in
  let h := handle_of instance w in
  BIT_CHECK sr1 I2C_SR1_SB = false ->
  BIT_CHECK sr1 I2C_SR1_ADDR = false ->
  BIT_CHECK sr1 I2C_SR1_TXE && i2c_state_eqb (state h) I2C_STATE_BUSY_TX
  = false ->
  BIT_CHECK sr1 I2C_SR1_RXNE && i2c_state_eqb (state h) I2C_STATE_BUSY_RX
  = false ->
  BIT_CHECK sr1 I2C_SR1_AF = true ->
  returns (i2c_irq_handler instance) hw w
    (fun _ w' =>
       handle_of instance w' = set_state I2C_STATE_ERROR h /\
       stops instance w' = S (stops instance w) /\
       completions instance (trace w')
       = completions instance (trace w)
         ++ (if IS_VALID_PTR (callback h) then [(callback h, STATUS_ERROR)]
             else []) /\
       mem w' = mem w).
Proof.
  intros Hwf sr1 h Hsb Haddr Htx Hrx Haf.
  assert (Hlen : (Z.to_nat instance < length (g_i2c_handles w))%nat).
  { unfold wf_i2c, I2C_INSTANCE_MAX in *. lia. }
  unfold i2c_irq_handler. rewrite in_range_ltb.
  apply returns_bind. apply returns_get_i2c; auto.
  apply returns_bind. unfold returns at 1, read_reg.
  eexists _, _. split; [reflexivity |].
  fold sr1. fold h. rewrite Hsb, Haddr, Htx, Hrx, Haf.
  apply returns_bind. apply returns_emit.
  apply returns_bind. apply returns_emit.
  apply returns_bind. apply returns_modify_i2c; auto.
  unfold I2c.invoke_callback.
  destruct (IS_VALID_PTR (callback h));
    [apply returns_emit | apply returns_ret].
  - split.
    { unfold handle_of. cbn [g_i2c_handles log with_i2c].
      apply nth_list_set_same. exact Hlen. }
    split.
    { unfold stops, count_events. cbn. rewrite !Z.eqb_refl. reflexivity. }
    split; [| reflexivity].
    rewrite completions_log_callback. reflexivity.
  - split.
    { unfold handle_of. cbn [g_i2c_handles log with_i2c].
      apply nth_list_set_same. exact Hlen. }
    split.
    { unfold stops, count_events. cbn. rewrite !Z.eqb_refl. reflexivity. }
    split; [| reflexivity].
    cbn. rewrite app_nil_r. reflexivity.
Qed.

(** While a write is in flight and TXE is set, the transmit branch is taken
    whatever AF reads. *)
Lemma transmit_branch_masks_ack_failure w :
  wf_i2c w ->
  let sr1 := u32 (hw (trace w) (I2C_SR1 instance)) in
  let h := handle_of instance w in
  BIT_CHECK sr1 I2C_SR1_SB = false ->
  BIT_CHECK sr1 I2C_SR1_ADDR = false ->
  BIT_CHECK sr1 I2C_SR1_TXE = true ->
  state h = I2C_STATE_BUSY_TX ->
  0 <= buffer_idx h < buffer_len h ->
  buffer_len h < 2 ^ 32 ->
  returns (i2c_irq_handler instance) hw w
    (fun _ w' =>
       handle_of instance w' = set_buffer_idx (buffer_idx h + 1) h /\
       stops instance w' = stops instance w /\
       completions instance (trace w') = completions instance (trace w) /\
       dr_writes instance (trace w')
       = dr_writes instance (trace w)
         ++ [mem w (tx_buffer h + buffer_idx h)]).
Proof.
  intros Hwf sr1 h Hsb Haddr Htxe Hst Hidx Hmax.
  assert (Hlen : (Z.to_nat instance < length (g_i2c_handles w))%nat).
  { unfold wf_i2c, I2C_INSTANCE_MAX in *. lia. }
  unfold i2c_irq_handler. rewrite in_range_ltb.
  apply returns_bind. apply returns_get_i2c; auto.
  apply returns_bind. unfold returns at 1, read_reg.
  eexists _, _. split; [reflexivity |].
  fold sr1. fold h. rewrite Hsb, Haddr, Htxe, Hst. cbn [andb i2c_state_eqb].
  replace (buffer_idx h <? buffer_len h) with true
    by (symmetry; apply Z.ltb_lt; lia).
  apply returns_bind. eexists _, _. split; [reflexivity |].
  apply returns_bind. apply returns_emit.
  apply returns_modify_i2c; auto.
  rewrite u32_small by lia.
  split.
  { unfold handle_of. cbn [g_i2c_handles log with_i2c].
    apply nth_list_set_same. exact Hlen. }
  split; [reflexivity |]. split; [reflexivity |].
  cbn. rewrite Z.eqb_refl. reflexivity.
Qed.

(** What exactly the two branches do to the hardware. *)
Lemma ack_failure_trace w :
  wf_i2c w ->
  let sr1 := u32 (hw (trace w) (I2C_SR1 instance)) in
  let h := handle_of instance w in
  BIT_CHECK sr1 I2C_SR1_SB = false ->
  BIT_CHECK sr1 I2C_SR1_ADDR = false ->
  BIT_CHECK sr1 I2C_SR1_TXE && i2c_state_eqb (state h) I2C_STATE_BUSY_TX
  = false ->
  BIT_CHECK sr1 I2C_SR1_RXNE && i2c_state_eqb (state h) I2C_STATE_BUSY_RX
  = false ->
  BIT_CHECK sr1 I2C_SR1_AF = true ->
  returns (i2c_irq_handler instance) hw w
    (fun _ w' =>
       trace w'
       = (if IS_VALID_PTR (callback h)
          then [EvI2cCallback (callback h) instance STATUS_ERROR] else [])
         ++ EvBitSet (I2C_CR1 instance) I2C_CR1_STOP
         :: EvWrite (I2C_SR1 instance) (u32 (Z.lnot (Z.shiftl 1 I2C_SR1_AF)))
         :: EvRead (I2C_SR1 instance) sr1 :: trace w).
Proof.
  intros Hwf sr1 h Hsb Haddr Htx Hrx Haf.
  unfold i2c_irq_handler. rewrite in_range_ltb.
  apply returns_bind. apply returns_get_i2c; auto.
  apply returns_bind. unfold returns at 1, read_reg.
  eexists _, _. split; [reflexivity |].
  fold sr1. fold h. rewrite Hsb, Haddr, Htx, Hrx, Haf.
  apply returns_bind. apply returns_emit.
  apply returns_bind. apply returns_emit.
  apply returns_bind. apply returns_modify_i2c; auto.
  unfold I2c.invoke_callback.
  destruct (IS_VALID_PTR (callback h));
    [apply returns_emit | apply returns_ret]; reflexivity.
Qed.

Lemma transmit_branch_trace w :
  wf_i2c w ->
  let sr1 := u32 (hw (trace w) (I2C_SR1 instance)) in
  let h := handle_of instance w in
  BIT_CHECK sr1 I2C_SR1_SB = false ->
  BIT_CHECK sr1 I2C_SR1_ADDR = false ->
  BIT_CHECK sr1 I2C_SR1_TXE = true ->
  state h = I2C_STATE_BUSY_TX ->
  returns (i2c_irq_handler instance) hw w
    (fun _ w' =>
       mem w' = mem w /\
       state (handle_of instance w') <> I2C_STATE_ERROR /\
       trace w'
       = (if buffer_idx h <? buffer_len h
          then [EvWrite (I2C_DR instance) (mem w (tx_buffer h + buffer_idx h))]
          else if BIT_CHECK sr1 I2C_SR1_BTF
          then (if IS_VALID_PTR (callback h)
                then [EvI2cCallback (callback h) instance STATUS_OK] else [])
               ++ [EvBitSet (I2C_CR1 instance) I2C_CR1_STOP]
          else [])
         ++ EvRead (I2C_SR1 instance) sr1 :: trace w).
Proof.
  intros Hwf sr1 h Hsb Haddr Htxe Hst.
  assert (Hlen : (Z.to_nat instance < length (g_i2c_handles w))%nat).
  { unfold wf_i2c, I2C_INSTANCE_MAX in *. lia. }
  unfold i2c_irq_handler. rewrite in_range_ltb.
  apply returns_bind. apply returns_get_i2c; auto.
  apply returns_bind. unfold returns at 1, read_reg.
  eexists _, _. split; [reflexivity |].
  fold sr1. fold h. rewrite Hsb, Haddr, Htxe, Hst. cbn [andb i2c_state_eqb].
  destruct (buffer_idx h <? buffer_len h).
  - apply returns_bind. eexists _, _. split; [reflexivity |].
    apply returns_bind. apply returns_emit.
    apply returns_modify_i2c; auto.
    split; [reflexivity |]. split; [| reflexivity].
    unfold handle_of at 1. cbn [g_i2c_handles log with_i2c].
    rewrite nth_list_set_same by exact Hlen.
    unfold handle_of. cbn [set_buffer_idx state g_i2c_handles log].
    fold (handle_of instance w). fold h. rewrite Hst. discriminate.
  - destruct (BIT_CHECK sr1 I2C_SR1_BTF).
    + apply returns_bind. apply returns_emit.
      apply returns_bind. apply returns_modify_i2c; auto.
      unfold I2c.invoke_callback.
      destruct (IS_VALID_PTR (callback h));
        [apply returns_emit | apply returns_ret];
        (split; [reflexivity |]); (split; [| reflexivity]);
        unfold handle_of at 1; cbn [g_i2c_handles log with_i2c];
        rewrite nth_list_set_same by exact Hlen; discriminate.
    + apply returns_ret. split; [reflexivity |]. split; [| reflexivity].
      cbn [g_i2c_handles log]. unfold handle_of.
      cbn [g_i2c_handles log]. fold (handle_of instance w). fold h.
      rewrite Hst. discriminate.
Qed.

End I2cAckFailure.

(** X5.  An interrupt entry that finds only AF set -- no SB, no ADDR, no
    TXE during a write, no RXNE during a read -- clears AF, issues STOP
    exactly once, puts the instance in Error whatever state it was in, and
    calls the stored callback, if any, once with [STATUS_ERROR]; it stores
    nothing.  What it does to the hardware is exactly: read SR1, write the
    complement of the AF bit to SR1, set STOP.  But during a write a set
    TXE takes precedence, whatever AF reads: with bytes left the entry only
    sends the next byte; with all bytes sent it completes the transfer with
    STOP and [STATUS_OK] if BTF is set and does nothing otherwise.  In none
    of these cases is SR1 written, is the callback given [STATUS_ERROR] or
    does the instance go to Error. *)
Theorem X5_ack_failure_and_its_priority (hw : oracle) (w : world)
    (instance : Z) :
  wf_i2c w ->
  0 <= instance < I2C_INSTANCE_MAX ->
  let sr1 := u32 (hw (trace w) (I2C_SR1 instance)) in
  let h := I2c.handle_of instance w in
  BIT_CHECK sr1 I2C_SR1_SB = false ->
  BIT_CHECK sr1 I2C_SR1_ADDR = false ->
  (BIT_CHECK sr1 I2C_SR1_AF = true ->
   BIT_CHECK sr1 I2C_SR1_TXE
   && i2c_state_eqb (I2cData.state h) I2C_STATE_BUSY_TX = false ->
   BIT_CHECK sr1 I2C_SR1_RXNE
   && i2c_state_eqb (I2cData.state h) I2C_STATE_BUSY_RX = false ->
   exists w',
     run (I2c.i2c_irq_handler instance) hw w = Done tt w' /\
     I2c.handle_of instance w' = I2cData.set_state I2C_STATE_ERROR h /\
     I2c.stops instance w' = S (I2c.stops instance w) /\
     I2cSpec.completions instance (trace w')
     = I2cSpec.completions instance (trace w)
       ++ (if IS_VALID_PTR (I2cData.callback h)
           then [(I2cData.callback h, STATUS_ERROR)] else []) /\
     mem w' = mem w /\
     trace w'
     = (if IS_VALID_PTR (I2cData.callback h)
        then [EvI2cCallback (I2cData.callback h) instance STATUS_ERROR]
        else [])
       ++ EvBitSet (I2C_CR1 instance) I2C_CR1_STOP
       :: EvWrite (I2C_SR1 instance) (u32 (Z.lnot (Z.shiftl 1 I2C_SR1_AF)))
       :: EvRead (I2C_SR1 instance) sr1 :: trace w) /\
  (BIT_CHECK sr1 I2C_SR1_TXE = true ->
   I2cData.state h = I2C_STATE_BUSY_TX ->
   exists w',
     run (I2c.i2c_irq_handler instance) hw w = Done tt w' /\
     mem w' = mem w /\
     I2cData.state (I2c.handle_of instance w') <> I2C_STATE_ERROR /\
     trace w'
     = (if I2cData.buffer_idx h <? I2cData.buffer_len h
        then [EvWrite (I2C_DR instance)
                (mem w (I2cData.tx_buffer h + I2cData.buffer_idx h))]
        else if BIT_CHECK sr1 I2C_SR1_BTF
        then (if IS_VALID_PTR (I2cData.callback h)
              then [EvI2cCallback (I2cData.callback h) instance STATUS_OK]
              else [])
             ++ [EvBitSet (I2C_CR1 instance) I2C_CR1_STOP]
        else [])
       ++ EvRead (I2C_SR1 instance) sr1 :: trace w /\
     (0 <= I2cData.buffer_idx h < I2cData.buffer_len h ->
      I2cData.buffer_len h < 2 ^ 32 ->
      I2c.handle_of instance w'
      = I2cData.set_buffer_idx (I2cData.buffer_idx h + 1) h /\
      I2c.stops instance w' = I2c.stops instance w /\
      I2cSpec.completions instance (trace w')
      = I2cSpec.completions instance (trace w) /\
      I2cSpec.dr_writes instance (trace w')
      = I2cSpec.dr_writes instance (trace w)
        ++ [mem w (I2cData.tx_buffer h + I2cData.buffer_idx h)])).
Proof.
  intros Hwf Hi sr1 h Hsb Haddr. split.
  - intros Haf Htx Hrx.
    destruct (ack_failure_branch hw instance Hi w Hwf Hsb Haddr Htx Hrx Haf)
      as ([] & w' & E & Hh & Hs & Hc & Hm).
    destruct (ack_failure_trace hw instance Hi w Hwf Hsb Haddr Htx Hrx Haf)
      as ([] & w2 & E2 & Ht).
    rewrite E in E2. inversion E2. subst w2.
    exists w'. repeat (split; [assumption |]). exact Ht.
  - intros Htxe Hst.
    destruct (transmit_branch_trace hw instance Hi w Hwf Hsb Haddr Htxe Hst)
      as ([] & w' & E & Hm & Hne & Ht).
    exists w'. split; [exact E |]. split; [exact Hm |].
    split; [exact Hne |]. split; [exact Ht |].
    intros Hidx Hmax.
    destruct (transmit_branch_masks_ack_failure hw instance Hi w Hwf
                Hsb Haddr Htxe Hst Hidx Hmax) as ([] & w2 & E2 & H).
    rewrite E in E2. inversion E2. subst w2. exact H.
Qed.

Lemma X5_ack_failure_and_its_priority_witness :
  let hw_af : oracle :=
    fun _ r => match r with I2C_SR1 _ => 1024 | _ => 0 end in
  exists w',
    run (I2c.i2c_irq_handler I2C_INSTANCE_0) hw_af (Sim.w_writing Sim.hw_ready)
    = Done tt w' /\
    I2cData.state (I2c.handle_of I2C_INSTANCE_0 w') = I2C_STATE_ERROR /\
    I2cSpec.completions I2C_INSTANCE_0 (trace w')
    = [(Sim.handler, STATUS_ERROR)].
Proof.
  intros hw_af.
  destruct (X5_ack_failure_and_its_priority hw_af (Sim.w_writing Sim.hw_ready)
              I2C_INSTANCE_0) as [H _].
  - reflexivity.
  - unfold I2C_INSTANCE_0, I2C_INSTANCE_MAX. lia.
  - reflexivity.
  - reflexivity.
  - destruct H as (w' & E & Hh & _ & Hc & _); try reflexivity.
    exists w'. split; [exact E |]. split.
    + rewrite Hh. reflexivity.
    + rewrite Hc. reflexivity.
Defined.

(** ** The data path of the blocking transfers *)

Section I2cDataPath.
Import I2cData I2c I2cSpec.

Variable hw : oracle.
Variable instance : Z.

Lemma silent_refl w : silent instance w w.
Proof. repeat split. Qed.

Lemma silent_trans w1 w2 w3 :
  silent instance w1 w2 -> silent instance w2 w3 -> silent instance w1 w3.
Proof. intros (A & B & C & D) (E & F & G & H). repeat split; congruence. Qed.

Lemma silent_log e w w' :
  (forall tr, dr_writes instance (e :: tr) = dr_writes instance tr) ->
  (forall tr, dr_reads instance (e :: tr) = dr_reads instance tr) ->
  silent instance w w' -> silent instance w (log e w').
Proof.
  intros Hw Hr (A & B & C & D). split; [exact A |]. split; [exact B |].
  cbn [trace log]. rewrite Hw, Hr. split; assumption.
Qed.

Ltac quiet_event := apply silent_log; [reflexivity | reflexivity |].

Lemma dr_writes_log_dr v w :
  dr_writes instance (trace (log (EvWrite (I2C_DR instance) v) w))
  = dr_writes instance (trace w) ++ [v].
Proof. cbn. rewrite Z.eqb_refl. reflexivity. Qed.

Lemma dr_reads_log_dr v w :
  dr_reads instance (trace (log (EvRead (I2C_DR instance) v) w))
  = dr_reads instance (trace w) ++ [v].
Proof. cbn. rewrite Z.eqb_refl. reflexivity. Qed.

(** One wait: nothing but SR1 reads; with a spent budget it times out at
    once, and with budget left it succeeds when the flag always reads as
    expected. *)
Lemma wait_flag_loop_silent flag expected n w :
  returns (wait_flag_loop instance flag expected n) hw w
    (fun r w' =>
       silent instance w w' /\
       (r = STATUS_OK \/ r = STATUS_TIMEOUT) /\
       (n = O -> r = STATUS_TIMEOUT) /\
       (n <> O -> sr1_flag_always hw instance flag expected ->
        r = STATUS_OK)).
Proof.
  revert w. induction n as [| k IH]; intros w; cbn [wait_flag_loop].
  - apply returns_ret. split; [apply silent_refl |].
    repeat split; auto. intros H. contradiction.
  - apply returns_bind. unfold returns at 1, read_reg.
    eexists _, _. split; [reflexivity |].
    destruct (eqb (BIT_CHECK (u32 (hw (trace w) (I2C_SR1 instance))) flag)
                expected) eqn:E.
    + apply returns_ret. split; [quiet_event; apply silent_refl |].
      repeat split; auto. discriminate.
    + eapply returns_weaken; [apply IH |].
      cbv beta. intros r w' (Hs & Hr & _ & _).
      split; [eapply silent_trans; [| exact Hs]; quiet_event;
              apply silent_refl |].
      split; [exact Hr |]. split; [discriminate |].
      intros _ Hal. rewrite (Hal (trace w)) in E.
      rewrite eqb_reflx in E. discriminate.
Qed.

Lemma send_address_path addr dir timeout w :
  returns (i2c_send_address instance addr dir timeout) hw w
    (fun r w' =>
       g_i2c_handles w' = g_i2c_handles w /\
       mem w' = mem w /\
       dr_reads instance (trace w') = dr_reads instance (trace w) /\
       (r = STATUS_OK \/ r = STATUS_TIMEOUT) /\
       (r = STATUS_OK ->
        dr_writes instance (trace w')
        = dr_writes instance (trace w) ++ [addr_byte addr dir]) /\
       (wait_budget timeout = O -> r = STATUS_TIMEOUT /\ w' = w) /\
       (wait_budget timeout <> O ->
        sr1_flag_always hw instance I2C_SR1_SB true ->
        sr1_flag_always hw instance I2C_SR1_ADDR true ->
        r = STATUS_OK)).
Proof.
  unfold i2c_send_address, i2c_wait_flag. fold (wait_budget timeout).
  apply returns_bind.
  destruct (wait_budget timeout) as [| k] eqn:Eb.
  - cbn [wait_flag_loop]. apply returns_ret. cbn [status_eqb].
    apply returns_ret. repeat split; auto; try discriminate.
    intros H. contradiction.
  - eapply returns_weaken; [apply wait_flag_loop_silent |].
    cbv beta. intros r w1 ((Hh1 & Hm1 & Hw1 & Hr1) & Hres1 & _ & Hok1).
    destruct Hres1 as [-> | ->]; cbn [status_eqb].
    + apply returns_bind. apply returns_emit.
      apply returns_bind.
      eapply returns_weaken; [apply wait_flag_loop_silent |].
      cbv beta. intros r w2 ((Hh2 & Hm2 & Hw2 & Hr2) & Hres2 & _ & Hok2).
      destruct Hres2 as [-> | ->]; cbn [status_eqb].
      * apply returns_bind. apply returns_read_reg. intros v1 _.
        apply returns_bind. apply returns_read_reg. intros v2 _.
        apply returns_ret.
        cbn [g_i2c_handles mem trace log dr_writes dr_reads] in *.
        rewrite ?Z.eqb_refl in *.
        split; [congruence |].
        split; [congruence |]. split; [congruence |].
        split; [now left |].
        split; [intros _; unfold addr_byte; congruence |].
        split; [discriminate | auto].
      * apply returns_ret.
        cbn [g_i2c_handles mem trace log dr_writes dr_reads] in *.
        split; [congruence |].
        split; [congruence |]. split; [congruence |].
        split; [now right |]. split; [discriminate |].
        split; [discriminate |].
        intros _ _ Haddr. apply Hok2; [discriminate | exact Haddr].
    + apply returns_ret.
      split; [congruence |].
      split; [congruence |]. split; [congruence |].
      split; [now right |]. split; [discriminate |].
      split; [discriminate |].
      intros _ Hsb _. apply Hok1; [discriminate | exact Hsb].
Qed.

Lemma bytes_at_cons m a n :
  bytes_at m a (S n) = m a :: bytes_at m (a + 1) n.
Proof.
  unfold bytes_at. cbn [seq map]. rewrite Z.add_0_r. f_equal.
  rewrite <- seq_shift, map_map. apply map_ext. intros i. f_equal. lia.
Qed.

Lemma transmit_loop_path data timeout n i w :
  returns (transmit_loop instance data timeout n i) hw w
    (fun r w' =>
       g_i2c_handles w' = g_i2c_handles w /\
       mem w' = mem w /\
       dr_reads instance (trace w') = dr_reads instance (trace w) /\
       (r = STATUS_OK \/ r = STATUS_TIMEOUT) /\
       (r = STATUS_OK ->
        dr_writes instance (trace w')
        = dr_writes instance (trace w) ++ bytes_at (mem w) (data + i) n) /\
       (wait_budget timeout <> O ->
        sr1_flag_always hw instance I2C_SR1_TXE true ->
        r = STATUS_OK)).
Proof.
  revert i w. induction n as [| k IH]; intros i w; cbn [transmit_loop].
  - apply returns_ret. unfold bytes_at. cbn. rewrite app_nil_r.
    repeat split; auto.
  - apply returns_bind. unfold i2c_wait_flag. fold (wait_budget timeout).
    eapply returns_weaken; [apply wait_flag_loop_silent |].
    cbv beta. intros r w1 ((Hh1 & Hm1 & Hw1 & Hr1) & Hres1 & _ & Hok1).
    destruct Hres1 as [-> | ->]; cbn [status_eqb].
    + apply returns_bind. eexists _, _. split; [reflexivity |].
      apply returns_bind. apply returns_emit.
      eapply returns_weaken; [apply IH |].
      cbv beta. intros r w2 (Hh2 & Hm2 & Hr2 & Hres2 & Hw2 & Hok2).
      cbn [g_i2c_handles mem trace log dr_writes dr_reads] in *.
      rewrite ?Z.eqb_refl in *.
      split; [congruence |].
      split; [congruence |]. split; [congruence |].
      split; [exact Hres2 |]. split; [| exact Hok2].
      intros Hr. rewrite (Hw2 Hr), Hw1, Hm1, bytes_at_cons.
      rewrite <- app_assoc, Z.add_assoc. reflexivity.
    + apply returns_ret.
      split; [congruence |].
      split; [congruence |]. split; [congruence |].
      split; [now right |]. split; [discriminate |].
      intros Hb Htxe. apply Hok1; assumption.
Qed.

Lemma bus_free_loop_silent n w :
  returns (bus_free_loop instance n) hw w
    (fun wc w' =>
       silent instance w w' /\
       (n = O -> wc = O) /\
       (bus_never_busy hw instance -> wc = n)).
Proof.
  revert w. induction n as [| k IH]; intros w; cbn [bus_free_loop];
    apply returns_bind; unfold returns at 1, read_reg;
    (eexists _, _; split; [reflexivity |]);
    destruct (BIT_CHECK (u32 (hw (trace w) (I2C_SR2 instance))) I2C_SR2_BUSY)
      eqn:E.
  - apply returns_ret. split; [quiet_event; apply silent_refl | auto].
  - apply returns_ret. split; [quiet_event; apply silent_refl | auto].
  - eapply returns_weaken; [apply IH |].
    cbv beta. intros wc w' (Hs & _ & _).
    split; [eapply silent_trans; [| exact Hs]; quiet_event;
            apply silent_refl |].
    split; [discriminate |].
    intros Hfree. rewrite (Hfree (trace w)) in E. discriminate.
  - apply returns_ret. split; [quiet_event; apply silent_refl |].
    split; [discriminate | auto].
Qed.

Lemma receive_loop_path data len timeout n i w :
  returns (receive_loop instance data len timeout n i) hw w
    (fun r w' =>
       g_i2c_handles w' = g_i2c_handles w /\
       dr_writes instance (trace w') = dr_writes instance (trace w) /\
       (forall a, ~ (data + i <= a < data + i + Z.of_nat n) ->
                  mem w' a = mem w a) /\
       (r = STATUS_OK \/ r = STATUS_TIMEOUT) /\
       (r = STATUS_OK ->
        exists bytes,
          length bytes = n /\
          dr_reads instance (trace w') = dr_reads instance (trace w) ++ bytes /\
          bytes_at (mem w') (data + i) n = map u8 bytes) /\
       (wait_budget timeout <> O ->
        sr1_flag_always hw instance I2C_SR1_RXNE true ->
        r = STATUS_OK)).
Proof.
  revert i w. induction n as [| k IH]; intros i w; cbn [receive_loop].
  - apply returns_ret. repeat split; auto.
    intros _. exists []. rewrite app_nil_r. repeat split.
  - apply returns_bind.
    apply (returns_weaken _ _ _ (fun _ w0 => silent instance w w0)).
    { destruct (i =? u32 (len - 1)).
      - apply returns_bind. apply returns_emit. apply returns_emit.
        do 2 (apply silent_log; [reflexivity | reflexivity |]).
        apply silent_refl.
      - apply returns_ret. apply silent_refl. }
    intros [] w0 Hs0.
    apply returns_bind. unfold i2c_wait_flag. fold (wait_budget timeout).
    eapply returns_weaken; [apply wait_flag_loop_silent |].
    cbv beta. intros r w1 (Hs1 & Hres1 & _ & Hok1).
    pose proof (silent_trans _ _ _ Hs0 Hs1) as (Hh1 & Hm1 & Hw1 & Hr1).
    destruct Hres1 as [-> | ->]; cbn [status_eqb].
    + apply returns_bind. apply returns_read_reg. intros v _.
      apply returns_bind. eexists tt, _. split; [reflexivity |].
      eapply returns_weaken; [apply IH |].
      cbv beta. intros r w2 (Hh2 & Hw2 & Hf2 & Hres2 & Hb2 & Hok2).
      cbn [g_i2c_handles mem trace log with_mem dr_writes dr_reads] in *.
      rewrite ?Z.eqb_refl in *.
      assert (Hhere : mem w2 (data + i) = u8 v).
      { rewrite Hf2 by lia. rewrite Z.eqb_refl. reflexivity. }
      split; [congruence |].
      split; [congruence |]. split.
      { intros a Ha. rewrite Hf2 by lia.
        destruct (Z.eqb_spec a (data + i)); [lia |]. rewrite Hm1.
        reflexivity. }
      split; [exact Hres2 |]. split; [| exact Hok2].
      intros Hr. destruct (Hb2 Hr) as (bytes & Hlen & Hreads & Hbytes).
      exists (v :: bytes). split; [cbn; congruence |]. split.
      * rewrite Hreads, Hr1, <- app_assoc. reflexivity.
      * rewrite bytes_at_cons, Hhere. cbn [map]. f_equal.
        rewrite <- Hbytes. f_equal. lia.
    + apply returns_ret.
      split; [congruence |].
      split; [congruence |]. split; [intros a _; congruence |].
      split; [now right |]. split; [discriminate |].
      intros Hb Hrx. apply Hok1; assumption.
Qed.

End I2cDataPath.

Section I2cBlockingPath.
Import I2cData I2c I2cSpec.

Variable hw : oracle.
Variables instance dev_addr data len timeout_ms : Z.
Variable w : world.
Hypothesis Hwf : wf_i2c w.
Hypothesis Hinst : 0 <= instance < I2C_INSTANCE_MAX.
Hypothesis Hdata : data <> 0.
Hypothesis Hinit : initialized (handle_of instance w) = true.
Hypothesis Hlen : 0 < len < 2 ^ 32.

Lemma write_blocking_path :
  exists r w',
    i2c_write_blocking instance dev_addr data len timeout_ms hw w
    = Done r w' /\
    mem w' = mem w /\
    dr_reads instance (trace w') = dr_reads instance (trace w) /\
    (r = STATUS_OK ->
     dr_writes instance (trace w')
     = dr_writes instance (trace w)
       ++ addr_byte dev_addr I2C_DIR_WRITE
          :: bytes_at (mem w) data (Z.to_nat len)) /\
    (wait_budget timeout_ms = O -> r = STATUS_BUSY) /\
    (wait_budget timeout_ms <> O -> ready_for_write hw instance ->
     r = STATUS_OK).
Proof.
  destruct (validation_passes instance data len Hinst Hdata Hlen)
    as (Hnull & Hrange & Hlen0).
  unfold i2c_write_blocking. rewrite Hnull, Hrange.
  rewrite (bind_eq _ _ _ _ _ _ (get_i2c_eq instance Hinst hw w Hwf)).
  rewrite Hinit. cbn [negb]. rewrite Hlen0.
  rewrite (bind_eq _ _ _ _ _ _ (modify_i2c_eq instance Hinst _ hw w Hwf)).
  fold (write_armed instance w). fold (wait_budget timeout_ms).
  match goal with
  | |- exists r w', ?m hw ?w0 = _ /\ _ =>
      enough (R : returns m hw w0
                    (fun r w' =>
                       mem w' = mem w /\
                       dr_reads instance (trace w')
                       = dr_reads instance (trace w) /\
                       (r = STATUS_OK ->
                        dr_writes instance (trace w')
                        = dr_writes instance (trace w)
                          ++ addr_byte dev_addr I2C_DIR_WRITE
                             :: bytes_at (mem w) data (Z.to_nat len)) /\
                       (wait_budget timeout_ms = O -> r = STATUS_BUSY) /\
                       (wait_budget timeout_ms <> O ->
                        ready_for_write hw instance -> r = STATUS_OK)))
  end.
  { destruct R as (r & w' & E & H). exists r, w'. split; [exact E | exact H]. }
  assert (Hwfa : wf_i2c (write_armed instance w)).
  { apply wf_i2c_with_i2c. exact Hwf. }
  apply returns_bind.
  eapply returns_weaken; [apply bus_free_loop_silent |].
  cbv beta. intros wc w2 ((Hh2 & Hm2 & Hw2 & Hr2) & Hz2 & Hfree2).
  cbn [mem trace write_armed with_i2c] in Hm2, Hw2, Hr2.
  assert (Fin : forall result w0,
             g_i2c_handles w0 = g_i2c_handles (write_armed instance w) ->
             forall Q : status_t -> world -> Prop,
               Q result
                 (with_i2c
                    (list_set (g_i2c_handles w0) (Z.to_nat instance)
                       (set_state
                          (if status_eqb result STATUS_OK
                           then I2C_STATE_IDLE else I2C_STATE_ERROR)
                          (handle_of instance w0))) w0) ->
               returns
                 (modify_i2c instance
                    (set_state (if status_eqb result STATUS_OK
                                then I2C_STATE_IDLE else I2C_STATE_ERROR)) ;;;
                  ret result) hw w0 Q).
  { intros result w0 Hh Q HQ. apply returns_bind.
    apply returns_modify_i2c; auto.
    - unfold wf_i2c in *. rewrite Hh. exact Hwfa.
    - apply returns_ret. exact HQ. }
  apply returns_bind. destruct wc as [| wc'].
  - apply returns_ret. apply Fin; [exact Hh2 |].
    cbn [mem trace with_i2c].
    split; [exact Hm2 |]. split; [exact Hr2 |].
    split; [discriminate |]. split; [reflexivity |].
    intros Hb (Hfree & _). specialize (Hfree2 Hfree). congruence.
  - apply returns_bind. apply returns_emit.
    apply returns_bind.
    eapply returns_weaken; [apply send_address_path |].
    cbv beta. intros ra w3 (Hh3 & Hm3 & Hr3 & Hres3 & Hw3 & _ & Hok3).
    cbn [g_i2c_handles mem trace log dr_writes dr_reads] in Hh3, Hm3, Hr3, Hw3.
    apply returns_bind.
    apply (returns_weaken _ _ _
             (fun r w4 =>
                g_i2c_handles w4 = g_i2c_handles w3 /\
                mem w4 = mem w3 /\
                dr_reads instance (trace w4) = dr_reads instance (trace w3) /\
                (r = STATUS_OK ->
                 ra = STATUS_OK /\
                 dr_writes instance (trace w4)
                 = dr_writes instance (trace w3)
                   ++ bytes_at (mem w3) data (Z.to_nat len)) /\
                (wait_budget timeout_ms <> O ->
                 ready_for_write hw instance -> r = STATUS_OK))).
    { destruct Hres3 as [-> | ->]; cbn [status_eqb].
      - apply returns_bind.
        eapply returns_weaken; [apply transmit_loop_path |].
        cbv beta. intros rt w4 (Hh4 & Hm4 & Hr4 & Hres4 & Hw4 & Hok4).
        destruct Hres4 as [-> | ->]; cbn [status_eqb].
        + unfold i2c_wait_flag. fold (wait_budget timeout_ms).
          eapply returns_weaken; [apply wait_flag_loop_silent |].
          cbv beta. intros rb w5 ((Hh5 & Hm5 & Hw5 & Hr5) & _ & _ & Hok5).
          split; [congruence |]. split; [congruence |].
          split; [congruence |]. split.
          * intros _. split; [reflexivity |].
            rewrite Hw5, (Hw4 eq_refl), Z.add_0_r. reflexivity.
          * intros Hb (_ & _ & _ & _ & Hbtf). apply Hok5; assumption.
        + apply returns_ret.
          split; [exact Hh4 |]. split; [exact Hm4 |]. split; [exact Hr4 |].
          split; [discriminate |].
          intros Hb (_ & _ & _ & Htxe & _). apply Hok4; assumption.
      - apply returns_ret. repeat split; try discriminate.
        intros Hb (_ & Hsb & Haddr & _). apply Hok3; assumption. }
    intros r w4 (Hh4 & Hm4 & Hr4 & Hw4 & Hok4).
    apply returns_bind. apply returns_emit. apply returns_ret.
    apply Fin.
    { cbn [g_i2c_handles log]. congruence. }
    cbn [mem trace with_i2c log dr_writes dr_reads].
    split; [congruence |]. split; [congruence |]. split.
    { intros Hr. destruct (Hw4 Hr) as [Hra Hbytes].
      rewrite Hbytes, (Hw3 Hra), Hw2, Hm3, Hm2, <- app_assoc. reflexivity. }
    split; [| exact Hok4].
    intros Hb. specialize (Hz2 Hb). discriminate.
Qed.

Lemma read_blocking_path :
  exists r w',
    i2c_read_blocking instance dev_addr data len timeout_ms hw w
    = Done r w' /\
    (forall a, ~ (data <= a < data + len) -> mem w' a = mem w a) /\
    (r = STATUS_OK ->
     dr_writes instance (trace w')
     = dr_writes instance (trace w) ++ [addr_byte dev_addr I2C_DIR_READ] /\
     exists bytes,
       length bytes = Z.to_nat len /\
       dr_reads instance (trace w') = dr_reads instance (trace w) ++ bytes /\
       bytes_at (mem w') data (Z.to_nat len) = map u8 bytes) /\
    (wait_budget timeout_ms = O -> r = STATUS_TIMEOUT /\ mem w' = mem w) /\
    (wait_budget timeout_ms <> O -> ready_for_read hw instance ->
     r = STATUS_OK).
Proof.
  destruct (validation_passes instance data len Hinst Hdata Hlen)
    as (Hnull & Hrange & Hlen0).
  unfold i2c_read_blocking. rewrite Hnull, Hrange.
  rewrite (bind_eq _ _ _ _ _ _ (get_i2c_eq instance Hinst hw w Hwf)).
  rewrite Hinit. cbn [negb]. rewrite Hlen0.
  rewrite (bind_eq _ _ _ _ _ _ (modify_i2c_eq instance Hinst _ hw w Hwf)).
  unfold i2c_generate_start at 1. unfold BIT_SET at 1 2.
  rewrite (bind_eq _ _ _ _ _ _ (emit_eq _ _ _)).
  rewrite (bind_eq _ _ _ _ _ _ (emit_eq _ _ _)).
  change (log _ (log _ (with_i2c _ w))) with (read_armed instance w).
  match goal with
  | |- exists r w', ?m hw ?w0 = _ /\ _ =>
      enough (R : returns m hw w0
                    (fun r w' =>
                       (forall a, ~ (data <= a < data + len) ->
                                  mem w' a = mem w a) /\
                       (r = STATUS_OK ->
                        dr_writes instance (trace w')
                        = dr_writes instance (trace w)
                          ++ [addr_byte dev_addr I2C_DIR_READ] /\
                        exists bytes,
                          length bytes = Z.to_nat len /\
                          dr_reads instance (trace w')
                          = dr_reads instance (trace w) ++ bytes /\
                          bytes_at (mem w') data (Z.to_nat len)
                          = map u8 bytes) /\
                       (wait_budget timeout_ms = O ->
                        r = STATUS_TIMEOUT /\ mem w' = mem w) /\
                       (wait_budget timeout_ms <> O ->
                        ready_for_read hw instance -> r = STATUS_OK)))
  end.
  { destruct R as (r & w' & E & H). exists r, w'. split; [exact E | exact H]. }
  assert (Hwfa : wf_i2c (read_armed instance w)).
  { unfold read_armed. do 2 apply wf_i2c_log. apply wf_i2c_with_i2c.
    exact Hwf. }
  apply returns_bind.
  eapply returns_weaken; [apply send_address_path |].
  cbv beta. intros ra w3 (Hh3 & Hm3 & Hr3 & Hres3 & Hw3 & Hz3 & Hok3).
  cbn [g_i2c_handles mem trace log read_armed with_i2c dr_writes dr_reads]
    in Hh3, Hm3, Hr3, Hw3.
  assert (Hwf3 : wf_i2c w3).
  { unfold wf_i2c in *. rewrite Hh3. cbn. rewrite list_set_length. exact Hwf. }
  apply returns_bind.
  destruct Hres3 as [-> | ->]; cbn [status_eqb].
  - eapply returns_weaken; [apply receive_loop_path |].
    cbv beta. intros r w4 (Hh4 & Hw4 & Hf4 & Hres4 & Hb4 & Hok4).
    apply returns_bind. apply returns_modify_i2c; auto.
    { unfold wf_i2c in *. rewrite Hh4. exact Hwf3. }
    apply returns_ret. cbn [mem trace with_i2c].
    split.
    { intros a Ha. rewrite Hf4 by lia. rewrite Hm3. reflexivity. }
    split.
    { intros Hr. split; [rewrite Hw4; apply Hw3; reflexivity |].
      destruct (Hb4 Hr) as (bytes & Hl & Hreads & Hbytes).
      exists bytes. split; [exact Hl |]. split; [congruence |].
      rewrite Z.add_0_r in Hbytes. exact Hbytes. }
    split.
    { intros Hb. destruct (Hz3 Hb) as [Habs _]. discriminate. }
    intros Hb (_ & _ & Hrx). apply Hok4; assumption.
  - apply returns_bind. apply returns_emit. apply returns_ret.
    apply returns_bind. apply returns_modify_i2c; auto.
    apply returns_ret. cbn [mem trace with_i2c log].
    split; [intros a _; rewrite Hm3; reflexivity |].
    split; [discriminate |]. split.
    { intros _. split; [reflexivity | exact Hm3]. }
    intros Hb (Hsb & Haddr & _). apply Hok3; assumption.
Qed.

End I2cBlockingPath.

(** X6.  A blocking write that passes validation never stores to memory
    and never reads the data register.  When it returns [STATUS_OK] it has
    written to the data register the address byte (address shifted left,
    direction bit 0) followed by exactly the [len] bytes [data[0]] ..
    [data[len-1]], in order.  On a bus that never makes it wait -- BUSY
    clear, SB, ADDR, TXE and BTF set at every read -- and with a wait budget
    that is not zero, it does return [STATUS_OK], leaves the instance Idle
    and has issued STOP once. *)
Theorem X6_write_blocking_sends_the_buffer (hw : oracle) (w : world)
    (instance dev_addr data len timeout_ms : Z) :
  wf_i2c w ->
  0 <= instance < I2C_INSTANCE_MAX ->
  data <> 0 ->
  I2cData.initialized (I2c.handle_of instance w) = true ->
  0 < len < 2 ^ 32 ->
  exists r w',
    run (I2c.i2c_write_blocking instance dev_addr data len timeout_ms) hw w
    = Done r w' /\
    mem w' = mem w /\
    I2cSpec.dr_reads instance (trace w') = I2cSpec.dr_reads instance (trace w) /\
    (r = STATUS_OK ->
     I2cSpec.dr_writes instance (trace w')
     = I2cSpec.dr_writes instance (trace w)
       ++ I2cSpec.addr_byte dev_addr I2C_DIR_WRITE
          :: I2cSpec.bytes_at (mem w) data (Z.to_nat len)) /\
    (I2cSpec.wait_budget timeout_ms <> O ->
     I2cSpec.ready_for_write hw instance ->
     r = STATUS_OK /\
     I2cData.state (I2c.handle_of instance w') = I2C_STATE_IDLE /\
     I2c.stops instance w' = S (I2c.stops instance w)).
Proof.
  intros Hwf Hi Hd Hinit Hlen.
  destruct (write_blocking_path hw instance dev_addr data len timeout_ms w
              Hwf Hi Hd Hinit Hlen)
    as (r & w' & E & Hm & Hr & Hw & _ & Hok).
  destruct (write_blocking_outcome hw instance dev_addr data len timeout_ms w
              Hwf Hi Hd Hinit Hlen)
    as (r0 & w0 & E0 & _ & _ & Hs0 & Hst0).
  unfold run in E0. rewrite E in E0. inversion E0; subst r0 w0.
  exists r, w'. split; [exact E |]. split; [exact Hm |].
  split; [exact Hr |]. split; [exact Hw |].
  intros Hb Hready. specialize (Hok Hb Hready). subst r.
  split; [reflexivity |]. split; [exact Hst0 |].
  rewrite Hs0. cbn. lia.
Qed.

Lemma X6_write_blocking_sends_the_buffer_witness :
  exists w',
    run (I2c.i2c_write_blocking I2C_INSTANCE_0 72 Sim.buf 1 10) Sim.hw_ready
      (Sim.w_initialised Sim.hw_ready) = Done STATUS_OK w' /\
    I2cData.state (I2c.handle_of I2C_INSTANCE_0 w') = I2C_STATE_IDLE /\
    I2cSpec.dr_writes I2C_INSTANCE_0 (trace w') = [144; 0].
Proof.
  destruct (X6_write_blocking_sends_the_buffer Sim.hw_ready
              (Sim.w_initialised Sim.hw_ready) I2C_INSTANCE_0 72 Sim.buf 1 10)
    as (r & w' & E & _ & _ & Hw & Hok).
  - reflexivity.
  - unfold I2C_INSTANCE_0, I2C_INSTANCE_MAX. lia.
  - unfold Sim.buf. lia.
  - reflexivity.
  - lia.
  - destruct Hok as (-> & Hst & _).
    + unfold I2cSpec.wait_budget.
      replace (u32 (10 * I2c.TIMEOUT_LOOP_COUNT)) with 100000 by reflexivity.
      lia.
    + repeat split; intros tr; reflexivity.
    + exists w'. split; [exact E |]. split; [exact Hst |].
      rewrite (Hw eq_refl). reflexivity.
Defined.

(** X7.  A blocking read that passes validation stores only inside the
    caller's buffer [data .. data + len - 1], whatever its result.  When it
    returns [STATUS_OK] it has written the address byte (direction bit 1) to
    the data register, read the data register exactly [len] times, and the
    buffer holds those [len] bytes in the order read.  On a bus where SB,
    ADDR and RXNE read set at every poll, with a budget that is not zero, it
    does return [STATUS_OK] and leaves the instance Idle. *)
Theorem X7_read_blocking_fills_the_buffer (hw : oracle) (w : world)
    (instance dev_addr data len timeout_ms : Z) :
  wf_i2c w ->
  0 <= instance < I2C_INSTANCE_MAX ->
  data <> 0 ->
  I2cData.initialized (I2c.handle_of instance w) = true ->
  0 < len < 2 ^ 32 ->
  exists r w',
    run (I2c.i2c_read_blocking instance dev_addr data len timeout_ms) hw w
    = Done r w' /\
    (forall a, ~ (data <= a < data + len) -> mem w' a = mem w a) /\
    (r = STATUS_OK ->
     I2cSpec.dr_writes instance (trace w')
     = I2cSpec.dr_writes instance (trace w)
       ++ [I2cSpec.addr_byte dev_addr I2C_DIR_READ] /\
     exists bytes,
       length bytes = Z.to_nat len /\
       I2cSpec.dr_reads instance (trace w')
       = I2cSpec.dr_reads instance (trace w) ++ bytes /\
       I2cSpec.bytes_at (mem w') data (Z.to_nat len) = map u8 bytes) /\
    (I2cSpec.wait_budget timeout_ms <> O ->
     I2cSpec.ready_for_read hw instance ->
     r = STATUS_OK /\
     I2cData.state (I2c.handle_of instance w') = I2C_STATE_IDLE).
Proof.
  intros Hwf Hi Hd Hinit Hlen.
  destruct (read_blocking_path hw instance dev_addr data len timeout_ms w
              Hwf Hi Hd Hinit Hlen)
    as (r & w' & E & Hf & Hb & _ & Hok).
  destruct (read_blocking_outcome hw instance dev_addr data len timeout_ms w
              Hwf Hi Hd Hinit Hlen)
    as (r0 & w0 & E0 & _ & _ & _ & Hst0).
  unfold run in E0. rewrite E in E0. inversion E0; subst r0 w0.
  exists r, w'. split; [exact E |]. split; [exact Hf |].
  split; [exact Hb |].
  intros Hbud Hready. specialize (Hok Hbud Hready). subst r.
  split; [reflexivity | exact Hst0].
Qed.

Lemma X7_read_blocking_fills_the_buffer_witness :
  exists w',
    run (I2c.i2c_read_blocking I2C_INSTANCE_0 72 Sim.buf 3 10) Sim.hw_ready
      (Sim.w_initialised Sim.hw_ready) = Done STATUS_OK w' /\
    I2cSpec.bytes_at (mem w') Sim.buf 3 = [171; 171; 171].
Proof.
  destruct (X7_read_blocking_fills_the_buffer Sim.hw_ready
              (Sim.w_initialised Sim.hw_ready) I2C_INSTANCE_0 72 Sim.buf 3 10)
    as (r & w' & E & _ & Hb & Hok).
  - reflexivity.
  - unfold I2C_INSTANCE_0, I2C_INSTANCE_MAX. lia.
  - unfold Sim.buf. lia.
  - reflexivity.
  - lia.
  - destruct Hok as (-> & _).
    + unfold I2cSpec.wait_budget.
      replace (u32 (10 * I2c.TIMEOUT_LOOP_COUNT)) with 100000 by reflexivity.
      lia.
    + repeat split; intros tr; reflexivity.
    + exists w'. split; [exact E |].
      revert E. vm_compute. intros E. inversion E. reflexivity.
Defined.

(** *** A wait budget of zero *)

Section I2cZeroBudget.
Import I2cData I2c I2cSpec.

Variable hw : oracle.
Variables instance dev_addr data len timeout_ms : Z.
Variable w : world.
Hypothesis Hwf : wf_i2c w.
Hypothesis Hinst : 0 <= instance < I2C_INSTANCE_MAX.
Hypothesis Hdata : data <> 0.
Hypothesis Hinit : initialized (handle_of instance w) = true.
Hypothesis Hlen : 0 < len < 2 ^ 32.
Hypothesis Hzero : wait_budget timeout_ms = O.

Lemma write_zero_budget :
  exists w',
    i2c_write_blocking instance dev_addr data len timeout_ms hw w
    = Done STATUS_BUSY w' /\
    trace w'
    = EvRead (I2C_SR2 instance) (u32 (hw (trace w) (I2C_SR2 instance)))
      :: trace w.
Proof.
  destruct (validation_passes instance data len Hinst Hdata Hlen)
    as (Hnull & Hrange & Hlen0).
  unfold i2c_write_blocking. rewrite Hnull, Hrange.
  rewrite (bind_eq _ _ _ _ _ _ (get_i2c_eq instance Hinst hw w Hwf)).
  rewrite Hinit. cbn [negb]. rewrite Hlen0.
  rewrite (bind_eq _ _ _ _ _ _ (modify_i2c_eq instance Hinst _ hw w Hwf)).
  fold (write_armed instance w). fold (wait_budget timeout_ms).
  rewrite Hzero.
  assert (Ebus : bus_free_loop instance O hw (write_armed instance w)
                 = Done O
                     (log (EvRead (I2C_SR2 instance)
                             (u32 (hw (trace w) (I2C_SR2 instance))))
                        (write_armed instance w))).
  { cbn [bus_free_loop]. unfold bind, read_reg. cbv zeta.
    cbn [trace write_armed with_i2c].
    destruct (BIT_CHECK _ I2C_SR2_BUSY); reflexivity. }
  rewrite (bind_eq _ _ _ _ _ _ Ebus).
  rewrite (bind_eq _ _ _ _ STATUS_BUSY _ eq_refl).
  cbn [status_eqb].
  assert (Hwfa : wf_i2c (log (EvRead (I2C_SR2 instance)
                                (u32 (hw (trace w) (I2C_SR2 instance))))
                           (write_armed instance w))).
  { apply wf_i2c_log. apply wf_i2c_with_i2c. exact Hwf. }
  rewrite (bind_eq _ _ _ _ _ _ (modify_i2c_eq instance Hinst _ hw _ Hwfa)).
  eexists. split; reflexivity.
Qed.

Lemma read_zero_budget :
  exists w',
    i2c_read_blocking instance dev_addr data len timeout_ms hw w
    = Done STATUS_TIMEOUT w' /\
    trace w'
    = EvBitSet (I2C_CR1 instance) I2C_CR1_STOP
      :: EvBitSet (I2C_CR1 instance) I2C_CR1_START
      :: EvBitSet (I2C_CR1 instance) I2C_CR1_ACK :: trace w.
Proof.
  destruct (validation_passes instance data len Hinst Hdata Hlen)
    as (Hnull & Hrange & Hlen0).
  unfold i2c_read_blocking. rewrite Hnull, Hrange.
  rewrite (bind_eq _ _ _ _ _ _ (get_i2c_eq instance Hinst hw w Hwf)).
  rewrite Hinit. cbn [negb]. rewrite Hlen0.
  rewrite (bind_eq _ _ _ _ _ _ (modify_i2c_eq instance Hinst _ hw w Hwf)).
  unfold i2c_generate_start at 1. unfold BIT_SET at 1 2.
  rewrite (bind_eq _ _ _ _ _ _ (emit_eq _ _ _)).
  rewrite (bind_eq _ _ _ _ _ _ (emit_eq _ _ _)).
  change (log _ (log _ (with_i2c _ w))) with (read_armed instance w).
  assert (Ea : i2c_send_address instance dev_addr I2C_DIR_READ timeout_ms hw
                 (read_armed instance w)
               = Done STATUS_TIMEOUT (read_armed instance w)).
  { unfold i2c_send_address, i2c_wait_flag. fold (wait_budget timeout_ms).
    rewrite Hzero. reflexivity. }
  rewrite (bind_eq _ _ _ _ _ _ Ea). cbn [status_eqb].
  unfold i2c_generate_stop, BIT_SET.
  rewrite (bind_eq _ _ _ _ STATUS_TIMEOUT
             (log (EvBitSet (I2C_CR1 instance) I2C_CR1_STOP)
                (read_armed instance w)) eq_refl).
  cbn [status_eqb].
  assert (Hwfr : wf_i2c (log (EvBitSet (I2C_CR1 instance) I2C_CR1_STOP)
                           (read_armed instance w))).
  { unfold read_armed. do 3 apply wf_i2c_log.
    apply wf_i2c_with_i2c. exact Hwf. }
  rewrite (bind_eq _ _ _ _ _ _ (modify_i2c_eq instance Hinst _ hw _ Hwfr)).
  eexists. split; reflexivity.
Qed.

End I2cZeroBudget.

(** X8.  The wait budget is the 32-bit product [timeout_ms * 10000].  When
    it is zero -- [timeout_ms = 0], or any multiple of 2^28, whose product
    wraps to zero -- no blocking transfer can succeed, whatever the bus
    does: [i2c_write_blocking] returns [STATUS_BUSY] without issuing STOP,
    [i2c_read_blocking] returns [STATUS_TIMEOUT] after issuing STOP once and
    stores nothing, and both leave the instance in Error.  Neither touches
    the data register: all the write does to the hardware is one read of
    SR2, all the read does is set ACK, START and STOP. *)
Theorem X8_zero_wait_budget_always_fails (hw : oracle) (w : world)
    (instance dev_addr data len timeout_ms : Z) :
  wf_i2c w ->
  0 <= instance < I2C_INSTANCE_MAX ->
  data <> 0 ->
  I2cData.initialized (I2c.handle_of instance w) = true ->
  0 < len < 2 ^ 32 ->
  u32 (timeout_ms * I2c.TIMEOUT_LOOP_COUNT) = 0 ->
  (exists w',
     run (I2c.i2c_write_blocking instance dev_addr data len timeout_ms) hw w
     = Done STATUS_BUSY w' /\
     I2c.stops instance w' = I2c.stops instance w /\
     I2cData.state (I2c.handle_of instance w') = I2C_STATE_ERROR /\
     mem w' = mem w /\
     I2cSpec.dr_writes instance (trace w')
     = I2cSpec.dr_writes instance (trace w) /\
     trace w'
     = EvRead (I2C_SR2 instance) (u32 (hw (trace w) (I2C_SR2 instance)))
       :: trace w) /\
  (exists w',
     run (I2c.i2c_read_blocking instance dev_addr data len timeout_ms) hw w
     = Done STATUS_TIMEOUT w' /\
     I2c.stops instance w' = S (I2c.stops instance w) /\
     mem w' = mem w /\
     I2cData.state (I2c.handle_of instance w') = I2C_STATE_ERROR /\
     I2cSpec.dr_writes instance (trace w')
     = I2cSpec.dr_writes instance (trace w) /\
     trace w'
     = EvBitSet (I2C_CR1 instance) I2C_CR1_STOP
       :: EvBitSet (I2C_CR1 instance) I2C_CR1_START
       :: EvBitSet (I2C_CR1 instance) I2C_CR1_ACK :: trace w).
Proof.
  intros Hwf Hi Hd Hinit Hlen Hz.
  assert (Hb : I2cSpec.wait_budget timeout_ms = O).
  { unfold I2cSpec.wait_budget. rewrite Hz. reflexivity. }
  destruct (write_zero_budget hw instance dev_addr data len timeout_ms w
              Hwf Hi Hd Hinit Hlen Hb) as (ww & Eww & Htw).
  destruct (read_zero_budget hw instance dev_addr data len timeout_ms w
              Hwf Hi Hd Hinit Hlen Hb) as (wr & Ewr & Htr).
  split.
  - destruct (write_blocking_path hw instance dev_addr data len timeout_ms w
                Hwf Hi Hd Hinit Hlen)
      as (r & w' & E & Hmw & _ & _ & Hbusy & _).
    destruct (write_blocking_outcome hw instance dev_addr data len timeout_ms
                w Hwf Hi Hd Hinit Hlen)
      as (r0 & w0 & E0 & _ & _ & Hs0 & Hst0).
    unfold run in E0. rewrite E in E0. inversion E0; subst r0 w0.
    rewrite (Hbusy Hb) in *.
    rewrite E in Eww. inversion Eww. subst ww.
    exists w'. split; [exact E |]. split; [rewrite Hs0; cbn; lia |].
    split; [exact Hst0 |]. split; [exact Hmw |].
    split; [rewrite Htw; reflexivity | exact Htw].
  - destruct (read_blocking_path hw instance dev_addr data len timeout_ms w
                Hwf Hi Hd Hinit Hlen)
      as (r & w' & E & _ & _ & Hto & _).
    destruct (read_blocking_outcome hw instance dev_addr data len timeout_ms
                w Hwf Hi Hd Hinit Hlen)
      as (r0 & w0 & E0 & _ & _ & Haddr & Hst0).
    unfold run in E0. rewrite E in E0. inversion E0; subst r0 w0.
    destruct (Hto Hb) as [-> Hm].
    exists w'. split; [exact E |].
    destruct (send_address_path hw instance dev_addr I2C_DIR_READ timeout_ms
                (read_armed instance w))
      as (ra & wa & Ea & _ & _ & _ & _ & _ & Hza & _).
    destruct (Hza Hb) as [-> ->].
    destruct (Haddr _ _ Ea) as [_ Hs]; [discriminate |].
    rewrite E in Ewr. inversion Ewr. subst wr.
    split; [rewrite Hs; lia |]. split; [exact Hm |]. split; [exact Hst0 |].
    split; [rewrite Htr; reflexivity | exact Htr].
Qed.

Lemma X8_zero_wait_budget_always_fails_witness :
  exists w',
    run (I2c.i2c_write_blocking I2C_INSTANCE_0 72 Sim.buf 1 268435456)
      Sim.hw_ready (Sim.w_initialised Sim.hw_ready)
    = Done STATUS_BUSY w' /\
    I2cData.state (I2c.handle_of I2C_INSTANCE_0 w') = I2C_STATE_ERROR.
Proof.
  destruct (X8_zero_wait_budget_always_fails Sim.hw_ready
              (Sim.w_initialised Sim.hw_ready) I2C_INSTANCE_0 72 Sim.buf 1
              268435456) as [(w' & E & _ & Hst & _) _].
  - reflexivity.
  - unfold I2C_INSTANCE_0, I2C_INSTANCE_MAX. lia.
  - unfold Sim.buf. lia.
  - reflexivity.
  - lia.
  - reflexivity.
  - exists w'. split; [exact E | exact Hst].
Defined.

(** ** Complete asynchronous transfers *)

Section I2cAsyncRun.
Import I2cData I2c I2cSpec.

Variable hw : oracle.
Variable instance : Z.
Hypothesis Hinst : 0 <= instance < I2C_INSTANCE_MAX.

Lemma irqs_app a b w :
  Sim.irqs instance (a + b) hw w
  = (Sim.irqs instance a ;;; Sim.irqs instance b) hw w.
Proof.
  revert w. induction a as [| k IH]; intros w; cbn [Sim.irqs Nat.add].
  - reflexivity.
  - unfold bind. destruct (i2c_irq_handler instance hw w); auto.
Qed.

Ltac enter_irq Hwf :=
  unfold i2c_irq_handler; rewrite (in_range_ltb instance Hinst);
  apply returns_bind; [apply returns_get_i2c; [exact Hwf | exact Hinst |]];
  apply returns_bind; unfold returns at 1, read_reg;
  eexists _, _; split; [reflexivity |].

Ltac observed Hlen :=
  unfold observe, handle_of, stops, ack_clears, count_events, wf_i2c in *;
  cbn [g_i2c_handles mem trace log with_i2c with_mem dr_writes dr_reads
         completions sr1_reads filter is_stop is_ack_clear reg_eqb];
  rewrite ?Z.eqb_refl; cbn [andb Z.eqb Pos.eqb length app];
  rewrite ?list_set_twice, ?list_set_length;
  rewrite ?nth_list_set_same by (rewrite ?list_set_length; exact Hlen).

Lemma step_start_sent w :
  wf_i2c w ->
  sr1_at hw instance (sr1_reads instance (trace w)) start_sent ->
  returns (i2c_irq_handler instance) hw w
    (fun _ w' =>
       wf_i2c w' /\ mem w' = mem w /\
       observe instance w'
       = let o := observe instance w in
         {| o_handle := o_handle o;
            o_writes :=
              o_writes o
              ++ [u8 (Z.lor (Z.shiftl (dev_address (o_handle o)) 1)
                        (if i2c_state_eqb (state (o_handle o))
                              I2C_STATE_BUSY_TX then 0 else 1))];
            o_reads := o_reads o; o_stops := o_stops o; o_acks := o_acks o;
            o_done := o_done o; o_sr1 := S (o_sr1 o) |}).
Proof.
  intros Hwf Hsr.
  assert (Hlen : (Z.to_nat instance < length (g_i2c_handles w))%nat).
  { unfold wf_i2c, I2C_INSTANCE_MAX in *. lia. }
  specialize (Hsr (trace w) eq_refl). unfold start_sent in Hsr.
  enter_irq Hwf. rewrite Hsr. apply returns_emit.
  split; [exact Hwf |]. split; [reflexivity |].
  observed Hlen. reflexivity.
Qed.

Lemma step_address_acked w :
  wf_i2c w ->
  sr1_at hw instance (sr1_reads instance (trace w)) address_acked ->
  returns (i2c_irq_handler instance) hw w
    (fun _ w' =>
       wf_i2c w' /\ mem w' = mem w /\
       observe instance w'
       = let o := observe instance w in
         {| o_handle := o_handle o; o_writes := o_writes o;
            o_reads := o_reads o; o_stops := o_stops o;
            o_acks :=
              if i2c_state_eqb (state (o_handle o)) I2C_STATE_BUSY_RX
                 && (buffer_len (o_handle o) =? 1)
              then S (o_acks o) else o_acks o;
            o_done := o_done o; o_sr1 := S (o_sr1 o) |}).
Proof.
  intros Hwf Hsr.
  assert (Hlen : (Z.to_nat instance < length (g_i2c_handles w))%nat).
  { unfold wf_i2c, I2C_INSTANCE_MAX in *. lia. }
  destruct (Hsr (trace w) eq_refl) as [Hsb Haddr].
  enter_irq Hwf. rewrite Hsb, Haddr.
  apply returns_bind. apply returns_read_reg. intros sr2 _.
  destruct (i2c_state_eqb (state (handle_of instance w)) I2C_STATE_BUSY_RX
            && (buffer_len (handle_of instance w) =? 1)) eqn:E;
    [apply returns_emit | apply returns_ret];
    (split; [exact Hwf |]); (split; [reflexivity |]);
    cbn zeta; cbn [o_handle observe]; rewrite E;
    observed Hlen; reflexivity.
Qed.

Lemma step_tx_byte w :
  wf_i2c w ->
  sr1_at hw instance (sr1_reads instance (trace w)) tx_empty ->
  state (handle_of instance w) = I2C_STATE_BUSY_TX ->
  buffer_idx (handle_of instance w) < buffer_len (handle_of instance w) ->
  returns (i2c_irq_handler instance) hw w
    (fun _ w' =>
       wf_i2c w' /\ mem w' = mem w /\
       observe instance w'
       = let o := observe instance w in
         {| o_handle :=
              set_buffer_idx (u32 (buffer_idx (o_handle o) + 1)) (o_handle o);
            o_writes :=
              o_writes o
              ++ [mem w (tx_buffer (o_handle o) + buffer_idx (o_handle o))];
            o_reads := o_reads o; o_stops := o_stops o; o_acks := o_acks o;
            o_done := o_done o; o_sr1 := S (o_sr1 o) |}).
Proof.
  intros Hwf Hsr Hst Hidx.
  assert (Hlen : (Z.to_nat instance < length (g_i2c_handles w))%nat).
  { unfold wf_i2c, I2C_INSTANCE_MAX in *. lia. }
  destruct (Hsr (trace w) eq_refl) as (Hsb & Haddr & Htxe).
  enter_irq Hwf. rewrite Hsb, Haddr, Htxe, Hst. cbn [andb i2c_state_eqb].
  apply Z.ltb_lt in Hidx. rewrite Hidx.
  apply returns_bind. unfold returns at 1, load_byte.
  eexists _, _; split; [reflexivity |].
  apply returns_bind. apply returns_emit.
  apply returns_modify_i2c; [exact Hwf | exact Hinst |].
  split; [unfold wf_i2c in *; cbn; rewrite list_set_length; exact Hwf |].
  split; [reflexivity |].
  observed Hlen. reflexivity.
Qed.

Lemma step_tx_finished w :
  wf_i2c w ->
  sr1_at hw instance (sr1_reads instance (trace w)) tx_finished ->
  state (handle_of instance w) = I2C_STATE_BUSY_TX ->
  buffer_len (handle_of instance w) <= buffer_idx (handle_of instance w) ->
  callback (handle_of instance w) <> 0 ->
  returns (i2c_irq_handler instance) hw w
    (fun _ w' =>
       wf_i2c w' /\ mem w' = mem w /\
       observe instance w'
       = let o := observe instance w in
         {| o_handle := set_state I2C_STATE_IDLE (o_handle o);
            o_writes := o_writes o; o_reads := o_reads o;
            o_stops := S (o_stops o); o_acks := o_acks o;
            o_done := o_done o ++ [(callback (o_handle o), STATUS_OK)];
            o_sr1 := S (o_sr1 o) |}).
Proof.
  intros Hwf Hsr Hst Hidx Hcb.
  assert (Hlen : (Z.to_nat instance < length (g_i2c_handles w))%nat).
  { unfold wf_i2c, I2C_INSTANCE_MAX in *. lia. }
  destruct (Hsr (trace w) eq_refl) as ((Hsb & Haddr & Htxe) & Hbtf).
  enter_irq Hwf. rewrite Hsb, Haddr, Htxe, Hst, Hbtf.
  cbn [andb i2c_state_eqb].
  assert (E : (buffer_idx (handle_of instance w)
               <? buffer_len (handle_of instance w)) = false)
    by (apply Z.ltb_ge; exact Hidx).
  rewrite E.
  apply returns_bind. unfold i2c_generate_stop. apply returns_emit.
  apply returns_bind. apply returns_modify_i2c; [exact Hwf | exact Hinst |].
  unfold invoke_callback, IS_VALID_PTR, IS_NULL_PTR.
  apply Z.eqb_neq in Hcb. rewrite Hcb. apply returns_emit.
  split; [unfold wf_i2c in *; cbn; rewrite list_set_length; exact Hwf |].
  split; [reflexivity |].
  observed Hlen. reflexivity.
Qed.

Lemma set_buffer_idx_same (h : i2c_handle_t) :
  set_buffer_idx (buffer_idx h) h = h.
Proof. destruct h; reflexivity. Qed.

(** [n] transmitter-empty interrupts move the next [n] bytes of the buffer
    to the data register. *)
Lemma tx_run n : forall w,
  wf_i2c w ->
  state (handle_of instance w) = I2C_STATE_BUSY_TX ->
  0 <= buffer_idx (handle_of instance w) ->
  buffer_idx (handle_of instance w) + Z.of_nat n
  <= buffer_len (handle_of instance w) ->
  buffer_len (handle_of instance w) < 2 ^ 32 ->
  (forall k, (k < n)%nat ->
     sr1_at hw instance (sr1_reads instance (trace w) + k) tx_empty) ->
  returns (Sim.irqs instance n) hw w
    (fun _ w' =>
       wf_i2c w' /\ mem w' = mem w /\
       observe instance w'
       = let o := observe instance w in
         {| o_handle :=
              set_buffer_idx (buffer_idx (o_handle o) + Z.of_nat n)
                (o_handle o);
            o_writes :=
              o_writes o
              ++ bytes_at (mem w)
                   (tx_buffer (o_handle o) + buffer_idx (o_handle o)) n;
            o_reads := o_reads o; o_stops := o_stops o; o_acks := o_acks o;
            o_done := o_done o; o_sr1 := (o_sr1 o + n)%nat |}).
Proof.
  induction n as [| n IH]; intros w Hwf Hst Hidx Hle Hlen Hsr.
  - cbn [Sim.irqs]. apply returns_ret.
    split; [exact Hwf |]. split; [reflexivity |].
    cbn zeta. cbn [observe o_handle o_writes o_reads o_stops o_acks o_done
                     o_sr1 Z.of_nat bytes_at seq map].
    rewrite Z.add_0_r, set_buffer_idx_same, app_nil_r, Nat.add_0_r.
    reflexivity.
  - cbn [Sim.irqs]. apply returns_bind.
    eapply returns_weaken.
    { apply step_tx_byte; [exact Hwf | | exact Hst | lia].
      specialize (Hsr O ltac:(lia)). rewrite Nat.add_0_r in Hsr. exact Hsr. }
    cbv beta. intros [] w1 (Hwf1 & Hm1 & Hobs1).
    cbn zeta in Hobs1.
    pose proof (f_equal o_handle Hobs1) as Hh1.
    pose proof (f_equal o_sr1 Hobs1) as Hc1.
    cbn [observe o_handle o_sr1] in Hh1, Hc1.
    assert (Hu : u32 (buffer_idx (handle_of instance w) + 1)
                 = buffer_idx (handle_of instance w) + 1)
      by (apply u32_small; lia).
    rewrite Hu in *.
    eapply returns_weaken.
    { apply IH.
      - exact Hwf1.
      - rewrite Hh1. exact Hst.
      - rewrite Hh1. cbn. lia.
      - rewrite Hh1. cbn. lia.
      - rewrite Hh1. cbn. exact Hlen.
      - intros k Hk. rewrite Hc1.
        replace (S (sr1_reads instance (trace w)) + k)%nat
          with (sr1_reads instance (trace w) + S k)%nat by lia.
        apply Hsr. lia. }
    cbv beta. intros [] w2 (Hwf2 & Hm2 & Hobs2).
    split; [exact Hwf2 |]. split; [congruence |].
    rewrite Hobs2. cbn zeta. rewrite Hobs1, Hm1.
    cbn [observe o_handle o_writes o_reads o_stops o_acks o_done o_sr1
           set_buffer_idx buffer_idx tx_buffer state rx_buffer buffer_len
           dev_address callback initialized].
    rewrite bytes_at_cons, <- app_assoc. cbn [app].
    f_equal.
    + unfold set_buffer_idx. cbn. f_equal. lia.
    + do 3 f_equal. lia.
    + lia.
Qed.

Ltac project H Hh Hc :=
  pose proof (f_equal o_handle H) as Hh;
  pose proof (f_equal o_sr1 H) as Hc;
  cbn [observe o_handle o_sr1] in Hh, Hc.

Ltac fields_in H :=
  cbn [observe o_handle o_writes o_reads o_stops o_acks o_done o_sr1
         set_buffer_idx set_state buffer_idx tx_buffer state rx_buffer
         buffer_len dev_address callback initialized i2c_state_eqb andb]
    in H.

Lemma returns_irqs_app a b w (Q : unit -> world -> Prop) :
  returns (Sim.irqs instance a ;;; Sim.irqs instance b) hw w Q ->
  returns (Sim.irqs instance (a + b)) hw w Q.
Proof. unfold returns. rewrite irqs_app. auto. Qed.

Lemma write_async_run dev_addr data len cb w :
  wf_i2c w -> data <> 0 -> cb <> 0 ->
  initialized (handle_of instance w) = true ->
  state (handle_of instance w) = I2C_STATE_IDLE ->
  0 <= len < 2 ^ 32 ->
  sr1_at hw instance (sr1_reads instance (trace w)) start_sent ->
  sr1_at hw instance (sr1_reads instance (trace w) + 1) address_acked ->
  (forall k, (k < Z.to_nat len)%nat ->
     sr1_at hw instance (sr1_reads instance (trace w) + 2 + k) tx_empty) ->
  sr1_at hw instance (sr1_reads instance (trace w) + 2 + Z.to_nat len)
    tx_finished ->
  returns (i2c_write_async instance dev_addr data len cb ;;;
           Sim.irqs instance (S (S (Z.to_nat len + 1)))) hw w
    (fun _ w' =>
       mem w' = mem w /\
       observe instance w'
       = let o := observe instance w in
         {| o_handle :=
              {| state := I2C_STATE_IDLE;
                 rx_buffer := rx_buffer (o_handle o);
                 tx_buffer := data; buffer_len := len; buffer_idx := len;
                 dev_address := dev_addr; callback := cb;
                 initialized := true |};
            o_writes :=
              o_writes o
              ++ addr_byte dev_addr I2C_DIR_WRITE
                 :: bytes_at (mem w) data (Z.to_nat len);
            o_reads := o_reads o; o_stops := S (o_stops o);
            o_acks := o_acks o;
            o_done := o_done o ++ [(cb, STATUS_OK)];
            o_sr1 := (o_sr1 o + 2 + Z.to_nat len + 1)%nat |}).
Proof.
  intros Hwf Hd Hcb Hinit Hst Hlen Hsb Haddr Htxe Hbtf.
  assert (Hn : (Z.to_nat instance < length (g_i2c_handles w))%nat).
  { unfold wf_i2c, I2C_INSTANCE_MAX in *. lia. }
  apply returns_bind. unfold returns at 1. eexists _, _.
  split; [apply (write_async_accepted hw instance Hinst); assumption |].
  set (w1 := log _ _).
  assert (Hwf1 : wf_i2c w1).
  { unfold wf_i2c in *. cbn. rewrite list_set_length. exact Hwf. }
  assert (Hm1 : mem w1 = mem w) by reflexivity.
  assert (Hobs1 :
    observe instance w1
    = {| o_handle :=
           {| state := I2C_STATE_BUSY_TX;
              rx_buffer := rx_buffer (handle_of instance w);
              tx_buffer := data; buffer_len := len; buffer_idx := 0;
              dev_address := dev_addr; callback := cb;
              initialized := true |};
         o_writes := dr_writes instance (trace w);
         o_reads := dr_reads instance (trace w);
         o_stops := stops instance w; o_acks := ack_clears instance w;
         o_done := completions instance (trace w);
         o_sr1 := sr1_reads instance (trace w) |}).
  { subst w1. observed Hn. reflexivity. }
  project Hobs1 Hh1 Hc1.
  cbn [Sim.irqs]. apply returns_bind. eapply returns_weaken.
  { apply step_start_sent; [exact Hwf1 | rewrite Hc1; exact Hsb]. }
  cbv beta. intros [] w2 (Hwf2 & Hm2 & Hobs2).
  cbn zeta in Hobs2. rewrite Hobs1 in Hobs2. fields_in Hobs2.
  project Hobs2 Hh2 Hc2.
  apply returns_bind. eapply returns_weaken.
  { apply step_address_acked; [exact Hwf2 |].
    rewrite Hc2, <- Nat.add_1_r. exact Haddr. }
  cbv beta. intros [] w3 (Hwf3 & Hm3 & Hobs3).
  cbn zeta in Hobs3. rewrite Hobs2 in Hobs3. fields_in Hobs3.
  project Hobs3 Hh3 Hc3.
  apply returns_irqs_app. apply returns_bind. eapply returns_weaken.
  { apply tx_run; try exact Hwf3; rewrite ?Hh3, ?Hc3; cbn; try lia.
    - reflexivity.
    - intros k Hk. specialize (Htxe k Hk).
      match goal with
      | |- sr1_at _ _ ?a _ =>
          replace a with (sr1_reads instance (trace w) + 2 + k)%nat by lia
      end.
      exact Htxe. }
  cbv beta. intros [] w4 (Hwf4 & Hm4 & Hobs4).
  cbn zeta in Hobs4. rewrite Hobs3, Hm3, Hm2, Hm1 in Hobs4. fields_in Hobs4.
  project Hobs4 Hh4 Hc4.
  cbn [Sim.irqs]. apply returns_bind. eapply returns_weaken.
  { apply step_tx_finished; try exact Hwf4; rewrite ?Hh4, ?Hc4; cbn;
      try lia; try assumption.
    - match goal with
      | |- sr1_at _ _ ?a _ =>
          replace a with (sr1_reads instance (trace w) + 2 + Z.to_nat len)%nat
            by lia
      end.
      exact Hbtf.
    - reflexivity. }
  cbv beta. intros [] w5 (Hwf5 & Hm5 & Hobs5).
  cbn zeta in Hobs5. rewrite Hobs4 in Hobs5. fields_in Hobs5.
  apply returns_ret. split; [congruence |].
  rewrite Hobs5. cbn zeta.
  cbn [observe o_handle o_writes o_reads o_stops o_acks o_done o_sr1
         set_buffer_idx set_state buffer_idx tx_buffer state rx_buffer
         buffer_len dev_address callback initialized].
  rewrite <- app_assoc, Z.add_0_r, Z.add_0_l, Z2Nat.id by lia.
  f_equal. lia.
Qed.

Lemma step_rx_byte w :
  wf_i2c w ->
  sr1_at hw instance (sr1_reads instance (trace w)) rx_not_empty ->
  state (handle_of instance w) = I2C_STATE_BUSY_RX ->
  0 <= buffer_idx (handle_of instance w) < buffer_len (handle_of instance w) ->
  buffer_len (handle_of instance w) < 2 ^ 32 ->
  callback (handle_of instance w) <> 0 ->
  returns (i2c_irq_handler instance) hw w
    (fun _ w' =>
       wf_i2c w' /\
       exists dr,
         (forall a,
            mem w' a
            = if a =? rx_buffer (handle_of instance w)
                      + buffer_idx (handle_of instance w)
              then u8 dr else mem w a) /\
         observe instance w'
         = let o := observe instance w in
           let h := o_handle o in
           let idx := buffer_idx h + 1 in
           {| o_handle :=
                if idx >=? buffer_len h
                then set_state I2C_STATE_IDLE (set_buffer_idx idx h)
                else set_buffer_idx idx h;
              o_writes := o_writes o; o_reads := o_reads o ++ [dr];
              o_stops :=
                if idx =? buffer_len h - 1 then S (o_stops o) else o_stops o;
              o_acks :=
                if idx =? buffer_len h - 1 then S (o_acks o) else o_acks o;
              o_done :=
                if idx >=? buffer_len h
                then o_done o ++ [(callback h, STATUS_OK)] else o_done o;
              o_sr1 := S (o_sr1 o) |}).
Proof.
  intros Hwf Hsr Hst Hidx Hlen32 Hcb.
  assert (Hlen : (Z.to_nat instance < length (g_i2c_handles w))%nat).
  { unfold wf_i2c, I2C_INSTANCE_MAX in *. lia. }
  destruct (Hsr (trace w) eq_refl) as (Hsb & Haddr & Hrx).
  enter_irq Hwf. rewrite Hsb, Haddr, Hrx, Hst.
  cbn [andb i2c_state_eqb]. rewrite andb_false_r. cbn [andb].
  apply returns_bind. apply returns_read_reg. intros dr _.
  apply returns_bind. unfold returns at 1, store_byte.
  eexists _, _; split; [reflexivity |].
  cbn zeta.
  rewrite (u32_small (buffer_idx (handle_of instance w) + 1)) by lia.
  rewrite (u32_small (buffer_len (handle_of instance w) - 1)) by lia.
  assert (Hwf1 : forall e m, wf_i2c (log e (with_mem m w))) by (intros; exact Hwf).
  apply returns_bind. apply returns_modify_i2c; [apply Hwf1 | exact Hinst |].
  apply Z.eqb_neq in Hcb.
  destruct (buffer_idx (handle_of instance w) + 1
            =? buffer_len (handle_of instance w) - 1) eqn:E1;
    destruct (buffer_idx (handle_of instance w) + 1
              >=? buffer_len (handle_of instance w)) eqn:E2.
  - apply Z.eqb_eq in E1. apply Z.geb_le in E2. lia.
  - apply returns_bind. apply returns_bind. apply returns_emit.
    unfold i2c_generate_stop. apply returns_emit. apply returns_ret.
    split; [unfold wf_i2c in *; cbn; rewrite ?list_set_length; exact Hwf |].
    exists dr. split; [intros a; reflexivity |].
    cbn [o_handle observe]. rewrite E1, E2. observed Hlen. reflexivity.
  - apply returns_bind. apply returns_ret.
    apply returns_bind.
    apply returns_modify_i2c;
      [unfold wf_i2c in *; cbn; rewrite ?list_set_length; exact Hwf
      | exact Hinst |].
    unfold invoke_callback, IS_VALID_PTR, IS_NULL_PTR. rewrite Hcb.
    apply returns_emit.
    split; [unfold wf_i2c in *; cbn; rewrite ?list_set_length; exact Hwf |].
    exists dr. split; [intros a; reflexivity |].
    cbn [o_handle observe]. rewrite E1, E2. observed Hlen. reflexivity.
  - apply returns_bind. apply returns_ret. apply returns_ret.
    split; [unfold wf_i2c in *; cbn; rewrite ?list_set_length; exact Hwf |].
    exists dr. split; [intros a; reflexivity |].
    cbn [o_handle observe]. rewrite E1, E2. observed Hlen. reflexivity.
Qed.

Lemma bytes_at_ext m m' a n :
  (forall x, a <= x < a + Z.of_nat n -> m' x = m x) ->
  bytes_at m' a n = bytes_at m a n.
Proof.
  intros H. unfold bytes_at. apply map_ext_in. intros i Hi.
  apply in_seq in Hi. apply H. lia.
Qed.

Lemma bytes_at_snoc m a n :
  bytes_at m a (n + 1) = bytes_at m a n ++ [m (a + Z.of_nat n)].
Proof.
  unfold bytes_at. rewrite seq_app, map_app. reflexivity.
Qed.

(** [n] receiver-not-empty interrupts that leave at least two bytes to
    come store [n] bytes and touch neither ACK nor STOP. *)
Lemma rx_run n : forall w,
  wf_i2c w ->
  state (handle_of instance w) = I2C_STATE_BUSY_RX ->
  0 <= buffer_idx (handle_of instance w) ->
  buffer_idx (handle_of instance w) + Z.of_nat n + 1
  < buffer_len (handle_of instance w) ->
  buffer_len (handle_of instance w) < 2 ^ 32 ->
  callback (handle_of instance w) <> 0 ->
  (forall k, (k < n)%nat ->
     sr1_at hw instance (sr1_reads instance (trace w) + k) rx_not_empty) ->
  returns (Sim.irqs instance n) hw w
    (fun _ w' =>
       wf_i2c w' /\
       let h := handle_of instance w in
       let a0 := rx_buffer h + buffer_idx h in
       (forall a, ~ (a0 <= a < a0 + Z.of_nat n) -> mem w' a = mem w a) /\
       exists bytes,
         length bytes = n /\
         bytes_at (mem w') a0 n = map u8 bytes /\
         observe instance w'
         = let o := observe instance w in
           {| o_handle :=
                set_buffer_idx (buffer_idx h + Z.of_nat n) h;
              o_writes := o_writes o; o_reads := o_reads o ++ bytes;
              o_stops := o_stops o; o_acks := o_acks o;
              o_done := o_done o; o_sr1 := (o_sr1 o + n)%nat |}).
Proof.
  induction n as [| n IH]; intros w Hwf Hst Hidx Hle Hlen Hcb Hsr.
  - cbn [Sim.irqs]. apply returns_ret.
    split; [exact Hwf |]. cbn zeta. split; [reflexivity |].
    exists []. split; [reflexivity |]. split; [reflexivity |].
    cbn [observe Z.of_nat].
    rewrite Z.add_0_r, set_buffer_idx_same, app_nil_r, Nat.add_0_r.
    reflexivity.
  - cbn [Sim.irqs]. apply returns_bind.
    eapply returns_weaken.
    { apply step_rx_byte; [exact Hwf | | exact Hst | lia | lia | exact Hcb].
      specialize (Hsr O ltac:(lia)). rewrite Nat.add_0_r in Hsr. exact Hsr. }
    cbv beta. intros [] w1 (Hwf1 & dr & Hm1 & Hobs1).
    cbn zeta in Hobs1.
    change (o_handle (observe instance w)) with (handle_of instance w)
      in Hobs1.
    assert (E1 : (buffer_idx (handle_of instance w) + 1
                  =? buffer_len (handle_of instance w) - 1) = false)
      by (apply Z.eqb_neq; lia).
    assert (E2 : (buffer_idx (handle_of instance w) + 1
                  >=? buffer_len (handle_of instance w)) = false)
      by (rewrite Z.geb_leb; apply Z.leb_gt; lia).
    rewrite E1, E2 in Hobs1.
    pose proof (f_equal o_handle Hobs1) as Hh1.
    pose proof (f_equal o_sr1 Hobs1) as Hc1.
    cbn [observe o_handle o_sr1] in Hh1, Hc1.
    eapply returns_weaken.
    { apply IH.
      - exact Hwf1.
      - rewrite Hh1. exact Hst.
      - rewrite Hh1. cbn. lia.
      - rewrite Hh1. cbn. lia.
      - rewrite Hh1. cbn. exact Hlen.
      - rewrite Hh1. cbn. exact Hcb.
      - intros k Hk. rewrite Hc1.
        replace (S (sr1_reads instance (trace w)) + k)%nat
          with (sr1_reads instance (trace w) + S k)%nat by lia.
        apply Hsr. lia. }
    cbv beta. intros [] w2 (Hwf2 & Hrest).
    cbn zeta in Hrest. rewrite Hh1 in Hrest.
    cbn [set_buffer_idx rx_buffer buffer_idx] in Hrest.
    destruct Hrest as (Hf2 & bytes & Hlen2 & Hb2 & Hobs2).
    split; [exact Hwf2 |]. cbn zeta.
    set (a0 := rx_buffer (handle_of instance w)
               + buffer_idx (handle_of instance w)) in *.
    replace (rx_buffer (handle_of instance w)
             + (buffer_idx (handle_of instance w) + 1))
      with (a0 + 1) in * by (unfold a0; lia).
    split.
    { intros a Ha. rewrite Hf2 by lia. rewrite Hm1.
      destruct (Z.eqb_spec a a0); [lia | reflexivity]. }
    exists (dr :: bytes). split; [cbn; congruence |]. split.
    { rewrite bytes_at_cons, Hb2. cbn [map]. f_equal.
      rewrite Hf2 by lia. rewrite Hm1, Z.eqb_refl. reflexivity. }
    rewrite Hobs2. cbn zeta. rewrite Hobs1.
    cbn [observe o_handle o_writes o_reads o_stops o_acks o_done o_sr1
           set_buffer_idx buffer_idx tx_buffer state rx_buffer buffer_len
           dev_address callback initialized].
    rewrite <- app_assoc. cbn [app].
    f_equal.
    + unfold set_buffer_idx. cbn. f_equal. lia.
    + lia.
Qed.

Lemma read_async_run dev_addr data len cb w :
  wf_i2c w -> data <> 0 -> cb <> 0 ->
  initialized (handle_of instance w) = true ->
  state (handle_of instance w) = I2C_STATE_IDLE ->
  2 <= len < 2 ^ 32 ->
  sr1_at hw instance (sr1_reads instance (trace w)) start_sent ->
  sr1_at hw instance (sr1_reads instance (trace w) + 1) address_acked ->
  (forall k, (k < Z.to_nat len)%nat ->
     sr1_at hw instance (sr1_reads instance (trace w) + 2 + k)
       rx_not_empty) ->
  returns (i2c_read_async instance dev_addr data len cb ;;;
           Sim.irqs instance (S (S (Z.to_nat (len - 2) + 2)))) hw w
    (fun _ w' =>
       (forall a, ~ (data <= a < data + len) -> mem w' a = mem w a) /\
       exists bytes,
         length bytes = Z.to_nat len /\
         bytes_at (mem w') data (Z.to_nat len) = map u8 bytes /\
         observe instance w'
         = let o := observe instance w in
           {| o_handle :=
                {| state := I2C_STATE_IDLE; rx_buffer := data;
                   tx_buffer := tx_buffer (o_handle o);
                   buffer_len := len; buffer_idx := len;
                   dev_address := dev_addr; callback := cb;
                   initialized := true |};
              o_writes := o_writes o ++ [addr_byte dev_addr I2C_DIR_READ];
              o_reads := o_reads o ++ bytes;
              o_stops := S (o_stops o); o_acks := S (o_acks o);
              o_done := o_done o ++ [(cb, STATUS_OK)];
              o_sr1 := (o_sr1 o + 2 + Z.to_nat len)%nat |}).
Proof.
  intros Hwf Hd Hcb Hinit Hst Hlen Hsb Haddr Hrx.
  assert (Hn : (Z.to_nat instance < length (g_i2c_handles w))%nat).
  { unfold wf_i2c, I2C_INSTANCE_MAX in *. lia. }
  set (n := Z.to_nat (len - 2)).
  assert (Hnlen : Z.of_nat n = len - 2) by (unfold n; lia).
  apply returns_bind. unfold returns at 1. eexists _, _.
  split; [apply (read_async_accepted hw instance Hinst); assumption |].
  set (w1 := log _ _).
  assert (Hwf1 : wf_i2c w1).
  { unfold wf_i2c in *. cbn. rewrite list_set_length. exact Hwf. }
  assert (Hm1 : mem w1 = mem w) by reflexivity.
  assert (Hobs1 :
    observe instance w1
    = {| o_handle :=
           {| state := I2C_STATE_BUSY_RX; rx_buffer := data;
              tx_buffer := tx_buffer (handle_of instance w);
              buffer_len := len; buffer_idx := 0;
              dev_address := dev_addr; callback := cb;
              initialized := true |};
         o_writes := dr_writes instance (trace w);
         o_reads := dr_reads instance (trace w);
         o_stops := stops instance w; o_acks := ack_clears instance w;
         o_done := completions instance (trace w);
         o_sr1 := sr1_reads instance (trace w) |}).
  { subst w1. unfold reading. rewrite Hinit. observed Hn. reflexivity. }
  project Hobs1 Hh1 Hc1.
  cbn [Sim.irqs]. apply returns_bind. eapply returns_weaken.
  { apply step_start_sent; [exact Hwf1 | rewrite Hc1; exact Hsb]. }
  cbv beta. intros [] w2 (Hwf2 & Hm2 & Hobs2).
  cbn zeta in Hobs2. rewrite Hobs1 in Hobs2. fields_in Hobs2.
  project Hobs2 Hh2 Hc2.
  apply returns_bind. eapply returns_weaken.
  { apply step_address_acked; [exact Hwf2 |].
    rewrite Hc2, <- Nat.add_1_r. exact Haddr. }
  cbv beta. intros [] w3 (Hwf3 & Hm3 & Hobs3).
  cbn zeta in Hobs3. rewrite Hobs2 in Hobs3. fields_in Hobs3.
  assert (Hne1 : (len =? 1) = false) by (apply Z.eqb_neq; lia).
  rewrite Hne1 in Hobs3.
  project Hobs3 Hh3 Hc3.
  apply returns_irqs_app. apply returns_bind. eapply returns_weaken.
  { apply rx_run; try exact Hwf3; rewrite ?Hh3, ?Hc3; cbn; try lia;
      try assumption.
    - reflexivity.
    - intros k Hk.
      match goal with
      | |- sr1_at _ _ ?a _ =>
          replace a with (sr1_reads instance (trace w) + 2 + k)%nat by lia
      end.
      apply Hrx. lia. }
  cbv beta. intros [] w4 (Hwf4 & Hrest4).
  cbn zeta in Hrest4. rewrite Hobs3, Hh3 in Hrest4. fields_in Hrest4.
  destruct Hrest4 as (Hf4 & ds & Hlds & Hb4 & Hobs4).
  rewrite Z.add_0_l, Z.add_0_r in *.
  project Hobs4 Hh4 Hc4.
  cbn [Sim.irqs]. apply returns_bind. eapply returns_weaken.
  { apply step_rx_byte; try exact Hwf4; rewrite ?Hh4, ?Hc4; cbn;
      try lia; try assumption.
    - match goal with
      | |- sr1_at _ _ ?a _ =>
          replace a with (sr1_reads instance (trace w) + 2 + n)%nat by lia
      end.
      apply Hrx. lia.
    - reflexivity. }
  cbv beta. intros [] w5 (Hwf5 & d1 & Hm5 & Hobs5).
  cbn zeta in Hobs5. rewrite Hh4 in Hm5. rewrite Hobs4 in Hobs5.
  fields_in Hobs5.
  cbn [rx_buffer buffer_idx] in Hm5.
  assert (E1 : (Z.of_nat n + 1 =? len - 1) = true) by (apply Z.eqb_eq; lia).
  assert (E2 : (Z.of_nat n + 1 >=? len) = false)
    by (rewrite Z.geb_leb; apply Z.leb_gt; lia).
  rewrite E1, E2 in Hobs5. fields_in Hobs5.
  project Hobs5 Hh5 Hc5.
  apply returns_bind. eapply returns_weaken.
  { apply step_rx_byte; try exact Hwf5; rewrite ?Hh5, ?Hc5; cbn;
      try lia; try assumption.
    - match goal with
      | |- sr1_at _ _ ?a _ =>
          replace a with (sr1_reads instance (trace w) + 2 + S n)%nat by lia
      end.
      apply Hrx. lia.
    - reflexivity. }
  cbv beta. intros [] w6 (Hwf6 & d2 & Hm6 & Hobs6).
  cbn zeta in Hobs6. rewrite Hh5 in Hm6. rewrite Hobs5 in Hobs6.
  fields_in Hobs6.
  cbn [rx_buffer buffer_idx] in Hm6.
  assert (E3 : (Z.of_nat n + 1 + 1 =? len - 1) = false)
    by (apply Z.eqb_neq; lia).
  assert (E4 : (Z.of_nat n + 1 + 1 >=? len) = true)
    by (rewrite Z.geb_leb; apply Z.leb_le; lia).
  rewrite E3, E4 in Hobs6. fields_in Hobs6.
  apply returns_ret.
  cbn [rx_buffer buffer_idx set_buffer_idx] in Hm5, Hm6.
  split.
  { intros a Ha. rewrite Hm6, Hm5.
    destruct (Z.eqb_spec a (data + (Z.of_nat n + 1))); [lia |].
    destruct (Z.eqb_spec a (data + Z.of_nat n)); [lia |].
    rewrite Hf4 by lia. congruence. }
  exists (ds ++ [d1] ++ [d2]).
  split; [rewrite !length_app; cbn [length]; lia |].
  split.
  { replace (Z.to_nat len) with (n + 1 + 1)%nat by lia.
    rewrite !bytes_at_snoc, !map_app, <- app_assoc. cbn [map].
    f_equal; [| f_equal; [| f_equal]].
    - rewrite <- Hb4. apply bytes_at_ext. intros x Hx. rewrite Hm6, Hm5.
      destruct (Z.eqb_spec x (data + (Z.of_nat n + 1))); [lia |].
      destruct (Z.eqb_spec x (data + Z.of_nat n)); [lia | reflexivity].
    - rewrite Hm6, Hm5.
      destruct (Z.eqb_spec (data + Z.of_nat n)
                  (data + (Z.of_nat n + 1))); [lia |].
      rewrite Z.eqb_refl. reflexivity.
    - rewrite Hm6. rewrite Nat2Z.inj_add. cbn [Z.of_nat Pos.of_succ_nat].
      rewrite Z.eqb_refl. reflexivity. }
  rewrite Hobs6. cbn zeta.
  cbn [observe o_handle o_writes o_reads o_stops o_acks o_done o_sr1
         set_buffer_idx set_state buffer_idx tx_buffer state rx_buffer
         buffer_len dev_address callback initialized].
  rewrite <- !app_assoc.
  f_equal.
  - unfold set_state, set_buffer_idx. cbn. f_equal. lia.
  - lia.
Qed.

Lemma sr1_reads_filter tr :
  length (filter (Sim.is_read_of (I2C_SR1 instance)) tr)
  = sr1_reads instance tr.
Proof.
  induction tr as [| e tr IH]; [reflexivity |].
  destruct e as [r v | | | | | |]; try exact IH.
  destruct r; try exact IH.
  cbn [filter Sim.is_read_of reg_eqb sr1_reads].
  rewrite (Z.eqb_sym instance).
  destruct (_ =? instance); cbn [length]; congruence.
Qed.

Lemma script_sr1_at script k (P : Z -> Prop) :
  P (u32 (nth k script 0)) -> sr1_at (Sim.hw_script script) instance k P.
Proof.
  intros HP tr Htr. unfold Sim.hw_script.
  rewrite sr1_reads_filter, Htr. exact HP.
Qed.

End I2cAsyncRun.

(** X9.  An accepted asynchronous write of [len] bytes, served by the
    interrupt sequence start-sent, address-acknowledged, [len] times
    transmitter-empty and finally transmitter-empty with
    byte-transfer-finished, writes to the data register the address byte
    (direction bit 0) followed by the [len] bytes of the buffer in order,
    issues exactly one STOP and no ACK clear, calls the completion callback
    exactly once with [STATUS_OK], leaves the instance Idle with the index at
    [len], and stores nothing. *)
Theorem X9_async_write_runs_to_completion (hw : oracle) (w : world)
    (instance dev_addr data len cb : Z) :
  wf_i2c w ->
  0 <= instance < I2C_INSTANCE_MAX ->
  data <> 0 -> cb <> 0 ->
  I2cData.initialized (I2c.handle_of instance w) = true ->
  I2cData.state (I2c.handle_of instance w) = I2C_STATE_IDLE ->
  0 <= len < 2 ^ 32 ->
  I2cSpec.sr1_at hw instance (I2cSpec.sr1_reads instance (trace w))
    I2cSpec.start_sent ->
  I2cSpec.sr1_at hw instance (I2cSpec.sr1_reads instance (trace w) + 1)
    I2cSpec.address_acked ->
  (forall k, (k < Z.to_nat len)%nat ->
     I2cSpec.sr1_at hw instance
       (I2cSpec.sr1_reads instance (trace w) + 2 + k) I2cSpec.tx_empty) ->
  I2cSpec.sr1_at hw instance
    (I2cSpec.sr1_reads instance (trace w) + 2 + Z.to_nat len)
    I2cSpec.tx_finished ->
  exists w',
    run (I2c.i2c_write_async instance dev_addr data len cb ;;;
         Sim.irqs instance (Z.to_nat len + 3)) hw w = Done tt w' /\
    I2cData.state (I2c.handle_of instance w') = I2C_STATE_IDLE /\
    I2cData.buffer_idx (I2c.handle_of instance w') = len /\
    I2cSpec.dr_writes instance (trace w')
    = I2cSpec.dr_writes instance (trace w)
      ++ I2cSpec.addr_byte dev_addr I2C_DIR_WRITE
         :: I2cSpec.bytes_at (mem w) data (Z.to_nat len) /\
    I2c.stops instance w' = S (I2c.stops instance w) /\
    I2c.ack_clears instance w' = I2c.ack_clears instance w /\
    I2cSpec.completions instance (trace w')
    = I2cSpec.completions instance (trace w) ++ [(cb, STATUS_OK)] /\
    mem w' = mem w.
Proof.
  intros Hwf Hi Hd Hcb Hinit Hst Hlen Hsb Haddr Htxe Hbtf.
  destruct (write_async_run hw instance Hi dev_addr data len cb w
              Hwf Hd Hcb Hinit Hst Hlen Hsb Haddr Htxe Hbtf)
    as ([] & w' & E & Hm & Hobs).
  exists w'. split.
  { replace (Z.to_nat len + 3)%nat with (S (S (Z.to_nat len + 1))) by lia.
    exact E. }
  cbn zeta in Hobs.
  pose proof (f_equal I2cSpec.o_handle Hobs) as Hh.
  pose proof (f_equal I2cSpec.o_writes Hobs) as Hw.
  pose proof (f_equal I2cSpec.o_stops Hobs) as Hs.
  pose proof (f_equal I2cSpec.o_acks Hobs) as Ha.
  pose proof (f_equal I2cSpec.o_done Hobs) as Hdn.
  cbn in Hh, Hw, Hs, Ha, Hdn.
  rewrite Hh. cbn. auto 10.
Qed.

Lemma X9_async_write_runs_to_completion_witness :
  exists w',
    run (I2c.i2c_write_async I2C_INSTANCE_0 72 Sim.buf 2 Sim.handler ;;;
         Sim.irqs I2C_INSTANCE_0 5) (Sim.hw_script (I2cSpec.tx_script 2))
      (Sim.w_initialised Sim.hw_ready) = Done tt w' /\
    I2cSpec.dr_writes I2C_INSTANCE_0 (trace w') = [144; 0; 0] /\
    I2c.stops I2C_INSTANCE_0 w' = 1%nat /\
    I2cSpec.completions I2C_INSTANCE_0 (trace w')
    = [(Sim.handler, STATUS_OK)].
Proof.
  destruct (X9_async_write_runs_to_completion
              (Sim.hw_script (I2cSpec.tx_script 2))
              (Sim.w_initialised Sim.hw_ready)
              I2C_INSTANCE_0 72 Sim.buf 2 Sim.handler)
    as (w' & E & _ & _ & Hw & Hs & _ & Hdn & _).
  - reflexivity.
  - unfold I2C_INSTANCE_0, I2C_INSTANCE_MAX. lia.
  - unfold Sim.buf. lia.
  - unfold Sim.handler. lia.
  - reflexivity.
  - reflexivity.
  - lia.
  - apply script_sr1_at. reflexivity.
  - apply script_sr1_at. split; reflexivity.
  - intros k Hk. apply script_sr1_at.
    destruct k as [| [| k]]; [repeat split; reflexivity .. | lia].
  - apply script_sr1_at. repeat split; reflexivity.
  - exists w'. split; [exact E |]. split; [exact Hw |].
    split; [exact Hs | exact Hdn].
Defined.

(** X10.  An accepted asynchronous read of [len >= 2] bytes, served by the
    interrupt sequence start-sent, address-acknowledged and [len] times
    receiver-not-empty, writes only the address byte (direction bit 1) to
    the data register, reads the data register [len] times and stores the
    low eight bits of those reads in order in the caller's buffer and
    nowhere else, clears ACK exactly once and issues exactly one STOP, calls
    the completion callback exactly once with [STATUS_OK], and leaves the
    instance Idle with the index at [len]. *)
Theorem X10_async_read_runs_to_completion (hw : oracle) (w : world)
    (instance dev_addr data len cb : Z) :
  wf_i2c w ->
  0 <= instance < I2C_INSTANCE_MAX ->
  data <> 0 -> cb <> 0 ->
  I2cData.initialized (I2c.handle_of instance w) = true ->
  I2cData.state (I2c.handle_of instance w) = I2C_STATE_IDLE ->
  2 <= len < 2 ^ 32 ->
  I2cSpec.sr1_at hw instance (I2cSpec.sr1_reads instance (trace w))
    I2cSpec.start_sent ->
  I2cSpec.sr1_at hw instance (I2cSpec.sr1_reads instance (trace w) + 1)
    I2cSpec.address_acked ->
  (forall k, (k < Z.to_nat len)%nat ->
     I2cSpec.sr1_at hw instance
       (I2cSpec.sr1_reads instance (trace w) + 2 + k)
       I2cSpec.rx_not_empty) ->
  exists w' bytes,
    run (I2c.i2c_read_async instance dev_addr data len cb ;;;
         Sim.irqs instance (Z.to_nat len + 2)) hw w = Done tt w' /\
    length bytes = Z.to_nat len /\
    I2cSpec.dr_reads instance (trace w')
    = I2cSpec.dr_reads instance (trace w) ++ bytes /\
    I2cSpec.bytes_at (mem w') data (Z.to_nat len) = map u8 bytes /\
    (forall a, ~ (data <= a < data + len) -> mem w' a = mem w a) /\
    I2cSpec.dr_writes instance (trace w')
    = I2cSpec.dr_writes instance (trace w)
      ++ [I2cSpec.addr_byte dev_addr I2C_DIR_READ] /\
    I2c.stops instance w' = S (I2c.stops instance w) /\
    I2c.ack_clears instance w' = S (I2c.ack_clears instance w) /\
    I2cSpec.completions instance (trace w')
    = I2cSpec.completions instance (trace w) ++ [(cb, STATUS_OK)] /\
    I2cData.state (I2c.handle_of instance w') = I2C_STATE_IDLE /\
    I2cData.buffer_idx (I2c.handle_of instance w') = len.
Proof.
  intros Hwf Hi Hd Hcb Hinit Hst Hlen Hsb Haddr Hrx.
  destruct (read_async_run hw instance Hi dev_addr data len cb w
              Hwf Hd Hcb Hinit Hst Hlen Hsb Haddr Hrx)
    as ([] & w' & E & Hf & bytes & Hl & Hb & Hobs).
  exists w', bytes. split.
  { replace (Z.to_nat len + 2)%nat with (S (S (Z.to_nat (len - 2) + 2)))
      by lia.
    exact E. }
  cbn zeta in Hobs.
  pose proof (f_equal I2cSpec.o_handle Hobs) as Hh.
  pose proof (f_equal I2cSpec.o_writes Hobs) as Hw.
  pose proof (f_equal I2cSpec.o_reads Hobs) as Hr.
  pose proof (f_equal I2cSpec.o_stops Hobs) as Hs.
  pose proof (f_equal I2cSpec.o_acks Hobs) as Ha.
  pose proof (f_equal I2cSpec.o_done Hobs) as Hdn.
  cbn in Hh, Hw, Hr, Hs, Ha, Hdn.
  rewrite Hh. cbn. auto 12.
Qed.

Lemma X10_async_read_runs_to_completion_witness :
  exists w',
    run (I2c.i2c_read_async I2C_INSTANCE_0 72 Sim.buf 3 Sim.handler ;;;
         Sim.irqs I2C_INSTANCE_0 5) (Sim.hw_script (Sim.rx_script 3))
      (Sim.w_initialised Sim.hw_ready) = Done tt w' /\
    I2cSpec.bytes_at (mem w') Sim.buf 3 = [171; 171; 171] /\
    I2c.stops I2C_INSTANCE_0 w' = 1%nat /\
    I2c.ack_clears I2C_INSTANCE_0 w' = 1%nat /\
    I2cSpec.completions I2C_INSTANCE_0 (trace w')
    = [(Sim.handler, STATUS_OK)].
Proof.
  destruct (X10_async_read_runs_to_completion
              (Sim.hw_script (Sim.rx_script 3))
              (Sim.w_initialised Sim.hw_ready)
              I2C_INSTANCE_0 72 Sim.buf 3 Sim.handler)
    as (w' & bytes & E & _ & _ & _ & _ & _ & Hs & Ha & Hdn & _).
  - reflexivity.
  - unfold I2C_INSTANCE_0, I2C_INSTANCE_MAX. lia.
  - unfold Sim.buf. lia.
  - unfold Sim.handler. lia.
  - reflexivity.
  - reflexivity.
  - lia.
  - apply script_sr1_at. reflexivity.
  - apply script_sr1_at. split; reflexivity.
  - intros k Hk. apply script_sr1_at.
    destruct k as [| [| [| k]]]; [repeat split; reflexivity .. | lia].
  - exists w'. split; [exact E |].
    split; [| split; [exact Hs | split; [exact Ha | exact Hdn]]].
    revert E. vm_compute. intros E. inversion E. reflexivity.
Defined.

(** ** The events of one BLE interrupt *)

Section BleIrqEvents.
Import BleData Ble BleSpec.

Variable hw : oracle.

Lemma firstn_seven_snoc {A} (l es : list A) :
  firstn 7 (firstn 7 l ++ es) = firstn 7 (l ++ es).
Proof.
  destruct (Nat.le_gt_cases (length l) 7) as [H | H].
  - rewrite (firstn_all2 (n := 7) l) by exact H. reflexivity.
  - rewrite !firstn_app, firstn_firstn, length_firstn.
    replace (Nat.min 7 (length l)) with 7%nat by lia.
    replace (7 - length l)%nat with O by lia.
    rewrite Nat.min_id. reflexivity.
Qed.

(** [ble_enqueue_event], whatever the fill of the ring: the event is
    appended unless seven are queued, and nothing else of the handle
    changes. *)
Lemma enqueue_bounded e w (Q : status_t -> world -> Prop) :
  wf_ble (g_ble_handle w) ->
  (forall r w',
     wf_ble (g_ble_handle w') ->
     queue_contents (g_ble_handle w')
     = firstn 7 (queue_contents (g_ble_handle w) ++ [e]) ->
     state (g_ble_handle w') = state (g_ble_handle w) ->
     rx_pending (g_ble_handle w') = rx_pending (g_ble_handle w) ->
     tx_complete (g_ble_handle w') = tx_complete (g_ble_handle w) ->
     Q r w') ->
  returns (ble_enqueue_event e) hw w Q.
Proof.
  intros Hwf HQ.
  pose proof (queue_count_range (g_ble_handle w)) as Hr.
  assert (Hl : length (queue_contents (g_ble_handle w))
               = Z.to_nat (queue_count (g_ble_handle w)))
    by apply queue_slots_length.
  destruct (Z.eq_dec (queue_count (g_ble_handle w)) 7) as [Hc | Hc].
  - eexists _, _. split; [apply enqueue_full; assumption |].
    apply HQ; auto.
    rewrite firstn_app, firstn_all2 by lia.
    replace (7 - length (queue_contents (g_ble_handle w)))%nat with O by lia.
    cbn [firstn]. rewrite app_nil_r. reflexivity.
  - destruct (enqueue_ok hw e w Hwf) as (E & Hwf' & Hc' & Hq'); [lia |].
    eexists _, _. split; [exact E |].
    apply HQ; auto.
    cbn [g_ble_handle with_ble]. rewrite Hq'.
    rewrite firstn_all2; [reflexivity |].
    rewrite length_app, Hl. cbn [length]. lia.
Qed.

Lemma irq_handler_events w :
  wf_ble (g_ble_handle w) ->
  returns ble_irq_handler hw w
    (fun _ w' =>
       let f := u32 (hw (trace w) BLE_INT_FLAG) in
       let h := g_ble_handle w in
       let h' := g_ble_handle w' in
       wf_ble h' /\
       queue_contents h'
       = firstn 7 (queue_contents h ++ irq_events f (peer_addr h)) /\
       rx_pending h' = BIT_CHECK f BLE_INT_RX_DONE || rx_pending h /\
       tx_complete h' = BIT_CHECK f BLE_INT_TX_DONE || tx_complete h).
Proof.
  intros Hwf. unfold ble_irq_handler.
  apply returns_bind. unfold returns at 1, read_reg.
  eexists _, _. split; [reflexivity |].
  cbn zeta.
  set (f := u32 (hw (trace w) BLE_INT_FLAG)).
  set (h0 := g_ble_handle w).
  unfold irq_events, irq_evt3, irq_evt2, irq_evt1.
  set (Q0 := queue_contents h0).
  (* connected *)
  apply returns_bind.
  apply (returns_weaken _ _ _
           (fun evt w1 =>
              let h1 := g_ble_handle w1 in
              evt = (if BIT_CHECK f BLE_INT_CONNECTED
                     then set_peer_addr (peer_addr h0)
                            (set_type BLE_EVT_CONNECTED zero_event)
                     else zero_event) /\
              wf_ble h1 /\
              queue_contents h1
              = firstn 7 (Q0 ++ (if BIT_CHECK f BLE_INT_CONNECTED
                                 then [evt] else [])) /\
              rx_pending h1 = rx_pending h0 /\
              tx_complete h1 = tx_complete h0)).
  { destruct (BIT_CHECK f BLE_INT_CONNECTED).
    - apply returns_bind. apply returns_emit.
      apply returns_bind. eexists tt, _. split; [reflexivity |].
      apply returns_bind. eexists _, _. split; [reflexivity |].
      apply returns_bind. apply enqueue_bounded.
      { apply set_state_wf. exact Hwf. }
      intros r w' Hwf' Hq Hst Hrp Htc. apply returns_ret.
      split; [reflexivity |]. split; [exact Hwf' |].
      split; [exact Hq |]. split; [exact Hrp | exact Htc].
    - apply returns_ret. split; [reflexivity |]. split; [exact Hwf |].
      split; [| split; reflexivity].
      rewrite app_nil_r. symmetry. apply firstn_all2.
      unfold Q0, queue_contents. rewrite queue_slots_length.
      cbn [g_ble_handle log].
      pose proof (queue_count_range (g_ble_handle w)). lia. }
  cbv beta zeta. intros evt1 w1 (He1 & Hwf1 & Hq1 & Hrp1 & Htc1).
  (* disconnected *)
  apply returns_bind.
  apply (returns_weaken _ _ _
           (fun evt w2 =>
              let h2 := g_ble_handle w2 in
              evt = (if BIT_CHECK f BLE_INT_DISCONNECTED
                     then set_type BLE_EVT_DISCONNECTED evt1 else evt1) /\
              wf_ble h2 /\
              queue_contents h2
              = firstn 7 (Q0
                          ++ (if BIT_CHECK f BLE_INT_CONNECTED
                              then [evt1] else [])
                          ++ (if BIT_CHECK f BLE_INT_DISCONNECTED
                              then [evt] else [])) /\
              rx_pending h2 = rx_pending h0 /\
              tx_complete h2 = tx_complete h0)).
  { destruct (BIT_CHECK f BLE_INT_DISCONNECTED).
    - apply returns_bind. apply returns_emit.
      apply returns_bind. eexists tt, _. split; [reflexivity |].
      apply returns_bind. apply enqueue_bounded.
      { apply set_state_wf. exact Hwf1. }
      intros r w' Hwf' Hq Hst Hrp Htc. apply returns_ret.
      split; [reflexivity |]. split; [exact Hwf' |].
      split; [| split; [rewrite Hrp; exact Hrp1 | rewrite Htc; exact Htc1]].
      rewrite Hq. cbn [g_ble_handle with_ble log].
      change (queue_contents (set_state BLE_STATE_IDLE (g_ble_handle w1)))
        with (queue_contents (g_ble_handle w1)).
      rewrite Hq1, firstn_seven_snoc, <- app_assoc. reflexivity.
    - apply returns_ret. split; [reflexivity |]. split; [exact Hwf1 |].
      split; [| split; [exact Hrp1 | exact Htc1]].
      rewrite app_nil_r. exact Hq1. }
  cbv beta zeta. intros evt2 w2 (He2 & Hwf2 & Hq2 & Hrp2 & Htc2).
  (* rx done *)
  apply returns_bind.
  apply (returns_weaken _ _ _
           (fun _ w3 =>
              let h3 := g_ble_handle w3 in
              wf_ble h3 /\
              queue_contents h3 = queue_contents (g_ble_handle w2) /\
              rx_pending h3 = BIT_CHECK f BLE_INT_RX_DONE || rx_pending h0 /\
              tx_complete h3 = tx_complete h0)).
  { destruct (BIT_CHECK f BLE_INT_RX_DONE).
    - apply returns_bind. apply returns_emit.
      eapply returns_weaken.
      { apply read_rx_data_clamps. exact Hwf2. }
      cbv beta zeta.
      intros _ w3 (_ & Hp & Hwf3 & _ & _ & Heq & Hhd & Htl & Htc).
      cbn [g_ble_handle log] in *.
      split; [exact Hwf3 |].
      split; [| split; [exact Hp | rewrite Htc; exact Htc2]].
      unfold queue_contents, queue_count. rewrite Heq, Hhd, Htl.
      reflexivity.
    - apply returns_ret. split; [exact Hwf2 |].
      split; [reflexivity |]. split; [exact Hrp2 | exact Htc2]. }
  cbv beta zeta. intros [] w3 (Hwf3 & Hq3 & Hrp3 & Htc3).
  (* tx done *)
  apply returns_bind.
  apply (returns_weaken _ _ _
           (fun evt w4 =>
              let h4 := g_ble_handle w4 in
              evt = (if BIT_CHECK f BLE_INT_TX_DONE
                     then set_type BLE_EVT_DATA_SENT evt2 else evt2) /\
              wf_ble h4 /\
              queue_contents h4
              = firstn 7 (Q0
                          ++ (if BIT_CHECK f BLE_INT_CONNECTED
                              then [evt1] else [])
                          ++ (if BIT_CHECK f BLE_INT_DISCONNECTED
                              then [evt2] else [])
                          ++ (if BIT_CHECK f BLE_INT_TX_DONE
                              then [evt] else [])) /\
              rx_pending h4 = BIT_CHECK f BLE_INT_RX_DONE || rx_pending h0 /\
              tx_complete h4
              = BIT_CHECK f BLE_INT_TX_DONE || tx_complete h0)).
  { destruct (BIT_CHECK f BLE_INT_TX_DONE).
    - apply returns_bind. apply returns_emit.
      apply returns_bind. eexists tt, _. split; [reflexivity |].
      apply returns_bind. apply enqueue_bounded.
      { apply set_tx_complete_wf. exact Hwf3. }
      intros r w' Hwf' Hq Hst Hrp Htc. apply returns_ret.
      split; [reflexivity |]. split; [exact Hwf' |].
      split; [| split; [rewrite Hrp; exact Hrp3 | rewrite Htc; reflexivity]].
      rewrite Hq. cbn [g_ble_handle with_ble log].
      change (queue_contents (set_tx_complete true (g_ble_handle w3)))
        with (queue_contents (g_ble_handle w3)).
      rewrite Hq3, Hq2, firstn_seven_snoc, <- !app_assoc. reflexivity.
    - apply returns_ret. split; [reflexivity |]. split; [exact Hwf3 |].
      split; [| split; [exact Hrp3 | exact Htc3]].
      rewrite app_nil_r, Hq3. exact Hq2. }
  cbv beta zeta. intros evt4 w4 (He4 & Hwf4 & Hq4 & Hrp4 & Htc4).
  (* error *)
  subst evt4 evt2 evt1.
  destruct (BIT_CHECK f BLE_INT_ERROR).
  - apply returns_bind. apply returns_emit.
    apply returns_bind. eexists tt, _. split; [reflexivity |].
    apply returns_bind. apply enqueue_bounded.
    { apply set_state_wf. exact Hwf4. }
    intros r w' Hwf' Hq Hst Hrp Htc. apply returns_ret.
    split; [exact Hwf' |].
    split; [| split; [rewrite Hrp; exact Hrp4 | rewrite Htc; exact Htc4]].
    rewrite Hq. cbn [g_ble_handle with_ble log].
    change (queue_contents (set_state BLE_STATE_ERROR (g_ble_handle w4)))
      with (queue_contents (g_ble_handle w4)).
    rewrite Hq4, firstn_seven_snoc, <- !app_assoc. reflexivity.
  - apply returns_ret. split; [exact Hwf4 |].
    split; [| split; [exact Hrp4 | exact Htc4]].
    rewrite Hq4, app_nil_r. reflexivity.
Qed.

End BleIrqEvents.

(** X11.  One entry of [ble_irq_handler] queues one event per set flag, in
    the fixed order connected, disconnected, data-sent, error, each built on
    the local event of the branches before it (so a later event carries the
    peer address the connected branch copied).  The result of
    [ble_enqueue_event] is ignored: the events are appended only while fewer
    than seven are queued, the rest are dropped, and with seven queued the
    queue is left as it was.  The receive flag sets [rx_pending] and the
    data-sent flag sets [tx_complete]; neither is ever cleared here. *)
Theorem X11_irq_handler_queues_events_in_order (hw : oracle) (w : world) :
  Ble.wf_ble (g_ble_handle w) ->
  exists w',
    run Ble.ble_irq_handler hw w = Done tt w' /\
    let f := u32 (hw (trace w) BLE_INT_FLAG) in
    let h := g_ble_handle w in
    let h' := g_ble_handle w' in
    Ble.queue_contents h'
    = firstn 7 (Ble.queue_contents h
                ++ BleSpec.irq_events f (BleData.peer_addr h)) /\
    (Ble.queue_count h = 7 -> Ble.queue_contents h' = Ble.queue_contents h) /\
    BleData.rx_pending h'
    = BIT_CHECK f BLE_INT_RX_DONE || BleData.rx_pending h /\
    BleData.tx_complete h'
    = BIT_CHECK f BLE_INT_TX_DONE || BleData.tx_complete h.
Proof.
  intros Hwf.
  destruct (irq_handler_events hw w Hwf) as ([] & w' & E & H).
  cbn zeta in H. destruct H as (_ & Hq & Hrp & Htc).
  exists w'. split; [exact E |]. cbn zeta.
  split; [exact Hq |]. split; [| split; [exact Hrp | exact Htc]].
  intros Hfull. rewrite Hq.
  assert (Hl : length (Ble.queue_contents (g_ble_handle w)) = 7%nat).
  { unfold Ble.queue_contents. rewrite queue_slots_length, Hfull.
    reflexivity. }
  rewrite firstn_app, Hl, firstn_all2 by lia.
  cbn [Nat.sub firstn]. apply app_nil_r.
Qed.

Lemma X11_irq_handler_queues_events_in_order_witness :
  exists w',
    run Ble.ble_irq_handler (BleSpec.hw_rx 139 0) BleSpec.w_ble_ready
    = Done tt w' /\
    map BleEvent.type (Ble.queue_contents (g_ble_handle w'))
    = [BLE_EVT_CONNECTED; BLE_EVT_DISCONNECTED; BLE_EVT_DATA_SENT;
       BLE_EVT_ERROR].
Proof.
  destruct (X11_irq_handler_queues_events_in_order (BleSpec.hw_rx 139 0)
              BleSpec.w_ble_ready)
    as (w' & E & Hq & _).
  - repeat split; cbn; lia.
  - exists w'. split; [exact E |]. cbn zeta in Hq. rewrite Hq.
    reflexivity.
Defined.

(** ** From the receive FIFO to the application *)

Section BleRxPath.
Import BleData Ble BleSpec.

Variable hw : oracle.

Lemma list_set_firstn_S {A} (l : list A) i x :
  (i < length l)%nat -> firstn (S i) (list_set l i x) = firstn i l ++ [x].
Proof.
  revert i. induction l as [| y t IH]; intros [| k] Hk; cbn in *;
    try lia; [reflexivity |].
  f_equal. apply IH. lia.
Qed.

Lemma list_set_skipn {A} (l : list A) i k x :
  (i < k)%nat -> skipn k (list_set l i x) = skipn k l.
Proof.
  revert i k. induction l as [| y t IH]; intros [| i] [| k] Hk; cbn;
    try lia; try reflexivity.
  apply IH. lia.
Qed.

Lemma low_byte v : u8 (Z.land v 255) = u8 v.
Proof.
  change 255 with (Z.ones 8). rewrite Z.land_ones by lia.
  unfold u8. apply Z.mod_mod. lia.
Qed.

Lemma rx_copy_loop_contents n : forall i w,
  length (rx_buffer (g_ble_handle w)) = Z.to_nat BLE_MAX_PAYLOAD_SIZE ->
  0 <= i -> i + Z.of_nat n <= BLE_MAX_PAYLOAD_SIZE ->
  returns (rx_copy_loop n i) hw w
    (fun _ w' =>
       exists bytes,
         length bytes = n /\
         g_ble_handle w'
         = set_rx_buffer
             (firstn (Z.to_nat i) (rx_buffer (g_ble_handle w))
              ++ map u8 bytes
              ++ skipn (Z.to_nat i + n) (rx_buffer (g_ble_handle w)))
             (g_ble_handle w) /\
         reads_of BLE_RX_DATA (trace w')
         = reads_of BLE_RX_DATA (trace w) ++ bytes /\
         delivered (trace w') = delivered (trace w)).
Proof.
  unfold BLE_MAX_PAYLOAD_SIZE.
  induction n as [| k IH]; intros i w Hlen Hi Hn; cbn [rx_copy_loop].
  - apply returns_ret. exists []. split; [reflexivity |].
    split; [| split; [rewrite app_nil_r |]; reflexivity].
    cbn [map app]. rewrite Nat.add_0_r, firstn_skipn.
    destruct (g_ble_handle w); reflexivity.
  - apply returns_bind. apply returns_read_reg. intros v _.
    apply returns_bind. eexists _, _. split; [reflexivity |].
    apply returns_bind. unfold returns at 1, array_set.
    cbn [g_ble_handle log]. rewrite Hlen.
    destruct (Z.leb_spec 0 i); [| lia].
    destruct (Z.ltb_spec i (Z.of_nat (Z.to_nat 244))); [| lia].
    cbn [andb]. eexists _, _. split; [reflexivity |].
    apply returns_bind. eexists tt, _. split; [reflexivity |].
    assert (Hu : u16 (i + 1) = i + 1)
      by (unfold u16; apply Z.mod_small; lia).
    rewrite Hu.
    eapply returns_weaken.
    { apply (IH (i + 1)).
      - cbn. rewrite list_set_length. exact Hlen.
      - lia.
      - lia. }
    cbv beta. intros _ w' (bytes & Hb & Hh & Hr & Hd).
    exists (v :: bytes). split; [cbn; congruence |].
    cbn [g_ble_handle with_ble log trace set_rx_buffer rx_buffer] in Hh, Hr, Hd.
    cbn [reads_of reg_eqb delivered] in Hr, Hd.
    split; [| split; [rewrite Hr, <- app_assoc; reflexivity | exact Hd]].
    rewrite Hh.
    replace (Z.to_nat (i + 1)) with (S (Z.to_nat i)) by lia.
    rewrite list_set_firstn_S by lia.
    rewrite list_set_skipn by lia.
    rewrite low_byte, <- app_assoc. cbn [map app].
    replace (S (Z.to_nat i) + k)%nat with (Z.to_nat i + S k)%nat by lia.
    reflexivity.
Qed.

Lemma read_rx_data_contents w :
  wf_ble (g_ble_handle w) ->
  returns ble_read_rx_data hw w
    (fun _ w' =>
       let n := Z.min (u32 (hw (trace w) BLE_RX_LEN)) BLE_MAX_PAYLOAD_SIZE in
       exists bytes,
         length bytes = Z.to_nat n /\
         g_ble_handle w'
         = set_rx_pending true
             (set_rx_buffer
                (map u8 bytes
                 ++ skipn (Z.to_nat n) (rx_buffer (g_ble_handle w)))
                (set_rx_len n (g_ble_handle w))) /\
         reads_of BLE_RX_DATA (trace w')
         = reads_of BLE_RX_DATA (trace w) ++ bytes /\
         delivered (trace w') = delivered (trace w)).
Proof.
  intros (Hq & Hb & Hh & Ht). unfold ble_read_rx_data.
  apply returns_bind. unfold returns at 1, read_reg.
  eexists _, _. split; [reflexivity |].
  cbn zeta.
  set (v := u32 (hw (trace w) BLE_RX_LEN)).
  assert (Hv : 0 <= v < 2 ^ 32) by (apply Z.mod_pos_bound; reflexivity).
  set (n := if v >? BLE_MAX_PAYLOAD_SIZE then BLE_MAX_PAYLOAD_SIZE else v).
  assert (Hn : n = Z.min v BLE_MAX_PAYLOAD_SIZE /\ 0 <= n <= 244).
  { unfold n, BLE_MAX_PAYLOAD_SIZE.
    destruct (Z.gtb_spec v 244); lia. }
  destruct Hn as [Hmin Hn]. rewrite <- Hmin.
  assert (Hu : u16 n = n) by (unfold u16; apply Z.mod_small; lia).
  rewrite Hu.
  apply returns_bind. eexists tt, _. split; [reflexivity |].
  apply returns_bind.
  eapply returns_weaken.
  { apply (rx_copy_loop_contents (Z.to_nat n) 0).
    - exact Hb.
    - lia.
    - unfold BLE_MAX_PAYLOAD_SIZE. lia. }
  cbv beta. intros _ w1 (bytes & Hlen & Hh1 & Hr1 & Hd1).
  eexists tt, _. split; [reflexivity |].
  exists bytes. split; [exact Hlen |].
  cbn [g_ble_handle with_ble log trace] in *.
  split; [| split; [exact Hr1 | exact Hd1]].
  rewrite Hh1. reflexivity.
Qed.

Lemma rx_only_irq w :
  wf_ble (g_ble_handle w) ->
  u32 (hw (trace w) BLE_INT_FLAG) = Z.shiftl 1 BLE_INT_RX_DONE ->
  returns ble_irq_handler hw w
    (fun _ w' =>
       exists n bytes,
         0 <= n <= BLE_MAX_PAYLOAD_SIZE /\
         length bytes = Z.to_nat n /\
         g_ble_handle w'
         = set_rx_pending true
             (set_rx_buffer
                (map u8 bytes
                 ++ skipn (Z.to_nat n) (rx_buffer (g_ble_handle w)))
                (set_rx_len n (g_ble_handle w))) /\
         reads_of BLE_RX_DATA (trace w')
         = reads_of BLE_RX_DATA (trace w) ++ bytes /\
         delivered (trace w') = delivered (trace w)).
Proof.
  intros Hwf Hf. unfold ble_irq_handler.
  apply returns_bind. unfold returns at 1, read_reg.
  eexists _, _. split; [reflexivity |].
  rewrite Hf.
  change (BIT_CHECK (Z.shiftl 1 BLE_INT_RX_DONE) BLE_INT_CONNECTED)
    with false.
  change (BIT_CHECK (Z.shiftl 1 BLE_INT_RX_DONE) BLE_INT_DISCONNECTED)
    with false.
  change (BIT_CHECK (Z.shiftl 1 BLE_INT_RX_DONE) BLE_INT_RX_DONE) with true.
  change (BIT_CHECK (Z.shiftl 1 BLE_INT_RX_DONE) BLE_INT_TX_DONE) with false.
  change (BIT_CHECK (Z.shiftl 1 BLE_INT_RX_DONE) BLE_INT_ERROR) with false.
  cbv iota.
  apply returns_bind. apply returns_ret.
  apply returns_bind. apply returns_ret.
  apply returns_bind. apply returns_bind. apply returns_emit.
  eapply returns_weaken.
  { apply read_rx_data_contents. exact Hwf. }
  cbv beta zeta. intros [] w1 (bytes & Hlen & Hh1 & Hr1 & Hd1).
  apply returns_bind. apply returns_ret. apply returns_ret.
  eexists _, bytes. split; [| split; [exact Hlen |]].
  - match goal with
    | |- 0 <= Z.min ?v _ <= _ =>
        assert (0 <= v) by (apply Z.mod_pos_bound; reflexivity)
    end.
    unfold BLE_MAX_PAYLOAD_SIZE. lia.
  - split; [exact Hh1 |]. split; [exact Hr1 | exact Hd1].
Qed.

End BleRxPath.

(** X12.  [ble_read_rx_data] reads the data register exactly
    [n = min(RX_LEN, 244)] times and stores the low eight bits of those
    reads, in order, in [rx_buffer[0 .. n-1]]; the rest of the staging
    buffer keeps what it held.  It records [n] and sets the pending flag,
    and hands nothing to the application. *)
Theorem X12_read_rx_data_stages_the_bytes (hw : oracle) (w : world) :
  Ble.wf_ble (g_ble_handle w) ->
  exists w' bytes,
    run Ble.ble_read_rx_data hw w = Done tt w' /\
    let h := g_ble_handle w in
    let h' := g_ble_handle w' in
    let n := Z.min (u32 (hw (trace w) BLE_RX_LEN)) BLE_MAX_PAYLOAD_SIZE in
    length bytes = Z.to_nat n /\
    BleSpec.reads_of BLE_RX_DATA (trace w')
    = BleSpec.reads_of BLE_RX_DATA (trace w) ++ bytes /\
    BleData.rx_buffer h'
    = map u8 bytes ++ skipn (Z.to_nat n) (BleData.rx_buffer h) /\
    BleData.rx_len h' = n /\
    BleData.rx_pending h' = true /\
    Ble.queue_contents h' = Ble.queue_contents h /\
    Ble.delivered (trace w') = Ble.delivered (trace w).
Proof.
  intros Hwf.
  destruct (read_rx_data_contents hw w Hwf) as ([] & w' & E & H).
  cbn zeta in H. destruct H as (bytes & Hlen & Hh & Hr & Hd).
  exists w', bytes. split; [exact E |]. cbn zeta.
  rewrite Hh. cbn. auto 10.
Qed.

Lemma X12_read_rx_data_stages_the_bytes_witness :
  exists w',
    run Ble.ble_read_rx_data (BleSpec.hw_rx 4 3) BleSpec.w_ble_ready
    = Done tt w' /\
    firstn 4 (BleData.rx_buffer (g_ble_handle w')) = [90; 90; 90; 0].
Proof.
  destruct (X12_read_rx_data_stages_the_bytes (BleSpec.hw_rx 4 3)
              BleSpec.w_ble_ready)
    as (w' & bytes & E & _).
  - repeat split; cbn; lia.
  - exists w'. split; [exact E |].
    revert E. vm_compute. intros E. inversion E. reflexivity.
Defined.

(** X13.  An interrupt that reports only RX_DONE, followed by
    [ble_process], hands the application a DATA_RECEIVED event first and
    the queued events after it.  The event carries the peer address of the
    handle, a length of at most 244, and as its first [data_len] bytes the
    low eight bits of the data-register reads of that interrupt, in order;
    the bytes of its data array beyond [data_len] are whatever the
    uninitialised local held. *)
Theorem X13_received_frame_reaches_the_callback (hw : oracle) (w : world)
    (fuel : nat) (evt0 : ble_event_t) :
  Ble.wf_ble (g_ble_handle w) ->
  BleData.callback (g_ble_handle w) <> 0 ->
  length (BleEvent.data evt0) = Z.to_nat BLE_MAX_PAYLOAD_SIZE ->
  (8 <= fuel)%nat ->
  u32 (hw (trace w) BLE_INT_FLAG) = Z.shiftl 1 BLE_INT_RX_DONE ->
  exists w1 w' bytes,
    run Ble.ble_irq_handler hw w = Done tt w1 /\
    run (Ble.ble_process fuel evt0) hw w1 = Done tt w' /\
    (length bytes <= 244)%nat /\
    BleSpec.reads_of BLE_RX_DATA (trace w1)
    = BleSpec.reads_of BLE_RX_DATA (trace w) ++ bytes /\
    Ble.delivered (trace w')
    = Ble.delivered (trace w)
      ++ {| BleEvent.type := BLE_EVT_DATA_RECEIVED;
            BleEvent.peer_addr := BleData.peer_addr (g_ble_handle w);
            BleEvent.data :=
              map u8 bytes ++ skipn (length bytes) (BleEvent.data evt0);
            BleEvent.data_len := Z.of_nat (length bytes);
            BleEvent.rssi := BleEvent.rssi evt0 |}
         :: Ble.queue_contents (g_ble_handle w) /\
    BleData.rx_pending (g_ble_handle w') = false.
Proof.
  intros Hwf Hcb Hevt Hfuel Hf.
  destruct (rx_only_irq hw w Hwf Hf)
    as ([] & w1 & E1 & n & bytes & Hn & Hlen & Hh1 & Hr1 & Hd1).
  destruct Hwf as (Hq & Hb & Hh & Ht).
  assert (Hb1 : length (map u8 bytes
                        ++ skipn (Z.to_nat n)
                             (BleData.rx_buffer (g_ble_handle w)))
                = Z.to_nat BLE_MAX_PAYLOAD_SIZE).
  { rewrite length_app, length_map, length_skipn, Hb, Hlen.
    unfold BLE_MAX_PAYLOAD_SIZE in *. lia. }
  destruct (process_delivers hw fuel evt0 w1) as ([] & w' & E & Hd & _ & Hp).
  - rewrite Hh1. repeat split; cbn; auto; lia.
  - rewrite Hh1. exact Hcb.
  - rewrite Hh1. cbn. exact Hn.
  - exact Hevt.
  - exact Hfuel.
  - exists w1, w', bytes. split; [exact E1 |]. split; [exact E |].
    split; [unfold BLE_MAX_PAYLOAD_SIZE in *; lia |].
    split; [exact Hr1 |]. split; [| exact Hp].
    rewrite Hd, Hd1, Hh1. unfold BleSpec.staged, BleSpec.staged_event.
    cbn [BleData.rx_pending BleData.rx_buffer BleData.rx_len
           BleData.peer_addr Ble.set_rx_pending Ble.set_rx_buffer
           Ble.set_rx_len].
    change (Ble.queue_contents
              (Ble.set_rx_pending true
                 (Ble.set_rx_buffer
                    (map u8 bytes
                     ++ skipn (Z.to_nat n)
                          (BleData.rx_buffer (g_ble_handle w)))
                    (Ble.set_rx_len n (g_ble_handle w)))))
      with (Ble.queue_contents (g_ble_handle w)).
    cbn [app]. do 3 f_equal.
    + rewrite <- Hlen, firstn_app, length_map, Nat.sub_diag.
      cbn [firstn]. rewrite app_nil_r, firstn_all2
        by (rewrite length_map; lia).
      reflexivity.
    + rewrite Hlen. lia.
Qed.

Lemma X13_received_frame_reaches_the_callback_witness :
  exists w1 w',
    run Ble.ble_irq_handler (BleSpec.hw_rx 4 3) BleSpec.w_ble_ready
    = Done tt w1 /\
    run (Ble.ble_process 8 Ble.zero_event) (BleSpec.hw_rx 4 3) w1
    = Done tt w' /\
    map BleEvent.data_len (Ble.delivered (trace w')) = [3] /\
    map (fun e => firstn 4 (BleEvent.data e)) (Ble.delivered (trace w'))
    = [[90; 90; 90; 0]].
Proof.
  destruct (X13_received_frame_reaches_the_callback (BleSpec.hw_rx 4 3)
              BleSpec.w_ble_ready 8 Ble.zero_event)
    as (w1 & w' & bytes & E1 & E & _).
  - repeat split; cbn; lia.
  - cbn. unfold BleSpec.app_handler. lia.
  - reflexivity.
  - lia.
  - reflexivity.
  - exists w1, w'. split; [exact E1 |]. split; [exact E |].
    revert E1 E. vm_compute. intros E1. inversion E1. subst w1.
    intros E. inversion E. split; reflexivity.
Defined.

(** * The command side *)

Section SysFacts.
Import BleData Ble Sys SysSpec.

Variable hw : xoracle.

Lemma xreturns_ret {A} (a : A) s (Q : A -> system -> Prop) :
  Q a s -> xreturns (xret a) hw s Q.
Proof. intros HQ. exists a, s. split; [reflexivity | exact HQ]. Qed.

Lemma xreturns_bind {A B} (m : XM A) (k : A -> XM B) s
    (Q : B -> system -> Prop) :
  xreturns m hw s (fun a s1 => xreturns (k a) hw s1 Q) ->
  xreturns (xbind m k) hw s Q.
Proof.
  intros (a & s1 & Hm & b & s2 & Hk & HQ).
  exists b, s2. split; [| exact HQ].
  unfold xbind. rewrite Hm. exact Hk.
Qed.

Lemma xreturns_weaken {A} (m : XM A) s (P Q : A -> system -> Prop) :
  xreturns m hw s P -> (forall a s', P a s' -> Q a s') ->
  xreturns m hw s Q.
Proof.
  intros (a & s' & Hm & HP) HPQ. exists a, s'. split; auto.
Qed.

Lemma xreturns_emit e s (Q : unit -> system -> Prop) :
  Q tt (record e s) -> xreturns (xemit e) hw s Q.
Proof. intros HQ. exists tt, (record e s). split; [reflexivity | exact HQ]. Qed.

Lemma xreturns_read_reg r s (Q : Z -> system -> Prop) :
  (let v := u32 (hw (history s) (inr r)) in Q v (record (XRead r v) s)) ->
  xreturns (xread_reg r) hw s Q.
Proof. intros HQ. eexists _, _. split; [reflexivity | exact HQ]. Qed.

Lemma xreturns_lift {A} (m : M A) s (Q : A -> system -> Prop) :
  returns m (core_oracle hw (history s)) (quiesce (core s))
    (fun a w' => Q a (absorb w' s)) ->
  xreturns (lift m) hw s Q.
Proof.
  intros (a & w' & Hm & HQ). exists a, (absorb w' s).
  split; [| exact HQ]. unfold lift. rewrite Hm. reflexivity.
Qed.

(** Reading and replacing the BLE handle leaves no entry. *)
Lemma xreturns_get_ble s (Q : ble_handle_t -> system -> Prop) :
  Q (handle s) (settle s) -> xreturns (lift get_ble) hw s Q.
Proof. intros HQ. eexists _, _. split; [reflexivity | exact HQ]. Qed.

Lemma xreturns_modify_ble f s (Q : unit -> system -> Prop) :
  Q tt (with_handle (f (handle s)) (settle s)) ->
  xreturns (lift (modify_ble f)) hw s Q.
Proof. intros HQ. eexists _, _. split; [reflexivity | exact HQ]. Qed.

Lemma unchanged_refl s : unchanged s s.
Proof. repeat split. Qed.

Lemma unchanged_settle s : unchanged s (settle s).
Proof. repeat split. Qed.

Lemma refuse_now {A} (r : A) s0 s :
  unchanged s0 s -> xreturns (xret r) hw s (fun a s' => a = r /\ unchanged s0 s').
Proof. intros H. apply xreturns_ret. split; [reflexivity | exact H]. Qed.

End SysFacts.

Ltac xstep :=
  lazymatch goal with
  | |- SysSpec.xreturns (Sys.xbind _ _) _ _ _ => apply xreturns_bind
  | |- SysSpec.xreturns (Sys.lift get_ble) _ _ _ => apply xreturns_get_ble
  | |- SysSpec.xreturns (Sys.lift (Ble.modify_ble _)) _ _ _ =>
      apply xreturns_modify_ble
  | |- SysSpec.xreturns (Sys.xemit _) _ _ _ => apply xreturns_emit
  | |- SysSpec.xreturns (Sys.xwrite_reg _ _) _ _ _ => apply xreturns_emit
  | |- SysSpec.xreturns (Sys.XBIT_SET _ _) _ _ _ => apply xreturns_emit
  | |- SysSpec.xreturns (Sys.XBIT_CLEAR _ _) _ _ _ => apply xreturns_emit
  | |- SysSpec.xreturns Sys.ISB _ _ _ => apply xreturns_emit
  | |- SysSpec.xreturns (Sys.xread_reg _) _ _ _ =>
      apply xreturns_read_reg; cbv zeta
  | |- SysSpec.xreturns (Sys.xret _) _ _ _ => apply xreturns_ret
  end.

Ltac xlift_now :=
  apply xreturns_lift; eexists _, _; split; [reflexivity |].

Ltac xnorm :=
  cbn [SysSpec.handle SysSpec.with_handle SysSpec.settle Sys.record
         Sys.absorb core g_ble_handle
         g_ble_config history with_ble Sys.quiesce trace log mem
         g_i2c_handles map app].

Ltac xs := xstep; xnorm.

(** ** Commands that are refused *)

Section BleRefusals.
Import BleData Ble Sys SysSpec.

(** X14.  The argument checks of the BLE commands come before any look at
    the handle: a null address, a null buffer or a length above 244 gives
    [STATUS_INVALID_PARAM] whatever the state.  On a handle that is not
    initialised every command, [ble_deinit] included, then returns
    [STATUS_NOT_READY].  In all these cases no register is touched and
    nothing changes. *)
Theorem X14_ble_commands_check_arguments_then_initialisation
    (hw : xoracle) (s : system) (duration data len dst : Z)
    (peer : ble_mac_addr_t) :
  refuses (ble_connect None) hw s STATUS_INVALID_PARAM /\
  refuses (ble_send_data 0 len) hw s STATUS_INVALID_PARAM /\
  refuses (ble_get_mac_address 0) hw s STATUS_INVALID_PARAM /\
  (data <> 0 -> BLE_MAX_PAYLOAD_SIZE < len ->
   refuses (ble_send_data data len) hw s STATUS_INVALID_PARAM) /\
  (initialized (handle s) = false ->
   refuses ble_deinit hw s STATUS_NOT_READY /\
   refuses ble_start_advertising hw s STATUS_NOT_READY /\
   refuses ble_stop_advertising hw s STATUS_NOT_READY /\
   refuses (ble_start_scan duration) hw s STATUS_NOT_READY /\
   refuses ble_stop_scan hw s STATUS_NOT_READY /\
   refuses (ble_connect (Some peer)) hw s STATUS_NOT_READY /\
   refuses ble_disconnect hw s STATUS_NOT_READY /\
   (data <> 0 -> len <= BLE_MAX_PAYLOAD_SIZE ->
    refuses (ble_send_data data len) hw s STATUS_NOT_READY) /\
   (dst <> 0 -> refuses (ble_get_mac_address dst) hw s STATUS_NOT_READY)).
Proof.
  unfold refuses.
  split; [apply refuse_now, unchanged_refl |].
  split; [apply refuse_now, unchanged_refl |].
  split; [apply refuse_now, unchanged_refl |].
  split.
  { intros Hd Hlen. unfold ble_send_data, IS_NULL_PTR.
    apply Z.eqb_neq in Hd. rewrite Hd.
    apply Z.gtb_lt in Hlen. rewrite Hlen.
    apply refuse_now, unchanged_refl. }
  intros Hinit.
  assert (Hg : forall (k : ble_handle_t -> XM status_t),
             (forall h, initialized h = false ->
                        k h = xret STATUS_NOT_READY) ->
             xreturns (xbind (lift get_ble) k) hw s
               (fun a s' => a = STATUS_NOT_READY /\ unchanged s s')).
  { intros k Hk. xstep. xstep. rewrite (Hk _ Hinit).
    apply refuse_now, unchanged_settle. }
  assert (Hk : forall (h : ble_handle_t) (m : XM status_t),
             initialized h = false ->
             (if negb (initialized h) then xret STATUS_NOT_READY else m)
             = xret STATUS_NOT_READY).
  { intros h m ->. reflexivity. }
  repeat split; try (apply Hg; intros h Hh; apply Hk; exact Hh).
  - intros Hd Hlen. unfold ble_send_data, IS_NULL_PTR.
    apply Z.eqb_neq in Hd. rewrite Hd.
    assert (E : (len >? BLE_MAX_PAYLOAD_SIZE) = false)
      by (rewrite Z.gtb_ltb; apply Z.ltb_ge; exact Hlen).
    rewrite E. apply Hg. intros h Hh. apply Hk. exact Hh.
  - intros Hd. unfold ble_get_mac_address, IS_NULL_PTR.
    apply Z.eqb_neq in Hd. rewrite Hd.
    apply Hg. intros h Hh. apply Hk. exact Hh.
Qed.

End BleRefusals.

Lemma X14_ble_commands_check_arguments_then_initialisation_witness :
  Sys.xrun Sys.ble_start_advertising (fun _ _ => 0) Sys.system_init
  = Sys.Ok STATUS_NOT_READY Sys.system_init /\
  Sys.xrun (Sys.ble_send_data 4096 245) (fun _ _ => 0) Sys.system_init
  = Sys.Ok STATUS_INVALID_PARAM Sys.system_init.
Proof.
  destruct (X14_ble_commands_check_arguments_then_initialisation
              (fun _ _ => 0) Sys.system_init 0 4096 245 4096 [])
    as (_ & _ & _ & H245 & Hoff).
  destruct (Hoff eq_refl) as (_ & (a & s' & E & Ha & _) & _).
  destruct (H245 ltac:(lia) ltac:(unfold BLE_MAX_PAYLOAD_SIZE; lia))
    as (a2 & s2 & E2 & Ha2 & _).
  split.
  - unfold Sys.xrun. rewrite E. subst a.
    revert E. vm_compute. intros E. inversion E. reflexivity.
  - unfold Sys.xrun. rewrite E2. subst a2.
    revert E2. vm_compute. intros E2. inversion E2. reflexivity.
Defined.

(** ** States no command leaves *)

Section BleStuck.
Import BleData Ble Sys SysSpec.

(** X15.  While the link state is Connecting, Disconnecting or Error (or
    Off on an initialised handle), every link command is refused --
    advertising, scanning and connecting with [STATUS_BUSY], stopping and
    disconnecting with [STATUS_INVALID_PARAM], sending with
    [STATUS_NOT_READY] -- and changes nothing: only an interrupt,
    [ble_deinit] or [ble_init] moves the handle out of these states. *)
Theorem X15_no_command_leaves_a_transient_state
    (hw : xoracle) (s : system) (duration data len : Z)
    (peer : ble_mac_addr_t) :
  initialized (handle s) = true ->
  In (state (handle s))
    [BLE_STATE_CONNECTING; BLE_STATE_DISCONNECTING; BLE_STATE_ERROR;
     BLE_STATE_OFF] ->
  refuses ble_start_advertising hw s STATUS_BUSY /\
  refuses ble_stop_advertising hw s STATUS_INVALID_PARAM /\
  refuses (ble_start_scan duration) hw s STATUS_BUSY /\
  refuses ble_stop_scan hw s STATUS_INVALID_PARAM /\
  refuses (ble_connect (Some peer)) hw s STATUS_BUSY /\
  refuses ble_disconnect hw s STATUS_INVALID_PARAM /\
  (data <> 0 -> len <= BLE_MAX_PAYLOAD_SIZE ->
   refuses (ble_send_data data len) hw s STATUS_NOT_READY).
Proof.
  intros Hinit Hst. unfold refuses.
  assert (Hgo : forall (r : status_t) (k : ble_handle_t -> XM status_t),
             k (handle s) = xret r ->
             xreturns (xbind (lift get_ble) k) hw s
               (fun a s' => a = r /\ unchanged s s')).
  { intros r k Hk. xstep. xstep. rewrite Hk.
    apply refuse_now, unchanged_settle. }
  cbn [In] in Hst.
  repeat split;
    try (apply Hgo; rewrite Hinit;
         destruct Hst as [<- | [<- | [<- | [<- | []]]]]; reflexivity).
  intros Hd Hlen. unfold ble_send_data, IS_NULL_PTR.
  apply Z.eqb_neq in Hd. rewrite Hd.
  assert (E : (len >? BLE_MAX_PAYLOAD_SIZE) = false)
    by (rewrite Z.gtb_ltb; apply Z.ltb_ge; exact Hlen).
  rewrite E. apply Hgo. rewrite Hinit.
  destruct Hst as [<- | [<- | [<- | [<- | []]]]]; reflexivity.
Qed.

End BleStuck.

Lemma X15_no_command_leaves_a_transient_state_witness :
  Sys.xrun Sys.ble_start_advertising (fun _ _ => 0)
    (SysSpec.s_ble BLE_STATE_ERROR)
  = Sys.Ok STATUS_BUSY (SysSpec.s_ble BLE_STATE_ERROR) /\
  Sys.xrun Sys.ble_disconnect (fun _ _ => 0)
    (SysSpec.s_ble BLE_STATE_ERROR)
  = Sys.Ok STATUS_INVALID_PARAM (SysSpec.s_ble BLE_STATE_ERROR).
Proof.
  destruct (X15_no_command_leaves_a_transient_state
              (fun _ _ => 0) (SysSpec.s_ble BLE_STATE_ERROR) 0 4096 2 [])
    as ((a & s1 & E1 & Ha & _) & _ & _ & _ & _ & (b & s2 & E2 & Hb & _) & _).
  - reflexivity.
  - cbn. auto.
  - split.
    + unfold Sys.xrun. rewrite E1. subst a.
      revert E1. vm_compute. intros E1. inversion E1. reflexivity.
    + unfold Sys.xrun. rewrite E2. subst b.
      revert E2. vm_compute. intros E2. inversion E2. reflexivity.
Defined.

(** ** Commands that are accepted *)

Section BleAccepted.
Import BleData Ble Sys SysSpec.

Variable hw : xoracle.

Lemma ctrl_ops_core tr h : ctrl_ops (map XCore tr ++ h) = ctrl_ops h.
Proof. induction tr as [| e tr IH]; [reflexivity | exact IH]. Qed.

(** [ble_enqueue_event] inside a system: only the ring changes. *)
Lemma xreturns_enqueue e s (Q : status_t -> system -> Prop) :
  wf_ble (handle s) ->
  (forall r b,
     wf_ble b ->
     queue_contents b = firstn 7 (queue_contents (handle s) ++ [e]) ->
     state b = state (handle s) ->
     initialized b = initialized (handle s) ->
     callback b = callback (handle s) ->
     peer_addr b = peer_addr (handle s) ->
     local_addr b = local_addr (handle s) ->
     rx_pending b = rx_pending (handle s) ->
     tx_complete b = tx_complete (handle s) ->
     Q r (with_handle b (settle s))) ->
  xreturns (lift (ble_enqueue_event e)) hw s Q.
Proof.
  intros Hwf HQ. apply xreturns_lift.
  set (o := core_oracle hw (history s)).
  pose proof (queue_count_range (handle s)) as Hr.
  assert (Hl : length (queue_contents (handle s))
               = Z.to_nat (queue_count (handle s)))
    by apply queue_slots_length.
  destruct (Z.eq_dec (queue_count (handle s)) 7) as [Hc | Hc].
  - eexists _, _. split; [apply enqueue_full; assumption |].
    replace (absorb (quiesce (core s)) s)
      with (with_handle (handle s) (settle s)) by reflexivity.
    apply HQ; auto.
    rewrite firstn_app, firstn_all2 by lia.
    replace (7 - length (queue_contents (handle s)))%nat with O by lia.
    cbn [firstn]. rewrite app_nil_r. reflexivity.
  - destruct (enqueue_ok o e (quiesce (core s)) Hwf)
      as (E & Hwf' & Hc' & Hq'); [exact (ltac:(unfold handle in *; cbn; lia)) |].
    eexists _, _. split; [exact E |].
    match goal with
    | |- Q _ (absorb (with_ble ?b _) _) =>
        replace (absorb (with_ble b (quiesce (core s))) s)
          with (with_handle b (settle s)) by reflexivity;
        apply HQ; auto
    end.
    rewrite Hq'.
    change (g_ble_handle (quiesce (core s))) with (handle s).
    rewrite firstn_all2; [reflexivity |].
    rewrite length_app, Hl. cbn [length]. lia.
Qed.

Lemma start_advertising_ok s :
  wf_ble (handle s) ->
  initialized (handle s) = true ->
  state (handle s) = BLE_STATE_IDLE \/ state (handle s) = BLE_STATE_CONNECTED ->
  xreturns ble_start_advertising hw s
    (fun r s' =>
       r = STATUS_OK /\
       wf_ble (handle s') /\
       state (handle s') = BLE_STATE_ADVERTISING /\
       initialized (handle s') = true /\
       queue_contents (handle s')
       = firstn 7 (queue_contents (handle s)
                   ++ [set_type BLE_EVT_ADV_STARTED zero_event]) /\
       history s' = XBitSet BLE_CTRL BLE_CTRL_ADV_START :: history s /\
       only_ble s s').
Proof.
  intros Hwf Hinit Hst. unfold ble_start_advertising.
  xstep. xstep. change (handle (settle s)) with (handle s).
  rewrite Hinit. cbn [negb].
  assert (E : negb (ble_state_eqb (state (handle s)) BLE_STATE_IDLE)
              && negb (ble_state_eqb (state (handle s)) BLE_STATE_CONNECTED)
              = false)
    by (destruct Hst as [-> | ->]; reflexivity).
  rewrite E.
  xstep. xstep. xstep. xstep. xstep.
  apply xreturns_enqueue; [exact Hwf |].
  intros r b Hwfb Hq Hstb Hib _ _ _ _ _. xstep.
  split; [reflexivity |]. split; [exact Hwfb |]. split; [exact Hstb |].
  split; [exact (eq_trans Hib Hinit) |]. split; [exact Hq |].
  split; [reflexivity |]. repeat split.
Qed.

Lemma stop_advertising_ok s :
  wf_ble (handle s) ->
  initialized (handle s) = true ->
  state (handle s) = BLE_STATE_ADVERTISING ->
  xreturns ble_stop_advertising hw s
    (fun r s' =>
       r = STATUS_OK /\
       wf_ble (handle s') /\
       state (handle s') = BLE_STATE_IDLE /\
       initialized (handle s') = true /\
       queue_contents (handle s')
       = firstn 7 (queue_contents (handle s)
                   ++ [set_type BLE_EVT_ADV_STOPPED zero_event]) /\
       history s' = XBitClear BLE_CTRL BLE_CTRL_ADV_START :: history s /\
       only_ble s s').
Proof.
  intros Hwf Hinit Hst. unfold ble_stop_advertising.
  xstep. xstep. change (handle (settle s)) with (handle s).
  rewrite Hinit, Hst. cbn [negb ble_state_eqb].
  xstep. xstep. xstep. xstep. xstep.
  apply xreturns_enqueue; [exact Hwf |].
  intros r b Hwfb Hq Hstb Hib _ _ _ _ _. xstep.
  split; [reflexivity |]. split; [exact Hwfb |]. split; [exact Hstb |].
  split; [exact (eq_trans Hib Hinit) |]. split; [exact Hq |].
  split; [reflexivity |]. repeat split.
Qed.

Lemma not_connected_refuses s data len :
  initialized (handle s) = true ->
  state (handle s) <> BLE_STATE_CONNECTED ->
  data <> 0 -> len <= BLE_MAX_PAYLOAD_SIZE ->
  refuses (ble_send_data data len) hw s STATUS_NOT_READY /\
  refuses ble_disconnect hw s STATUS_INVALID_PARAM.
Proof.
  intros Hinit Hst Hd Hlen.
  assert (E : ble_state_eqb (state (handle s)) BLE_STATE_CONNECTED = false)
    by (destruct (state (handle s)); try reflexivity; congruence).
  unfold refuses. split.
  - unfold ble_send_data, IS_NULL_PTR.
    apply Z.eqb_neq in Hd. rewrite Hd.
    assert (E' : (len >? BLE_MAX_PAYLOAD_SIZE) = false)
      by (rewrite Z.gtb_ltb; apply Z.ltb_ge; exact Hlen).
    rewrite E'. xstep. xstep. change (handle (settle s)) with (handle s).
    rewrite Hinit, E. apply refuse_now, unchanged_settle.
  - unfold ble_disconnect. xstep. xstep.
    change (handle (settle s)) with (handle s).
    rewrite Hinit, E. apply refuse_now, unchanged_settle.
Qed.

End BleAccepted.

(** X16.  [ble_start_advertising] is accepted while a link is up, and
    replaces the Connected state by Advertising; [ble_stop_advertising] then
    leaves the state Idle.  The two calls set and clear only the ADV_START
    bit -- the connection bit of the controller is never cleared -- and
    queue their two events, yet afterwards [ble_send_data] is refused with
    [STATUS_NOT_READY] and [ble_disconnect] with [STATUS_INVALID_PARAM]:
    the handle has forgotten the link. *)
Theorem X16_advertising_while_connected_forgets_the_link
    (hw : xoracle) (s : system) (data len : Z) :
  Ble.wf_ble (SysSpec.handle s) ->
  BleData.initialized (SysSpec.handle s) = true ->
  BleData.state (SysSpec.handle s) = BLE_STATE_CONNECTED ->
  data <> 0 -> len <= BLE_MAX_PAYLOAD_SIZE ->
  exists s1 s2,
    Sys.xrun Sys.ble_start_advertising hw s = Sys.Ok STATUS_OK s1 /\
    BleData.state (SysSpec.handle s1) = BLE_STATE_ADVERTISING /\
    Sys.xrun Sys.ble_stop_advertising hw s1 = Sys.Ok STATUS_OK s2 /\
    BleData.state (SysSpec.handle s2) = BLE_STATE_IDLE /\
    history s2
    = XBitClear BLE_CTRL BLE_CTRL_ADV_START
      :: XBitSet BLE_CTRL BLE_CTRL_ADV_START :: history s /\
    Ble.queue_contents (SysSpec.handle s2)
    = firstn 7
        (Ble.queue_contents (SysSpec.handle s)
         ++ [Ble.set_type BLE_EVT_ADV_STARTED Ble.zero_event;
             Ble.set_type BLE_EVT_ADV_STOPPED Ble.zero_event]) /\
    SysSpec.refuses (Sys.ble_send_data data len) hw s2 STATUS_NOT_READY /\
    SysSpec.refuses Sys.ble_disconnect hw s2 STATUS_INVALID_PARAM.
Proof.
  intros Hwf Hinit Hst Hd Hlen.
  destruct (start_advertising_ok hw s Hwf Hinit (or_intror Hst))
    as (r1 & s1 & E1 & -> & Hwf1 & Hst1 & Hi1 & Hq1 & Hh1 & _).
  destruct (stop_advertising_ok hw s1 Hwf1 Hi1 Hst1)
    as (r2 & s2 & E2 & -> & Hwf2 & Hst2 & Hi2 & Hq2 & Hh2 & _).
  exists s1, s2.
  split; [exact E1 |]. split; [exact Hst1 |]. split; [exact E2 |].
  split; [exact Hst2 |]. split; [rewrite Hh2, Hh1; reflexivity |].
  split.
  { rewrite Hq2, Hq1, firstn_seven_snoc, <- app_assoc. reflexivity. }
  apply not_connected_refuses; auto. rewrite Hst2. discriminate.
Qed.

Lemma X16_advertising_while_connected_forgets_the_link_witness :
  exists s1 s2,
    Sys.xrun Sys.ble_start_advertising (fun _ _ => 0)
      (SysSpec.s_ble BLE_STATE_CONNECTED) = Sys.Ok STATUS_OK s1 /\
    Sys.xrun Sys.ble_stop_advertising (fun _ _ => 0) s1
    = Sys.Ok STATUS_OK s2 /\
    BleData.state (SysSpec.handle s2) = BLE_STATE_IDLE /\
    Sys.xrun (Sys.ble_send_data 4096 2) (fun _ _ => 0) s2
    = Sys.Ok STATUS_NOT_READY s2.
Proof.
  destruct (X16_advertising_while_connected_forgets_the_link
              (fun _ _ => 0) (SysSpec.s_ble BLE_STATE_CONNECTED) 4096 2)
    as (s1 & s2 & E1 & _ & E2 & Hst & _ & _ & (a & s3 & E3 & Ha & _) & _).
  - repeat split; cbn; lia.
  - reflexivity.
  - reflexivity.
  - lia.
  - unfold BLE_MAX_PAYLOAD_SIZE. lia.
  - exists s1, s2. split; [exact E1 |]. split; [exact E2 |].
    split; [exact Hst |].
    unfold Sys.xrun. rewrite E3. subst a.
    vm_compute in E1. inversion E1. subst s1.
    vm_compute in E2. inversion E2. subst s2.
    vm_compute in E3. inversion E3. reflexivity.
Defined.

(** ** Bringing the controller up *)

Section BleInit.
Import BleData Ble Sys SysSpec.

Variable hw : xoracle.

Lemma polled_snoc ps v h :
  polled ps (XRead BLE_STATUS v :: h) = polled (ps ++ [v]) h.
Proof. unfold polled. rewrite map_app, <- app_assoc. reflexivity. Qed.

Lemma xwrites_core r tr h : xwrites r (map XCore tr ++ h) = xwrites r h.
Proof. induction tr as [| e tr IH]; [reflexivity | exact IH]. Qed.

Lemma xreads_core r tr h : xreads r (map XCore tr ++ h) = xreads r h.
Proof. induction tr as [| e tr IH]; [reflexivity | exact IH]. Qed.

Lemma xwrites_polled r ps h : xwrites r (polled ps h) = xwrites r h.
Proof. induction ps as [| v ps IH]; [reflexivity | exact IH]. Qed.

Lemma ctrl_ops_polled ps h : ctrl_ops (polled ps h) = ctrl_ops h.
Proof. induction ps as [| v ps IH]; [reflexivity | exact IH]. Qed.

Lemma core_trace_polled ps h : core_trace (polled ps h) = core_trace h.
Proof. induction ps as [| v ps IH]; [reflexivity | exact IH]. Qed.

Lemma core_trace_core tr h :
  core_trace (map XCore tr ++ h) = tr ++ core_trace h.
Proof.
  induction tr as [| e tr IH]; [reflexivity |].
  cbn [map app core_trace]. rewrite IH. reflexivity.
Qed.

Lemma xreads_polled r ps h :
  xreg_eqb r BLE_STATUS = false -> xreads r (polled ps h) = xreads r h.
Proof.
  intros E. induction ps as [| v ps IH]; [reflexivity |].
  cbn. rewrite E. exact IH.
Qed.

(** The wait for READY: how many polls it makes and what it returns. *)
Lemma wait_ready_run fuel : forall timeout s,
  0 <= timeout < 2 ^ 32 -> (Z.to_nat timeout < fuel)%nat ->
  xreturns (wait_ready fuel timeout) hw s
    (fun t s' =>
       exists polls,
         s' = {| core := core s; g_ble_config := g_ble_config s;
                 history := polled polls (history s) |} /\
         0 <= t <= timeout /\
         Z.of_nat (length polls) = timeout - t + 1 /\
         (BIT_CHECK (u32 (hw (history s) (inr BLE_STATUS))) BLE_STATUS_READY
          = true -> t = timeout) /\
         ((forall ps, Z.of_nat (length ps) < timeout ->
             BIT_CHECK (u32 (hw (polled ps (history s)) (inr BLE_STATUS)))
               BLE_STATUS_READY = false) -> t = 0)).
Proof.
  induction fuel as [| k IH]; intros timeout s Ht Hf; [lia |].
  cbn [wait_ready]. xstep. xstep.
  set (v := u32 (hw (history s) (inr BLE_STATUS))).
  destruct (BIT_CHECK v BLE_STATUS_READY) eqn:Ev; cbn [negb andb].
  - xstep. exists [v]. split; [reflexivity |]. split; [lia |].
    split; [cbn; lia |]. split; [reflexivity |].
    intros H. destruct (Z.eq_dec timeout 0) as [E | E]; [exact E |].
    specialize (H [] ltac:(cbn; lia)). cbn in H. fold v in H. congruence.
  - destruct (Z.gtb_spec timeout 0) as [Hpos | Hzero].
    + assert (Hu : u32 (timeout - 1) = timeout - 1)
        by (apply u32_small; lia).
      rewrite Hu.
      eapply xreturns_weaken.
      { apply IH; lia. }
      cbv beta. intros t s' (ps & -> & Hr & Hl & _ & Hnever).
      exists (ps ++ [v]).
      cbn [core g_ble_config history record].
      rewrite polled_snoc. split; [reflexivity |]. split; [lia |].
      split; [rewrite length_app; cbn [length]; lia |].
      split; [discriminate |].
      intros H. apply Hnever. intros ps' Hps'.
      cbn [history record]. rewrite polled_snoc. apply H. rewrite length_app. cbn [length]. lia.
    + xstep. exists [v]. split; [reflexivity |]. split; [lia |].
      split; [cbn; lia |]. split; [discriminate |]. intros _. lia.
Qed.

Lemma gic_set_priority_ble (o : oracle) w :
  Gic.gic_set_priority IRQ_BLE 128 o w
  = let v := u32 (o (trace w) (GICD_IPRIORITYR 12)) in
    Done STATUS_OK
      (log (EvWrite (GICD_IPRIORITYR 12)
              (Z.lor (Z.land v (u32 (Z.lnot (Z.shiftl 255 0))))
                 (u32 (Z.shiftl 128 0))))
         (log (EvRead (GICD_IPRIORITYR 12) v) w)).
Proof. reflexivity. Qed.

Lemma gic_enable_irq_ble (o : oracle) w :
  Gic.gic_enable_irq IRQ_BLE o w
  = Done STATUS_OK
      (log EvDSB (log (EvWrite (GICD_ISENABLER 1) (Z.shiftl 1 16)) w)).
Proof. reflexivity. Qed.

Lemma gic_disable_irq_ble (o : oracle) w :
  Gic.gic_disable_irq IRQ_BLE o w
  = Done STATUS_OK
      (log EvDSB (log (EvWrite (GICD_ICENABLER 1) (Z.shiftl 1 16)) w)).
Proof. reflexivity. Qed.

Lemma ble_init_run cfg cb s :
  cb <> 0 ->
  xreturns (ble_init (Some cfg) cb) hw s
    (fun r s' =>
       let base :=
         XBitClear BLE_CTRL BLE_CTRL_RESET
         :: XBitSet BLE_CTRL BLE_CTRL_RESET :: history s in
       mem (core s') = mem (core s) /\
       g_i2c_handles (core s') = g_i2c_handles (core s) /\
       (r = STATUS_OK \/ r = STATUS_TIMEOUT) /\
       (BIT_CHECK (u32 (hw base (inr BLE_STATUS))) BLE_STATUS_READY = true ->
        r = STATUS_OK) /\
       ((forall ps, Z.of_nat (length ps) < BLE_POLL_BUDGET ->
           BIT_CHECK (u32 (hw (polled ps base) (inr BLE_STATUS)))
             BLE_STATUS_READY = false) ->
        r = STATUS_TIMEOUT) /\
       (r = STATUS_TIMEOUT ->
        handle s' = handle s /\ g_ble_config s' = g_ble_config s /\
        exists polls,
          Z.of_nat (length polls) = BLE_POLL_BUDGET + 1 /\
          history s' = polled polls base) /\
       (r = STATUS_OK ->
        g_ble_config s' = cfg /\
        exists mac_low mac_high,
          (0 <= mac_low < 2 ^ 32 /\ 0 <= mac_high < 2 ^ 32) /\
          xreads BLE_MAC_L (history s')
          = xreads BLE_MAC_L (history s) ++ [mac_low] /\
          xreads BLE_MAC_H (history s')
          = xreads BLE_MAC_H (history s) ++ [mac_high] /\
          handle s'
          = set_queue (event_queue (handle s)) 0 0
              (set_initialized true
                 (set_state BLE_STATE_IDLE
                    (set_local_addr (mac_bytes mac_low mac_high)
                       (set_callback cb (handle s))))) /\
          xwrites BLE_TX_POWER (history s')
          = xwrites BLE_TX_POWER (history s)
            ++ [u32 (tx_power_dbm cfg + 20)] /\
          xwrites BLE_ADV_CTRL (history s')
          = xwrites BLE_ADV_CTRL (history s)
            ++ [u32 (Z.land (adv_interval_ms cfg) 65535)] /\
          xwrites BLE_INT_EN (history s')
          = xwrites BLE_INT_EN (history s)
            ++ (if use_interrupts cfg then [BLE_INT_EN_MASK] else []) /\
          ctrl_ops (history s')
          = ctrl_ops (history s)
            ++ [(true, BLE_CTRL_RESET); (false, BLE_CTRL_RESET);
                (true, BLE_CTRL_ENABLE)] /\
          (use_interrupts cfg = true ->
           In (XCore (EvWrite (GICD_ISENABLER 1) (Z.shiftl 1 16)))
             (history s')) /\
          exists prio,
            core_trace (history s')
            = (if use_interrupts cfg
               then [EvDSB;
                     EvWrite (GICD_ISENABLER 1) (Z.shiftl 1 16);
                     EvWrite (GICD_IPRIORITYR 12)
                       (Z.lor (Z.land prio 4294967040) 128);
                     EvRead (GICD_IPRIORITYR 12) prio]
               else [])
              ++ core_trace (history s))).
Proof.
  intros Hcb. unfold ble_init, IS_NULL_PTR.
  apply Z.eqb_neq in Hcb. rewrite Hcb.
  xstep. xstep. xstep. xstep. xstep.
  eapply xreturns_weaken.
  { apply wait_ready_run;
      unfold BLE_POLL_BUDGET; [lia | lia]. }
  cbv beta. intros t s1 (polls & -> & Hr & Hl & Hready & Hnever).
  cbn [history record settle] in Hready, Hnever.
  set (base := XBitClear BLE_CTRL BLE_CTRL_RESET
               :: XBitSet BLE_CTRL BLE_CTRL_RESET :: history s) in *.
  xnorm. fold base.
  destruct (Z.eqb_spec t 0) as [-> | Hne].
  - xstep. cbv zeta. fold base.
    split; [reflexivity |]. split; [reflexivity |].
    split; [now right |].
    split. { intros H. apply Hready in H. discriminate. }
    split; [reflexivity |].
    split; [| discriminate].
    intros _. split; [reflexivity |]. split; [reflexivity |].
    exists polls. split; [lia | reflexivity].
  - apply xreturns_bind. eexists tt, _. split; [reflexivity |]. xnorm.
    xs. xs. xs. xs. xs. xs. xs. xs.
    match goal with
    | |- context [XRead BLE_MAC_L ?v] => set (mac_low := v)
    end.
    xs. xs.
    match goal with
    | |- context [XRead BLE_MAC_H ?v] => set (mac_high := v)
    end.
    xs. xs. xs.
    apply (xreturns_weaken _ _ _
             (fun _ s2 =>
                exists tr,
                  s2
                  = {| core :=
                         with_ble
                           (set_local_addr (mac_bytes mac_low mac_high)
                              (set_callback cb (handle s)))
                           (quiesce (core s));
                       g_ble_config := cfg;
                       history :=
                         map XCore tr
                         ++ (if use_interrupts cfg
                             then [XWrite BLE_INT_EN BLE_INT_EN_MASK]
                             else [])
                         ++ XRead BLE_MAC_H mac_high
                            :: XRead BLE_MAC_L mac_low
                            :: XWrite BLE_ADV_CTRL
                                 (u32 (Z.land (adv_interval_ms cfg) 65535))
                            :: XWrite BLE_TX_POWER
                                 (u32 (tx_power_dbm cfg + 20))
                            :: polled polls base |} /\
                  (use_interrupts cfg = true ->
                   In (EvWrite (GICD_ISENABLER 1) (Z.shiftl 1 16)) tr) /\
                  exists prio,
                    tr = if use_interrupts cfg
                         then [EvDSB;
                               EvWrite (GICD_ISENABLER 1) (Z.shiftl 1 16);
                               EvWrite (GICD_IPRIORITYR 12)
                                 (Z.lor (Z.land prio 4294967040) 128);
                               EvRead (GICD_IPRIORITYR 12) prio]
                         else [])).
    { destruct (use_interrupts cfg).
      - xs. xs.
        apply xreturns_bind, xreturns_lift. eexists _, _.
        split; [apply gic_set_priority_ble |]. cbv zeta. xnorm.
        apply xreturns_bind, xreturns_lift. eexists _, _.
        split; [apply gic_enable_irq_ble |]. xnorm. xstep.
        eexists (_ :: _ :: _ :: _ :: nil).
        split; [reflexivity |].
        split; [intros _; cbn [In]; auto |].
        eexists. reflexivity.
      - xstep. exists []. split; [reflexivity |].
        split; [discriminate |]. exists 0. reflexivity. }
    cbv beta. intros [] s2 (tr & -> & Hen & prio & Htr).
    xs. xs. xs. xs. xs. xs. xs. xs. xstep.
    cbv zeta. xnorm. fold base.
    split; [reflexivity |]. split; [reflexivity |].
    split; [now left |]. split; [reflexivity |].
    split. { intros H. apply Hnever in H. contradiction. }
    split; [discriminate |]. intros _.
    split; [reflexivity |].
    exists mac_low, mac_high.
    split.
    { unfold mac_low, mac_high, u32.
      split; apply Z.mod_pos_bound; reflexivity. }
    cbn [xreads xwrites ctrl_ops xreg_eqb].
    rewrite !xreads_core, !xwrites_core, ctrl_ops_core.
    split.
    { destruct (use_interrupts cfg); cbn [app xreads xreg_eqb];
        rewrite xreads_polled by reflexivity; subst base;
        cbn [xreads]; reflexivity. }
    split.
    { destruct (use_interrupts cfg); cbn [app xreads xreg_eqb];
        rewrite xreads_polled by reflexivity; subst base;
        cbn [xreads]; reflexivity. }
    split; [reflexivity |].
    split.
    { destruct (use_interrupts cfg); cbn [app xwrites xreg_eqb];
        rewrite xwrites_polled; subst base; cbn [xwrites]; reflexivity. }
    split.
    { destruct (use_interrupts cfg); cbn [app xwrites xreg_eqb];
        rewrite xwrites_polled; subst base; cbn [xwrites]; reflexivity. }
    split.
    { destruct (use_interrupts cfg); cbn [app xwrites xreg_eqb];
        rewrite xwrites_polled; subst base; cbn [xwrites];
        rewrite ?app_nil_r; reflexivity. }
    split.
    { destruct (use_interrupts cfg); cbn [app ctrl_ops];
        rewrite ctrl_ops_polled; subst base; cbn [ctrl_ops];
        rewrite <- !app_assoc; reflexivity. }
    split.
    { intros Hu. apply in_cons, in_or_app. left.
      apply in_map. apply Hen. exact Hu. }
    exists prio. cbn [core_trace]. rewrite core_trace_core, Htr.
    f_equal.
    destruct (use_interrupts cfg); cbn [app core_trace];
      rewrite core_trace_polled; subst base; reflexivity.
Qed.

End BleInit.



(** ** Sending *)

Section BleSend.
Import BleData Ble Sys SysSpec.

Variable hw : xoracle.

(** The wait for the transmitter: how many polls it makes and what it
    returns. *)
Lemma wait_tx_ready_run fuel : forall timeout s,
  0 <= timeout < 2 ^ 32 -> (Z.to_nat timeout < fuel)%nat ->
  xreturns (wait_tx_ready fuel timeout) hw s
    (fun t s' =>
       exists polls,
         s' = {| core := core s; g_ble_config := g_ble_config s;
                 history := polled polls (history s) |} /\
         0 <= t <= timeout /\
         Z.of_nat (length polls) = timeout - t + 1 /\
         (BIT_CHECK (u32 (hw (history s) (inr BLE_STATUS)))
            BLE_STATUS_TX_BUSY = false -> t = timeout) /\
         ((forall ps, Z.of_nat (length ps) < timeout ->
             BIT_CHECK (u32 (hw (polled ps (history s)) (inr BLE_STATUS)))
               BLE_STATUS_TX_BUSY = true) -> t = 0)).
Proof.
  induction fuel as [| k IH]; intros timeout s Ht Hf; [lia |].
  cbn [wait_tx_ready]. xstep. xstep.
  set (v := u32 (hw (history s) (inr BLE_STATUS))).
  destruct (BIT_CHECK v BLE_STATUS_TX_BUSY) eqn:Ev; cbn [andb].
  - destruct (Z.gtb_spec timeout 0) as [Hpos | Hzero].
    + assert (Hu : u32 (timeout - 1) = timeout - 1)
        by (apply u32_small; lia).
      rewrite Hu.
      eapply xreturns_weaken.
      { apply IH; lia. }
      cbv beta. intros t s' (ps & -> & Hr & Hl & _ & Hnever).
      exists (ps ++ [v]).
      cbn [core g_ble_config history record].
      rewrite polled_snoc. split; [reflexivity |]. split; [lia |].
      split; [rewrite length_app; cbn [length]; lia |].
      split; [discriminate |].
      intros H. apply Hnever. intros ps' Hps'.
      cbn [history record]. rewrite polled_snoc. apply H.
      rewrite length_app. cbn [length]. lia.
    + xstep. exists [v]. split; [reflexivity |]. split; [lia |].
      split; [cbn; lia |]. split; [discriminate |]. intros _. lia.
  - xstep. exists [v]. split; [reflexivity |]. split; [lia |].
    split; [cbn; lia |]. split; [reflexivity |].
    intros H. destruct (Z.eq_dec timeout 0) as [E | E]; [exact E |].
    specialize (H [] ltac:(cbn; lia)). cbn in H. fold v in H. congruence.
Qed.

(** The FIFO loop writes the next [n] bytes of the buffer, in order. *)
Lemma tx_fifo_loop_run n : forall data i s,
  0 <= i -> i + Z.of_nat n < 2 ^ 16 ->
  xreturns (tx_fifo_loop n data i) hw s
    (fun _ s' =>
       same_state s s' /\
       history s'
       = map (XWrite BLE_TX_DATA)
           (rev (I2cSpec.bytes_at (mem (core s)) (data + i) n))
         ++ history s).
Proof.
  induction n as [| n IH]; intros data i s Hi Hn; cbn [tx_fifo_loop].
  - xstep. split; [repeat split | reflexivity].
  - xstep. apply xreturns_lift. eexists _, _. split; [reflexivity |].
    xnorm. xs. xs.
    assert (Hu : u16 (i + 1) = i + 1)
      by (unfold u16; apply Z.mod_small; lia).
    rewrite Hu.
    eapply xreturns_weaken.
    { apply IH; lia. }
    cbv beta. intros _ s' ((Hc & Hm & Hi2c & Hb) & Hh).
    cbn [core g_ble_config history mem g_i2c_handles g_ble_handle] in *.
    split; [repeat split; assumption |].
    rewrite Hh, bytes_at_cons. cbn [rev]. rewrite map_app, <- app_assoc.
    cbn [map app]. rewrite Z.add_assoc. reflexivity.
Qed.

Lemma send_data_run data len s :
  data <> 0 -> 0 <= len <= BLE_MAX_PAYLOAD_SIZE ->
  initialized (handle s) = true ->
  state (handle s) = BLE_STATE_CONNECTED ->
  xreturns (ble_send_data data len) hw s
    (fun r s' =>
       only_ble s s' /\
       (r = STATUS_OK \/ r = STATUS_TIMEOUT) /\
       (BIT_CHECK (u32 (hw (history s) (inr BLE_STATUS))) BLE_STATUS_TX_BUSY
        = false -> r = STATUS_OK) /\
       ((forall ps, Z.of_nat (length ps) < BLE_POLL_BUDGET ->
           BIT_CHECK (u32 (hw (polled ps (history s)) (inr BLE_STATUS)))
             BLE_STATUS_TX_BUSY = true) ->
        r = STATUS_TIMEOUT) /\
       exists polls,
         (r = STATUS_TIMEOUT ->
          Z.of_nat (length polls) = BLE_POLL_BUDGET + 1 /\
          handle s' = handle s /\
          history s' = polled polls (history s)) /\
         (r = STATUS_OK ->
          handle s' = set_tx_complete false (handle s) /\
          history s'
          = XBitSet BLE_CTRL BLE_CTRL_TX_START
            :: map (XWrite BLE_TX_DATA)
                 (rev (I2cSpec.bytes_at (mem (core s)) data (Z.to_nat len)))
            ++ XWrite BLE_TX_LEN len :: polled polls (history s))).
Proof.
  intros Hd Hlen Hinit Hst. unfold ble_send_data, IS_NULL_PTR.
  apply Z.eqb_neq in Hd. rewrite Hd.
  assert (E : (len >? BLE_MAX_PAYLOAD_SIZE) = false)
    by (rewrite Z.gtb_ltb; apply Z.ltb_ge; lia).
  rewrite E. xs. xs. rewrite Hinit, Hst. cbn [negb ble_state_eqb].
  xstep.
  eapply xreturns_weaken.
  { apply wait_tx_ready_run; unfold BLE_POLL_BUDGET; lia. }
  cbv beta. intros t s1 (polls & -> & Hr & Hl & Hfree & Hbusy).
  xnorm. cbn [history settle] in Hfree, Hbusy.
  destruct (Z.eqb_spec t 0) as [-> | Hne].
  - xstep. split; [repeat split |]. split; [now right |].
    split. { intros H. apply Hfree in H. discriminate. }
    split; [reflexivity |].
    exists polls. split; [| discriminate].
    intros _. split; [lia |]. split; reflexivity.
  - xs. xs. xstep.
    eapply xreturns_weaken.
    { apply (tx_fifo_loop_run (Z.to_nat len) data 0);
        unfold BLE_MAX_PAYLOAD_SIZE in *; lia. }
    cbv beta. intros _ s2 ((Hc & Hm & Hi2c & Hb) & Hh).
    cbn [core g_ble_config history mem g_i2c_handles g_ble_handle quiesce]
      in Hc, Hm, Hi2c, Hb, Hh.
    xs. xs. xs. xs. xstep. xnorm.
    split; [repeat split; assumption |]. split; [now left |].
    split; [reflexivity |].
    split. { intros H. apply Hbusy in H. contradiction. }
    exists polls. split; [discriminate |].
    intros _. unfold handle. rewrite Hb, Hh, Z.add_0_r.
    rewrite (u32_small len)
      by (unfold BLE_MAX_PAYLOAD_SIZE in *; lia).
    split; reflexivity.
Qed.

End BleSend.

(** X18.  On an initialised, connected handle [ble_send_data] with a valid
    buffer and a length of at most 244 polls STATUS until TX_BUSY reads
    clear.  When the first poll finds it clear the call returns
    [STATUS_OK]; when the first 100000 polls find it set the call returns
    [STATUS_TIMEOUT] after its 100001st poll, having written nothing.  On
    success it writes the length to TX_LEN, then the [len] bytes of the
    buffer in order to TX_DATA, clears [tx_complete] and last sets
    TX_START; a length of 0 starts a transmission with no data.  Memory and
    the I2C handles are never touched. *)
Theorem X18_send_data_outcomes (hw : xoracle) (s : system) (data len : Z) :
  data <> 0 -> 0 <= len <= BLE_MAX_PAYLOAD_SIZE ->
  BleData.initialized (SysSpec.handle s) = true ->
  BleData.state (SysSpec.handle s) = BLE_STATE_CONNECTED ->
  exists r s' polls,
    Sys.xrun (Sys.ble_send_data data len) hw s = Sys.Ok r s' /\
    SysSpec.only_ble s s' /\
    (r = STATUS_OK \/ r = STATUS_TIMEOUT) /\
    (BIT_CHECK (u32 (hw (history s) (inr BLE_STATUS))) BLE_STATUS_TX_BUSY
     = false -> r = STATUS_OK) /\
    ((forall ps, Z.of_nat (length ps) < Sys.BLE_POLL_BUDGET ->
        BIT_CHECK (u32 (hw (SysSpec.polled ps (history s)) (inr BLE_STATUS)))
          BLE_STATUS_TX_BUSY = true) ->
     r = STATUS_TIMEOUT) /\
    (r = STATUS_TIMEOUT ->
     Z.of_nat (length polls) = Sys.BLE_POLL_BUDGET + 1 /\
     SysSpec.handle s' = SysSpec.handle s /\
     history s' = SysSpec.polled polls (history s)) /\
    (r = STATUS_OK ->
     SysSpec.handle s' = Ble.set_tx_complete false (SysSpec.handle s) /\
     history s'
     = XBitSet BLE_CTRL BLE_CTRL_TX_START
       :: map (XWrite BLE_TX_DATA)
            (rev (I2cSpec.bytes_at (mem (core s)) data (Z.to_nat len)))
       ++ XWrite BLE_TX_LEN len :: SysSpec.polled polls (history s)).
Proof.
  intros Hd Hlen Hinit Hst.
  destruct (send_data_run hw data len s Hd Hlen Hinit Hst)
    as (r & s' & E & Ho & Hr & Hfree & Hbusy & polls & Hto & Hok).
  exists r, s', polls. auto 10.
Qed.

Lemma X18_send_data_outcomes_witness :
  exists s',
    Sys.xrun (Sys.ble_send_data Sim.buf 3) (fun _ _ => 0)
      (SysSpec.s_ble BLE_STATE_CONNECTED) = Sys.Ok STATUS_OK s' /\
    history s'
    = [XBitSet BLE_CTRL BLE_CTRL_TX_START; XWrite BLE_TX_DATA 0;
       XWrite BLE_TX_DATA 0; XWrite BLE_TX_DATA 0; XWrite BLE_TX_LEN 3;
       XRead BLE_STATUS 0].
Proof.
  destruct (X18_send_data_outcomes (fun _ _ => 0)
              (SysSpec.s_ble BLE_STATE_CONNECTED) Sim.buf 3)
    as (r & s' & polls & E & _ & _ & Hfree & _).
  - unfold Sim.buf. lia.
  - unfold BLE_MAX_PAYLOAD_SIZE. lia.
  - reflexivity.
  - reflexivity.
  - rewrite (Hfree eq_refl) in E. exists s'. split; [exact E |].
    vm_compute in E. inversion E. reflexivity.
Defined.

(** ** Shutting the controller down *)

Section BleDeinit.
Import BleData Ble Sys SysSpec.

Variable hw : xoracle.

Lemma delivered_app tr tr0 :
  delivered (tr ++ tr0) = delivered tr0 ++ delivered tr.
Proof.
  induction tr as [| e tr IH]; cbn [app delivered].
  - rewrite app_nil_r. reflexivity.
  - destruct e; try exact IH. rewrite IH, app_assoc. reflexivity.
Qed.

Lemma deinit_run s :
  initialized (handle s) = true ->
  xreturns ble_deinit hw s
    (fun r s' =>
       r = STATUS_OK /\
       only_ble s s' /\
       handle s'
       = set_initialized false (set_state BLE_STATE_OFF (handle s)) /\
       history s'
       = XBitClear BLE_CTRL BLE_CTRL_ENABLE
         :: XCore EvDSB
         :: XCore (EvWrite (GICD_ICENABLER 1) (Z.shiftl 1 16))
         :: XWrite BLE_INT_EN 0 :: history s).
Proof.
  intros Hinit. unfold ble_deinit. xs. xs. rewrite Hinit. cbn [negb].
  xs. xs.
  apply xreturns_bind, xreturns_lift. eexists _, _.
  split; [apply gic_disable_irq_ble |]. xnorm.
  xs. xs. xs. xs. xs. xs. xstep.
  repeat split.
Qed.

(** [ble_process] inside a system. *)
Lemma process_in_system fuel evt0 s :
  wf_ble (handle s) ->
  callback (handle s) <> 0 ->
  0 <= rx_len (handle s) <= BLE_MAX_PAYLOAD_SIZE ->
  length (BleEvent.data evt0) = Z.to_nat BLE_MAX_PAYLOAD_SIZE ->
  (8 <= fuel)%nat ->
  xreturns (lift (ble_process fuel evt0)) hw s
    (fun _ s' =>
       delivered (core_trace (history s'))
       = delivered (core_trace (history s))
         ++ BleSpec.staged (handle s) evt0 ++ queue_contents (handle s) /\
       queue_contents (handle s') = [] /\
       rx_pending (handle s') = false).
Proof.
  intros Hwf Hcb Hrx Hevt Hfuel. apply xreturns_lift.
  eapply returns_weaken.
  { apply (process_delivers (core_oracle hw (history s)) fuel evt0
             (quiesce (core s))); assumption. }
  cbv beta. intros [] w' (Hd & Hq & Hp).
  cbn [absorb history]. rewrite core_trace_core, delivered_app, Hd.
  split; [reflexivity |]. split; [exact Hq | exact Hp].
Qed.

End BleDeinit.

(** X19.  [ble_deinit] on an initialised handle masks the controller's
    interrupts, disables IRQ 48, clears the ENABLE bit and marks the handle
    Off and not initialised -- and nothing else: the callback, the queued
    events and the staged receive data stay.  [ble_process] does not look
    at the initialised flag, so a call after [ble_deinit] still hands the
    staged frame and every queued event to the callback. *)
Theorem X19_deinit_does_not_stop_delivery (hw : xoracle) (s : system)
    (fuel : nat) (evt0 : ble_event_t) :
  Ble.wf_ble (SysSpec.handle s) ->
  BleData.initialized (SysSpec.handle s) = true ->
  BleData.callback (SysSpec.handle s) <> 0 ->
  0 <= BleData.rx_len (SysSpec.handle s) <= BLE_MAX_PAYLOAD_SIZE ->
  length (BleEvent.data evt0) = Z.to_nat BLE_MAX_PAYLOAD_SIZE ->
  (8 <= fuel)%nat ->
  exists s1 s2,
    Sys.xrun Sys.ble_deinit hw s = Sys.Ok STATUS_OK s1 /\
    SysSpec.handle s1
    = Sys.set_initialized false
        (Ble.set_state BLE_STATE_OFF (SysSpec.handle s)) /\
    history s1
    = XBitClear BLE_CTRL BLE_CTRL_ENABLE
      :: XCore EvDSB
      :: XCore (EvWrite (GICD_ICENABLER 1) (Z.shiftl 1 16))
      :: XWrite BLE_INT_EN 0 :: history s /\
    Sys.xrun (Sys.lift (Ble.ble_process fuel evt0)) hw s1 = Sys.Ok tt s2 /\
    Ble.delivered (SysSpec.core_trace (history s2))
    = Ble.delivered (SysSpec.core_trace (history s))
      ++ BleSpec.staged (SysSpec.handle s) evt0
      ++ Ble.queue_contents (SysSpec.handle s).
Proof.
  intros Hwf Hinit Hcb Hrx Hevt Hfuel.
  destruct (deinit_run hw s Hinit) as (r & s1 & E1 & -> & _ & Hh1 & Hy1).
  destruct (process_in_system hw fuel evt0 s1)
    as ([] & s2 & E2 & Hd & _ & _); auto;
    try (rewrite Hh1; assumption).
  exists s1, s2. split; [exact E1 |]. split; [exact Hh1 |].
  split; [exact Hy1 |]. split; [exact E2 |].
  rewrite Hd, Hy1, Hh1. reflexivity.
Qed.

Lemma X19_deinit_does_not_stop_delivery_witness :
  let s :=
    SysSpec.with_handle
      (Ble.set_rx_pending true
         (SysSpec.handle (SysSpec.s_ble BLE_STATE_CONNECTED)))
      (SysSpec.s_ble BLE_STATE_CONNECTED) in
  exists s1 s2,
    Sys.xrun Sys.ble_deinit (fun _ _ => 0) s = Sys.Ok STATUS_OK s1 /\
    Sys.xrun (Sys.lift (Ble.ble_process 8 Ble.zero_event)) (fun _ _ => 0) s1
    = Sys.Ok tt s2 /\
    BleData.initialized (SysSpec.handle s1) = false /\
    map BleEvent.type (Ble.delivered (SysSpec.core_trace (history s2)))
    = [BLE_EVT_DATA_RECEIVED].
Proof.
  intros s.
  destruct (X19_deinit_does_not_stop_delivery (fun _ _ => 0) s 8
              Ble.zero_event)
    as (s1 & s2 & E1 & Hh1 & _ & E2 & Hd).
  - repeat split; cbn; lia.
  - reflexivity.
  - cbn. unfold BleSpec.app_handler. lia.
  - cbn. unfold BLE_MAX_PAYLOAD_SIZE. lia.
  - reflexivity.
  - lia.
  - exists s1, s2. split; [exact E1 |]. split; [exact E2 |].
    split; [rewrite Hh1; reflexivity |].
    rewrite Hd. reflexivity.
Defined.

(** ** The local address *)

Section BleMac.
Import BleData Ble Sys SysSpec.

Variable hw : xoracle.

(** The six bytes are the little-endian bytes of MAC_L followed by the
    two low bytes of MAC_H. *)
Lemma mac_bytes_value lo hi :
  0 <= lo < 2 ^ 32 -> 0 <= hi < 2 ^ 32 ->
  exists b0 b1 b2 b3 b4 b5,
    mac_bytes lo hi = [b0; b1; b2; b3; b4; b5] /\
    Forall (fun b => 0 <= b < 256) [b0; b1; b2; b3; b4; b5] /\
    b0 + 256 * b1 + 65536 * b2 + 16777216 * b3 = lo /\
    b4 + 256 * b5 = hi mod 65536.
Proof.
  intros Hlo Hhi. unfold mac_bytes. eexists _, _, _, _, _, _.
  split; [reflexivity |].
  change 255 with (Z.ones 8).
  rewrite !Z.land_ones, !Z.shiftr_div_pow2 by lia.
  unfold u8. rewrite !Z.mod_mod by lia.
  change (2 ^ 8) with 256. change (2 ^ 16) with 65536.
  change (2 ^ 24) with 16777216. change (2 ^ 32) with 4294967296 in *.
  split.
  { repeat constructor; try apply Z.mod_pos_bound; try lia;
      apply Z.mod_pos_bound; lia. }
  split; Z.to_euclidean_division_equations; lia.
Qed.

(** [memcpy] into the caller's memory. *)
Lemma copy_out_run n : forall src dst i (o : oracle) w,
  0 <= i -> (Z.to_nat i + n <= length src)%nat ->
  returns (copy_out n src dst i) o w
    (fun _ w' =>
       trace w' = trace w /\
       g_i2c_handles w' = g_i2c_handles w /\
       g_ble_handle w' = g_ble_handle w /\
       forall a,
         mem w' a
         = if (dst + i <=? a) && (a <? dst + i + Z.of_nat n)
           then nth (Z.to_nat (a - dst)) src 0
           else mem w a).
Proof.
  induction n as [| n IH]; intros src dst i o w Hi Hn; cbn [copy_out].
  - apply returns_ret. repeat split. intros a.
    destruct (Z.leb_spec (dst + i) a);
      destruct (Z.ltb_spec a (dst + i + Z.of_nat 0));
      cbn [andb]; try reflexivity; lia.
  - apply returns_bind. unfold returns at 1, array_get.
    destruct (Z.ltb_spec i 0); [lia |].
    destruct (nth_error src (Z.to_nat i)) eqn:E.
    2:{ apply nth_error_None in E. lia. }
    eexists _, _. split; [reflexivity |].
    apply returns_bind. eexists tt, _. split; [reflexivity |].
    eapply returns_weaken.
    { apply IH; lia. }
    cbv beta. intros _ w' (Ht & Hi2c & Hb & Hm).
    cbn [trace g_i2c_handles g_ble_handle mem with_mem] in *.
    repeat split; auto.
    intros a. rewrite Hm.
    apply (nth_error_nth _ _ 0) in E.
    destruct (Z.leb_spec (dst + (i + 1)) a);
      destruct (Z.ltb_spec a (dst + (i + 1) + Z.of_nat n));
      destruct (Z.leb_spec (dst + i) a);
      destruct (Z.ltb_spec a (dst + i + Z.of_nat (S n)));
      cbn [andb]; try reflexivity; try lia;
      destruct (Z.eqb_spec a (dst + i)) as [Ea | Ea];
      try lia; try reflexivity.
    all: subst a; replace (dst + i - dst) with i by lia;
      symmetry; exact E.
Qed.

Lemma get_mac_address_run dst s :
  dst <> 0 ->
  initialized (handle s) = true ->
  length (local_addr (handle s)) = 6%nat ->
  xreturns (ble_get_mac_address dst) hw s
    (fun r s' =>
       r = STATUS_OK /\
       history s' = history s /\
       handle s' = handle s /\
       forall a,
         mem (core s') a
         = if (dst <=? a) && (a <? dst + 6)
           then nth (Z.to_nat (a - dst)) (local_addr (handle s)) 0
           else mem (core s) a).
Proof.
  intros Hd Hinit Hlen. unfold ble_get_mac_address, IS_NULL_PTR.
  apply Z.eqb_neq in Hd. rewrite Hd. xs. xs. rewrite Hinit. cbn [negb].
  xstep. apply xreturns_lift.
  eapply returns_weaken.
  { apply (copy_out_run (Z.to_nat BLE_MAC_ADDR_LEN)
             (local_addr (g_ble_handle (core s))) dst 0).
    - lia.
    - unfold handle in Hlen. rewrite Hlen. cbn. lia. }
  cbv beta. intros _ w' (Ht & _ & Hb & Hm). xs.
  split; [reflexivity |]. rewrite Ht. cbn [trace quiesce map app].
  split; [reflexivity |]. split; [exact Hb |].
  intros a. rewrite Hm. cbn [mem quiesce].
  rewrite Z.add_0_r. reflexivity.
Qed.

End BleMac.

(** X20.  The address [ble_get_mac_address] copies out after a successful
    [ble_init] is the one the controller reported: the six bytes written to
    the caller's buffer are, in little-endian order, the four bytes of the
    MAC_L value and the two low bytes of the MAC_H value read during
    [ble_init].  The call touches no register and stores nowhere else. *)
Theorem X20_mac_address_round_trip (hw : xoracle) (s : system)
    (cfg : ble_config_t) (cb dst : Z) :
  cb <> 0 -> dst <> 0 ->
  BIT_CHECK
    (u32 (hw (XBitClear BLE_CTRL BLE_CTRL_RESET
              :: XBitSet BLE_CTRL BLE_CTRL_RESET :: history s)
            (inr BLE_STATUS))) BLE_STATUS_READY = true ->
  exists s1 s2 mac_low mac_high,
    Sys.xrun (Sys.ble_init (Some cfg) cb) hw s = Sys.Ok STATUS_OK s1 /\
    SysSpec.xreads BLE_MAC_L (history s1)
    = SysSpec.xreads BLE_MAC_L (history s) ++ [mac_low] /\
    SysSpec.xreads BLE_MAC_H (history s1)
    = SysSpec.xreads BLE_MAC_H (history s) ++ [mac_high] /\
    Sys.xrun (Sys.ble_get_mac_address dst) hw s1 = Sys.Ok STATUS_OK s2 /\
    history s2 = history s1 /\
    (forall i, 0 <= i < 6 -> 0 <= mem (core s2) (dst + i) < 256) /\
    mem (core s2) dst + 256 * mem (core s2) (dst + 1)
    + 65536 * mem (core s2) (dst + 2) + 16777216 * mem (core s2) (dst + 3)
    = mac_low /\
    mem (core s2) (dst + 4) + 256 * mem (core s2) (dst + 5)
    = mac_high mod 65536 /\
    (forall a, ~ (dst <= a < dst + 6) -> mem (core s2) a = mem (core s) a).
Proof.
  intros Hcb Hd Hready.
  destruct (ble_init_run hw cfg cb s Hcb) as (r & s1 & E1 & H).
  cbv zeta in H.
  destruct H as (Hm1 & _ & _ & Hok & _ & _ & Hres).
  rewrite (Hok Hready) in *.
  destruct (Hres eq_refl)
    as (_ & lo & hi & (Hlo & Hhi) & Hrl & Hrh & Hh1 & _).
  destruct (mac_bytes_value lo hi Hlo Hhi)
    as (b0 & b1 & b2 & b3 & b4 & b5 & Hb & Hrange & Hsum & Hsum').
  destruct (get_mac_address_run hw dst s1 Hd)
    as (r2 & s2 & E2 & -> & Hy2 & _ & Hm2).
  { rewrite Hh1. reflexivity. }
  { rewrite Hh1. cbn. reflexivity. }
  assert (Hla : BleData.local_addr (SysSpec.handle s1)
                = [b0; b1; b2; b3; b4; b5])
    by (rewrite Hh1; exact Hb).
  rewrite Hla in Hm2.
  assert (Hat : forall k, (k < 6)%nat ->
                  mem (core s2) (dst + Z.of_nat k)
                  = nth k [b0; b1; b2; b3; b4; b5] 0).
  { intros k Hk. rewrite Hm2.
    destruct (Z.leb_spec dst (dst + Z.of_nat k)); [| lia].
    destruct (Z.ltb_spec (dst + Z.of_nat k) (dst + 6)); [| lia].
    cbn [andb]. f_equal. lia. }
  pose proof (Hat 0%nat ltac:(lia)) as H0.
  pose proof (Hat 1%nat ltac:(lia)) as H1.
  pose proof (Hat 2%nat ltac:(lia)) as H2.
  pose proof (Hat 3%nat ltac:(lia)) as H3.
  pose proof (Hat 4%nat ltac:(lia)) as H4.
  pose proof (Hat 5%nat ltac:(lia)) as H5.
  cbn [Z.of_nat Pos.of_succ_nat Pos.succ nth] in H0, H1, H2, H3, H4, H5.
  rewrite Z.add_0_r in H0.
  exists s1, s2, lo, hi.
  split; [exact E1 |]. split; [exact Hrl |]. split; [exact Hrh |].
  split; [exact E2 |]. split; [exact Hy2 |].
  split.
  { intros i Hi.
    assert (Hin : In (mem (core s2) (dst + i)) [b0; b1; b2; b3; b4; b5]).
    { replace i with (Z.of_nat (Z.to_nat i)) by lia.
      rewrite Hat by lia. apply nth_In. cbn. lia. }
    rewrite Forall_forall in Hrange. apply Hrange. exact Hin. }
  split; [rewrite H0, H1, H2, H3; exact Hsum |].
  split; [rewrite H4, H5; exact Hsum' |].
  intros a Ha. rewrite Hm2.
  destruct (Z.leb_spec dst a); destruct (Z.ltb_spec a (dst + 6));
    cbn [andb]; try lia; symmetry; apply Hm1 || (rewrite Hm1; reflexivity).
Qed.

Lemma X20_mac_address_round_trip_witness :
  exists s1 s2,
    Sys.xrun (Sys.ble_init (Some SysSpec.app_config) BleSpec.app_handler)
      SysSpec.hw_ble_ready Sys.system_init = Sys.Ok STATUS_OK s1 /\
    Sys.xrun (Sys.ble_get_mac_address Sim.buf) SysSpec.hw_ble_ready s1
    = Sys.Ok STATUS_OK s2 /\
    I2cSpec.bytes_at (mem (core s2)) Sim.buf 6 = [17; 34; 51; 68; 85; 102].
Proof.
  destruct (X20_mac_address_round_trip SysSpec.hw_ble_ready Sys.system_init
              SysSpec.app_config BleSpec.app_handler Sim.buf)
    as (s1 & s2 & lo & hi & E1 & _ & _ & E2 & _).
  - unfold BleSpec.app_handler. lia.
  - unfold Sim.buf. lia.
  - reflexivity.
  - exists s1, s2. split; [exact E1 |]. split; [exact E2 |].
    vm_compute in E1. inversion E1. subst s1.
    vm_compute in E2. inversion E2. reflexivity.
Defined.

(** ** The interrupt entry point of main.c *)

Section IrqFrames.
Import I2cData I2c.

Variable hw : oracle.

(** What one I2C interrupt leaves alone: the BLE handle and the handles
    of the other instances. *)
Lemma i2c_irq_frame instance w :
  wf_i2c w -> 0 <= instance < I2C_INSTANCE_MAX ->
  returns (i2c_irq_handler instance) hw w
    (fun _ w' =>
       wf_i2c w' /\
       g_ble_handle w' = g_ble_handle w /\
       forall j, j <> Z.to_nat instance ->
                 nth j (g_i2c_handles w') handle_init
                 = nth j (g_i2c_handles w) handle_init).
Proof.
  intros Hwf Hinst.
  assert (Post : forall w1,
            wf_i2c w1 -> g_ble_handle w1 = g_ble_handle w ->
            (forall j, j <> Z.to_nat instance ->
                       nth j (g_i2c_handles w1) handle_init
                       = nth j (g_i2c_handles w) handle_init) ->
            forall f,
              returns (modify_i2c instance f) hw w1
                (fun _ w' =>
                   wf_i2c w' /\ g_ble_handle w' = g_ble_handle w /\
                   forall j, j <> Z.to_nat instance ->
                             nth j (g_i2c_handles w') handle_init
                             = nth j (g_i2c_handles w) handle_init)).
  { intros w1 Hwf1 Hb1 Ho1 f.
    apply returns_modify_i2c; [exact Hwf1 | exact Hinst |].
    split; [unfold wf_i2c in *; cbn; rewrite list_set_length; exact Hwf1 |].
    split; [exact Hb1 |].
    intros j Hj. cbn [g_i2c_handles with_i2c].
    rewrite nth_list_set_other by congruence. apply Ho1. exact Hj. }
  assert (Base : forall w1,
            wf_i2c w1 -> g_ble_handle w1 = g_ble_handle w ->
            g_i2c_handles w1 = g_i2c_handles w ->
            wf_i2c w1 /\ g_ble_handle w1 = g_ble_handle w /\
            forall j, j <> Z.to_nat instance ->
                      nth j (g_i2c_handles w1) handle_init
                      = nth j (g_i2c_handles w) handle_init).
  { intros w1 H1 H2 H3. rewrite H3. auto. }
  unfold i2c_irq_handler.
  replace (instance <? I2C_INSTANCE_MAX) with true
    by (symmetry; apply Z.ltb_lt; lia).
  apply returns_bind. apply returns_get_i2c; auto.
  apply returns_bind. apply returns_read_reg. intros sr1 _.
  destruct (BIT_CHECK sr1 I2C_SR1_SB).
  { apply returns_emit. apply Base; auto. }
  destruct (BIT_CHECK sr1 I2C_SR1_ADDR).
  { apply returns_bind. apply returns_read_reg. intros sr2 _.
    destruct (i2c_state_eqb (state (handle_of instance w)) I2C_STATE_BUSY_RX
              && (buffer_len (handle_of instance w) =? 1));
      [apply returns_emit | apply returns_ret]; apply Base; auto. }
  destruct (BIT_CHECK sr1 I2C_SR1_TXE
            && i2c_state_eqb (state (handle_of instance w)) I2C_STATE_BUSY_TX).
  { destruct (buffer_idx (handle_of instance w)
              <? buffer_len (handle_of instance w)).
    - apply returns_bind. eexists _, _. split; [reflexivity |].
      apply returns_bind. apply returns_emit.
      apply Post; auto.
    - destruct (BIT_CHECK sr1 I2C_SR1_BTF).
      + apply returns_bind. apply returns_emit.
        apply returns_bind. eapply returns_weaken.
        { apply Post; auto. }
        cbv beta. intros [] w2 (H1 & H2 & H3).
        unfold invoke_callback.
        destruct (IS_VALID_PTR _);
          [apply returns_emit | apply returns_ret]; auto.
      + apply returns_ret. apply Base; auto. }
  destruct (BIT_CHECK sr1 I2C_SR1_RXNE
            && i2c_state_eqb (state (handle_of instance w)) I2C_STATE_BUSY_RX).
  { apply returns_bind. apply returns_read_reg. intros dr _.
    apply returns_bind. eexists tt, _. split; [reflexivity |].
    cbv zeta.
    apply returns_bind. eapply returns_weaken.
    { apply Post; auto. }
    cbv beta. intros [] w2 (H1 & H2 & H3).
    apply returns_bind.
    apply (returns_weaken _ _ _
             (fun _ w3 =>
                wf_i2c w3 /\ g_ble_handle w3 = g_ble_handle w /\
                forall j, j <> Z.to_nat instance ->
                          nth j (g_i2c_handles w3) handle_init
                          = nth j (g_i2c_handles w) handle_init)).
    { destruct (_ =? _).
      - apply returns_bind. apply returns_emit. apply returns_emit. auto.
      - apply returns_ret. auto. }
    cbv beta. intros [] w3 (H4 & H5 & H6).
    destruct (_ >=? _).
    - apply returns_bind.
      apply (returns_weaken _ _ _
               (fun _ w4 =>
                  wf_i2c w4 /\ g_ble_handle w4 = g_ble_handle w /\
                  forall j, j <> Z.to_nat instance ->
                            nth j (g_i2c_handles w4) handle_init
                            = nth j (g_i2c_handles w) handle_init)).
      { apply returns_modify_i2c; [exact H4 | exact Hinst |].
        split; [unfold wf_i2c in *; cbn; rewrite list_set_length; exact H4 |].
        split; [exact H5 |].
        intros j Hj. cbn [g_i2c_handles with_i2c].
        rewrite nth_list_set_other by congruence. apply H6. exact Hj. }
      cbv beta. intros [] w4 (H7 & H8 & H9).
      unfold invoke_callback.
      destruct (IS_VALID_PTR _);
        [apply returns_emit | apply returns_ret]; auto.
    - apply returns_ret. auto. }
  destruct (BIT_CHECK sr1 I2C_SR1_AF).
  { apply returns_bind. apply returns_emit.
    apply returns_bind. apply returns_emit.
    apply returns_bind. eapply returns_weaken.
    { apply Post; auto. }
    cbv beta. intros [] w2 (H1 & H2 & H3).
    unfold invoke_callback.
    destruct (IS_VALID_PTR _);
      [apply returns_emit | apply returns_ret]; auto. }
  apply returns_ret. apply Base; auto.
Qed.

End IrqFrames.

Section BleIrqFrame.
Import BleData Ble BleSpec.

Variable hw : oracle.

Lemma ble_kept_refl w : ble_kept w w.
Proof. repeat split. Qed.

Lemma ble_kept_trans w1 w2 w3 :
  ble_kept w1 w2 -> ble_kept w2 w3 -> ble_kept w1 w3.
Proof.
  unfold ble_kept. intros (A1 & A2 & A3 & A4) (B1 & B2 & B3 & B4).
  repeat split; congruence.
Qed.

Lemma enqueue_frame e w (Q : status_t -> world -> Prop) :
  wf_ble (g_ble_handle w) ->
  (forall r w', wf_ble (g_ble_handle w') -> ble_kept w w' -> Q r w') ->
  returns (ble_enqueue_event e) hw w Q.
Proof.
  intros Hwf HQ.
  pose proof (queue_count_range (g_ble_handle w)) as Hr.
  destruct (Z.eq_dec (queue_count (g_ble_handle w)) 7) as [Hc | Hc].
  - eexists _, _. split; [apply enqueue_full; assumption |].
    apply HQ; [exact Hwf | apply ble_kept_refl].
  - destruct (enqueue_ok hw e w Hwf) as (E & Hwf' & _); [lia |].
    eexists _, _. split; [exact E |]. apply HQ; [exact Hwf' |].
    repeat split.
Qed.

Lemma rx_copy_loop_frame n : forall i w,
  length (rx_buffer (g_ble_handle w)) = Z.to_nat BLE_MAX_PAYLOAD_SIZE ->
  0 <= i -> i + Z.of_nat n <= BLE_MAX_PAYLOAD_SIZE ->
  returns (rx_copy_loop n i) hw w (fun _ w' => ble_kept w w').
Proof.
  unfold BLE_MAX_PAYLOAD_SIZE.
  induction n as [| k IH]; intros i w Hlen Hi Hn; cbn [rx_copy_loop].
  - apply returns_ret. apply ble_kept_refl.
  - apply returns_bind. apply returns_read_reg. intros v _.
    apply returns_bind. eexists _, _. split; [reflexivity |].
    apply returns_bind. unfold returns at 1, array_set.
    cbn [g_ble_handle log]. rewrite Hlen.
    destruct (Z.leb_spec 0 i); [| lia].
    destruct (Z.ltb_spec i (Z.of_nat (Z.to_nat 244))); [| lia].
    cbn [andb]. eexists _, _. split; [reflexivity |].
    apply returns_bind. eexists tt, _. split; [reflexivity |].
    eapply returns_weaken.
    { apply (IH (u16 (i + 1))).
      - cbn. rewrite list_set_length. exact Hlen.
      - unfold u16. apply Z.mod_pos_bound. reflexivity.
      - unfold u16. rewrite Z.mod_small by lia. lia. }
    cbv beta. intros _ w' Hk. exact Hk.
Qed.

Lemma read_rx_data_frame w :
  wf_ble (g_ble_handle w) ->
  returns ble_read_rx_data hw w (fun _ w' => ble_kept w w').
Proof.
  intros (Hq & Hb & Hh & Ht). unfold ble_read_rx_data.
  apply returns_bind. unfold returns at 1, read_reg.
  eexists _, _. split; [reflexivity |].
  set (v := u32 (hw (trace w) BLE_RX_LEN)).
  assert (Hv : 0 <= v < 2 ^ 32) by (apply Z.mod_pos_bound; reflexivity).
  set (n := if v >? BLE_MAX_PAYLOAD_SIZE then BLE_MAX_PAYLOAD_SIZE else v).
  assert (Hn : 0 <= n <= 244).
  { unfold n, BLE_MAX_PAYLOAD_SIZE. destruct (Z.gtb_spec v 244); lia. }
  assert (Hu : u16 n = n) by (unfold u16; apply Z.mod_small; lia).
  rewrite Hu.
  apply returns_bind. eexists tt, _. split; [reflexivity |].
  apply returns_bind.
  eapply returns_weaken.
  { apply (rx_copy_loop_frame (Z.to_nat n) 0).
    - exact Hb.
    - lia.
    - unfold BLE_MAX_PAYLOAD_SIZE. lia. }
  cbv beta. intros _ w1 H1.
  eexists tt, _. split; [reflexivity |]. exact H1.
Qed.

(** A BLE interrupt leaves the I2C handles, memory, the callback and the
    initialised flag alone. *)
Lemma ble_irq_frame w :
  wf_ble (g_ble_handle w) ->
  returns ble_irq_handler hw w
    (fun _ w' => wf_ble (g_ble_handle w') /\ ble_kept w w').
Proof.
  intros Hwf. unfold ble_irq_handler.
  apply returns_bind. unfold returns at 1, read_reg.
  eexists _, _. split; [reflexivity |].
  set (f := u32 (hw (trace w) BLE_INT_FLAG)).
  set (P := fun w1 : world => wf_ble (g_ble_handle w1) /\ ble_kept w w1).
  apply returns_bind.
  apply (returns_weaken _ _ _ (fun _ w1 => P w1)).
  { destruct (BIT_CHECK f BLE_INT_CONNECTED).
    - apply returns_bind. apply returns_emit.
      apply returns_bind. eexists tt, _. split; [reflexivity |].
      apply returns_bind. eexists _, _. split; [reflexivity |].
      apply returns_bind. apply enqueue_frame.
      { apply set_state_wf. exact Hwf. }
      intros r w' Hwf' H1. apply returns_ret. split; [exact Hwf' |].
      exact H1.
    - apply returns_ret. split; [exact Hwf | repeat split]. }
  intros evt1 w1 (Hwf1 & Hk1).
  apply returns_bind.
  apply (returns_weaken _ _ _ (fun _ w1 => P w1)).
  { destruct (BIT_CHECK f BLE_INT_DISCONNECTED).
    - apply returns_bind. apply returns_emit.
      apply returns_bind. eexists tt, _. split; [reflexivity |].
      apply returns_bind. apply enqueue_frame.
      { apply set_state_wf. exact Hwf1. }
      intros r w' Hwf' H1. apply returns_ret.
      split; [exact Hwf' |]. eapply ble_kept_trans; [exact Hk1 | exact H1].
    - apply returns_ret. split; auto. }
  intros evt2 w2 (Hwf2 & Hk2).
  apply returns_bind.
  apply (returns_weaken _ _ _ (fun _ w1 => P w1)).
  { destruct (BIT_CHECK f BLE_INT_RX_DONE).
    - apply returns_bind. apply returns_emit.
      destruct (read_rx_data_clamps hw
                  (log (EvWrite BLE_INT_FLAG (Z.shiftl 1 BLE_INT_RX_DONE)) w2)
                  Hwf2) as ([] & w3 & E3 & H3).
      destruct (read_rx_data_frame
                  (log (EvWrite BLE_INT_FLAG (Z.shiftl 1 BLE_INT_RX_DONE)) w2)
                  Hwf2) as ([] & w3' & E3' & H3').
      rewrite E3 in E3'. inversion E3'. subst w3'.
      eexists tt, w3. split; [exact E3 |].
      cbv zeta in H3. destruct H3 as (_ & _ & Hwf3 & _).
      split; [exact Hwf3 |].
      eapply ble_kept_trans; [exact Hk2 | exact H3'].
    - apply returns_ret. split; auto. }
  intros [] w3 (Hwf3 & Hk3).
  apply returns_bind.
  apply (returns_weaken _ _ _ (fun _ w1 => P w1)).
  { destruct (BIT_CHECK f BLE_INT_TX_DONE).
    - apply returns_bind. apply returns_emit.
      apply returns_bind. eexists tt, _. split; [reflexivity |].
      apply returns_bind. apply enqueue_frame.
      { apply set_tx_complete_wf. exact Hwf3. }
      intros r w' Hwf' H1. apply returns_ret.
      split; [exact Hwf' |]. eapply ble_kept_trans; [exact Hk3 | exact H1].
    - apply returns_ret. split; auto. }
  intros evt4 w4 (Hwf4 & Hk4).
  destruct (BIT_CHECK f BLE_INT_ERROR).
  - apply returns_bind. apply returns_emit.
    apply returns_bind. eexists tt, _. split; [reflexivity |].
    apply returns_bind. apply enqueue_frame.
    { apply set_state_wf. exact Hwf4. }
    intros r w' Hwf' H1. apply returns_ret.
    split; [exact Hwf' |]. eapply ble_kept_trans; [exact Hk4 | exact H1].
  - apply returns_ret. split; auto.
Qed.

End BleIrqFrame.

Section IrqDispatch.
Import BleData Ble Sys SysSpec.

Variable hw : xoracle.

Lemma irq_id_range iar : 0 <= Z.land iar 1023 < 1024.
Proof.
  change 1023 with (Z.ones 10). rewrite Z.land_ones by lia.
  apply Z.mod_pos_bound. reflexivity.
Qed.

Lemma irq_handler_run s :
  wf_i2c (core s) -> wf_ble (handle s) ->
  xreturns irq_handler hw s
    (fun _ s' =>
       let iar := u32 (hw (history s) (inr GICC_IAR)) in
       let id := Z.land iar 1023 in
       let entered := XRead GICC_IAR iar :: history s in
       exists mid,
         history s'
         = XCore EvDSB :: XWrite GICC_EOIR id :: map XCore mid ++ entered /\
         g_ble_config s' = g_ble_config s /\
         (id <> IRQ_I2C0 -> id <> IRQ_I2C1 -> id <> IRQ_BLE ->
          mid = [] /\ same_state s s') /\
         (id = IRQ_BLE ->
          g_i2c_handles (core s') = g_i2c_handles (core s) /\
          mem (core s') = mem (core s) /\
          state (handle s')
          = BleSpec.state_after_irq (u32 (hw entered (inl BLE_INT_FLAG)))
              (state (handle s))) /\
         (id = IRQ_I2C0 ->
          handle s' = handle s /\
          nth 1 (g_i2c_handles (core s')) I2cData.handle_init
          = nth 1 (g_i2c_handles (core s)) I2cData.handle_init) /\
         (id = IRQ_I2C1 ->
          handle s' = handle s /\
          nth 0 (g_i2c_handles (core s')) I2cData.handle_init
          = nth 0 (g_i2c_handles (core s)) I2cData.handle_init)).
Proof.
  intros Hwfi Hwfb. unfold irq_handler, gic_acknowledge_irq, gic_end_of_irq.
  xs. xs. xs. xs.
  set (iar := u32 (hw (history s) (inr GICC_IAR))).
  set (id := Z.land iar 1023).
  set (entered := XRead GICC_IAR iar :: history s).
  xstep.
  set (s0 := record (XRead GICC_IAR iar) s).
  assert (Finish : forall mid (w' : world) (R : Prop),
            trace w' = mid -> g_ble_config s = g_ble_config s -> R ->
            xreturns (xwrite_reg GICC_EOIR id ;;~ lift DSB) hw
              (absorb w' s0)
              (fun _ s' =>
                 history s'
                 = XCore EvDSB :: XWrite GICC_EOIR id
                   :: map XCore mid ++ entered /\
                 g_ble_config s' = g_ble_config s /\
                 mem (core s') = mem w' /\
                 g_i2c_handles (core s') = g_i2c_handles w' /\
                 g_ble_handle (core s') = g_ble_handle w')).
  { intros mid w' R <- _ _. xs. xs. xlift_now. repeat split. }
  destruct (Z.eqb_spec id IRQ_I2C0) as [E0 | N0].
  { apply xreturns_lift.
    eapply returns_weaken.
    { apply i2c_irq_frame; [exact Hwfi |].
      unfold I2C_INSTANCE_0, I2C_INSTANCE_MAX. lia. }
    cbv beta. intros [] w' (Hwf' & Hb' & Ho').
    eapply xreturns_weaken.
    { apply (Finish (trace w') w' True); auto. }
    cbv beta. intros [] s' (Hh & Hc & Hm & Hi & Hb).
    exists (trace w'). split; [exact Hh |]. split; [exact Hc |].
    split; [intros; congruence |].
    split; [intros Hx; rewrite Hx in E0; discriminate |].
    split.
    - intros _. unfold handle. rewrite Hb, Hi. split; [exact Hb' |].
      apply (Ho' 1%nat). unfold I2C_INSTANCE_0. cbn. lia.
    - intros Hx. rewrite Hx in E0. discriminate. }
  destruct (Z.eqb_spec id IRQ_I2C1) as [E1 | N1].
  { apply xreturns_lift.
    eapply returns_weaken.
    { apply i2c_irq_frame; [exact Hwfi |].
      unfold I2C_INSTANCE_1, I2C_INSTANCE_MAX. lia. }
    cbv beta. intros [] w' (Hwf' & Hb' & Ho').
    eapply xreturns_weaken.
    { apply (Finish (trace w') w' True); auto. }
    cbv beta. intros [] s' (Hh & Hc & Hm & Hi & Hb).
    exists (trace w'). split; [exact Hh |]. split; [exact Hc |].
    split; [intros; congruence |].
    split; [intros Hx; rewrite Hx in E1; discriminate |].
    split.
    - intros Hx. congruence.
    - intros _. unfold handle. rewrite Hb, Hi. split; [exact Hb' |].
      apply (Ho' 0%nat). unfold I2C_INSTANCE_1. cbn. lia. }
  destruct (Z.eqb_spec id IRQ_BLE) as [E2 | N2].
  { apply xreturns_lift.
    set (o := core_oracle hw (history s0)).
    destruct (ble_irq_frame o (quiesce (core s0)) Hwfb)
      as ([] & w' & E & Hwf' & Hi' & Hm' & _).
    destruct (irq_handler_state o (quiesce (core s0)) Hwfb)
      as ([] & w2 & E' & _ & Hst).
    rewrite E in E'. inversion E'. subst w2.
    eexists tt, w'. split; [exact E |].
    eapply xreturns_weaken.
    { apply (Finish (trace w') w' True); auto. }
    cbv beta. intros [] s' (Hh & Hc & Hm & Hi & Hb).
    exists (trace w'). split; [exact Hh |]. split; [exact Hc |].
    split; [intros; congruence |].
    split.
    - intros _. rewrite Hi, Hm. split; [exact Hi' |]. split; [exact Hm' |].
      unfold handle. rewrite Hb. exact Hst.
    - split; intros Hx; congruence. }
  xstep.
  eapply xreturns_weaken.
  { apply (Finish [] (quiesce (core s)) True); auto. }
  cbv beta. intros [] s' (Hh & Hc & Hm & Hi & Hb).
  exists []. split; [exact Hh |]. split; [exact Hc |].
  split; [intros _ _ _; split; [reflexivity | repeat split; assumption] |].
  split; [intros; congruence |]. split; intros; congruence.
Qed.

(** The entry for a known number is the acknowledge, the handler of that
    number, and the end-of-interrupt. *)
Lemma irq_handler_eq s (m : M unit) w' :
  let iar := u32 (hw (history s) (inr GICC_IAR)) in
  let id := Z.land iar 1023 in
  let entered := XRead GICC_IAR iar :: history s in
  (id = IRQ_I2C0 /\ m = I2c.i2c_irq_handler I2C_INSTANCE_0) \/
  (id = IRQ_I2C1 /\ m = I2c.i2c_irq_handler I2C_INSTANCE_1) \/
  (id = IRQ_BLE /\ m = ble_irq_handler) ->
  m (core_oracle hw entered) (quiesce (core s)) = Done tt w' ->
  irq_handler hw s
  = Ok tt {| core := quiesce w'; g_ble_config := g_ble_config s;
             history :=
               XCore EvDSB :: XWrite GICC_EOIR id
               :: map XCore (trace w') ++ entered |}.
Proof.
  intros iar id entered Hsel E.
  unfold irq_handler, gic_acknowledge_irq, gic_end_of_irq.
  unfold xbind, xread_reg, xret, xwrite_reg, xemit. cbv zeta.
  fold iar. fold id.
  destruct Hsel as [(Hid & ->) | [(Hid & ->) | (Hid & ->)]]; rewrite Hid;
    cbn [Z.eqb IRQ_I2C0 IRQ_I2C1 IRQ_BLE Pos.eqb];
    unfold lift; cbn [history record core]; fold entered; rewrite E;
    reflexivity.
Qed.

Lemma same_events (a b : list event) (t : list xevent) :
  map XCore a ++ t = map XCore b ++ t -> a = b.
Proof.
  intros H. apply app_inv_tail in H. revert b H.
  induction a as [| x a IH]; intros [| y b] H; try discriminate H;
    [reflexivity |].
  cbn [map] in H. inversion H. f_equal. apply IH. assumption.
Qed.

End IrqDispatch.

(** X21.  Every entry of [irq_handler] reads the acknowledge register
    once, keeps the low ten bits as the interrupt number, and ends by
    writing that number -- not the value read -- to the end-of-interrupt
    register, followed by a barrier; it does so for numbers it does not
    know too, the spurious 1023 included, and then changes no state.
    Number 48 runs the BLE handler, which leaves memory and the I2C handles
    alone; 23 and 24 run the I2C handler of instance 0 respectively 1,
    which leaves the BLE handle and the other instance's handle alone.
    That the handler is run means: between the acknowledge and the
    end-of-interrupt the history holds exactly what that handler does when
    started in the driver state of the entry, and the driver state after
    the entry is the one that handler leaves. *)
Theorem X21_irq_handler_dispatch (hw : xoracle) (s : system) :
  wf_i2c (core s) -> Ble.wf_ble (SysSpec.handle s) ->
  exists s' mid,
    Sys.xrun Sys.irq_handler hw s = Sys.Ok tt s' /\
    let iar := u32 (hw (history s) (inr GICC_IAR)) in
    let id := Z.land iar 1023 in
    let entered := XRead GICC_IAR iar :: history s in
    0 <= id < 1024 /\
    history s'
    = XCore EvDSB :: XWrite GICC_EOIR id :: map XCore mid ++ entered /\
    g_ble_config s' = g_ble_config s /\
    (id <> IRQ_I2C0 -> id <> IRQ_I2C1 -> id <> IRQ_BLE ->
     mid = [] /\ SysSpec.same_state s s') /\
    (id = IRQ_BLE ->
     g_i2c_handles (core s') = g_i2c_handles (core s) /\
     mem (core s') = mem (core s) /\
     BleData.state (SysSpec.handle s')
     = BleSpec.state_after_irq (u32 (hw entered (inl BLE_INT_FLAG)))
         (BleData.state (SysSpec.handle s))) /\
    (id = IRQ_I2C0 ->
     SysSpec.handle s' = SysSpec.handle s /\
     nth 1 (g_i2c_handles (core s')) I2cData.handle_init
     = nth 1 (g_i2c_handles (core s)) I2cData.handle_init) /\
    (id = IRQ_I2C1 ->
     SysSpec.handle s' = SysSpec.handle s /\
     nth 0 (g_i2c_handles (core s')) I2cData.handle_init
     = nth 0 (g_i2c_handles (core s)) I2cData.handle_init) /\
    (forall m,
       (id = IRQ_I2C0 /\ m = I2c.i2c_irq_handler I2C_INSTANCE_0) \/
       (id = IRQ_I2C1 /\ m = I2c.i2c_irq_handler I2C_INSTANCE_1) \/
       (id = IRQ_BLE /\ m = Ble.ble_irq_handler) ->
       exists w',
         run m (Sys.core_oracle hw entered) (Sys.quiesce (core s))
         = Done tt w' /\
         mid = trace w' /\
         core s' = Sys.quiesce w').
Proof.
  intros Hwfi Hwfb.
  destruct (irq_handler_run hw s Hwfi Hwfb) as ([] & s' & E & H).
  cbv zeta in H. destruct H as (mid & H).
  exists s', mid. split; [exact E |]. cbv zeta.
  split; [apply irq_id_range |].
  destruct H as (Hh & Hc & Hnone & Hble & H0 & H1).
  repeat (split; [assumption |]).
  intros m Hsel.
  assert (R : exists w',
            m (Sys.core_oracle hw
                 (XRead GICC_IAR (u32 (hw (history s) (inr GICC_IAR)))
                  :: history s))
              (Sys.quiesce (core s)) = Done tt w').
  { destruct Hsel as [(_ & ->) | [(_ & ->) | (_ & ->)]].
    - destruct (i2c_irq_frame
                  (Sys.core_oracle hw
                     (XRead GICC_IAR (u32 (hw (history s) (inr GICC_IAR)))
                      :: history s))
                  I2C_INSTANCE_0 (Sys.quiesce (core s)) Hwfi)
        as ([] & w' & Ew & _);
        [unfold I2C_INSTANCE_0, I2C_INSTANCE_MAX; lia |].
      exists w'. exact Ew.
    - destruct (i2c_irq_frame
                  (Sys.core_oracle hw
                     (XRead GICC_IAR (u32 (hw (history s) (inr GICC_IAR)))
                      :: history s))
                  I2C_INSTANCE_1 (Sys.quiesce (core s)) Hwfi)
        as ([] & w' & Ew & _);
        [unfold I2C_INSTANCE_1, I2C_INSTANCE_MAX; lia |].
      exists w'. exact Ew.
    - destruct (ble_irq_frame
                  (Sys.core_oracle hw
                     (XRead GICC_IAR (u32 (hw (history s) (inr GICC_IAR)))
                      :: history s))
                  (Sys.quiesce (core s)) Hwfb)
        as ([] & w' & Ew & _).
      exists w'. exact Ew. }
  destruct R as (w' & Ew). exists w'. split; [exact Ew |].
  pose proof (irq_handler_eq hw s m w' Hsel Ew) as Eq.
  cbv zeta in Eq. unfold Sys.xrun in E. rewrite Eq in E.
  inversion E. subst s'. cbn [history core] in *.
  split; [| reflexivity].
  inversion Hh as [Hmid]. symmetry. exact (same_events _ _ _ Hmid).
Qed.

Lemma X21_irq_handler_dispatch_witness :
  (exists s',
     Sys.xrun Sys.irq_handler (SysSpec.hw_irq 1023 0)
       (SysSpec.s_ble BLE_STATE_IDLE) = Sys.Ok tt s' /\
     history s'
     = [XCore EvDSB; XWrite GICC_EOIR 1023; XRead GICC_IAR 1023]) /\
  (exists s',
     Sys.xrun Sys.irq_handler (SysSpec.hw_irq 1072 1)
       (SysSpec.s_ble BLE_STATE_IDLE) = Sys.Ok tt s' /\
     BleData.state (SysSpec.handle s') = BLE_STATE_CONNECTED /\
     SysSpec.xwrites GICC_EOIR (history s') = [48]) /\
  (let hw23 : xoracle :=
     fun _ r =>
       match r with
       | inr GICC_IAR => 23
       | inl (I2C_SR1 _) => 1
       | _ => 0
       end in
   exists s',
     Sys.xrun Sys.irq_handler hw23
       (SysSpec.system_of (Sim.w_reading Sim.hw_ready)) = Sys.Ok tt s' /\
     history s'
     = [XCore EvDSB; XWrite GICC_EOIR 23;
        XCore (EvWrite (I2C_DR I2C_INSTANCE_0) 145);
        XCore (EvRead (I2C_SR1 I2C_INSTANCE_0) 1); XRead GICC_IAR 23]).
Proof.
  split; [| split].
  - destruct (X21_irq_handler_dispatch (SysSpec.hw_irq 1023 0)
                (SysSpec.s_ble BLE_STATE_IDLE))
      as (s' & mid & E & _ & Hh & _ & Hnone & _).
    + reflexivity.
    + repeat split; cbn; lia.
    + exists s'. split; [exact E |].
      destruct Hnone as (-> & _);
        [unfold IRQ_I2C0 | unfold IRQ_I2C1 | unfold IRQ_BLE |];
        try (vm_compute; discriminate).
      rewrite Hh. reflexivity.
  - destruct (X21_irq_handler_dispatch (SysSpec.hw_irq 1072 1)
                (SysSpec.s_ble BLE_STATE_IDLE))
      as (s' & mid & E & _ & Hh & _ & _ & Hble & _).
    + reflexivity.
    + repeat split; cbn; lia.
    + exists s'. split; [exact E |].
      destruct (Hble eq_refl) as (_ & _ & Hst).
      split; [rewrite Hst; reflexivity |].
      rewrite Hh. cbn [SysSpec.xwrites xreg_eqb].
      rewrite xwrites_core. reflexivity.
  - intros hw23.
    destruct (X21_irq_handler_dispatch hw23
                (SysSpec.system_of (Sim.w_reading Sim.hw_ready)))
      as (s' & mid & E & _ & Hh & _ & _ & _ & _ & _ & Hrun).
    + reflexivity.
    + repeat split; cbn; lia.
    + exists s'. split; [exact E |].
      destruct (Hrun (I2c.i2c_irq_handler I2C_INSTANCE_0))
        as (w' & Ew & Hmid & _).
      { left. split; reflexivity. }
      vm_compute in Ew. inversion Ew. subst w'. cbn [trace] in Hmid.
      subst mid. rewrite Hh. reflexivity.
Defined.

(** ** Bringing the interrupt controller up *)

Section GicInit.
Import Sys SysSpec.

Variable hw : xoracle.

Lemma same_state_refl s : same_state s s.
Proof. repeat split. Qed.

Lemma same_state_trans s1 s2 s3 :
  same_state s1 s2 -> same_state s2 s3 -> same_state s1 s3.
Proof.
  unfold same_state. intros (A1 & A2 & A3 & A4) (B1 & B2 & B3 & B4).
  repeat split; congruence.
Qed.

(** A loop whose body makes one entry per index. *)
Lemma for_range_emits (body : Z -> XM unit) (e : Z -> xevent) :
  (forall i s, xreturns (body i) hw s
                 (fun _ s' => same_state s s' /\
                              history s' = e i :: history s)) ->
  forall n first s,
    0 <= first -> first + Z.of_nat n < 2 ^ 32 ->
    xreturns (for_range n first body) hw s
      (fun _ s' =>
         same_state s s' /\
         history s'
         = rev (map (fun k => e (Z.of_nat k)) (seq (Z.to_nat first) n))
           ++ history s).
Proof.
  intros Hbody. induction n as [| n IH]; intros first s Hf Hn;
    cbn [for_range].
  - xstep. split; [apply same_state_refl | reflexivity].
  - xstep. eapply xreturns_weaken; [apply Hbody |].
    cbv beta. intros [] s1 (Hs1 & Hh1).
    rewrite (u32_small (first + 1)) by lia.
    eapply xreturns_weaken; [apply IH; lia |].
    cbv beta. intros [] s2 (Hs2 & Hh2).
    split; [eapply same_state_trans; eassumption |].
    rewrite Hh2, Hh1. cbn [seq map rev].
    replace (Z.to_nat (first + 1)) with (S (Z.to_nat first)) by lia.
    rewrite <- app_assoc. cbn [app].
    rewrite Z2Nat.id by lia. reflexivity.
Qed.

Lemma gic_init_run s :
  xreturns gic_init hw s
    (fun r s' =>
       r = STATUS_OK /\ same_state s s' /\
       history s' = rev gic_init_script ++ history s).
Proof.
  unfold gic_init. xs. xs. xstep.
  eapply xreturns_weaken.
  { apply (for_range_emits
             (fun i => lift (write_reg (GICD_IPRIORITYR i) 4294967295))
             (fun i => XCore (EvWrite (GICD_IPRIORITYR i) 4294967295))).
    - intros i s0. xlift_now.
      split; [repeat split | reflexivity].
    - lia.
    - reflexivity. }
  cbv beta. intros [] s1 (Hs1 & Hh1). xstep.
  eapply xreturns_weaken.
  { apply (for_range_emits
             (fun i => xwrite_reg (GICD_ITARGETSR i) 16843009)
             (fun i => XWrite (GICD_ITARGETSR i) 16843009)).
    - intros i s0. xstep. split; [repeat split | reflexivity].
    - lia.
    - reflexivity. }
  cbv beta. intros [] s2 (Hs2 & Hh2). xstep.
  eapply xreturns_weaken.
  { apply (for_range_emits
             (fun i => xwrite_reg (GICD_ICFGR i) 0)
             (fun i => XWrite (GICD_ICFGR i) 0)).
    - intros i s0. xstep. split; [repeat split | reflexivity].
    - lia.
    - reflexivity. }
  cbv beta. intros [] s3 (Hs3 & Hh3).
  xs. xs. xs. xs. xs. xs. xstep. xlift_now. xs. xs. xstep.
  split; [reflexivity |].
  split.
  { eapply same_state_trans; [| eapply same_state_trans;
                                  [exact Hs1 |
                                   eapply same_state_trans;
                                   [exact Hs2 | exact Hs3]]].
    repeat split. }
  cbn [history record absorb trace log quiesce map app core].
  rewrite Hh3, Hh2, Hh1. cbn [history record].
  unfold gic_init_script.
  change (Z.to_nat (Gic.MAX_IRQ_NUM / 4)) with 64%nat.
  change (Z.to_nat (Gic.MAX_IRQ_NUM / 4 - 8)) with 56%nat.
  change (Z.to_nat (Gic.MAX_IRQ_NUM / 16 - 2)) with 14%nat.
  change (Z.to_nat 0) with 0%nat. change (Z.to_nat 8) with 8%nat.
  change (Z.to_nat 2) with 2%nat.
  rewrite !rev_app_distr. cbn [rev app].
  rewrite <- !app_assoc. reflexivity.
Qed.

End GicInit.

(** X22.  [gic_init] always returns [STATUS_OK], reads nothing and changes
    no driver state.  It disables the distributor, writes 0xFFFFFFFF to the
    64 priority words 0..63, 0x01010101 to the target words 8..63 and 0 to
    the configuration words 2..15, in this order, enables the distributor,
    opens the priority mask, enables the CPU interface and ends with a DSB
    and an ISB.  It writes no enable or disable word, so lines enabled
    before the call stay enabled. *)
Theorem X22_gic_init_effect (hw : xoracle) (s : system) :
  exists s',
    Sys.xrun Sys.gic_init hw s = Sys.Ok STATUS_OK s' /\
    SysSpec.same_state s s' /\
    history s' = rev SysSpec.gic_init_script ++ history s /\
    existsb SysSpec.is_register_read SysSpec.gic_init_script = false /\
    existsb SysSpec.is_enable_write SysSpec.gic_init_script = false.
Proof.
  destruct (gic_init_run hw s) as (r & s' & E & -> & Hs & Hh).
  exists s'. split; [exact E |]. split; [exact Hs |]. split; [exact Hh |].
  split; vm_compute; reflexivity.
Qed.

(** ** A link, from connect to disconnect *)

Section BleLink.
Import BleData Ble Sys SysSpec.

Variable hw : xoracle.

Lemma connect_ok s peer :
  initialized (handle s) = true ->
  state (handle s) = BLE_STATE_IDLE \/ state (handle s) = BLE_STATE_SCANNING ->
  xreturns (ble_connect (Some peer)) hw s
    (fun r s' =>
       r = STATUS_OK /\
       handle s' = set_state BLE_STATE_CONNECTING (set_peer peer (handle s)) /\
       history s' = XBitSet BLE_CTRL BLE_CTRL_CONN_INIT :: history s /\
       only_ble s s').
Proof.
  intros Hinit Hst. unfold ble_connect. xs. xs. rewrite Hinit. cbn [negb].
  assert (E : negb (ble_state_eqb (state (handle s)) BLE_STATE_IDLE)
              && negb (ble_state_eqb (state (handle s)) BLE_STATE_SCANNING)
              = false)
    by (destruct Hst as [-> | ->]; reflexivity).
  rewrite E. xs. xs. xs. xs. xs. xs. xstep. repeat split.
Qed.

Lemma disconnect_ok s :
  initialized (handle s) = true ->
  state (handle s) = BLE_STATE_CONNECTED ->
  xreturns ble_disconnect hw s
    (fun r s' =>
       r = STATUS_OK /\
       handle s' = set_state BLE_STATE_DISCONNECTING (handle s) /\
       history s' = XBitClear BLE_CTRL BLE_CTRL_CONN_INIT :: history s /\
       only_ble s s').
Proof.
  intros Hinit Hst. unfold ble_disconnect. xs. xs.
  rewrite Hinit, Hst. cbn [negb ble_state_eqb].
  xs. xs. xs. xs. xstep. repeat split.
Qed.

(** One BLE interrupt inside a system. *)
Lemma irq_in_system s :
  wf_ble (handle s) ->
  xreturns (lift ble_irq_handler) hw s
    (fun _ s' =>
       let f := u32 (hw (history s) (inl BLE_INT_FLAG)) in
       wf_ble (handle s') /\
       state (handle s') = BleSpec.state_after_irq f (state (handle s)) /\
       queue_contents (handle s')
       = firstn 7 (queue_contents (handle s)
                   ++ BleSpec.irq_events f (peer_addr (handle s))) /\
       initialized (handle s') = initialized (handle s) /\
       callback (handle s') = callback (handle s) /\
       only_ble s s' /\
       exists tr, history s' = map XCore tr ++ history s).
Proof.
  intros Hwf. apply xreturns_lift.
  set (o := core_oracle hw (history s)).
  destruct (ble_irq_frame o (quiesce (core s)) Hwf)
    as ([] & w' & E & Hwf' & Hi' & Hm' & Hinit' & Hcb').
  destruct (irq_handler_state o (quiesce (core s)) Hwf)
    as ([] & w2 & E2 & _ & Hst).
  destruct (irq_handler_events o (quiesce (core s)) Hwf)
    as ([] & w3 & E3 & H3).
  rewrite E in E2, E3. inversion E2. inversion E3. subst w2 w3.
  cbv zeta in H3. destruct H3 as (_ & Hq & _).
  eexists tt, w'. split; [exact E |]. cbv zeta.
  split; [exact Hwf' |]. split; [exact Hst |]. split; [exact Hq |].
  split; [exact Hinit' |]. split; [exact Hcb' |].
  split; [repeat split; assumption |].
  exists (trace w'). reflexivity.
Qed.

End BleLink.

(** X23.  A link from start to end.  [ble_connect] from Idle or Scanning
    stores the peer address, sets the connection bit and leaves the handle
    Connecting; the Connected interrupt makes it Connected and queues a
    Connected event carrying the address given to [ble_connect];
    [ble_disconnect] clears the connection bit and leaves the handle
    Disconnecting; the Disconnected interrupt makes it Idle and queues a
    Disconnected event, whose peer address is all zero.  The only control
    bit touched is the connection bit: a scan in progress is not stopped. *)
Theorem X23_link_life_cycle (hw : xoracle) (s : system)
    (peer : ble_mac_addr_t) :
  Ble.wf_ble (SysSpec.handle s) ->
  BleData.initialized (SysSpec.handle s) = true ->
  BleData.state (SysSpec.handle s) = BLE_STATE_IDLE \/
  BleData.state (SysSpec.handle s) = BLE_STATE_SCANNING ->
  (forall h,
     u32 (hw (XBitSet BLE_CTRL BLE_CTRL_CONN_INIT :: h) (inl BLE_INT_FLAG))
     = Z.shiftl 1 BLE_INT_CONNECTED) ->
  (forall h,
     u32 (hw (XBitClear BLE_CTRL BLE_CTRL_CONN_INIT :: h) (inl BLE_INT_FLAG))
     = Z.shiftl 1 BLE_INT_DISCONNECTED) ->
  exists s1 s2 s3 s4,
    Sys.xrun (Sys.ble_connect (Some peer)) hw s = Sys.Ok STATUS_OK s1 /\
    BleData.state (SysSpec.handle s1) = BLE_STATE_CONNECTING /\
    Sys.xrun (Sys.lift Ble.ble_irq_handler) hw s1 = Sys.Ok tt s2 /\
    BleData.state (SysSpec.handle s2) = BLE_STATE_CONNECTED /\
    Sys.xrun Sys.ble_disconnect hw s2 = Sys.Ok STATUS_OK s3 /\
    BleData.state (SysSpec.handle s3) = BLE_STATE_DISCONNECTING /\
    Sys.xrun (Sys.lift Ble.ble_irq_handler) hw s3 = Sys.Ok tt s4 /\
    BleData.state (SysSpec.handle s4) = BLE_STATE_IDLE /\
    Ble.queue_contents (SysSpec.handle s4)
    = firstn 7
        (Ble.queue_contents (SysSpec.handle s)
         ++ [Ble.set_peer_addr peer
               (Ble.set_type BLE_EVT_CONNECTED Ble.zero_event);
             Ble.set_type BLE_EVT_DISCONNECTED Ble.zero_event]) /\
    SysSpec.ctrl_ops (history s4)
    = SysSpec.ctrl_ops (history s)
      ++ [(true, BLE_CTRL_CONN_INIT); (false, BLE_CTRL_CONN_INIT)].
Proof.
  intros Hwf Hinit Hst Hup Hdown.
  destruct (connect_ok hw s peer Hinit Hst)
    as (r1 & s1 & E1 & -> & Hh1 & Hy1 & _).
  assert (Hwf1 : Ble.wf_ble (SysSpec.handle s1)) by (rewrite Hh1; exact Hwf).
  destruct (irq_in_system hw s1 Hwf1) as ([] & s2 & E2 & H2).
  cbv zeta in H2. rewrite Hy1, Hup in H2.
  destruct H2 as (Hwf2 & Hst2 & Hq2 & Hi2 & _ & _ & tr2 & Hy2).
  rewrite Hh1 in Hst2, Hq2, Hi2.
  destruct (disconnect_ok hw s2) as (r3 & s3 & E3 & -> & Hh3 & Hy3 & _).
  { rewrite Hi2. exact Hinit. }
  { rewrite Hst2. reflexivity. }
  assert (Hwf3 : Ble.wf_ble (SysSpec.handle s3)) by (rewrite Hh3; exact Hwf2).
  destruct (irq_in_system hw s3 Hwf3) as ([] & s4 & E4 & H4).
  cbv zeta in H4. rewrite Hy3, Hdown in H4.
  destruct H4 as (_ & Hst4 & Hq4 & _ & _ & _ & tr4 & Hy4).
  rewrite Hh3 in Hst4, Hq4.
  exists s1, s2, s3, s4.
  split; [exact E1 |]. split; [rewrite Hh1; reflexivity |].
  split; [exact E2 |]. split; [rewrite Hst2; reflexivity |].
  split; [exact E3 |]. split; [rewrite Hh3; reflexivity |].
  split; [exact E4 |]. split; [rewrite Hst4; reflexivity |].
  split.
  - rewrite Hq4.
    change (Ble.queue_contents
              (Ble.set_state BLE_STATE_DISCONNECTING (SysSpec.handle s2)))
      with (Ble.queue_contents (SysSpec.handle s2)).
    rewrite Hq2, firstn_seven_snoc, <- app_assoc. reflexivity.
  - rewrite Hy4, ctrl_ops_core. cbn [SysSpec.ctrl_ops].
    rewrite Hy2, ctrl_ops_core. cbn [SysSpec.ctrl_ops].
    rewrite <- app_assoc. reflexivity.
Qed.

Lemma X23_link_life_cycle_witness :
  exists s1 s2 s3 s4,
    Sys.xrun (Sys.ble_connect (Some [1; 2; 3; 4; 5; 6])) SysSpec.hw_link
      (SysSpec.s_ble BLE_STATE_SCANNING) = Sys.Ok STATUS_OK s1 /\
    Sys.xrun (Sys.lift Ble.ble_irq_handler) SysSpec.hw_link s1
    = Sys.Ok tt s2 /\
    Sys.xrun Sys.ble_disconnect SysSpec.hw_link s2 = Sys.Ok STATUS_OK s3 /\
    Sys.xrun (Sys.lift Ble.ble_irq_handler) SysSpec.hw_link s3
    = Sys.Ok tt s4 /\
    BleData.state (SysSpec.handle s4) = BLE_STATE_IDLE /\
    map (fun e => (BleEvent.type e, BleEvent.peer_addr e))
      (Ble.queue_contents (SysSpec.handle s4))
    = [(BLE_EVT_CONNECTED, [1; 2; 3; 4; 5; 6]);
       (BLE_EVT_DISCONNECTED, [0; 0; 0; 0; 0; 0])].
Proof.
  destruct (X23_link_life_cycle SysSpec.hw_link
              (SysSpec.s_ble BLE_STATE_SCANNING) [1; 2; 3; 4; 5; 6])
    as (s1 & s2 & s3 & s4 & E1 & _ & E2 & _ & E3 & _ & E4 & Hst & Hq & _).
  - repeat split; cbn; lia.
  - reflexivity.
  - right. reflexivity.
  - intros h. reflexivity.
  - intros h. reflexivity.
  - exists s1, s2, s3, s4.
    split; [exact E1 |]. split; [exact E2 |]. split; [exact E3 |].
    split; [exact E4 |]. split; [exact Hst |].
    rewrite Hq. reflexivity.
Defined.

(** * i2c_driver.c: the Error state *)

Section I2cErrorState.
Import I2cData I2c I2cSpec.

Variable hw : oracle.
Variable instance : Z.
Hypothesis Hinst : 0 <= instance < I2C_INSTANCE_MAX.

(** In the Error state an interrupt never changes the state, the
    initialised flag or memory. *)
Lemma irq_in_error w :
  wf_i2c w ->
  state (handle_of instance w) = I2C_STATE_ERROR ->
  returns (i2c_irq_handler instance) hw w
    (fun _ w' =>
       wf_i2c w' /\
       state (handle_of instance w') = I2C_STATE_ERROR /\
       initialized (handle_of instance w')
       = initialized (handle_of instance w) /\
       mem w' = mem w).
Proof.
  intros Hwf Hst.
  assert (Hlen : (Z.to_nat instance < length (g_i2c_handles w))%nat).
  { unfold wf_i2c, I2C_INSTANCE_MAX in *. lia. }
  unfold i2c_irq_handler. rewrite (in_range_ltb instance Hinst).
  apply returns_bind. apply returns_get_i2c; auto.
  apply returns_bind. apply returns_read_reg. intros sr1 _.
  rewrite Hst. cbn [i2c_state_eqb]. rewrite !andb_false_r.
  destruct (BIT_CHECK sr1 I2C_SR1_SB).
  { apply returns_emit. auto. }
  destruct (BIT_CHECK sr1 I2C_SR1_ADDR).
  { apply returns_bind. apply returns_read_reg. intros sr2 _.
    cbn [andb]. apply returns_ret. auto. }
  destruct (BIT_CHECK sr1 I2C_SR1_AF).
  { apply returns_bind. apply returns_emit.
    apply returns_bind. apply returns_emit.
    apply returns_bind.
    apply returns_modify_i2c; [exact Hwf | exact Hinst |].
    unfold invoke_callback.
    destruct (IS_VALID_PTR _); [apply returns_emit | apply returns_ret];
      (split;
       [unfold wf_i2c in *; cbn; rewrite list_set_length; exact Hwf |]);
      unfold handle_of; cbn [g_i2c_handles with_i2c log mem];
      rewrite nth_list_set_same by exact Hlen; cbn; auto. }
  apply returns_ret. auto.
Qed.

Lemma irqs_in_error n : forall w,
  wf_i2c w ->
  state (handle_of instance w) = I2C_STATE_ERROR ->
  returns (Sim.irqs instance n) hw w
    (fun _ w' =>
       wf_i2c w' /\
       state (handle_of instance w') = I2C_STATE_ERROR /\
       initialized (handle_of instance w')
       = initialized (handle_of instance w) /\
       mem w' = mem w).
Proof.
  induction n as [| n IH]; intros w Hwf Hst; cbn [Sim.irqs].
  - apply returns_ret. auto.
  - apply returns_bind. eapply returns_weaken.
    { apply irq_in_error; assumption. }
    cbv beta. intros [] w1 (Hwf1 & Hst1 & Hi1 & Hm1).
    eapply returns_weaken.
    { apply IH; assumption. }
    cbv beta. intros [] w2 (Hwf2 & Hst2 & Hi2 & Hm2).
    repeat split; congruence.
Qed.

End I2cErrorState.

(** X24.  Once an instance is in the Error state -- after an acknowledge
    failure or a failed blocking transfer -- no interrupt brings it back:
    after any number of interrupt entries, on any hardware, the state is
    still Error and memory is unchanged.  [i2c_get_state] then reports
    Error, which is also what it reports for an instance number that does
    not exist, and both asynchronous calls are refused with [STATUS_BUSY].
    [i2c_init] is a way out: it leaves the instance Idle. *)
Theorem X24_error_state_is_sticky (hw : oracle) (w : world)
    (instance dev_addr data len cb : Z) (n : nat) (cfg : i2c_config_t) :
  wf_i2c w ->
  0 <= instance < I2C_INSTANCE_MAX ->
  data <> 0 -> cb <> 0 ->
  I2cData.initialized (I2c.handle_of instance w) = true ->
  I2cData.state (I2c.handle_of instance w) = I2C_STATE_ERROR ->
  0 < clock_speed cfg < 2 ^ 32 ->
  exists w',
    run (Sim.irqs instance n) hw w = Done tt w' /\
    mem w' = mem w /\
    run (I2c.i2c_get_state instance) hw w' = Done I2C_STATE_ERROR w' /\
    run (I2c.i2c_get_state I2C_INSTANCE_MAX) hw w'
    = Done I2C_STATE_ERROR w' /\
    run (I2c.i2c_write_async instance dev_addr data len cb) hw w'
    = Done STATUS_BUSY w' /\
    run (I2c.i2c_read_async instance dev_addr data len cb) hw w'
    = Done STATUS_BUSY w' /\
    exists w2,
      run (I2c.i2c_init instance (Some cfg)) hw w' = Done STATUS_OK w2 /\
      I2cData.state (I2c.handle_of instance w2) = I2C_STATE_IDLE /\
      run (I2c.i2c_get_state instance) hw w2 = Done I2C_STATE_IDLE w2.
Proof.
  intros Hwf Hi Hd Hcb Hinit Hst Hspeed.
  destruct (irqs_in_error hw instance Hi n w Hwf Hst)
    as ([] & w' & E & Hwf' & Hst' & Hinit' & Hm').
  assert (Hget : forall w0,
            wf_i2c w0 ->
            run (I2c.i2c_get_state instance) hw w0
            = Done (I2cData.state (I2c.handle_of instance w0)) w0).
  { intros w0 Hwf0. unfold run, I2c.i2c_get_state.
    rewrite (in_range_ltb instance Hi).
    destruct (returns_get_i2c instance hw w0
                (fun h w1 => h = I2c.handle_of instance w0 /\ w1 = w0)
                Hwf0 Hi) as (h & w1 & G & -> & ->); auto.
    unfold bind. rewrite G. reflexivity. }
  exists w'. split; [exact E |]. split; [exact Hm' |].
  split; [rewrite Hget, Hst' by exact Hwf'; reflexivity |].
  split; [reflexivity |].
  destruct (async_rejected_when_not_idle hw w' instance dev_addr data len cb)
    as (Ew & Er); auto; try congruence.
  split; [exact Ew |]. split; [exact Er |].
  destruct (i2c_init_ok hw instance Hi cfg w' Hwf' Hspeed)
    as (w2 & E2 & Hh2 & _).
  assert (Hwf2 : wf_i2c w2).
  { unfold wf_i2c in *. rewrite Hh2, list_set_length. exact Hwf'. }
  assert (Hs2 : I2cData.state (I2c.handle_of instance w2) = I2C_STATE_IDLE).
  { unfold I2c.handle_of at 1. rewrite Hh2, nth_list_set_same.
    - reflexivity.
    - unfold wf_i2c, I2C_INSTANCE_MAX in *. lia. }
  exists w2. split; [exact E2 |]. split; [exact Hs2 |].
  rewrite Hget, Hs2 by exact Hwf2. reflexivity.
Qed.

Lemma X24_error_state_is_sticky_witness :
  let w :=
    Sim.world_of
      (run (Sim.irqs I2C_INSTANCE_0 1) (Sim.hw_script [1024])
         (Sim.w_writing Sim.hw_ready)) in
  I2cData.state (I2c.handle_of I2C_INSTANCE_0 w) = I2C_STATE_ERROR /\
  exists w',
    run (Sim.irqs I2C_INSTANCE_0 3) Sim.hw_ready w = Done tt w' /\
    run (I2c.i2c_get_state I2C_INSTANCE_0) Sim.hw_ready w'
    = Done I2C_STATE_ERROR w' /\
    run (I2c.i2c_read_async I2C_INSTANCE_0 72 Sim.buf 2 Sim.handler)
      Sim.hw_ready w' = Done STATUS_BUSY w'.
Proof.
  intros w. split; [reflexivity |].
  destruct (X24_error_state_is_sticky Sim.hw_ready w I2C_INSTANCE_0 72
              Sim.buf 2 Sim.handler 3 Sim.cfg)
    as (w' & E & _ & Hg & _ & _ & Hr & _).
  - reflexivity.
  - unfold I2C_INSTANCE_0, I2C_INSTANCE_MAX. lia.
  - unfold Sim.buf. lia.
  - unfold Sim.handler. lia.
  - reflexivity.
  - reflexivity.
  - cbn. lia.
  - exists w'. split; [exact E |]. split; [exact Hg | exact Hr].
Defined.

(** ** Bringing the application up *)

Section AppInit.
Import BleData Ble Sys SysSpec App.

Variable hw : xoracle.






End AppInit.



(** ** Asking the sensor for a reading *)

Section SensorRequest.
Import I2cData I2c Sys SysSpec.

Variable hw : xoracle.

Lemma instance_0_in_range : 0 <= I2C_INSTANCE_0 < I2C_INSTANCE_MAX.
Proof. unfold I2C_INSTANCE_0, I2C_INSTANCE_MAX. lia. Qed.

(** A request the driver refuses leaves the driver state as it was. *)
Lemma sensor_read_refused (o : oracle) w :
  wf_i2c w ->
  initialized (handle_of I2C_INSTANCE_0 w) = false \/
  state (handle_of I2C_INSTANCE_0 w) <> I2C_STATE_IDLE ->
  i2c_read_async I2C_INSTANCE_0 App.SENSOR_ADDR_TEMP App.sensor_data 2
    App.i2c_complete_handler_ptr o w
  = Done (if initialized (handle_of I2C_INSTANCE_0 w)
          then STATUS_BUSY else STATUS_NOT_READY) w.
Proof.
  intros Hwf Hr. unfold i2c_read_async.
  change (IS_NULL_PTR App.sensor_data
          || IS_NULL_PTR App.i2c_complete_handler_ptr) with false.
  change (I2C_INSTANCE_0 >=? I2C_INSTANCE_MAX) with false. cbv iota.
  rewrite (bind_eq _ _ _ _ _ _
             (get_i2c_eq I2C_INSTANCE_0 instance_0_in_range o w Hwf)).
  destruct (initialized (handle_of I2C_INSTANCE_0 w));
    cbn [negb]; [| reflexivity].
  destruct Hr as [Hr | Hr]; [discriminate Hr |].
  destruct (state (handle_of I2C_INSTANCE_0 w)); try reflexivity.
  contradiction.
Qed.

Lemma pending_same c :
  App.i2c_transfer_pending c = false ->
  App.set_pending false (App.set_pending true c) = c.
Proof. destruct c. cbn. intros ->. reflexivity. Qed.

End SensorRequest.

(** X26.  [read_sensor_data] asks for two bytes from the sensor at address
    0x48 on I2C instance 0.  While a request is pending it returns
    [STATUS_BUSY] and touches neither the context nor the system.
    Otherwise the result is the driver's: [STATUS_NOT_READY] when instance
    0 is not initialised and [STATUS_BUSY] when it is initialised but not
    Idle, both with the context and the system as before; and [STATUS_OK]
    when it is initialised and Idle, with the pending flag set, the length
    set to 2, the driver holding a two-byte read into [sensor_data] with
    the application's completion handler, and ACK and START set.  So the
    pending flag is set afterwards exactly when it was set before or the
    result is [STATUS_OK].  The completion handler clears the flag: after a
    transfer that ended with [STATUS_OK] the context is the original one
    with length 2; after one that ended otherwise the state is Error, and
    the length is 2 all the same. *)
Theorem X26_read_sensor_data_outcomes (hw : xoracle) (s : system)
    (c : App.app_context_t) :
  wf_i2c (core s) ->
  exists r c' s',
    Sys.xrun (App.read_sensor_data c) hw s = Sys.Ok (r, c') s' /\
    (App.i2c_transfer_pending c' = true <->
     App.i2c_transfer_pending c = true \/ r = STATUS_OK) /\
    (App.i2c_transfer_pending c = true ->
     r = STATUS_BUSY /\ c' = c /\ s' = s) /\
    (App.i2c_transfer_pending c = false ->
     I2cData.initialized (I2c.handle_of I2C_INSTANCE_0 (core s)) = false ->
     r = STATUS_NOT_READY /\ c' = c /\ SysSpec.unchanged s s') /\
    (App.i2c_transfer_pending c = false ->
     I2cData.initialized (I2c.handle_of I2C_INSTANCE_0 (core s)) = true ->
     I2cData.state (I2c.handle_of I2C_INSTANCE_0 (core s)) <> I2C_STATE_IDLE ->
     r = STATUS_BUSY /\ c' = c /\ SysSpec.unchanged s s') /\
    (App.i2c_transfer_pending c = false ->
     I2cData.initialized (I2c.handle_of I2C_INSTANCE_0 (core s)) = true ->
     I2cData.state (I2c.handle_of I2C_INSTANCE_0 (core s)) = I2C_STATE_IDLE ->
     r = STATUS_OK /\
     c' = App.set_len 2 (App.set_pending true c) /\
     I2c.handle_of I2C_INSTANCE_0 (core s')
     = I2cSpec.reading App.SENSOR_ADDR_TEMP App.sensor_data 2
         App.i2c_complete_handler_ptr
         (I2c.handle_of I2C_INSTANCE_0 (core s)) /\
     history s'
     = XCore (EvBitSet (I2C_CR1 I2C_INSTANCE_0) I2C_CR1_START)
       :: XCore (EvBitSet (I2C_CR1 I2C_INSTANCE_0) I2C_CR1_ACK)
       :: history s /\
     mem (core s') = mem (core s) /\
     SysSpec.handle s' = SysSpec.handle s /\
     g_ble_config s' = g_ble_config s /\
     App.i2c_complete_handler I2C_INSTANCE_0 STATUS_OK c' = App.set_len 2 c /\
     forall e,
       e <> STATUS_OK ->
       App.i2c_complete_handler I2C_INSTANCE_0 e c'
       = App.set_app_state App.APP_STATE_ERROR (App.set_len 2 c)).
Proof.
  intros Hwf. unfold Sys.xrun, App.read_sensor_data.
  destruct (App.i2c_transfer_pending c) eqn:Hp.
  { exists STATUS_BUSY, c, s. split; [reflexivity |].
    split; [tauto |]. split; [auto |].
    repeat split; intros; discriminate. }
  assert (Hwfq : wf_i2c (Sys.quiesce (core s))) by exact Hwf.
  unfold Sys.xbind, Sys.lift.
  destruct (I2cData.initialized (I2c.handle_of I2C_INSTANCE_0 (core s)))
    eqn:Hi.
  - destruct (I2cData.state (I2c.handle_of I2C_INSTANCE_0 (core s)))
      eqn:Hs.
    + rewrite (read_async_accepted _ I2C_INSTANCE_0 instance_0_in_range
                 App.SENSOR_ADDR_TEMP App.sensor_data 2
                 App.i2c_complete_handler_ptr (Sys.quiesce (core s)) Hwfq);
        [| discriminate | discriminate | exact Hi | exact Hs].
      cbn [status_eqb]. eexists _, _, _. split; [reflexivity |].
      split; [cbn; tauto |].
      split; [discriminate |]. split; [discriminate |].
      split; [intros _ _ H; contradiction |].
      intros _ _ _. split; [reflexivity |]. split; [reflexivity |].
      split.
      { unfold I2c.handle_of.
        cbn [Sys.absorb core Sys.quiesce g_i2c_handles log with_i2c].
        apply nth_list_set_same. unfold wf_i2c, I2C_INSTANCE_MAX in Hwf.
        unfold I2C_INSTANCE_0. cbn. lia. }
      split; [reflexivity |]. split; [reflexivity |].
      split; [reflexivity |]. split; [reflexivity |].
      split.
      { destruct c. cbn in *. subst. reflexivity. }
      intros e He. destruct c. cbn in *. subst.
      destruct e; try contradiction; reflexivity.
    + rewrite (sensor_read_refused _ (Sys.quiesce (core s)) Hwfq)
        by (right; change (I2cData.state
                             (I2c.handle_of I2C_INSTANCE_0 (core s))
                           <> I2C_STATE_IDLE); rewrite Hs; discriminate).
      change (I2c.handle_of I2C_INSTANCE_0 (Sys.quiesce (core s)))
        with (I2c.handle_of I2C_INSTANCE_0 (core s)).
      rewrite Hi. cbn [status_eqb].
      eexists _, _, _. split; [reflexivity |].
      rewrite (pending_same c Hp).
      split; [rewrite Hp; split; [discriminate | intros [H | H]; discriminate] |].
      split; [discriminate |]. split; [discriminate |].
      split; [| intros _ _ H; discriminate].
      intros _ _ _. split; [reflexivity |]. split; [reflexivity |].
      repeat split.
    + rewrite (sensor_read_refused _ (Sys.quiesce (core s)) Hwfq)
        by (right; change (I2cData.state
                             (I2c.handle_of I2C_INSTANCE_0 (core s))
                           <> I2C_STATE_IDLE); rewrite Hs; discriminate).
      change (I2c.handle_of I2C_INSTANCE_0 (Sys.quiesce (core s)))
        with (I2c.handle_of I2C_INSTANCE_0 (core s)).
      rewrite Hi. cbn [status_eqb].
      eexists _, _, _. split; [reflexivity |].
      rewrite (pending_same c Hp).
      split; [rewrite Hp; split; [discriminate | intros [H | H]; discriminate] |].
      split; [discriminate |]. split; [discriminate |].
      split; [| intros _ _ H; discriminate].
      intros _ _ _. split; [reflexivity |]. split; [reflexivity |].
      repeat split.
    + rewrite (sensor_read_refused _ (Sys.quiesce (core s)) Hwfq)
        by (right; change (I2cData.state
                             (I2c.handle_of I2C_INSTANCE_0 (core s))
                           <> I2C_STATE_IDLE); rewrite Hs; discriminate).
      change (I2c.handle_of I2C_INSTANCE_0 (Sys.quiesce (core s)))
        with (I2c.handle_of I2C_INSTANCE_0 (core s)).
      rewrite Hi. cbn [status_eqb].
      eexists _, _, _. split; [reflexivity |].
      rewrite (pending_same c Hp).
      split; [rewrite Hp; split; [discriminate | intros [H | H]; discriminate] |].
      split; [discriminate |]. split; [discriminate |].
      split; [| intros _ _ H; discriminate].
      intros _ _ _. split; [reflexivity |]. split; [reflexivity |].
      repeat split.
  - rewrite (sensor_read_refused _ (Sys.quiesce (core s)) Hwfq)
      by (left; exact Hi).
    change (I2c.handle_of I2C_INSTANCE_0 (Sys.quiesce (core s)))
      with (I2c.handle_of I2C_INSTANCE_0 (core s)).
    rewrite Hi. cbn [status_eqb].
    eexists _, _, _. split; [reflexivity |].
    rewrite (pending_same c Hp).
    split; [rewrite Hp; split; [discriminate | intros [H | H]; discriminate] |].
    split; [discriminate |].
    split; [intros _ _; split; [reflexivity |]; split; [reflexivity |];
            repeat split |].
    split; intros _ H; discriminate.
Qed.

Lemma X26_read_sensor_data_outcomes_witness :
  let s := SysSpec.system_of (Sim.w_initialised Sim.hw_ready) in
  exists s1 s2,
    Sys.xrun (App.read_sensor_data App.g_app_ctx_init) SysSpec.hw_ble_dead s
    = Sys.Ok (STATUS_OK,
              App.set_len 2 (App.set_pending true App.g_app_ctx_init)) s1 /\
    I2cData.state (I2c.handle_of I2C_INSTANCE_0 (core s1))
    = I2C_STATE_BUSY_RX /\
    Sys.xrun (App.read_sensor_data App.g_app_ctx_init) SysSpec.hw_ble_dead s1
    = Sys.Ok (STATUS_BUSY, App.g_app_ctx_init) s2.
Proof.
  intros s.
  assert (Hwf : wf_i2c (core s)) by reflexivity.
  destruct (X26_read_sensor_data_outcomes SysSpec.hw_ble_dead s
              App.g_app_ctx_init Hwf)
    as (r & c' & s1 & E1 & _ & _ & _ & _ & Hok).
  destruct (Hok eq_refl eq_refl eq_refl) as (-> & -> & Hh & _).
  assert (Hwf1 : wf_i2c (core s1)).
  { vm_compute in E1. inversion E1. reflexivity. }
  destruct (X26_read_sensor_data_outcomes SysSpec.hw_ble_dead s1
              App.g_app_ctx_init Hwf1)
    as (r & c' & s2 & E2 & _ & _ & _ & Hbusy & _).
  assert (Hst : I2cData.state (I2c.handle_of I2C_INSTANCE_0 (core s1))
                = I2C_STATE_BUSY_RX) by (rewrite Hh; reflexivity).
  destruct Hbusy as (-> & -> & _);
    [reflexivity | rewrite Hh; reflexivity | rewrite Hst; discriminate |].
  exists s1, s2. split; [exact E1 |]. split; [exact Hst | exact E2].
Defined.
